(** * CineMatch recommendation core

    A shallow embedding of the recommendation services of the CineMatch
    backend ([backend/app/services/ml/*.py] and the recommendation
    endpoints of [backend/app/api/v1/recommendations.py]).

    Conventions of the embedding.
    - Python [float]s are exact rationals ([Q]).  Library functions on
      floats that leave the rationals ([np.sqrt], [math.log]) and the
      scikit-learn and TextBlob models are parameters of the code that
      calls them.
    - The SQL store is a record of tables, each table a list of rows in
      storage order.  A query is a filter over its table; [ORDER BY ... DESC]
      is a stable descending sort (PostgreSQL puts NULL first), [LIMIT] is
      [firstn].
    - A Python [dict] is an association list in insertion order, because
      [sorted] is stable and dict order therefore decides ties.
    - A Python call either returns or raises: [outcome].  The [try/except]
      blocks of the source are written out.
    - [limit] arguments are naturals: every caller passes a positive [int]. *)

From Stdlib Require Import ZArith QArith Qabs Qminmax List String Ascii Bool.
From Stdlib Require Import Lia Permutation Sorted.
Import ListNotations.

Local Open Scope Z_scope.
Local Open Scope Q_scope.
Local Open Scope string_scope.
Local Open Scope list_scope.

(** ** Python values and control *)

Inductive exn : Type :=
| NameError (name : string)
| ValueError
| TypeError
| IndexError
| HTTPException (status_code : Z) (detail : string).

Inductive outcome (A : Type) : Type :=
| Returned (a : A)
| Raised (e : exn).
Arguments Returned {A} a.
Arguments Raised {A} e.

Definition bind {A B} (x : outcome A) (k : A -> outcome B) : outcome B :=
  match x with
  | Returned a => k a
  | Raised e => Raised e
  end.

Notation "x <- c ;; k" := (bind c (fun x => k))
  (at level 61, c at next level, right associativity).

(** [try: body except Exception: handler] *)
Definition try_except {A} (body : outcome A) (handler : exn -> outcome A)
  : outcome A :=
  match body with
  | Returned a => Returned a
  | Raised e => handler e
  end.

Fixpoint mapM {A B} (f : A -> outcome B) (l : list A) : outcome (list B) :=
  match l with
  | [] => Returned []
  | x :: xs => y <- f x ;; ys <- mapM f xs ;; Returned (y :: ys)
  end.

(** [uuid.UUID] values: 128-bit integers. *)
Definition UUID := N.
Definition uuid_eqb (a b : UUID) : bool := N.eqb a b.

(** Truthiness of an optional number: [x or d]. *)
Definition or_default (x : option Q) (d : Q) : Q :=
  match x with
  | Some v => if Qeq_bool v 0 then d else v
  | None => d
  end.

Definition truthy (x : option Q) : bool :=
  match x with
  | Some v => negb (Qeq_bool v 0)
  | None => false
  end.

Definition Qltb (a b : Q) : bool := negb (Qle_bool b a).

Fixpoint Qsum (l : list Q) : Q :=
  match l with
  | [] => 0
  | x :: xs => x + Qsum xs
  end.

Definition mem_Z (x : Z) (l : list Z) : bool := existsb (Z.eqb x) l.
Definition mem_string (x : string) (l : list string) : bool :=
  existsb (String.eqb x) l.

(** [sorted(l, key=..., reverse=True)]: stable, so elements with equal keys
    keep their order.  [gtb y x] says that the key of [y] is strictly greater
    than the key of [x]. *)
Section Sorting.
Context {A : Type} (gtb : A -> A -> bool).

Fixpoint insert_desc (x : A) (l : list A) : list A :=
  match l with
  | [] => [x]
  | y :: ys => if gtb y x then y :: insert_desc x ys else x :: y :: ys
  end.

Definition sorted_desc (l : list A) : list A :=
  fold_right insert_desc [] l.
End Sorting.

(** ** Dicts in insertion order *)

Section Assoc.
Context {K V : Type} (eqb : K -> K -> bool).

(** [d.get(key)] *)
Fixpoint assoc_get (key : K) (d : list (K * V)) : option V :=
  match d with
  | [] => None
  | (k, v) :: rest => if eqb k key then Some v else assoc_get key rest
  end.

(** [d[key] = value]: a present key keeps its position. *)
Fixpoint assoc_set (key : K) (value : V) (d : list (K * V)) : list (K * V) :=
  match d with
  | [] => [(key, value)]
  | (k, v) :: rest =>
      if eqb k key then (k, value) :: rest
      else (k, v) :: assoc_set key value rest
  end.
End Assoc.

(** ** The engine interface ([recommendation_engine.py]) *)

Module RecommendationEngine.

(** The methods [RecommendationEngine(ABC)] marks [@abstractmethod]. *)
Definition abstract_methods : list string :=
  ["get_recommendations"; "train_model"; "get_explanation"].

(** The methods the bodies of its five subclasses define. *)
Definition ContentBasedRecommender : list string :=
  [ "__init__"; "get_recommendations"; "get_similar_movies";
    "_get_similar_movies_internal"; "_load_or_compute_similarity_matrix";
    "_compute_similarity_matrix"; "train_model"; "get_explanation";
    "_extract_theme_similarities"; "_get_popular_movies"; "_movie_to_schema" ].
Definition CollaborativeRecommender : list string :=
  [ "__init__"; "get_recommendations"; "get_friend_based_recommendations";
    "_load_or_compute_matrix"; "_compute_user_item_matrix";
    "_find_similar_users"; "train_model"; "get_explanation";
    "_get_popular_movies"; "_movie_to_schema" ].
Definition MoodAnalyzer : list string :=
  [ "__init__"; "get_recommendations"; "get_mood_recommendations";
    "_calculate_mood_score"; "_get_review_sentiment_score";
    "_analyze_user_recent_mood"; "train_model"; "_extract_emotion_tags";
    "get_explanation"; "_get_popular_movies"; "_movie_to_schema" ].
Definition GroupRecommender : list string :=
  [ "__init__"; "get_recommendations"; "get_group_recommendations";
    "_find_consensus_candidates"; "_calculate_group_satisfaction";
    "_predict_user_satisfaction"; "_get_user_genre_preferences";
    "train_model"; "get_explanation"; "_movie_to_schema" ].
Definition HybridRecommender : list string :=
  [ "__init__"; "get_recommendations"; "get_personal_recommendations";
    "get_personalized_trending"; "explain_recommendation"; "train_model";
    "_get_trending_for_user"; "_get_user_genre_preferences";
    "_check_trending_explanation"; "_calculate_recommendation_strength" ].

(** [Class(db)] for a subclass that defines [methods]: Python refuses,
    with a [TypeError], to instantiate a class that leaves an abstract
    method undefined. *)
Definition instantiate (methods : list string) : outcome unit :=
  if forallb (fun name => mem_string name methods) abstract_methods
  then Returned tt
  else Raised TypeError.

End RecommendationEngine.

(** ** ORM rows ([app.models], fields the scorers read) *)

Module Rating.
Record t := mk { user_id : UUID; movie_id : Z; rating : Q }.
End Rating.

Module Movie.
Record t := mk {
  id : Z;
  title : string;
  overview : option string;
  tagline : option string;
  genres : list string;          (* [g.name for g in movie.genres] *)
  vote_average : option Q;
  vote_count : option Z;
  popularity : option Q;
  runtime : option Z;
  release_year : option Z;       (* [movie.release_date.year] *)
  is_active : bool;
  created_at : option Z
}.
End Movie.

Module Review.
Record t := mk { movie_id : Z; content : option string; is_approved : bool }.
End Review.

(** [app.schemas.movie.Movie]; the fields left out are copied from the row
    in the same way. *)
Module MovieSchema.
Record t := mk {
  id : Z;
  title : string;
  overview : option string;
  popularity : option Q;
  vote_average : option Q;
  vote_count : option Z;
  created_at : Z
}.
End MovieSchema.

Record Database := {
  ratings : list Rating.t;
  movies : list Movie.t;
  reviews : list Review.t
}.

(** [_movie_to_schema], the same in the four scorers.  None of the four
    modules imports [datetime], so [movie.created_at or datetime.utcnow()]
    raises [NameError] when [created_at] is NULL. *)
Definition _movie_to_schema (movie : Movie.t) : outcome MovieSchema.t :=
  match Movie.created_at movie with
  | Some ts =>
      Returned (MovieSchema.mk (Movie.id movie) (Movie.title movie)
                  (Movie.overview movie) (Movie.popularity movie)
                  (Movie.vote_average movie) (Movie.vote_count movie) ts)
  | None => Raised (NameError "datetime")
  end.

(** SQL comparisons with NULL are not true. *)
Definition vote_count_ge (movie : Movie.t) (n : Z) : bool :=
  match Movie.vote_count movie with
  | Some c => (n <=? c)%Z
  | None => false
  end.

(** [ORDER BY popularity DESC]: NULL sorts first in PostgreSQL. *)
Definition popularity_gtb (y x : Movie.t) : bool :=
  match Movie.popularity y, Movie.popularity x with
  | None, Some _ => true
  | Some py, Some px => Qltb px py
  | _, _ => false
  end.

(** [db.query(Movie).filter(Movie.id == movie_id).first()] *)
Definition movie_by_id (db : Database) (movie_id : Z) : option Movie.t :=
  find (fun m => (Movie.id m =? movie_id)%Z) (movies db).

(** [db.query(Rating).filter(Rating.user_id == user_id).all()] *)
Definition ratings_of (db : Database) (user_id : UUID) : list Rating.t :=
  filter (fun r => uuid_eqb (Rating.user_id r) user_id) (ratings db).

(** [_get_popular_movies], the same in the three scorers that have it. *)
Definition _get_popular_movies (db : Database) (limit : nat)
  : outcome (list MovieSchema.t) :=
  try_except
    (let rows :=
       firstn limit
         (sorted_desc popularity_gtb
            (filter (fun m => Movie.is_active m && vote_count_ge m 100)
               (movies db))) in
     mapM _movie_to_schema rows)
    (fun _ => Returned []).

(** ** Strings *)

(** [str.lower] on ASCII text. *)
Definition lower_ascii (c : ascii) : ascii :=
  let n := nat_of_ascii c in
  if ((65 <=? n) && (n <=? 90))%nat then ascii_of_nat (n + 32) else c.

Fixpoint lower (s : string) : string :=
  match s with
  | EmptyString => EmptyString
  | String c s' => String (lower_ascii c) (lower s')
  end.

(** [needle in s] *)
Fixpoint contains (needle s : string) : bool :=
  String.prefix needle s ||
  match s with
  | EmptyString => false
  | String _ s' => contains needle s'
  end.

(** Truthiness of an optional string. *)
Definition nonempty (s : option string) : bool :=
  match s with
  | Some (String _ _) => true
  | _ => false
  end.

(** [d.get(key)] on a dict with string keys. *)
Fixpoint dict_get {V} (key : string) (d : list (string * V)) : option V :=
  match d with
  | [] => None
  | (k, v) :: rest => if String.eqb k key then Some v else dict_get key rest
  end.

(** [any(keyword in text for keyword in keywords)] *)
Definition any_keyword (keywords : list string) (text : string) : bool :=
  existsb (fun keyword => contains keyword text) keywords.

(** ** Explanations

    The dict a [get_explanation] answers: every one has a ["type"] and a
    ["reason"]; the remaining keys depend on the scorer. *)
Module Explanation.
Inductive details : Type :=
| ContentBased (similarity_score : Q) (genres similar_themes : list string)
| Collaborative (similar_users_count : Z) (average_rating : Q)
| MoodBased (detected_mood : string) (mood_score : Q)
    (matching_genres : list string)
| Trending (trending_period : string).

Record t := mk { type : string; reason : string; rest : details }.
End Explanation.

(** ** Cosine similarity ([sklearn.metrics.pairwise.cosine_similarity])

    With one argument the library normalises every row to unit L2 norm
    (a row of norm zero is left as it is) and multiplies the normalised
    matrix by its own transpose. *)

Module Cosine.
Section WithSqrt.
(** [np.sqrt] *)
Variable np_sqrt : Q -> Q.

Fixpoint dot (x y : list Q) : Q :=
  match x, y with
  | a :: x', b :: y' => a * b + dot x' y'
  | _, _ => 0
  end.

Definition row_norm (x : list Q) : Q := np_sqrt (dot x x).

Definition normalize_row (x : list Q) : list Q :=
  let n := row_norm x in
  let n := if Qeq_bool n 0 then 1 else n in
  map (fun a => a / n) x.

Definition cosine_similarity (X : list (list Q)) : list (list Q) :=
  let X_normalized := map normalize_row X in
  map (fun xi => map (fun xj => dot xi xj) X_normalized) X_normalized.
End WithSqrt.

(** [a * A + b * B] on arrays of one shape. *)
Fixpoint zip_with {A B C} (f : A -> B -> C) (l : list A) (l' : list B) : list C :=
  match l, l' with
  | x :: xs, y :: ys => f x y :: zip_with f xs ys
  | _, _ => []
  end.

Definition blend (a : Q) (A : list (list Q)) (b : Q) (B : list (list Q))
  : list (list Q) :=
  zip_with (zip_with (fun x y => a * x + b * y)) A B.

(** [M[i][j]] *)
Definition entry (M : list (list Q)) (i j : nat) : Q := nth j (nth i M []) 0.
End Cosine.

(** ** Content similarity scorer ([content_based.py]) *)

Module ContentBased.

(** The state [_load_or_compute_similarity_matrix] leaves behind:
    [self.similarity_matrix] and [self.movie_indices] (a dict
    [movie_id -> row]). *)
Record Model := {
  similarity_matrix : list (list Q);
  movie_indices : list (Z * nat)
}.

(** [self.movie_indices[movie_id]] *)
Fixpoint index_of (movie_id : Z) (d : list (Z * nat)) : option nat :=
  match d with
  | [] => None
  | (k, v) :: rest => if (k =? movie_id)%Z then Some v else index_of movie_id rest
  end.

(** [list(d.keys())[list(d.values()).index(idx)]]; [ValueError] when no
    value is [idx]. *)
Fixpoint key_of_index (idx : nat) (d : list (Z * nat)) : outcome Z :=
  match d with
  | [] => Raised ValueError
  | (k, v) :: rest => if (v =? idx)%nat then Returned k else key_of_index idx rest
  end.

Fixpoint enumerate_from {A} (i : nat) (l : list A) : list (nat * A) :=
  match l with
  | [] => []
  | x :: xs => (i, x) :: enumerate_from (S i) xs
  end.
Definition enumerate {A} (l : list A) : list (nat * A) := enumerate_from 0 l.

Definition sim_gtb (y x : nat * Q) : bool := Qltb (snd x) (snd y).

(** The [for idx, score in sim_scores] loop. *)
Fixpoint collect_similar (db : Database) (m : Model) (limit : nat)
    (exclude_ids : list Z) (sim_scores : list (nat * Q))
    (similar_movies : list (Movie.t * Q)) : outcome (list (Movie.t * Q)) :=
  match sim_scores with
  | [] => Returned similar_movies
  | (idx, score) :: rest =>
      if (limit <=? List.length similar_movies)%nat then Returned similar_movies
      else
        similar_movie_id <- key_of_index idx (movie_indices m) ;;
        if mem_Z similar_movie_id exclude_ids then
          collect_similar db m limit exclude_ids rest similar_movies
        else
          match movie_by_id db similar_movie_id with
          | Some movie =>
              collect_similar db m limit exclude_ids rest
                (similar_movies ++ [(movie, score)])
          | None => collect_similar db m limit exclude_ids rest similar_movies
          end
  end.

(** [model] is [None] when no matrix could be loaded or computed; the
    membership test on [None] then raises and the handler returns []. *)
Definition _get_similar_movies_internal (db : Database) (model : option Model)
    (movie_id : Z) (limit : nat) (exclude_ids : list Z)
  : outcome (list (Movie.t * Q)) :=
  try_except
    (match model with
     | None => Raised TypeError
     | Some m =>
         match index_of movie_id (movie_indices m) with
         | None => Returned []
         | Some movie_idx =>
             match nth_error (similarity_matrix m) movie_idx with
             | None => Raised IndexError
             | Some row =>
                 let sim_scores :=
                   filter (fun s => negb (fst s =? movie_idx)%nat)
                     (enumerate row) in
                 let sim_scores := sorted_desc sim_gtb sim_scores in
                 collect_similar db m limit exclude_ids sim_scores []
             end
         end
     end)
    (fun _ => Returned []).

(** An entry of the [candidate_movies] dict. *)
Record Candidate := { movie : Movie.t; score : Q; count : Z }.

(** [if movie.id not in candidate_movies: ...] followed by the two [+=]. *)
Fixpoint add_candidate (mv : Movie.t) (term : Q) (d : list (Z * Candidate))
  : list (Z * Candidate) :=
  match d with
  | [] => [(Movie.id mv, {| movie := mv; score := 0 + term; count := 0 + 1 |})]
  | (k, c) :: rest =>
      if (k =? Movie.id mv)%Z then
        (k, {| movie := movie c; score := score c + term;
               count := count c + 1 |}) :: rest
      else (k, c) :: add_candidate mv term rest
  end.

(** The inner loop over one neighbourhood. *)
Definition add_neighbourhood (weight : Q) (similar_movies : list (Movie.t * Q))
    (d : list (Z * Candidate)) : list (Z * Candidate) :=
  fold_left (fun d ms => add_candidate (fst ms) (snd ms * weight) d)
    similar_movies d.

(** The outer loop [for rating in user_ratings]. *)
Fixpoint accumulate (db : Database) (model : option Model)
    (rated_movie_ids : list Z) (user_ratings : list Rating.t)
    (candidate_movies : list (Z * Candidate))
  : outcome (list (Z * Candidate)) :=
  match user_ratings with
  | [] => Returned candidate_movies
  | rating :: rest =>
      similar_movies <-
        _get_similar_movies_internal db model (Rating.movie_id rating) 20
          rated_movie_ids ;;
      let weight := Rating.rating rating / 5 in
      accumulate db model rated_movie_ids rest
        (add_neighbourhood weight similar_movies candidate_movies)
  end.

(** The sort key [x['score'] / x['count']]. *)
Definition average (c : Candidate) : Q := score c / inject_Z (count c).
Definition average_gtb (y x : Candidate) : bool := Qltb (average x) (average y).

(** [db.query(Rating).filter(user_id == ..., rating >= 4.0).all()] *)
Definition liked_ratings (db : Database) (user_id : UUID) : list Rating.t :=
  filter (fun r => uuid_eqb (Rating.user_id r) user_id
                   && Qle_bool 4 (Rating.rating r))
    (ratings db).

Definition get_recommendations (db : Database) (model : option Model)
    (user_id : UUID) (limit : nat) (exclude_watched : bool)
  : outcome (list MovieSchema.t) :=
  try_except
    (let user_ratings := liked_ratings db user_id in
     match user_ratings with
     | [] => _get_popular_movies db limit
     | _ :: _ =>
         let rated_movie_ids :=
           if exclude_watched then map Rating.movie_id user_ratings else [] in
         candidate_movies <-
           accumulate db model rated_movie_ids user_ratings [] ;;
         let sorted_candidates :=
           sorted_desc average_gtb (map snd candidate_movies) in
         mapM (fun c => _movie_to_schema (movie c))
           (firstn limit sorted_candidates)
     end)
    (fun _ => _get_popular_movies db limit).

(** [get_similar_movies]: here the exclusion set is every rating of the
    user. *)
Definition get_similar_movies (db : Database) (model : option Model)
    (movie_id : Z) (user_id : option UUID) (limit : nat)
  : outcome (list MovieSchema.t) :=
  try_except
    (let exclude_ids :=
       match user_id with
       | Some u => map Rating.movie_id (ratings_of db u)
       | None => []
       end in
     similar_movies <-
       _get_similar_movies_internal db model movie_id limit exclude_ids ;;
     mapM (fun ms => _movie_to_schema (fst ms)) similar_movies)
    (fun _ => Returned []).

(** [_compute_similarity_matrix].  The vectorizer and the scaler are
    scikit-learn's; both return one row per input row.  [None] is the
    early return that leaves the recommender without a matrix. *)
Section Training.
Variable np_sqrt : Q -> Q.
Variable tfidf_fit_transform : list string -> list (list Q).
Variable scaler_fit_transform : list (list Q) -> list (list Q).

Definition or_empty (s : option string) : string :=
  match s with Some t => t | None => EmptyString end.

Fixpoint join (sep : string) (l : list string) : string :=
  match l with
  | [] => EmptyString
  | [x] => x
  | x :: xs => (x ++ sep ++ join sep xs)%string
  end.

Definition or_zero (x : option Z) : Q :=
  match x with Some v => inject_Z v | None => 0 end.

Definition combined_text (m : Movie.t) : string :=
  let text_content :=
    (or_empty (Movie.overview m) ++ " " ++ or_empty (Movie.tagline m))%string in
  let genre_str := join " " (Movie.genres m) in
  (text_content ++ " " ++ genre_str)%string.

Definition numerical_features (m : Movie.t) : list Q :=
  [ or_default (Movie.vote_average m) 0; or_default (Movie.popularity m) 0;
    or_zero (Movie.runtime m); or_zero (Movie.release_year m) ].

(** [{movie_id: idx for idx, movie_id in enumerate(df['id'])}] *)
Definition index_dict (ids : list Z) : list (Z * nat) :=
  fold_left (fun d im => assoc_set Z.eqb (snd im) (fst im) d) (enumerate ids) [].

Definition _compute_similarity_matrix (db : Database) : option Model :=
  let movies :=
    filter (fun m => Movie.is_active m
                     && match Movie.overview m with Some _ => true | None => false end
                     && vote_count_ge m 10)
      (movies db) in
  if (List.length movies <? 10)%nat then None
  else
    let tfidf_matrix := tfidf_fit_transform (map combined_text movies) in
    let scaled_numerical := scaler_fit_transform (map numerical_features movies) in
    let text_similarity := Cosine.cosine_similarity np_sqrt tfidf_matrix in
    let numerical_similarity := Cosine.cosine_similarity np_sqrt scaled_numerical in
    Some {| similarity_matrix :=
              Cosine.blend 0.7 text_similarity 0.3 numerical_similarity;
            movie_indices := index_dict (map Movie.id movies) |}.
End Training.

(** [_extract_theme_similarities]: the themes, in dict order, that have a
    keyword in both texts. *)
Definition themes : list (string * list string) :=
  [ ("action", ["action"; "fight"; "battle"; "war"; "combat"]);
    ("romance", ["love"; "romance"; "relationship"; "romantic"]);
    ("adventure", ["adventure"; "journey"; "quest"; "explore"]);
    ("mystery", ["mystery"; "detective"; "investigation"; "secret"]);
    ("family", ["family"; "children"; "parent"; "home"]);
    ("friendship", ["friend"; "friendship"; "companion"; "buddy"]) ].

Definition _extract_theme_similarities (text1 text2 : string) : list string :=
  let text1_lower := lower text1 in
  let text2_lower := lower text2 in
  map fst
    (filter (fun tk => any_keyword (snd tk) text1_lower
                       && any_keyword (snd tk) text2_lower)
       themes).

(** [get_explanation] *)
Section Explaining.
(** [round(x, ndigits)] and [str] of a float. *)
Variable py_round : Q -> Z -> Q.
Variable str_float : Q -> string.
(** [list(s)] of a set of strings [s]: its elements in the order in which
    the set yields them. *)
Variable list_of_set : list string -> list string.

Definition rating_gtb (y x : Rating.t * Movie.t) : bool :=
  Qltb (Rating.rating (fst x)) (Rating.rating (fst y)).

(** The three highest ratings of at least 4.0, each joined with its
    movie. *)
Definition top_rated (db : Database) (user_id : UUID)
  : list (Rating.t * Movie.t) :=
  firstn 3
    (sorted_desc rating_gtb
       (flat_map (fun r => match movie_by_id db (Rating.movie_id r) with
                           | Some movie => [(r, movie)]
                           | None => []
                           end)
          (liked_ratings db user_id))).

(** One step of the inner loop on
    [(max_similarity, most_similar_movie)]. *)
Definition scan_similar (movie_id : Z) (rated_movie : Movie.t)
    (acc : Q * option Movie.t) (ms : Movie.t * Q) : Q * option Movie.t :=
  if (Movie.id (fst ms) =? movie_id)%Z && Qltb (fst acc) (snd ms)
  then (snd ms, Some rated_movie) else acc.

(** The loop [for rating in top_rated]. *)
Fixpoint scan_top_rated (db : Database) (model : option Model) (movie_id : Z)
    (top_rated : list (Rating.t * Movie.t)) (acc : Q * option Movie.t)
  : outcome (Q * option Movie.t) :=
  match top_rated with
  | [] => Returned acc
  | rating :: rest =>
      similar_movies <-
        _get_similar_movies_internal db model (Rating.movie_id (fst rating))
          50 [] ;;
      scan_top_rated db model movie_id rest
        (fold_left (scan_similar movie_id (snd rating)) similar_movies acc)
  end.

(** After the loop [rating] is still bound to the last of the top
    ratings, and that is the rating the reason quotes. *)
Definition get_explanation (db : Database) (model : option Model)
    (user_id : UUID) (movie_id : Z) : outcome (option Explanation.t) :=
  try_except
    (match top_rated db user_id with
     | [] => Returned None
     | first :: others =>
         match movie_by_id db movie_id with
         | None => Returned None
         | Some recommended_movie =>
             found <-
               scan_top_rated db model movie_id (first :: others) (0, None) ;;
             let '(max_similarity, most_similar_movie) := found in
             match most_similar_movie with
             | Some most_similar_movie =>
                 let rating := fst (last others first) in
                 let common_genres :=
                   filter (fun g => mem_string g (Movie.genres most_similar_movie))
                     (nodup string_dec (Movie.genres recommended_movie)) in
                 Returned
                   (Some
                      (Explanation.mk "content_based"
                         ("Similar to '" ++ Movie.title most_similar_movie
                          ++ "' which you rated "
                          ++ str_float (Rating.rating rating) ++ "/5")%string
                         (Explanation.ContentBased
                            (py_round max_similarity 3)
                            (list_of_set common_genres)
                            (_extract_theme_similarities
                               (or_empty (Movie.overview most_similar_movie))
                               (or_empty (Movie.overview recommended_movie))))))
             | None => Returned None
             end
         end
     end)
    (fun _ => Returned None).
End Explaining.

End ContentBased.

(** ** Mood scorer ([mood_analyzer.py]) *)

Module MoodAnalyzer.

Definition mood_genre_mapping : list (string * list string) :=
  [ ("happy", ["Comedy"; "Family"; "Animation"; "Musical"; "Romance"]);
    ("sad", ["Drama"; "Romance"]);
    ("excited", ["Action"; "Adventure"; "Thriller"; "Science Fiction"]);
    ("romantic", ["Romance"; "Drama"]);
    ("adventurous", ["Adventure"; "Action"; "Fantasy"; "Science Fiction"]);
    ("relaxed", ["Comedy"; "Family"; "Documentary"]);
    ("thoughtful", ["Drama"; "Documentary"; "Mystery"; "Science Fiction"]);
    ("scared", ["Horror"; "Thriller"]);
    ("nostalgic", ["Drama"; "Family"]);
    ("energetic", ["Action"; "Adventure"; "Comedy"]) ].

Definition mood_keywords : list (string * list string) :=
  [ ("happy", ["joy"; "happiness"; "cheerful"; "uplifting"; "positive";
               "fun"; "lighthearted"]);
    ("sad", ["emotional"; "touching"; "tearjerker"; "melancholy"; "tragic";
             "heartbreaking"]);
    ("excited", ["thrilling"; "intense"; "adrenaline"; "fast-paced";
                 "explosive"; "action-packed"]);
    ("romantic", ["love story"; "romantic"; "passion"; "relationship";
                  "intimate"]);
    ("adventurous", ["journey"; "quest"; "exploration"; "epic"; "adventure"]);
    ("relaxed", ["calm"; "peaceful"; "gentle"; "easy-going"; "comfort"]);
    ("thoughtful", ["philosophical"; "deep"; "complex"; "intellectual";
                    "thought-provoking"]);
    ("scared", ["scary"; "frightening"; "terrifying"; "suspenseful"; "creepy"]);
    ("nostalgic", ["classic"; "vintage"; "memories"; "past"; "childhood"]);
    ("energetic", ["dynamic"; "vibrant"; "energetic"; "lively"; "spirited"]) ].

(** The branch of [_get_review_sentiment_score] on the mood, for one
    review of polarity [sentiment_polarity]. *)
Definition sentiment_term (mood : string) (sentiment_polarity : Q) : Q :=
  if mem_string mood ["happy"; "excited"; "energetic"] then
    Qmax 0 sentiment_polarity
  else if mem_string mood ["sad"; "thoughtful"] then
    Qabs sentiment_polarity
  else if mem_string mood ["scared"] then
    if Qltb sentiment_polarity 0 then Qmax 0 (- sentiment_polarity) else 0
  else
    Qabs sentiment_polarity * 0.5.

(** [_extract_emotion_tags]: the emotions, in dict order, that have a
    keyword in the text. *)
Definition emotion_keywords : list (string * list string) :=
  [ ("happy", ["happy"; "joy"; "delighted"; "cheerful"; "amazing"; "wonderful";
               "fantastic"; "great"]);
    ("sad", ["sad"; "depressing"; "tragic"; "heartbreaking"; "emotional";
             "touching"; "tears"]);
    ("excited", ["exciting"; "thrilling"; "amazing"; "incredible"; "awesome";
                 "spectacular"]);
    ("angry", ["angry"; "frustrated"; "annoying"; "terrible"; "awful"; "hate"]);
    ("scared", ["scary"; "frightening"; "terrifying"; "creepy"; "horror"; "fear"]);
    ("surprised", ["surprising"; "unexpected"; "twist"; "shocking"; "amazing"]);
    ("confused", ["confusing"; "unclear"; "complicated"; "difficult"; "strange"]);
    ("bored", ["boring"; "slow"; "tedious"; "uninteresting"; "dull"]) ].

Definition _extract_emotion_tags (text : string) : outcome (list string) :=
  try_except
    (let text_lower := lower text in
     Returned
       (map fst
          (filter (fun ek => any_keyword (snd ek) text_lower) emotion_keywords)))
    (fun _ => Returned []).

Section Scorer.
(** [TextBlob(text).sentiment.polarity] and [math.log] on its domain. *)
Variable polarity : string -> Q.
Variable math_log : Q -> Q.

(** [db.query(Review).filter(movie_id == ..., is_approved).limit(10)] *)
Definition sampled_reviews (db : Database) (movie_id : Z) : list Review.t :=
  firstn 10
    (filter (fun r => (Review.movie_id r =? movie_id)%Z && Review.is_approved r)
       (reviews db)).

(** The [for review in reviews] loop on the pair
    [(mood_score, review_count)]. *)
Fixpoint sentiment_loop (mood : string) (rs : list Review.t)
    (mood_score : Q) (review_count : Z) : Q * Z :=
  match rs with
  | [] => (mood_score, review_count)
  | review :: rest =>
      match Review.content review with
      | Some (String c s) =>
          sentiment_loop mood rest
            (mood_score + sentiment_term mood (polarity (String c s)))
            (review_count + 1)%Z
      | _ => sentiment_loop mood rest mood_score review_count
      end
  end.

Definition _get_review_sentiment_score (db : Database) (movie_id : Z)
    (mood : string) : outcome Q :=
  try_except
    (match sampled_reviews db movie_id with
     | [] => Returned 0
     | rs =>
         let '(mood_score, review_count) := sentiment_loop mood rs 0 0%Z in
         Returned (if (0 <? review_count)%Z
                   then mood_score / inject_Z review_count else 0)
     end)
    (fun _ => Returned 0).

(** [len(set(movie_genres) & set(target_genres))] *)
Definition genre_matches (movie_genres target_genres : list string) : Z :=
  Z.of_nat (List.length
              (filter (fun g => mem_string g target_genres)
                 (nodup string_dec movie_genres))).

(** [sum(1 for keyword in mood_keywords if keyword in text_content)] *)
Definition keyword_matches (keywords : list string) (text_content : string) : Z :=
  Z.of_nat (List.length (filter (fun k => contains k text_content) keywords)).

Definition dict_get_or_nil (key : string) (d : list (string * list string))
  : list string :=
  match dict_get key d with Some v => v | None => [] end.

Definition _calculate_mood_score (db : Database) (movie : Movie.t)
    (mood : string) : outcome Q :=
  try_except
    (let score := 0 in
     let score :=
       match Movie.genres movie with
       | [] => score
       | movie_genres =>
           let target_genres := dict_get_or_nil mood mood_genre_mapping in
           score + inject_Z (genre_matches movie_genres target_genres) * 0.3
       end in
     let text_content := EmptyString in
     let text_content :=
       match Movie.overview movie with
       | Some (String c s) => (text_content ++ lower (String c s))%string
       | _ => text_content
       end in
     let text_content :=
       match Movie.tagline movie with
       | Some (String c s) =>
           (text_content ++ " " ++ lower (String c s))%string
       | _ => text_content
       end in
     let score :=
       match text_content with
       | EmptyString => score
       | _ =>
           let keywords := dict_get_or_nil mood mood_keywords in
           score + inject_Z (keyword_matches keywords text_content) * 0.2
       end in
     review_sentiment_score <-
       _get_review_sentiment_score db (Movie.id movie) mood ;;
     let score := score + review_sentiment_score * 0.3 in
     let score :=
       match Movie.vote_average movie with
       | Some va => if Qeq_bool va 0 then score else score + (va / 10) * 0.1
       | None => score
       end in
     match Movie.popularity movie with
     | Some p =>
         if Qeq_bool p 0 then Returned score
         else if Qle_bool (p + 1) 0 then Raised ValueError
         else
           let normalized_popularity := math_log (p + 1) / 10 in
           Returned (score + Qmin normalized_popularity 0.1)
     | None => Returned score
     end)
    (fun _ => Returned 0).

(** The sort key [(x[1], x[0].popularity or 0)], compared as a tuple. *)
Definition mood_key_gtb (y x : Movie.t * Q) : bool :=
  Qltb (snd x) (snd y) ||
  (Qeq_bool (snd x) (snd y) &&
   Qltb (or_default (Movie.popularity (fst x)) 0)
        (or_default (Movie.popularity (fst y)) 0)).

(** The genre query of [get_mood_recommendations]; the ORM returns each
    joined movie once. *)
Definition mood_candidates (db : Database) (target_genres : list string)
    (user_rated_movies : list Z) : list Movie.t :=
  filter (fun m =>
            existsb (fun g => mem_string g target_genres) (Movie.genres m)
            && Movie.is_active m
            && vote_count_ge m 20
            && match user_rated_movies with
               | [] => true
               | _ => negb (mem_Z (Movie.id m) user_rated_movies)
               end)
    (movies db).

(** A [uuid.UUID] is always truthy, so [if user_id:] is taken. *)
Definition get_mood_recommendations (db : Database) (user_id : UUID)
    (mood : string) (limit : nat) : outcome (list MovieSchema.t) :=
  try_except
    (match dict_get (lower mood) mood_genre_mapping with
     | None => Returned []           (* logger.warning("Unknown mood") *)
     | Some target_genres =>
         let user_rated_movies :=
           map Rating.movie_id (ratings_of db user_id) in
         match mood_candidates db target_genres user_rated_movies with
         | [] => Returned []
         | movies =>
             scored_movies <-
               mapM (fun movie =>
                       mood_score <- _calculate_mood_score db movie (lower mood) ;;
                       Returned (movie, mood_score))
                 movies ;;
             let scored_movies := sorted_desc mood_key_gtb scored_movies in
             mapM (fun ms => _movie_to_schema (fst ms))
               (firstn limit scored_movies)
         end
     end)
    (fun _ => Returned []).
End Scorer.

(** [_analyze_user_recent_mood] and [get_recommendations], which infers
    the mood from the ratings of the last seven days. *)
Section RecentMood.
Variable polarity : string -> Q.
Variable math_log : Q -> Q.
(** [Rating.created_at >= week_ago] on a stored rating. *)
Variable is_recent : Rating.t -> bool.

(** The recent ratings of the user, each joined with its movie. *)
Definition recent_ratings (db : Database) (user_id : UUID)
  : list (Rating.t * Movie.t) :=
  flat_map (fun r => match movie_by_id db (Rating.movie_id r) with
                     | Some movie => [(r, movie)]
                     | None => []
                     end)
    (filter (fun r => uuid_eqb (Rating.user_id r) user_id && is_recent r)
       (ratings db)).

(** [genre_weights[genre.name] += weight], after the default 0. *)
Definition add_genre_weight (weight : Q) (genre_weights : list (string * Q))
    (genre : string) : list (string * Q) :=
  match assoc_get String.eqb genre genre_weights with
  | None => assoc_set String.eqb genre (0 + weight) genre_weights
  | Some v => assoc_set String.eqb genre (v + weight) genre_weights
  end.

(** The loop over the recent ratings on [(genre_weights, total_ratings)]. *)
Definition weigh_genres (rows : list (Rating.t * Movie.t))
  : list (string * Q) * Z :=
  fold_left
    (fun acc rm =>
       match Movie.genres (snd rm) with
       | [] => acc
       | genres =>
           let weight := Rating.rating (fst rm) / 5 in
           (fold_left (add_genre_weight weight) genres (fst acc),
            (snd acc + 1)%Z)
       end)
    rows ([], 0%Z).

(** [sum(genre_weights.get(genre, 0) for genre in target_genres)] *)
Definition target_weight (genre_weights : list (string * Q))
    (target_genres : list string) : Q :=
  fold_left
    (fun acc genre =>
       acc + match assoc_get String.eqb genre genre_weights with
             | Some v => v
             | None => 0
             end)
    target_genres 0.

(** The loop over [mood_genre_mapping.items()] that fills [mood_scores]. *)
Definition score_moods (genre_weights : list (string * Q)) (total_ratings : Z)
  : list (string * Q) :=
  flat_map
    (fun mt =>
       let score := target_weight genre_weights (snd mt) in
       if Qltb 0 score then [(fst mt, score / inject_Z total_ratings)] else [])
    mood_genre_mapping.

(** [max(items, key=lambda x: x[1])]: the first item with the largest
    value. *)
Fixpoint max_item (best : string * Q) (items : list (string * Q)) : string * Q :=
  match items with
  | [] => best
  | x :: rest => max_item (if Qltb (snd best) (snd x) then x else best) rest
  end.

Definition _analyze_user_recent_mood (db : Database) (user_id : UUID)
  : outcome (option string) :=
  try_except
    (match recent_ratings db user_id with
     | [] => Returned None
     | rows =>
         let '(genre_weights, total_ratings) := weigh_genres rows in
         match genre_weights with
         | [] => Returned None
         | _ =>
             match score_moods genre_weights total_ratings with
             | [] => Returned None
             | item :: items => Returned (Some (fst (max_item item items)))
             end
         end
     end)
    (fun _ => Returned None).

Definition get_recommendations (db : Database) (user_id : UUID) (limit : nat)
    (exclude_watched : bool) : outcome (list MovieSchema.t) :=
  recent_mood <- _analyze_user_recent_mood db user_id ;;
  match recent_mood with
  | Some (String c s) =>
      get_mood_recommendations polarity math_log db user_id (String c s) limit
  | _ => _get_popular_movies db limit
  end.
End RecentMood.

(** [get_explanation] *)
Section Explaining.
Variable polarity : string -> Q.
Variable math_log : Q -> Q.
(** [round(x, ndigits)] *)
Variable py_round : Q -> Z -> Q.

Definition get_explanation (db : Database) (user_id : UUID) (movie_id : Z)
  : outcome (option Explanation.t) :=
  try_except
    (match movie_by_id db movie_id with
     | None => Returned None
     | Some movie =>
         mood_scores <-
           mapM (fun mood =>
                   score <- _calculate_mood_score polarity math_log db movie mood ;;
                   Returned (mood, score))
             (map fst mood_genre_mapping) ;;
         match mood_scores with
         | [] => Returned None
         | item :: items =>
             let best := max_item item items in
             match fst best with
             | EmptyString => Returned None
             | best_mood =>
                 Returned
                   (Some
                      (Explanation.mk "mood_based"
                         ("Perfect for when you're feeling " ++ best_mood)%string
                         (Explanation.MoodBased best_mood
                            (py_round (snd best) 2)
                            (filter
                               (fun g =>
                                  mem_string g
                                    (dict_get_or_nil best_mood
                                       mood_genre_mapping))
                               (Movie.genres movie)))))
             end
         end
     end)
    (fun _ => Returned None).
End Explaining.

End MoodAnalyzer.

(** ** Group consensus scorer ([group_recommender.py]) *)

Module GroupRecommender.

(** [{rating.movie_id: rating.rating for rating in user_ratings}] *)
Definition user_rating_dict (user_ratings : list Rating.t) : list (Z * Q) :=
  fold_left
    (fun d r => assoc_set Z.eqb (Rating.movie_id r) (Rating.rating r) d)
    user_ratings [].

(** [genre_scores] and [genre_counts] move together: one dict of pairs.
    One step of [for genre in movie.genres]. *)
Definition add_genre (rating : Q) (d : list (string * (Q * Z))) (genre : string)
  : list (string * (Q * Z)) :=
  match assoc_get String.eqb genre d with
  | None => assoc_set String.eqb genre (0 + rating, (0 + 1)%Z) d
  | Some (total, n) => assoc_set String.eqb genre (total + rating, (n + 1)%Z) d
  end.

(** One step of [for movie in movies]. *)
Definition add_movie (user_ratings : list (Z * Q))
    (d : list (string * (Q * Z))) (movie : Movie.t) : list (string * (Q * Z)) :=
  match assoc_get Z.eqb (Movie.id movie) user_ratings, Movie.genres movie with
  | Some rating, _ :: _ => fold_left (add_genre rating) (Movie.genres movie) d
  | _, _ => d
  end.

Definition genre_totals (db : Database) (user_ratings : list (Z * Q))
  : list (string * (Q * Z)) :=
  let movie_ids := map fst user_ratings in
  let movies := filter (fun m => mem_Z (Movie.id m) movie_ids) (movies db) in
  fold_left (add_movie user_ratings) movies [].

(** The dict comprehension that keeps genres with at least 2 ratings. *)
Fixpoint averages (totals : list (string * (Q * Z))) : list (string * Q) :=
  match totals with
  | [] => []
  | (genre, (total_score, n)) :: rest =>
      if (2 <=? n)%Z then (genre, total_score / inject_Z n) :: averages rest
      else averages rest
  end.

Definition _get_user_genre_preferences (db : Database) (user_id : UUID)
    (user_ratings : list (Z * Q)) : outcome (list (string * Q)) :=
  try_except
    (match user_ratings with
     | [] => Returned []
     | _ => Returned (averages (genre_totals db user_ratings))
     end)
    (fun _ => Returned []).

(** [all_user_ratings.get(user_id, {})] *)
Definition ratings_for (all_user_ratings : list (UUID * list (Z * Q)))
    (user_id : UUID) : list (Z * Q) :=
  match assoc_get uuid_eqb user_id all_user_ratings with
  | Some d => d
  | None => []
  end.

(** [genre_support[genre] += 1] for the genres a user rates at least 3.5. *)
Definition add_support (support : list (string * Z)) (pref : string * Q)
  : list (string * Z) :=
  if Qle_bool 3.5 (snd pref) then
    match assoc_get String.eqb (fst pref) support with
    | None => assoc_set String.eqb (fst pref) (0 + 1)%Z support
    | Some n => assoc_set String.eqb (fst pref) (n + 1)%Z support
    end
  else support.

Definition genre_support
    (user_genre_preferences : list (UUID * list (string * Q)))
  : list (string * Z) :=
  fold_left (fun support up => fold_left add_support (snd up) support)
    user_genre_preferences [].

Definition min_support (user_ids : list UUID) : Z :=
  (Z.of_nat (List.length user_ids) / 2 + 1)%Z.

(** The first loop of [_find_consensus_candidates]. *)
Fixpoint collect_preferences (db : Database)
    (all_user_ratings : list (UUID * list (Z * Q))) (user_ids : list UUID)
    (user_genre_preferences : list (UUID * list (string * Q)))
  : outcome (list (UUID * list (string * Q))) :=
  match user_ids with
  | [] => Returned user_genre_preferences
  | user_id :: rest =>
      genre_prefs <-
        _get_user_genre_preferences db user_id
          (ratings_for all_user_ratings user_id) ;;
      collect_preferences db all_user_ratings rest
        (assoc_set uuid_eqb user_id genre_prefs user_genre_preferences)
  end.

Definition common_genres_of
    (user_genre_preferences : list (UUID * list (string * Q)))
    (user_ids : list UUID) : list string :=
  match user_genre_preferences with
  | [] => []
  | _ =>
      map fst
        (filter (fun gs => (min_support user_ids <=? snd gs)%Z)
           (genre_support user_genre_preferences))
  end.

Definition not_excluded (exclude_movies : list Z) (m : Movie.t) : bool :=
  match exclude_movies with
  | [] => true
  | _ => negb (mem_Z (Movie.id m) exclude_movies)
  end.

(** The ORM returns each movie of the fetched rows once. *)
Fixpoint unique_movies (seen : list Z) (rows : list Movie.t) : list Movie.t :=
  match rows with
  | [] => []
  | m :: rest =>
      if mem_Z (Movie.id m) seen then unique_movies seen rest
      else m :: unique_movies (Movie.id m :: seen) rest
  end.

(** [JOIN movie.genres]: one row per matching genre of the movie. *)
Definition joined_rows (common_genres : list string) (table : list Movie.t)
  : list Movie.t :=
  flat_map
    (fun m => map (fun _ => m)
                (filter (fun g => mem_string g common_genres) (Movie.genres m)))
    table.

Definition _find_consensus_candidates (db : Database)
    (all_user_ratings : list (UUID * list (Z * Q))) (user_ids : list UUID)
    (exclude_movies : list Z) (candidate_limit : nat)
  : outcome (list Movie.t) :=
  try_except
    (user_genre_preferences <-
       collect_preferences db all_user_ratings user_ids [] ;;
     let common_genres := common_genres_of user_genre_preferences user_ids in
     match common_genres with
     | _ :: _ =>
         Returned
           (unique_movies []
              (firstn candidate_limit
                 (sorted_desc popularity_gtb
                    (filter (fun m => Movie.is_active m && vote_count_ge m 50
                                      && not_excluded exclude_movies m)
                       (joined_rows common_genres (movies db))))))
     | [] =>
         Returned
           (firstn candidate_limit
              (sorted_desc popularity_gtb
                 (filter (fun m => Movie.is_active m && vote_count_ge m 100
                                   && not_excluded exclude_movies m)
                    (movies db))))
     end)
    (fun _ => Returned []).

(** The loop over [movie.genres] on [(genre_satisfaction, genre_count)]. *)
Definition add_genre_satisfaction (user_genre_prefs : list (string * Q))
    (acc : Q * Z) (genre : string) : Q * Z :=
  match assoc_get String.eqb genre user_genre_prefs with
  | Some avg =>
      let normalized_rating := (avg - 1) / 4 in
      (fst acc + Qmax 0 normalized_rating, (snd acc + 1)%Z)
  | None => acc
  end.

(** [max(0.0, min(1.0, x))] *)
Definition clamp01 (x : Q) : Q := Qmax 0 (Qmin 1 x).

Definition _predict_user_satisfaction (db : Database) (movie : Movie.t)
    (user_id : UUID) (user_ratings : list (Z * Q)) : outcome Q :=
  try_except
    (match user_ratings with
     | [] => Returned (or_default (Movie.vote_average movie) 5 / 10)
     | _ =>
         user_genre_prefs <-
           _get_user_genre_preferences db user_id user_ratings ;;
         match user_genre_prefs with
         | [] => Returned 0.5
         | _ =>
             let '(genre_satisfaction, genre_count) :=
               fold_left (add_genre_satisfaction user_genre_prefs)
                 (Movie.genres movie) (0, 0%Z) in
             let genre_satisfaction :=
               if (0 <? genre_count)%Z
               then genre_satisfaction / inject_Z genre_count
               else genre_satisfaction in
             let quality_boost :=
               if truthy (Movie.vote_average movie)
                  && Qle_bool 7 (or_default (Movie.vote_average movie) 0)
               then 0.1 else 0 in
             let quality_penalty :=
               if truthy (Movie.vote_average movie)
                  && Qltb (or_default (Movie.vote_average movie) 0) 5
               then 0.2 else 0 in
             let final_satisfaction :=
               genre_satisfaction + quality_boost - quality_penalty in
             Returned (clamp01 final_satisfaction)
         end
     end)
    (fun _ => Returned 0.5).

(** [np.mean] and [np.min] of a non-empty list. *)
Definition np_mean (l : list Q) : Q := Qsum l / inject_Z (Z.of_nat (List.length l)).
Definition np_min (l : list Q) : Q :=
  match l with
  | [] => 0
  | x :: xs => fold_left Qmin xs x
  end.

Definition _calculate_group_satisfaction (db : Database) (movie : Movie.t)
    (user_ids : list UUID) (all_user_ratings : list (UUID * list (Z * Q)))
  : outcome Q :=
  try_except
    (individual_satisfactions <-
       mapM (fun user_id =>
               _predict_user_satisfaction db movie user_id
                 (ratings_for all_user_ratings user_id))
         user_ids ;;
     match individual_satisfactions with
     | [] => Returned 0
     | _ =>
         let mean_satisfaction := np_mean individual_satisfactions in
         let min_satisfaction := np_min individual_satisfactions in
         let group_satisfaction :=
           0.6 * mean_satisfaction + 0.4 * min_satisfaction in
         Returned (clamp01 group_satisfaction)
     end)
    (fun _ => Returned 0).

Definition satisfaction_gtb (y x : Movie.t * Q) : bool := Qltb (snd x) (snd y).

Section Service.
(** [uuid.UUID(s)]: [None] stands for its [ValueError]. *)
Variable parse_uuid : string -> option UUID.

(** The conversion loop, which skips what does not parse. *)
Fixpoint valid_uuids (user_ids : list string) : list UUID :=
  match user_ids with
  | [] => []
  | user_id :: rest =>
      match parse_uuid user_id with
      | Some u => u :: valid_uuids rest
      | None => valid_uuids rest
      end
  end.

(** The loop that fills [all_user_ratings] and [all_rated_movies]. *)
Fixpoint load_ratings (db : Database) (uuid_user_ids : list UUID)
    (all_user_ratings : list (UUID * list (Z * Q)))
    (all_rated_movies : list Z)
  : list (UUID * list (Z * Q)) * list Z :=
  match uuid_user_ids with
  | [] => (all_user_ratings, all_rated_movies)
  | user_id :: rest =>
      let d := user_rating_dict (ratings_of db user_id) in
      load_ratings db rest
        (assoc_set uuid_eqb user_id d all_user_ratings)
        (all_rated_movies ++ map fst d)
  end.

(** The scoring loop: candidates at or above the threshold, with their
    score. *)
Fixpoint score_candidates (db : Database) (uuid_user_ids : list UUID)
    (all_user_ratings : list (UUID * list (Z * Q))) (min_satisfaction : Q)
    (candidate_movies : list Movie.t) : outcome (list (Movie.t * Q)) :=
  match candidate_movies with
  | [] => Returned []
  | movie :: rest =>
      satisfaction_score <-
        _calculate_group_satisfaction db movie uuid_user_ids all_user_ratings ;;
      scored <-
        score_candidates db uuid_user_ids all_user_ratings min_satisfaction rest ;;
      Returned (if Qle_bool min_satisfaction satisfaction_score
                then (movie, satisfaction_score) :: scored else scored)
  end.

Definition get_group_recommendations (db : Database)
    (user_ids : list string) (limit : nat) (min_satisfaction : Q)
  : outcome (list MovieSchema.t) :=
  try_except
    (if (List.length user_ids <? 2)%nat then Returned []
     else
       let uuid_user_ids := valid_uuids user_ids in
       if (List.length uuid_user_ids <? 2)%nat then Returned []
       else
         let '(all_user_ratings, all_rated_movies) :=
           load_ratings db uuid_user_ids [] [] in
         candidate_movies <-
           _find_consensus_candidates db all_user_ratings uuid_user_ids
             all_rated_movies 200 ;;
         scored_movies <-
           score_candidates db uuid_user_ids all_user_ratings
             min_satisfaction candidate_movies ;;
         let scored_movies := sorted_desc satisfaction_gtb scored_movies in
         mapM (fun ms => _movie_to_schema (fst ms))
           (firstn limit scored_movies))
    (fun _ => Returned []).

(** [get_recommendations]: the group of one. *)
Definition get_recommendations (uuid_str : UUID -> string) (db : Database)
    (user_id : UUID) (limit : nat) : outcome (list MovieSchema.t) :=
  get_group_recommendations db [uuid_str user_id] limit 0.6.
End Service.

End GroupRecommender.

(** ** The group scorer in binary64 arithmetic *)

(** Python's [float] is a binary64 number and every arithmetic operation
    on floats returns the binary64 number nearest to the exact result.
    [binary64] is that rounding, to nearest with ties to the even
    significand, for results in the normal range (which is where the
    scores lie). *)
Definition round_half_even (num den : Z) : Z :=
  let q := (num / den)%Z in
  let r := (num mod den)%Z in
  match (2 * r ?= den)%Z with
  | Lt => q
  | Gt => (q + 1)%Z
  | Eq => if Z.even q then q else (q + 1)%Z
  end.

Definition binary64 (x : Q) : Q :=
  match Qnum x with
  | Z0 => 0
  | n =>
      let a := Z.abs n in
      let d := Zpos (Qden x) in
      let k0 := (Z.log2 a - Z.log2 d)%Z in
      let below :=
        if (0 <=? k0)%Z then (a <? d * 2 ^ k0)%Z
        else (a * 2 ^ (- k0) <? d)%Z in
      let e := ((if below then k0 - 1 else k0) - 52)%Z in
      let m :=
        if (0 <=? e)%Z then round_half_even a (d * 2 ^ e)
        else round_half_even (a * 2 ^ (- e)) d in
      let v :=
        if (0 <=? e)%Z then inject_Z (m * 2 ^ e)
        else Qred (m # Z.to_pos (2 ^ (- e))) in
      if (n <? 0)%Z then - v else v
  end.

(** The functions of [GroupRecommender] that compute with floats, with the
    rounding [fl] of every float operation written out and numpy's [mean]
    as a parameter; a literal such as [0.6] is the float [fl 0.6].  With no
    rounding and the exact mean these are the definitions of
    [GroupRecommender]; with [binary64] they compute what Python computes.
    The functions without float arithmetic are shared. *)
Module Rounded.

Section Arithmetic.
Variable fl : Q -> Q.
Variable np_mean : list Q -> Q.

(** One step of [for genre in movie.genres]:
    [genre_scores[genre.name] += rating]. *)
Definition add_genre (rating : Q) (d : list (string * (Q * Z))) (genre : string)
  : list (string * (Q * Z)) :=
  match assoc_get String.eqb genre d with
  | None => assoc_set String.eqb genre (fl (0 + rating), (0 + 1)%Z) d
  | Some (total, n) =>
      assoc_set String.eqb genre (fl (total + rating), (n + 1)%Z) d
  end.

Definition add_movie (user_ratings : list (Z * Q))
    (d : list (string * (Q * Z))) (movie : Movie.t) : list (string * (Q * Z)) :=
  match assoc_get Z.eqb (Movie.id movie) user_ratings, Movie.genres movie with
  | Some rating, _ :: _ => fold_left (add_genre rating) (Movie.genres movie) d
  | _, _ => d
  end.

Definition genre_totals (db : Database) (user_ratings : list (Z * Q))
  : list (string * (Q * Z)) :=
  let movie_ids := map fst user_ratings in
  let movies := filter (fun m => mem_Z (Movie.id m) movie_ids) (movies db) in
  fold_left (add_movie user_ratings) movies [].

(** [total_score / genre_counts[genre]] *)
Fixpoint averages (totals : list (string * (Q * Z))) : list (string * Q) :=
  match totals with
  | [] => []
  | (genre, (total_score, n)) :: rest =>
      if (2 <=? n)%Z
      then (genre, fl (total_score / inject_Z n)) :: averages rest
      else averages rest
  end.

Definition _get_user_genre_preferences (db : Database) (user_id : UUID)
    (user_ratings : list (Z * Q)) : outcome (list (string * Q)) :=
  try_except
    (match user_ratings with
     | [] => Returned []
     | _ => Returned (averages (genre_totals db user_ratings))
     end)
    (fun _ => Returned []).

Fixpoint collect_preferences (db : Database)
    (all_user_ratings : list (UUID * list (Z * Q))) (user_ids : list UUID)
    (user_genre_preferences : list (UUID * list (string * Q)))
  : outcome (list (UUID * list (string * Q))) :=
  match user_ids with
  | [] => Returned user_genre_preferences
  | user_id :: rest =>
      genre_prefs <-
        _get_user_genre_preferences db user_id
          (GroupRecommender.ratings_for all_user_ratings user_id) ;;
      collect_preferences db all_user_ratings rest
        (assoc_set uuid_eqb user_id genre_prefs user_genre_preferences)
  end.

Definition _find_consensus_candidates (db : Database)
    (all_user_ratings : list (UUID * list (Z * Q))) (user_ids : list UUID)
    (exclude_movies : list Z) (candidate_limit : nat)
  : outcome (list Movie.t) :=
  try_except
    (user_genre_preferences <-
       collect_preferences db all_user_ratings user_ids [] ;;
     let common_genres :=
       GroupRecommender.common_genres_of user_genre_preferences user_ids in
     match common_genres with
     | _ :: _ =>
         Returned
           (GroupRecommender.unique_movies []
              (firstn candidate_limit
                 (sorted_desc popularity_gtb
                    (filter (fun m => Movie.is_active m && vote_count_ge m 50
                                      && GroupRecommender.not_excluded
                                           exclude_movies m)
                       (GroupRecommender.joined_rows common_genres
                          (movies db))))))
     | [] =>
         Returned
           (firstn candidate_limit
              (sorted_desc popularity_gtb
                 (filter (fun m => Movie.is_active m && vote_count_ge m 100
                                   && GroupRecommender.not_excluded
                                        exclude_movies m)
                    (movies db))))
     end)
    (fun _ => Returned []).

(** [normalized_rating = (prefs[genre.name] - 1) / 4.0] and
    [genre_satisfaction += max(0, normalized_rating)]. *)
Definition add_genre_satisfaction (user_genre_prefs : list (string * Q))
    (acc : Q * Z) (genre : string) : Q * Z :=
  match assoc_get String.eqb genre user_genre_prefs with
  | Some avg =>
      let normalized_rating := fl (fl (avg - 1) / 4) in
      (fl (fst acc + Qmax 0 normalized_rating), (snd acc + 1)%Z)
  | None => acc
  end.

Definition _predict_user_satisfaction (db : Database) (movie : Movie.t)
    (user_id : UUID) (user_ratings : list (Z * Q)) : outcome Q :=
  try_except
    (match user_ratings with
     | [] => Returned (fl (or_default (Movie.vote_average movie) 5 / 10))
     | _ =>
         user_genre_prefs <-
           _get_user_genre_preferences db user_id user_ratings ;;
         match user_genre_prefs with
         | [] => Returned 0.5
         | _ =>
             let '(genre_satisfaction, genre_count) :=
               fold_left (add_genre_satisfaction user_genre_prefs)
                 (Movie.genres movie) (0, 0%Z) in
             let genre_satisfaction :=
               if (0 <? genre_count)%Z
               then fl (genre_satisfaction / inject_Z genre_count)
               else genre_satisfaction in
             let quality_boost :=
               if truthy (Movie.vote_average movie)
                  && Qle_bool 7 (or_default (Movie.vote_average movie) 0)
               then fl 0.1 else 0 in
             let quality_penalty :=
               if truthy (Movie.vote_average movie)
                  && Qltb (or_default (Movie.vote_average movie) 0) 5
               then fl 0.2 else 0 in
             let final_satisfaction :=
               fl (fl (genre_satisfaction + quality_boost) - quality_penalty) in
             Returned (GroupRecommender.clamp01 final_satisfaction)
         end
     end)
    (fun _ => Returned 0.5).

(** [0.6 * mean_satisfaction + 0.4 * min_satisfaction] *)
Definition _calculate_group_satisfaction (db : Database) (movie : Movie.t)
    (user_ids : list UUID) (all_user_ratings : list (UUID * list (Z * Q)))
  : outcome Q :=
  try_except
    (individual_satisfactions <-
       mapM (fun user_id =>
               _predict_user_satisfaction db movie user_id
                 (GroupRecommender.ratings_for all_user_ratings user_id))
         user_ids ;;
     match individual_satisfactions with
     | [] => Returned 0
     | _ =>
         let mean_satisfaction := np_mean individual_satisfactions in
         let min_satisfaction := GroupRecommender.np_min individual_satisfactions in
         let group_satisfaction :=
           fl (fl (fl 0.6 * mean_satisfaction) + fl (fl 0.4 * min_satisfaction)) in
         Returned (GroupRecommender.clamp01 group_satisfaction)
     end)
    (fun _ => Returned 0).

Fixpoint score_candidates (db : Database) (uuid_user_ids : list UUID)
    (all_user_ratings : list (UUID * list (Z * Q))) (min_satisfaction : Q)
    (candidate_movies : list Movie.t) : outcome (list (Movie.t * Q)) :=
  match candidate_movies with
  | [] => Returned []
  | movie :: rest =>
      satisfaction_score <-
        _calculate_group_satisfaction db movie uuid_user_ids all_user_ratings ;;
      scored <-
        score_candidates db uuid_user_ids all_user_ratings min_satisfaction rest ;;
      Returned (if Qle_bool min_satisfaction satisfaction_score
                then (movie, satisfaction_score) :: scored else scored)
  end.

Definition get_group_recommendations (parse_uuid : string -> option UUID)
    (db : Database) (user_ids : list string) (limit : nat) (min_satisfaction : Q)
  : outcome (list MovieSchema.t) :=
  try_except
    (if (List.length user_ids <? 2)%nat then Returned []
     else
       let uuid_user_ids := GroupRecommender.valid_uuids parse_uuid user_ids in
       if (List.length uuid_user_ids <? 2)%nat then Returned []
       else
         let '(all_user_ratings, all_rated_movies) :=
           GroupRecommender.load_ratings db uuid_user_ids [] [] in
         candidate_movies <-
           _find_consensus_candidates db all_user_ratings uuid_user_ids
             all_rated_movies 200 ;;
         scored_movies <-
           score_candidates db uuid_user_ids all_user_ratings
             min_satisfaction candidate_movies ;;
         let scored_movies :=
           sorted_desc GroupRecommender.satisfaction_gtb scored_movies in
         mapM (fun ms => _movie_to_schema (fst ms))
           (firstn limit scored_movies))
    (fun _ => Returned []).

(** The members' predicted satisfactions for a movie, the group score,
    the candidate pool and the candidates at or above a threshold, as the
    functions above answer them. *)
Definition individual_satisfactions (db : Database) (movie : Movie.t)
    (user_ids : list UUID) (all_user_ratings : list (UUID * list (Z * Q)))
  : list Q :=
  map (fun u =>
         match _predict_user_satisfaction db movie u
                 (GroupRecommender.ratings_for all_user_ratings u) with
         | Returned s => s
         | Raised _ => 0.5
         end)
    user_ids.

Definition group_satisfaction (db : Database) (user_ids : list UUID)
    (all_user_ratings : list (UUID * list (Z * Q))) (movie : Movie.t) : Q :=
  match _calculate_group_satisfaction db movie user_ids all_user_ratings with
  | Returned s => s
  | Raised _ => 0
  end.

Definition group_candidates (db : Database) (user_ids : list UUID) : list Movie.t :=
  let loaded := GroupRecommender.load_ratings db user_ids [] [] in
  match _find_consensus_candidates db (fst loaded) user_ids (snd loaded) 200 with
  | Returned candidates => candidates
  | Raised _ => []
  end.

Definition qualifying (db : Database) (user_ids : list UUID) (thr : Q)
  : list Movie.t :=
  let aur := fst (GroupRecommender.load_ratings db user_ids [] []) in
  filter (fun m => Qle_bool thr (group_satisfaction db user_ids aur m))
    (group_candidates db user_ids).
End Arithmetic.

End Rounded.

(** ** Collaborative scorer ([collaborative.py]) *)

Module Collaborative.

(** The attributes of a [CollaborativeRecommender].  Keys of
    [user_index_map] are [str(user_id)], kept here as the id itself. *)
Record State := {
  user_movie_matrix : option (list (list Q));
  user_similarity_matrix : option (list (list Q));
  user_index_map : list (UUID * nat);
  movie_index_map : list (Z * nat);
  reverse_user_map : list (nat * UUID);
  reverse_movie_map : list (nat * Z)
}.

(** [__init__] *)
Definition init : State :=
  {| user_movie_matrix := None; user_similarity_matrix := None;
     user_index_map := []; movie_index_map := [];
     reverse_user_map := []; reverse_movie_map := [] |}.

(** What [collaborative_matrix.pkl] holds when the file exists. *)
Record Pickle := {
  p_user_movie_matrix : list (list Q);
  p_user_index_map : list (UUID * nat);
  p_movie_index_map : list (Z * nat);
  p_reverse_user_map : list (nat * UUID);
  p_reverse_movie_map : list (nat * Z)
}.

(** [Series.unique()]: first occurrences, in order. *)
Fixpoint unique {A} (eqb : A -> A -> bool) (l : list A) : list A :=
  match l with
  | [] => []
  | x :: xs => x :: filter (fun y => negb (eqb x y)) (unique eqb xs)
  end.

(** [value_counts()[x]] *)
Definition count_of {A} (eqb : A -> A -> bool) (x : A) (l : list A) : nat :=
  List.length (filter (eqb x) l).

Fixpoint update_nth {A} (n : nat) (f : A -> A) (l : list A) : list A :=
  match l, n with
  | [], _ => []
  | x :: xs, O => f x :: xs
  | x :: xs, S n' => x :: update_nth n' f xs
  end.

(** [M[i, j] = v] *)
Definition set_entry (i j : nat) (v : Q) (M : list (list Q)) : list (list Q) :=
  update_nth i (update_nth j (fun _ => v)) M.

Definition zeros (n m : nat) : list (list Q) := repeat (repeat 0 m) n.

Definition index_map {K} (eqb : K -> K -> bool) (keys : list K) : list (K * nat) :=
  fold_left (fun d ik => assoc_set eqb (snd ik) (fst ik) d)
    (ContentBased.enumerate keys) [].

Definition reverse_map {K} (d : list (K * nat)) : list (nat * K) :=
  fold_left (fun r kv => assoc_set Nat.eqb (snd kv) (fst kv) r) d [].

(** The matrix-filling loop over [df_filtered.iterrows()]. *)
Definition fill_matrix (users : list (UUID * nat)) (items : list (Z * nat))
    (rows : list Rating.t) (M : list (list Q)) : list (list Q) :=
  fold_left
    (fun M r =>
       match assoc_get uuid_eqb (Rating.user_id r) users,
             assoc_get Z.eqb (Rating.movie_id r) items with
       | Some user_idx, Some movie_idx =>
           set_entry user_idx movie_idx (Rating.rating r) M
       | _, _ => M
       end)
    rows M.

Section Scorer.
Variable np_sqrt : Q -> Q.
(** [np.argsort]: the indices that sort the array ascending. *)
Variable np_argsort : list Q -> list nat.

(** [_compute_user_item_matrix].  The name [matrix_path] is not bound in
    this function, so once the matrices are assigned the save raises
    [NameError], which the handler logs and re-raises. *)
Definition _compute_user_item_matrix (db : Database) (self : State)
  : State * outcome unit :=
  let ratings := ratings db in
  if (List.length ratings <? 100)%nat then (self, Returned tt)
  else
    let users := map Rating.user_id ratings in
    let items := map Rating.movie_id ratings in
    let df_filtered :=
      filter (fun r => (5 <=? count_of uuid_eqb (Rating.user_id r) users)%nat
                       && (5 <=? count_of Z.eqb (Rating.movie_id r) items)%nat)
        ratings in
    if (List.length df_filtered <? 50)%nat then (self, Returned tt)
    else
      let unique_users := unique uuid_eqb (map Rating.user_id df_filtered) in
      let unique_movies := unique Z.eqb (map Rating.movie_id df_filtered) in
      let uim := index_map uuid_eqb unique_users in
      let mim := index_map Z.eqb unique_movies in
      let n_users := List.length unique_users in
      let n_movies := List.length unique_movies in
      let M := fill_matrix uim mim df_filtered (zeros n_users n_movies) in
      ({| user_movie_matrix := Some M;
          user_similarity_matrix := Some (Cosine.cosine_similarity np_sqrt M);
          user_index_map := uim; movie_index_map := mim;
          reverse_user_map := reverse_map uim;
          reverse_movie_map := reverse_map mim |},
       Raised (NameError "matrix_path")).

(** [_load_or_compute_matrix]; the pickle does not hold the user
    similarity matrix. *)
Definition _load_or_compute_matrix (pickle : option Pickle) (db : Database)
    (self : State) : State * outcome unit :=
  match pickle with
  | Some data =>
      ({| user_movie_matrix := Some (p_user_movie_matrix data);
          user_similarity_matrix := user_similarity_matrix self;
          user_index_map := p_user_index_map data;
          movie_index_map := p_movie_index_map data;
          reverse_user_map := p_reverse_user_map data;
          reverse_movie_map := p_reverse_movie_map data |},
       Returned tt)
  | None =>
      match _compute_user_item_matrix db self with
      | (self', Returned tt) => (self', Returned tt)
      | (self', Raised _) => _compute_user_item_matrix db self'
      end
  end.

(** The list comprehension of [_find_similar_users]. *)
Fixpoint with_similarity (user_similarities : list Q) (indices : list nat)
  : outcome (list (nat * Q)) :=
  match indices with
  | [] => Returned []
  | idx :: rest =>
      match nth_error user_similarities idx with
      | None => Raised IndexError
      | Some sim =>
          tl <- with_similarity user_similarities rest ;;
          Returned (if Qltb 0.1 sim then (idx, sim) :: tl else tl)
      end
  end.

Definition _find_similar_users (self : State) (user_idx : nat) (limit : nat)
  : outcome (list (nat * Q)) :=
  try_except
    (match user_similarity_matrix self with
     | None => Returned []
     | Some similarity =>
         match nth_error similarity user_idx with
         | None => Raised IndexError
         | Some user_similarities =>
             let similar_user_indices :=
               firstn limit (skipn 1 (rev (np_argsort user_similarities))) in
             with_similarity user_similarities similar_user_indices
         end
     end)
    (fun _ => Returned []).

(** [set(np.where(user_ratings > 0)[0])] *)
Definition rated_columns (user_ratings : list Q) : list nat :=
  map fst (filter (fun ir => Qltb 0 (snd ir)) (ContentBased.enumerate user_ratings)).

Definition mem_nat (x : nat) (l : list nat) : bool := existsb (Nat.eqb x) l.

(** One step of [for movie_idx, rating in enumerate(...)].  A movie id
    of 0 is falsy and skipped, like a missing one. *)
Definition add_recommendation (self : State) (rated_movies : list nat)
    (similarity_score : Q) (recommendations : list (Z * Q)) (ir : nat * Q)
  : list (Z * Q) :=
  let '(movie_idx, rating) := ir in
  if Qle_bool 4 rating && negb (mem_nat movie_idx rated_movies) then
    match assoc_get Nat.eqb movie_idx (reverse_movie_map self) with
    | Some movie_id =>
        if (movie_id =? 0)%Z then recommendations
        else
          let current :=
            match assoc_get Z.eqb movie_id recommendations with
            | Some v => v
            | None => 0
            end in
          assoc_set Z.eqb movie_id
            (current + similarity_score * (rating / 5)) recommendations
    | None => recommendations
    end
  else recommendations.

(** The loop over the similar users. *)
Fixpoint add_similar_users (self : State) (M : list (list Q))
    (rated_movies : list nat) (similar_users : list (nat * Q))
    (recommendations : list (Z * Q)) : outcome (list (Z * Q)) :=
  match similar_users with
  | [] => Returned recommendations
  | (similar_user_idx, similarity_score) :: rest =>
      match nth_error M similar_user_idx with
      | None => Raised IndexError
      | Some similar_user_ratings =>
          add_similar_users self M rated_movies rest
            (fold_left (add_recommendation self rated_movies similarity_score)
               (ContentBased.enumerate similar_user_ratings) recommendations)
      end
  end.

Definition score_gtb (y x : Z * Q) : bool := Qltb (snd x) (snd y).

(** The conversion loop, which skips ids without a row. *)
Fixpoint to_schemas (db : Database) (sorted_recommendations : list (Z * Q))
  : outcome (list MovieSchema.t) :=
  match sorted_recommendations with
  | [] => Returned []
  | (movie_id, _) :: rest =>
      match movie_by_id db movie_id with
      | Some movie =>
          movie_schema <- _movie_to_schema movie ;;
          tl <- to_schemas db rest ;;
          Returned (movie_schema :: tl)
      | None => to_schemas db rest
      end
  end.

Definition get_recommendations (pickle : option Pickle) (db : Database)
    (self : State) (user_id : UUID) (limit : nat) (exclude_watched : bool)
  : outcome (list MovieSchema.t) :=
  try_except
    (let '(self, loaded) :=
       match user_movie_matrix self with
       | None => _load_or_compute_matrix pickle db self
       | Some _ => (self, Returned tt)
       end in
     _ <- loaded ;;
     match assoc_get uuid_eqb user_id (user_index_map self) with
     | None => _get_popular_movies db limit
     | Some user_idx =>
         match user_movie_matrix self with
         | None => Raised TypeError
         | Some M =>
             match nth_error M user_idx with
             | None => Raised IndexError
             | Some user_ratings =>
                 similar_users <- _find_similar_users self user_idx 50 ;;
                 let rated_movies := rated_columns user_ratings in
                 recommendations <-
                   add_similar_users self M rated_movies
                     (firstn 50 similar_users) [] ;;
                 let sorted_recommendations :=
                   firstn limit (sorted_desc score_gtb recommendations) in
                 to_schemas db sorted_recommendations
             end
         end
     end)
    (fun _ => _get_popular_movies db limit).

(** [train_model]: [True] when [_compute_user_item_matrix] returns,
    [False] when it raises. *)
Definition train_model (db : Database) (self : State) : State * bool :=
  match _compute_user_item_matrix db self with
  | (self', Returned _) => (self', true)
  | (self', Raised _) => (self', false)
  end.
End Scorer.

(** [get_explanation] *)
Section Explaining.
Variable np_argsort : list Q -> list nat.
(** [round(x, ndigits)] and the format [{x:.1f}] of a float. *)
Variable py_round : Q -> Z -> Q.
Variable format_1f : Q -> string.

(** The loop over the similar users: for those who rated the movie at
    least 4.0, the rounded similarity and the rating. *)
Fixpoint similar_user_ratings (user_movie_matrix : option (list (list Q)))
    (movie_idx : nat) (similar_users : list (nat * Q)) : outcome (list (Q * Q)) :=
  match similar_users with
  | [] => Returned []
  | (similar_user_idx, similarity_score) :: rest =>
      match user_movie_matrix with
      | None => Raised TypeError
      | Some M =>
          match nth_error M similar_user_idx with
          | None => Raised IndexError
          | Some row =>
              match nth_error row movie_idx with
              | None => Raised IndexError
              | Some rating =>
                  tl <- similar_user_ratings user_movie_matrix movie_idx rest ;;
                  Returned (if Qle_bool 4 rating
                            then (py_round similarity_score 3, rating) :: tl
                            else tl)
              end
          end
      end
  end.

Definition get_explanation (self : State) (user_id : UUID) (movie_id : Z)
  : outcome (option Explanation.t) :=
  try_except
    (match assoc_get uuid_eqb user_id (user_index_map self),
           assoc_get Z.eqb movie_id (movie_index_map self) with
     | Some user_idx, Some movie_idx =>
         similar_users <- _find_similar_users np_argsort self user_idx 20 ;;
         similar_user_ratings <-
           similar_user_ratings (user_movie_matrix self) movie_idx similar_users ;;
         match similar_user_ratings with
         | [] => Returned None
         | _ =>
             let avg_rating :=
               GroupRecommender.np_mean (map snd similar_user_ratings) in
             Returned
               (Some
                  (Explanation.mk "collaborative"
                     ("Users similar to you rated this movie "
                      ++ format_1f avg_rating ++ "/5 on average")%string
                     (Explanation.Collaborative
                        (Z.of_nat (List.length similar_user_ratings))
                        (py_round avg_rating 1))))
         end
     | _, _ => Returned None
     end)
    (fun _ => Returned None).
End Explaining.

End Collaborative.

(** ** Hybrid aggregator ([hybrid_recommender.py]) *)

Module Hybrid.

Record Weights := {
  content_weight : Q;
  collaborative_weight : Q;
  popularity_weight : Q
}.

(** [db.query(Rating).filter(Rating.user_id == user_id).count()] *)
Definition user_ratings_count (db : Database) (user_id : UUID) : Z :=
  Z.of_nat (List.length (ratings_of db user_id)).

(** The [if/elif/else] of [get_personal_recommendations]. *)
Definition activity_weights (user_ratings_count : Z) : Weights :=
  if (user_ratings_count <? 5)%Z then
    {| content_weight := 0.6; collaborative_weight := 0.1;
       popularity_weight := 0.3 |}
  else if (user_ratings_count <? 20)%Z then
    {| content_weight := 0.5; collaborative_weight := 0.3;
       popularity_weight := 0.2 |}
  else
    {| content_weight := 0.3; collaborative_weight := 0.6;
       popularity_weight := 0.1 |}.

Definition personal_weights (db : Database) (user_id : UUID) : Weights :=
  activity_weights (user_ratings_count db user_id).

(** One of the three [for i, movie in enumerate(recs)] loops. *)
Definition add_positional_scores (weight : Q) (recs : list MovieSchema.t)
    (movie_scores : list (Z * Q)) : list (Z * Q) :=
  fold_left
    (fun movie_scores im =>
       let score :=
         weight * (1 - inject_Z (Z.of_nat (fst im))
                       / inject_Z (Z.of_nat (List.length recs))) in
       let current :=
         match assoc_get Z.eqb (MovieSchema.id (snd im)) movie_scores with
         | Some v => v
         | None => 0
         end in
       assoc_set Z.eqb (MovieSchema.id (snd im)) (current + score) movie_scores)
    (ContentBased.enumerate recs) movie_scores.

(** The loop that drops repeated ids from [trending + popular]. *)
Fixpoint first_by_id (seen_ids : list Z) (l : list MovieSchema.t)
  : list MovieSchema.t :=
  match l with
  | [] => []
  | movie :: rest =>
      if mem_Z (MovieSchema.id movie) seen_ids then first_by_id seen_ids rest
      else movie :: first_by_id (MovieSchema.id movie :: seen_ids) rest
  end.

(** The final loop: the stored object of each ranked id. *)
Fixpoint pick_movies (all_movies : list (Z * MovieSchema.t))
    (sorted_movies : list (Z * Q)) : list MovieSchema.t :=
  match sorted_movies with
  | [] => []
  | (movie_id, _) :: rest =>
      match assoc_get Z.eqb movie_id all_movies with
      | Some movie => movie :: pick_movies all_movies rest
      | None => pick_movies all_movies rest
      end
  end.

Section Aggregator.
Variable np_sqrt : Q -> Q.
Variable np_argsort : list Q -> list nat.
(** What the TMDB client answers for today's trending and for the popular
    movies. *)
Variable trending_day : outcome (list MovieSchema.t).
Variable popular_page : outcome (list MovieSchema.t).
(** The content matrix after loading, and the collaborative pickle. *)
Variable content_model : option ContentBased.Model.
Variable pickle : option Collaborative.Pickle.

Definition _get_trending_for_user (db : Database) (user_id : UUID) (limit : nat)
  : outcome (list MovieSchema.t) :=
  try_except
    (trending <- trending_day ;;
     popular <- popular_page ;;
     let all_trending := first_by_id [] (trending ++ popular) in
     let user_rated_movies := map Rating.movie_id (ratings_of db user_id) in
     let filtered_trending :=
       filter (fun movie => negb (mem_Z (MovieSchema.id movie) user_rated_movies))
         all_trending in
     Returned (firstn limit filtered_trending))
    (fun _ => Returned []).

Definition get_personal_recommendations (db : Database) (user_id : UUID)
    (limit : nat) : outcome (list MovieSchema.t) :=
  try_except
    (let w := activity_weights (user_ratings_count db user_id) in
     content_recs <-
       ContentBased.get_recommendations db content_model user_id (limit * 2) true ;;
     collaborative_recs <-
       Collaborative.get_recommendations np_sqrt np_argsort pickle db
         Collaborative.init user_id (limit * 2) true ;;
     popular_recs <- _get_trending_for_user db user_id limit ;;
     let movie_scores := [] in
     let movie_scores :=
       add_positional_scores (content_weight w) content_recs movie_scores in
     let movie_scores :=
       add_positional_scores (collaborative_weight w) collaborative_recs
         movie_scores in
     let movie_scores :=
       add_positional_scores (popularity_weight w) popular_recs movie_scores in
     let sorted_movies := sorted_desc Collaborative.score_gtb movie_scores in
     let all_movies :=
       fold_left (fun d movie => assoc_set Z.eqb (MovieSchema.id movie) movie d)
         (content_recs ++ collaborative_recs ++ popular_recs) [] in
     Returned (pick_movies all_movies (firstn limit sorted_movies)))
    (fun _ => ContentBased.get_recommendations db content_model user_id limit true).

(** What the TMDB client answers for this week's trending movies. *)
Variable trending_week : outcome (list MovieSchema.t).

(** The dict comprehension of [_get_user_genre_preferences]: genres with
    at least 2 ratings, with the average normalised to [-1, 1]. *)
Fixpoint preferences (totals : list (string * (Q * Z))) : list (string * Q) :=
  match totals with
  | [] => []
  | (genre, (total_score, n)) :: rest =>
      if (2 <=? n)%Z then
        let avg_score := total_score / inject_Z n in
        (genre, (avg_score - 2.5) / 2.5) :: preferences rest
      else preferences rest
  end.

(** [_get_user_genre_preferences].  The module does not import [Movie], so
    building the query raises [NameError] and the handler answers the
    empty dict. *)
Definition _get_user_genre_preferences (db : Database) (user_id : UUID)
  : outcome (list (string * Q)) :=
  try_except
    (user_ratings <-
       (Raised (NameError "Movie") : outcome (list (Rating.t * Movie.t))) ;;
     match user_ratings with
     | [] => Returned []
     | _ =>
         let totals :=
           fold_left
             (fun d rm =>
                match Movie.genres (snd rm) with
                | [] => d
                | genres =>
                    fold_left
                      (GroupRecommender.add_genre (Rating.rating (fst rm)))
                      genres d
                end)
             user_ratings [] in
         Returned (preferences totals)
     end)
    (fun _ => Returned []).

(** The scoring loop of [get_personalized_trending]; its query names
    [Movie] as well. *)
Definition score_trending (user_genre_preferences : list (string * Q))
    (movie : MovieSchema.t) : outcome (MovieSchema.t * Q) :=
  movie_obj <- (Raised (NameError "Movie") : outcome (option Movie.t)) ;;
  let score :=
    match movie_obj with
    | Some movie_obj =>
        fold_left
          (fun score genre =>
             match assoc_get String.eqb genre user_genre_preferences with
             | Some preference => score + preference
             | None => score
             end)
          (Movie.genres movie_obj) 0
    | None => 0
    end in
  Returned (movie, score).

Definition trending_gtb (y x : MovieSchema.t * Q) : bool := Qltb (snd x) (snd y).

Definition get_personalized_trending (db : Database) (user_id : UUID)
    (limit : nat) : outcome (list MovieSchema.t) :=
  try_except
    (user_genre_preferences <- _get_user_genre_preferences db user_id ;;
     trending_movies <- trending_week ;;
     match user_genre_preferences with
     | [] => Returned (firstn limit trending_movies)
     | _ =>
         scored_movies <-
           mapM (score_trending user_genre_preferences) trending_movies ;;
         let scored_movies := sorted_desc trending_gtb scored_movies in
         Returned (map fst (firstn limit scored_movies))
     end)
    (fun _ => Returned []).

(** [round(x, ndigits)], [str] of a float, [list] of a set of strings and
    the format [{x:.1f}]. *)
Variable py_round : Q -> Z -> Q.
Variable str_float : Q -> string.
Variable list_of_set : list string -> list string.
Variable format_1f : Q -> string.

Definition _check_trending_explanation (movie_id : Z)
  : outcome (option Explanation.t) :=
  try_except
    (trending_today <- trending_day ;;
     trending_week <- trending_week ;;
     let is_trending_today :=
       existsb (fun movie => (MovieSchema.id movie =? movie_id)%Z)
         trending_today in
     let is_trending_week :=
       existsb (fun movie => (MovieSchema.id movie =? movie_id)%Z)
         trending_week in
     if is_trending_today then
       Returned
         (Some (Explanation.mk "trending" "This movie is trending today"
                  (Explanation.Trending "today")))
     else if is_trending_week then
       Returned
         (Some (Explanation.mk "trending" "This movie is trending this week"
                  (Explanation.Trending "week")))
     else Returned None)
    (fun _ => Returned None).

Definition _calculate_recommendation_strength
    (explanations : list Explanation.t) : string :=
  if (3 <=? List.length explanations)%nat then "very_high"
  else if (List.length explanations =? 2)%nat then "high"
  else if (List.length explanations =? 1)%nat then "medium"
  else "low".

(** The dict [explain_recommendation] answers. *)
Record Combined := {
  primary_reason : string;
  explanation_type : string;
  confidence_score : Q;
  additional_factors : list string;
  recommendation_strength : string
}.

(** [if x: explanations.append(x)] *)
Definition append_if (explanations : list Explanation.t)
    (x : option Explanation.t) : list Explanation.t :=
  match x with
  | Some e => explanations ++ [e]
  | None => explanations
  end.

(** [explain_recommendation]; [self] is the state of the aggregator's
    collaborative recommender. *)
Definition explain_recommendation (db : Database) (self : Collaborative.State)
    (user_id : UUID) (movie_id : Z) : outcome (option Combined) :=
  try_except
    (let explanations := [] in
     content_explanation <-
       ContentBased.get_explanation py_round str_float list_of_set db
         content_model user_id movie_id ;;
     let explanations := append_if explanations content_explanation in
     collaborative_explanation <-
       Collaborative.get_explanation np_argsort py_round format_1f self
         user_id movie_id ;;
     let explanations := append_if explanations collaborative_explanation in
     trending_explanation <- _check_trending_explanation movie_id ;;
     let explanations := append_if explanations trending_explanation in
     match explanations with
     | [] => Returned None
     | primary_explanation :: others =>
         Returned
           (Some
              {| primary_reason := Explanation.reason primary_explanation;
                 explanation_type := Explanation.type primary_explanation;
                 confidence_score :=
                   inject_Z (Z.of_nat (List.length explanations)) * 0.3;
                 additional_factors :=
                   if (1 <? List.length explanations)%nat
                   then map Explanation.reason others else [];
                 recommendation_strength :=
                   _calculate_recommendation_strength explanations |})
     end)
    (fun _ => Returned None).
End Aggregator.

End Hybrid.

(** ** The mood endpoint ([api/v1/recommendations.py]) *)

Module Api.

Definition valid_moods : list string :=
  [ "happy"; "sad"; "excited"; "romantic"; "adventurous";
    "relaxed"; "thoughtful"; "scared"; "nostalgic"; "energetic" ].

Definition invalid_mood : exn :=
  HTTPException 400
    ("Invalid mood. Valid options: " ++ ContentBased.join ", " valid_moods)%string.

Section Endpoints.
Variable polarity : string -> Q.
Variable math_log : Q -> Q.
(** [RedisCache().get(cache_key)]; the key is built from the mood as
    given, the user id and the limit. *)
Variable cache_get : string -> UUID -> nat -> option (list MovieSchema.t).

Definition get_mood_based_recommendations (db : Database) (mood : string)
    (limit : nat) (current_user : UUID) : outcome (list MovieSchema.t) :=
  try_except
    (if negb (mem_string (lower mood) valid_moods) then Raised invalid_mood
     else
       match cache_get mood current_user limit with
       | Some (r :: rs) => Returned (r :: rs)
       | _ =>
           MoodAnalyzer.get_mood_recommendations polarity math_log db
             current_user (lower mood) limit
       end)
    (fun e =>
       match e with
       | HTTPException _ _ => Raised e
       | _ => Raised (HTTPException 500
                        "Failed to generate mood-based recommendations")
       end).
End Endpoints.

(** [GET /explanation/{movie_id}]: every request builds a new
    [HybridRecommender], inside the [try]; its collaborative recommender
    would be in its initial state. *)
Section ExplanationEndpoint.
Variable np_argsort : list Q -> list nat.
Variable trending_day : outcome (list MovieSchema.t).
Variable trending_week : outcome (list MovieSchema.t).
Variable content_model : option ContentBased.Model.
Variable py_round : Q -> Z -> Q.
Variable str_float : Q -> string.
Variable list_of_set : list string -> list string.
Variable format_1f : Q -> string.

Definition no_explanation : exn :=
  HTTPException 404 "No explanation available for this recommendation".

Definition get_recommendation_explanation (db : Database) (movie_id : Z)
    (current_user : UUID) : outcome Hybrid.Combined :=
  try_except
    (recommender <-
       RecommendationEngine.instantiate RecommendationEngine.HybridRecommender ;;
     explanation <-
       Hybrid.explain_recommendation np_argsort trending_day content_model
         trending_week py_round str_float list_of_set format_1f db
         Collaborative.init current_user movie_id ;;
     match explanation with
     | None => Raised no_explanation
     | Some e => Returned e
     end)
    (fun e =>
       match e with
       | HTTPException _ _ => Raised e
       | _ => Raised (HTTPException 500
                        "Failed to get recommendation explanation")
       end).
End ExplanationEndpoint.

(** [GET /personal] and [GET /trending-for-you]: a non-empty cached list is
    served (for [/personal] unless [refresh] is set); otherwise a
    [HybridRecommender] is built and asked.  Both handlers turn every
    exception into a 500. *)
Section AggregatorEndpoints.
Variable np_sqrt : Q -> Q.
Variable np_argsort : list Q -> list nat.
Variable trending_day : outcome (list MovieSchema.t).
Variable popular_page : outcome (list MovieSchema.t).
Variable trending_week : outcome (list MovieSchema.t).
Variable content_model : option ContentBased.Model.
Variable pickle : option Collaborative.Pickle.
(** [RedisCache().get(cache_key)] for the two keys, each built from the
    user id and the limit. *)
Variable personal_cache : UUID -> nat -> option (list MovieSchema.t).
Variable trending_cache : UUID -> nat -> option (list MovieSchema.t).

Definition personal_failed : exn :=
  HTTPException 500 "Failed to generate personal recommendations".
Definition trending_failed : exn :=
  HTTPException 500 "Failed to generate personalized trending movies".

Definition get_personal_recommendations (db : Database) (limit : nat)
    (refresh : bool) (current_user : UUID) : outcome (list MovieSchema.t) :=
  try_except
    (match (if refresh then None else personal_cache current_user limit) with
     | Some (r :: rs) => Returned (r :: rs)
     | _ =>
         recommender <-
           RecommendationEngine.instantiate
             RecommendationEngine.HybridRecommender ;;
         Hybrid.get_personal_recommendations np_sqrt np_argsort trending_day
           popular_page content_model pickle db current_user limit
     end)
    (fun _ => Raised personal_failed).

Definition get_personalized_trending (db : Database) (limit : nat)
    (current_user : UUID) : outcome (list MovieSchema.t) :=
  try_except
    (match trending_cache current_user limit with
     | Some (r :: rs) => Returned (r :: rs)
     | _ =>
         recommender <-
           RecommendationEngine.instantiate
             RecommendationEngine.HybridRecommender ;;
         Hybrid.get_personalized_trending trending_week db current_user limit
     end)
    (fun _ => Raised trending_failed).
End AggregatorEndpoints.

(** [GET /group] *)
Section GroupEndpoint.
(** [uuid.UUID(s)] and [str(current_user.id)]. *)
Variable parse_uuid : string -> option UUID.
Variable uuid_str : UUID -> string.
(** [RedisCache().get(cache_key)]; the key is built from the sorted ids
    and the limit. *)
Variable cache_get : list string -> nat -> option (list MovieSchema.t).

Definition group_too_large : exn :=
  HTTPException 400 "Group size cannot exceed 10 users".

Definition get_group_recommendations (db : Database) (user_ids : list string)
    (limit : nat) (current_user : UUID) : outcome (list MovieSchema.t) :=
  try_except
    (let user_ids :=
       if negb (mem_string (uuid_str current_user) user_ids)
       then user_ids ++ [uuid_str current_user] else user_ids in
     if (10 <? List.length user_ids)%nat then Raised group_too_large
     else
       match cache_get user_ids limit with
       | Some (r :: rs) => Returned (r :: rs)
       | _ =>
           GroupRecommender.get_group_recommendations parse_uuid db user_ids
             limit 0.6
       end)
    (fun e =>
       match e with
       | HTTPException _ _ => Raised e
       | _ => Raised (HTTPException 500
                        "Failed to generate group recommendations")
       end).
End GroupEndpoint.

End Api.

(** ** Auxiliary notions used in the statements *)

(** The texts the sentiment loop scores: the sampled reviews that have a
    content. *)
Definition scored_texts (rs : list Review.t) : list string :=
  flat_map (fun r => match Review.content r with
                     | Some (String c s) => [String c s]
                     | _ => []
                     end) rs.

(** What [_get_user_genre_preferences] answers for a member of the group. *)
Definition preferences_of (db : Database)
    (all_user_ratings : list (UUID * list (Z * Q))) (u : UUID)
  : list (string * Q) :=
  match GroupRecommender._get_user_genre_preferences db u
          (GroupRecommender.ratings_for all_user_ratings u) with
  | Returned prefs => prefs
  | Raised _ => []
  end.

(** A preference dict rates the genre at least 3.5. *)
Definition likes_in (prefs : list (string * Q)) (g : string) : bool :=
  match assoc_get String.eqb g prefs with
  | Some avg => Qle_bool 3.5 avg
  | None => false
  end.

(** The member's average in the genre exists and is at least 3.5. *)
Definition likes (db : Database)
    (all_user_ratings : list (UUID * list (Z * Q))) (g : string) (u : UUID) : bool :=
  likes_in (preferences_of db all_user_ratings u) g.

(** The ratings a user gave to the movies of a genre: one per stored movie
    that carries the genre and that the user rated. *)
Definition genre_ratings (db : Database) (user_ratings : list (Z * Q))
    (g : string) : list Q :=
  flat_map (fun m =>
              match assoc_get Z.eqb (Movie.id m) user_ratings with
              | Some r => map (fun _ => r) (filter (String.eqb g) (Movie.genres m))
              | None => []
              end)
    (movies db).

(** Total and count stored for a genre, zero when the genre has no entry. *)
Definition total_of (g : string) (d : list (string * (Q * Z))) : Q :=
  match assoc_get String.eqb g d with Some tn => fst tn | None => 0 end.
Definition count_in (g : string) (d : list (string * (Q * Z))) : Z :=
  match assoc_get String.eqb g d with Some tn => snd tn | None => 0%Z end.
Definition support_of (g : string) (support : list (string * Z)) : Z :=
  match assoc_get String.eqb g support with Some n => n | None => 0%Z end.

(** The group score [_calculate_group_satisfaction] answers. *)
Definition group_satisfaction (db : Database) (user_ids : list UUID)
    (all_user_ratings : list (UUID * list (Z * Q))) (movie : Movie.t) : Q :=
  match GroupRecommender._calculate_group_satisfaction db movie user_ids
          all_user_ratings with
  | Returned s => s
  | Raised _ => 0
  end.

(** The candidate pool of a group. *)
Definition group_candidates (db : Database) (user_ids : list UUID) : list Movie.t :=
  let loaded := GroupRecommender.load_ratings db user_ids [] [] in
  match GroupRecommender._find_consensus_candidates db (fst loaded) user_ids
          (snd loaded) 200 with
  | Returned candidates => candidates
  | Raised _ => []
  end.

(** [M[i][j]] when both indices are in range. *)
Definition entry_opt (M : list (list Q)) (i j : nat) : option Q :=
  match nth_error M i with
  | Some row => nth_error row j
  | None => None
  end.

(** [M[i][j]] and [M[j][i]] exist together and are then equal. *)
Definition symmetric (M : list (list Q)) : Prop :=
  forall i j,
    match entry_opt M i j, entry_opt M j i with
    | Some x, Some y => x == y
    | None, None => True
    | _, _ => False
    end.

(** The neighbourhood [_get_similar_movies_internal] answers. *)
Definition neighbourhood (db : Database) (model : option ContentBased.Model)
    (movie_id : Z) (limit : nat) (exclude_ids : list Z) : list (Movie.t * Q) :=
  match ContentBased._get_similar_movies_internal db model movie_id limit
          exclude_ids with
  | Returned l => l
  | Raised _ => []
  end.

(** Every (candidate, term) pair the two loops of the content scorer visit,
    in order: for each source rating, each neighbour of the source with its
    similarity times [rating / 5]. *)
Definition weighted_terms (db : Database) (model : option ContentBased.Model)
    (rated_movie_ids : list Z) (user_ratings : list Rating.t)
  : list (Movie.t * Q) :=
  flat_map
    (fun r =>
       map (fun ms => (fst ms, snd ms * (Rating.rating r / 5)))
         (neighbourhood db model (Rating.movie_id r) 20 rated_movie_ids))
    user_ratings.

(** The terms that fall on one candidate. *)
Definition terms_for (movie_id : Z) (terms : list (Movie.t * Q)) : list Q :=
  map snd (filter (fun mt => (Movie.id (fst mt) =? movie_id)%Z) terms).

(** Score and count stored for a candidate, zero when it has no entry. *)
Definition score_in (k : Z) (d : list (Z * ContentBased.Candidate)) : Q :=
  match assoc_get Z.eqb k d with
  | Some c => ContentBased.score c
  | None => 0
  end.
Definition count_of_candidate (k : Z) (d : list (Z * ContentBased.Candidate)) : Z :=
  match assoc_get Z.eqb k d with
  | Some c => ContentBased.count c
  | None => 0%Z
  end.

(** The order of [ORDER BY popularity DESC] on the stored values: NULL
    first, then larger before smaller. *)
Definition popularity_ge (a b : option Q) : Prop :=
  match a, b with
  | None, _ => True
  | Some _, None => False
  | Some x, Some y => y <= x
  end.

(** The movies [_compute_similarity_matrix] trains on: active, with an
    overview and at least 10 votes, in storage order. *)
Definition training_movies (db : Database) : list Movie.t :=
  filter (fun m => Movie.is_active m
                   && match Movie.overview m with Some _ => true | None => false end
                   && vote_count_ge m 10)
    (movies db).

(** [df_filtered] of [_compute_user_item_matrix]: the ratings by users
    with at least 5 ratings of movies with at least 5 ratings. *)
Definition filtered_ratings (db : Database) : list Rating.t :=
  filter (fun r =>
            (5 <=? Collaborative.count_of uuid_eqb (Rating.user_id r)
                     (map Rating.user_id (ratings db)))%nat
            && (5 <=? Collaborative.count_of Z.eqb (Rating.movie_id r)
                        (map Rating.movie_id (ratings db)))%nat)
    (ratings db).

(** The rating of a movie by a user according to the rows: the last one
    when there are several, 0 when there is none. *)
Definition last_rating (rows : list Rating.t) (user_id : UUID) (movie_id : Z) : Q :=
  fold_left
    (fun acc r =>
       if uuid_eqb (Rating.user_id r) user_id && (Rating.movie_id r =? movie_id)%Z
       then Rating.rating r else acc)
    rows 0.

(** The score [_calculate_mood_score] answers for a movie. *)
Definition mood_score_of (polarity : string -> Q) (math_log : Q -> Q)
    (db : Database) (mood : string) (movie : Movie.t) : Q :=
  match MoodAnalyzer._calculate_mood_score polarity math_log db movie mood with
  | Returned s => s
  | Raised _ => 0
  end.

(** The order of the mood ranking between an entry and a later one: a
    larger score first, and among equal scores the larger popularity. *)
Definition mood_rank_ge (a b : Movie.t * Q) : Prop :=
  snd b < snd a
  \/ (snd b == snd a
      /\ or_default (Movie.popularity (fst b)) 0
         <= or_default (Movie.popularity (fst a)) 0).

(** The score a list of recommendations gives a movie id in the hybrid
    blend: [weight * (1 - i / len)] for every position [i] of the list that
    holds the id. *)
Definition positional_score (weight : Q) (recs : list MovieSchema.t)
    (movie_id : Z) : Q :=
  Qsum
    (map (fun im =>
            weight * (1 - inject_Z (Z.of_nat (fst im))
                          / inject_Z (Z.of_nat (List.length recs))))
       (filter (fun im => (MovieSchema.id (snd im) =? movie_id)%Z)
          (ContentBased.enumerate recs))).

(** The value a score dict holds for a key, 0 when it has none. *)
Definition score_of (k : Z) (d : list (Z * Q)) : Q :=
  match assoc_get Z.eqb k d with
  | Some v => v
  | None => 0
  end.

(** The similarities the content explanation compares: for each of the
    top ratings, in order, the rated movie paired with the similarity of
    every entry of its neighbourhood (50 neighbours, nothing excluded) that
    is the explained movie. *)
Definition explaining_similarities (db : Database)
    (model : option ContentBased.Model) (movie_id : Z)
    (top_rated : list (Rating.t * Movie.t)) : list (Movie.t * Q) :=
  flat_map
    (fun rating =>
       map (fun ms => (snd rating, snd ms))
         (filter (fun ms => (Movie.id (fst ms) =? movie_id)%Z)
            (neighbourhood db model (Rating.movie_id (fst rating)) 50 [])))
    top_rated.

(** What an explanation routine answers, [None] also if it raised. *)
Definition answer_of {A} (x : outcome (option A)) : option A :=
  match x with
  | Returned a => a
  | Raised _ => None
  end.

(** The ids the group endpoint works with: the caller is added when the
    list does not name them. *)
Definition group_members (uuid_str : UUID -> string) (user_ids : list string)
    (current_user : UUID) : list string :=
  if mem_string (uuid_str current_user) user_ids then user_ids
  else user_ids ++ [uuid_str current_user].

(** ** A small catalogue for the worked examples *)

Definition sample_movie (id : Z) (title : string) (genres : list string)
    (vote_average popularity : Q) : Movie.t :=
  Movie.mk id title (Some "A film.") None genres (Some vote_average)
    (Some 500%Z) (Some popularity) (Some 100%Z) (Some 2020%Z) true (Some 1%Z).

Definition comedy_night : Movie.t := sample_movie 1 "Comedy Night" ["Comedy"] 8 50.
Definition space_chase : Movie.t := sample_movie 2 "Space Chase" ["Action"] 7 40.
Definition quiet_house : Movie.t := sample_movie 3 "Quiet House" ["Horror"] 6 30.

Definition alice : UUID := 7%N.
Definition bob : UUID := 8%N.

(** Alice disliked the comedy. *)
Definition sample_db : Database :=
  {| ratings := [Rating.mk alice 1 2];
     movies := [comedy_night; space_chase; quiet_house];
     reviews := [] |}.

(** Stand-ins for TextBlob's polarity, [math.log] and an empty cache. *)
Definition no_polarity : string -> Q := fun _ => 0.
Definition flat_log : Q -> Q := fun _ => 0.
Definition empty_cache : string -> UUID -> nat -> option (list MovieSchema.t) :=
  fun _ _ _ => None.

(** A stand-in for [uuid.UUID]: two names that parse, nothing else does. *)
Definition sample_parse (s : string) : option UUID :=
  if String.eqb s "alice" then Some alice
  else if String.eqb s "bob" then Some bob
  else None.

(** The same catalogue before anyone has rated. *)
Definition unrated_db : Database :=
  {| ratings := []; movies := [comedy_night; space_chase; quiet_house];
     reviews := [] |}.

(** Three members and two horror films: the first two members rate them
    4 and 5, the third rates them 2. *)
Definition carol : UUID := 9%N.
Definition night_one : Movie.t := sample_movie 11 "Night One" ["Horror"] 7 20.
Definition night_two : Movie.t := sample_movie 12 "Night Two" ["Horror"] 7 10.
Definition horror_db : Database :=
  {| ratings := [ Rating.mk alice 11 4; Rating.mk alice 12 5;
                  Rating.mk bob 11 5; Rating.mk bob 12 4;
                  Rating.mk carol 11 2; Rating.mk carol 12 2 ];
     movies := [night_one; night_two; quiet_house];
     reviews := [] |}.
Definition horror_ratings : list (UUID * list (Z * Q)) :=
  fst (GroupRecommender.load_ratings horror_db [alice; bob; carol] [] []).

(** Three indexed films; Alice rated the first two 5.  The third is
    similar to both (0.5 each), the first two are similar to each other
    (0.6). *)
Definition film_a : Movie.t := sample_movie 21 "Film A" ["Drama"] 7 30.
Definition film_b : Movie.t := sample_movie 22 "Film B" ["Drama"] 7 20.
Definition film_x : Movie.t := sample_movie 23 "Film X" ["Drama"] 7 10.
Definition ranking_db : Database :=
  {| ratings := [Rating.mk alice 21 5; Rating.mk alice 22 5];
     movies := [film_a; film_b; film_x];
     reviews := [] |}.
Definition ranking_model : ContentBased.Model :=
  {| ContentBased.similarity_matrix :=
       [ [1; 0.6; 0.5]; [0.6; 1; 0.5]; [0.5; 0.5; 1] ];
     ContentBased.movie_indices := [(21%Z, 0%nat); (22%Z, 1%nat); (23%Z, 2%nat)] |}.

(** Alice liked Film A and disliked Film X. *)
Definition mixed_db : Database :=
  {| ratings := [Rating.mk alice 21 5; Rating.mk alice 23 2];
     movies := [film_a; film_b; film_x];
     reviews := [] |}.

(** A trained collaborative state over the three films: Alice rated
    Film A and Film X, Bob rated Film A and Film B. *)
Definition sample_state : Collaborative.State :=
  {| Collaborative.user_movie_matrix := Some [ [5; 0; 4]; [5; 4; 0] ];
     Collaborative.user_similarity_matrix := Some [ [1; 0.5]; [0.5; 1] ];
     Collaborative.user_index_map := [(alice, 0%nat); (bob, 1%nat)];
     Collaborative.movie_index_map := [(21%Z, 0%nat); (22%Z, 1%nat); (23%Z, 2%nat)];
     Collaborative.reverse_user_map := [(0%nat, alice); (1%nat, bob)];
     Collaborative.reverse_movie_map := [(0%nat, 21%Z); (1%nat, 22%Z); (2%nat, 23%Z)] |}.

(** Stand-ins for [np.sqrt] and [np.argsort] (ascending order). *)
Definition flat_sqrt : Q -> Q := fun q => q.
Definition sample_argsort (l : list Q) : list nat :=
  map fst (rev (sorted_desc ContentBased.sim_gtb (ContentBased.enumerate l))).

(** Ten users who each rated the same ten movies 4.0, and a catalogue of
    ten indexed films. *)
Definition ten : list nat := seq 0 10.
Definition dense_db : Database :=
  {| ratings :=
       flat_map (fun u => map (fun m => Rating.mk (N.of_nat u) (Z.of_nat m) 4) ten) ten;
     movies :=
       map (fun m => sample_movie (Z.of_nat m) "Film" ["Drama"] 7 (inject_Z (Z.of_nat m)))
         ten;
     reviews := [] |}.

(** Stand-ins for the vectorizer and the scaler: one row per input row. *)
Definition sample_tfidf (texts : list string) : list (list Q) :=
  map (fun t => [inject_Z (Z.of_nat (String.length t)); 1]) texts.
Definition sample_scaler (rows : list (list Q)) : list (list Q) := rows.

(** A stand-in for [str] of a UUID, inverse to [sample_parse] on the two
    names. *)
Definition sample_str (u : UUID) : string :=
  if uuid_eqb u alice then "alice" else "bob".

(** A stand-in for TextBlob's polarity that knows two words, and the
    catalogue with four reviews of the comedy: two approved ones with a
    text, one that is not approved and one without a text. *)
Definition word_polarity (text : string) : Q :=
  if contains "great" text then 0.8
  else if contains "awful" text then - 0.6
  else 0.
Definition reviewed_db : Database :=
  {| ratings := []; movies := [comedy_night; space_chase; quiet_house];
     reviews := [ Review.mk 1 (Some "A great evening") true;
                  Review.mk 1 (Some "awful jokes") true;
                  Review.mk 1 (Some "great") false;
                  Review.mk 1 None true ] |}.

(** A catalogue for the mood ranking: for "happy" the first film has two
    genres and two keywords, the second one genre, the third two genres and
    one keyword; the fourth is no candidate.  Alice rated the second. *)
Definition described_movie (id : Z) (title overview : string)
    (genres : list string) (vote_average popularity : Q) : Movie.t :=
  Movie.mk id title (Some overview) None genres (Some vote_average)
    (Some 500%Z) (Some popularity) (Some 100%Z) (Some 2020%Z) true (Some 1%Z).
Definition sunny_day : Movie.t :=
  described_movie 31 "Sunny Day" "A cheerful tale full of joy."
    ["Comedy"; "Family"] 7 10.
Definition plain_comedy : Movie.t :=
  described_movie 32 "Plain Comedy" "A film." ["Comedy"] 8 50.
Definition sing_along : Movie.t :=
  described_movie 33 "Sing Along" "Fun." ["Musical"; "Romance"; "Drama"] 7 20.
Definition mood_db : Database :=
  {| ratings := [Rating.mk alice 32 3];
     movies := [plain_comedy; sing_along; quiet_house; sunny_day];
     reviews := [] |}.


(** A stand-in for [np.mean] on a short list of floats: the entries are
    added in order and the sum is divided by their number. *)
Definition mean_in_order (fl : Q -> Q) (l : list Q) : Q :=
  fl (fold_left (fun acc x => fl (acc + x)) l 0
      / inject_Z (Z.of_nat (List.length l))).

(** A stand-in for [uuid.UUID] with three names that parse. *)
Definition trio_parse (s : string) : option UUID :=
  if String.eqb s "carol" then Some carol else sample_parse s.

(** * Properties *)

(** ** Order on scores *)

Lemma Qltb_true (a b : Q) : Qltb a b = true <-> a < b.
Proof.
  unfold Qltb. rewrite negb_true_iff.
  split; intro H.
  - apply Qnot_le_lt. intro Hle. apply Qle_bool_iff in Hle. congruence.
  - destruct (Qle_bool b a) eqn:E; [|reflexivity].
    apply Qle_bool_iff in E. exfalso. apply (Qlt_not_le _ _ H E).
Qed.

Lemma Qltb_false (a b : Q) : Qltb a b = false <-> b <= a.
Proof.
  unfold Qltb. rewrite negb_false_iff. apply Qle_bool_iff.
Qed.

(** ** [sorted(..., reverse=True)] *)

Section SortingFacts.
Context {A : Type} (gtb : A -> A -> bool).

Lemma insert_desc_perm (x : A) (l : list A) :
  Permutation (x :: l) (insert_desc gtb x l).
Proof.
  induction l as [|y ys IH]; simpl.
  - apply Permutation_refl.
  - destruct (gtb y x).
    + eapply perm_trans; [apply perm_swap|]. now apply perm_skip.
    + apply Permutation_refl.
Qed.

Lemma sorted_desc_perm (l : list A) : Permutation l (sorted_desc gtb l).
Proof.
  induction l as [|x xs IH]; simpl.
  - apply perm_nil.
  - eapply perm_trans; [apply perm_skip, IH|]. apply insert_desc_perm.
Qed.

Lemma sorted_desc_In (l : list A) (x : A) : In x (sorted_desc gtb l) <-> In x l.
Proof.
  split; intro H.
  - eapply Permutation_in; [apply Permutation_sym, sorted_desc_perm|exact H].
  - eapply Permutation_in; [apply sorted_desc_perm|exact H].
Qed.

Hypothesis gtb_asym : forall a b, gtb a b = true -> gtb b a = false.
Hypothesis gtb_trans :
  forall a b c, gtb b a = false -> gtb c b = false -> gtb c a = false.

Lemma insert_desc_sorted (x : A) (l : list A) :
  StronglySorted (fun a b => gtb b a = false) l ->
  StronglySorted (fun a b => gtb b a = false) (insert_desc gtb x l).
Proof.
  induction 1 as [|y ys Hs IH Hall]; simpl.
  - constructor; constructor.
  - destruct (gtb y x) eqn:E.
    + constructor; [exact IH|].
      rewrite Forall_forall in *. intros z Hz.
      apply (Permutation_in _ (Permutation_sym (insert_desc_perm x ys))) in Hz.
      destruct Hz as [<-|Hz]; [now apply gtb_asym | now apply Hall].
    + constructor; [now constructor|].
      constructor; [exact E|].
      rewrite Forall_forall in *. intros z Hz.
      eapply gtb_trans; [exact E | now apply Hall].
Qed.

Lemma sorted_desc_sorted (l : list A) :
  StronglySorted (fun a b => gtb b a = false) (sorted_desc gtb l).
Proof.
  induction l as [|x xs IH]; simpl.
  - constructor.
  - now apply insert_desc_sorted.
Qed.
End SortingFacts.

(** Sorting on a rational key gives a list in descending key order. *)
Lemma sorted_desc_by_key {A} (key : A -> Q) (l : list A) :
  StronglySorted (fun a b => key b <= key a)
    (sorted_desc (fun y x => Qltb (key x) (key y)) l).
Proof.
  eapply StronglySorted_ind with
    (P := fun l => StronglySorted (fun a b => key b <= key a) l);
    [constructor| |apply (sorted_desc_sorted (fun y x => Qltb (key x) (key y)))].
  - intros a l0 _ IH Hall. constructor; [exact IH|].
    eapply Forall_impl; [|exact Hall]. intros b Hb. now apply Qltb_false.
  - intros a b H. apply Qltb_true in H. apply Qltb_false. now apply Qlt_le_weak.
  - intros a b c H1 H2. apply Qltb_false in H1, H2. apply Qltb_false.
    eapply Qle_trans; eassumption.
Qed.

(** ** Control *)

Lemma mapM_returned {A B} (f : A -> outcome B) (g : A -> B) (l : list A) :
  (forall x, In x l -> f x = Returned (g x)) ->
  mapM f l = Returned (map g l).
Proof.
  induction l as [|x xs IH]; intro H; simpl; [reflexivity|].
  rewrite (H x (or_introl eq_refl)). simpl.
  rewrite IH; [reflexivity|]. intros y Hy. apply H. now right.
Qed.

Lemma firstn_In {A} (n : nat) (l : list A) (x : A) : In x (firstn n l) -> In x l.
Proof.
  revert l. induction n as [|n IH]; intros [|y ys]; simpl; try tauto.
  intros [->|H]; [now left | right; now apply IH].
Qed.

(** ** Hybrid aggregator *)

(** C1.  The weights of the hybrid aggregator depend only on the number of
    ratings the user has stored: fewer than 5 gives (0.6, 0.1, 0.3), from 5
    to 19 gives (0.5, 0.3, 0.2), 20 or more gives (0.3, 0.6, 0.1).  A user
    with no rating gets content weight 0.6, one with 25 ratings gets
    collaborative weight 0.6, and the schedule changes exactly at 5 and at
    20. *)
Theorem weight_schedule_by_rating_count :
  forall (db : Database) (user_id : UUID),
    let n := Hybrid.user_ratings_count db user_id in
    let w := Hybrid.personal_weights db user_id in
    n = Z.of_nat (List.length
                    (filter (fun r => N.eqb (Rating.user_id r) user_id) (ratings db)))
    /\ ((n < 5)%Z ->
        w = Hybrid.Build_Weights 0.6 0.1 0.3)
    /\ ((5 <= n < 20)%Z ->
        w = Hybrid.Build_Weights 0.5 0.3 0.2)
    /\ ((20 <= n)%Z ->
        w = Hybrid.Build_Weights 0.3 0.6 0.1)
    /\ Hybrid.content_weight (Hybrid.activity_weights 0) = 0.6
    /\ Hybrid.collaborative_weight (Hybrid.activity_weights 25) = 0.6
    /\ Hybrid.activity_weights 4 = Hybrid.Build_Weights 0.6 0.1 0.3
    /\ Hybrid.activity_weights 5 = Hybrid.Build_Weights 0.5 0.3 0.2
    /\ Hybrid.activity_weights 19 = Hybrid.Build_Weights 0.5 0.3 0.2
    /\ Hybrid.activity_weights 20 = Hybrid.Build_Weights 0.3 0.6 0.1.
Proof.
  intros db user_id n w.
  split; [reflexivity|].
  subst w. unfold Hybrid.personal_weights. fold n.
  unfold Hybrid.activity_weights.
  repeat split; try reflexivity; intro H.
  - destruct (Z.ltb_spec n 5); [reflexivity | lia].
  - destruct (Z.ltb_spec n 5); [lia|].
    destruct (Z.ltb_spec n 20); [reflexivity | lia].
  - destruct (Z.ltb_spec n 5); [lia|].
    destruct (Z.ltb_spec n 20); [lia | reflexivity].
Qed.

(** ** Mood scorer *)

Lemma mem_string_In (x : string) (l : list string) :
  mem_string x l = true <-> In x l.
Proof.
  unfold mem_string. rewrite existsb_exists. split.
  - intros [y [Hy E]]. apply String.eqb_eq in E. now subst.
  - intro H. exists x. split; [exact H | apply String.eqb_refl].
Qed.

Lemma mem_string_not_In (x : string) (l : list string) :
  mem_string x l = false <-> ~ In x l.
Proof.
  rewrite <- mem_string_In. destruct (mem_string x l); split; congruence.
Qed.

Lemma sentiment_loop_spec (polarity : string -> Q) (mood : string)
    (rs : list Review.t) (acc : Q) (n : Z) :
  fst (MoodAnalyzer.sentiment_loop polarity mood rs acc n)
  == acc + Qsum (map (fun t => MoodAnalyzer.sentiment_term mood (polarity t))
                   (scored_texts rs))
  /\ snd (MoodAnalyzer.sentiment_loop polarity mood rs acc n)
     = (n + Z.of_nat (List.length (scored_texts rs)))%Z.
Proof.
  revert acc n. induction rs as [|r rs IH]; intros acc n; simpl.
  - split; [ring | lia].
  - destruct (Review.content r) as [[|c s]|]; simpl.
    + apply IH.
    + destruct (IH (acc + MoodAnalyzer.sentiment_term mood (polarity (String c s)))
                   (n + 1)%Z) as [H1 H2].
      split; [rewrite H1; ring | rewrite H2; lia].
    + apply IH.
Qed.

(** C9.  The sentiment term of one review: for happy, excited and energetic
    only positive polarity counts; for sad and thoughtful the absolute
    polarity; for scared only negative polarity, so a review of polarity
    zero or more (0.8, say) adds exactly zero; every other mood takes half
    the absolute polarity.  The score of a movie is the mean of the terms
    over the sampled reviews that have a text (at most ten approved ones),
    and zero when there is none. *)
Theorem review_sentiment_by_mood :
  forall (polarity : string -> Q) (db : Database) (movie_id : Z) (mood : string),
    (forall p, In mood ["happy"; "excited"; "energetic"] ->
               MoodAnalyzer.sentiment_term mood p = Qmax 0 p)
    /\ (forall p, In mood ["sad"; "thoughtful"] ->
                  MoodAnalyzer.sentiment_term mood p = Qabs p)
    /\ (forall p, 0 <= p -> MoodAnalyzer.sentiment_term "scared" p = 0)
    /\ (forall p, p < 0 -> MoodAnalyzer.sentiment_term "scared" p == - p)
    /\ MoodAnalyzer.sentiment_term "scared" 0.8 = 0
    /\ (forall p, ~ In mood ["happy"; "excited"; "energetic"; "sad";
                             "thoughtful"; "scared"] ->
                  MoodAnalyzer.sentiment_term mood p = Qabs p * 0.5)
    /\ (let texts := scored_texts (MoodAnalyzer.sampled_reviews db movie_id) in
        let terms :=
          map (fun t => MoodAnalyzer.sentiment_term mood (polarity t)) texts in
        exists s,
          MoodAnalyzer._get_review_sentiment_score polarity db movie_id mood
          = Returned s
          /\ (texts = [] -> s == 0)
          /\ (texts <> [] ->
              s == Qsum terms / inject_Z (Z.of_nat (List.length texts))))
    /\ (forall r text,
          MoodAnalyzer.sampled_reviews db movie_id = [r] ->
          Review.content r = Some text -> 0 <= polarity text ->
          exists s,
            MoodAnalyzer._get_review_sentiment_score polarity db movie_id "scared"
            = Returned s /\ s == 0).
Proof.
  intros polarity db movie_id mood.
  assert (Hpos : forall p, 0 <= p -> MoodAnalyzer.sentiment_term "scared" p = 0).
  { intros p Hp. unfold MoodAnalyzer.sentiment_term. simpl.
    destruct (Qltb p 0) eqn:E; [|reflexivity].
    apply Qltb_true in E. exfalso. apply (Qlt_not_le _ _ E Hp). }
  assert (Hscore : forall mood0,
    let texts := scored_texts (MoodAnalyzer.sampled_reviews db movie_id) in
    let terms :=
      map (fun t => MoodAnalyzer.sentiment_term mood0 (polarity t)) texts in
    exists s,
      MoodAnalyzer._get_review_sentiment_score polarity db movie_id mood0
      = Returned s
      /\ (texts = [] -> s == 0)
      /\ (texts <> [] ->
          s == Qsum terms / inject_Z (Z.of_nat (List.length texts)))).
  { intros mood0 texts terms.
    unfold MoodAnalyzer._get_review_sentiment_score.
    subst terms texts.
    destruct (MoodAnalyzer.sampled_reviews db movie_id) as [|r rs] eqn:Ers.
    - simpl. exists 0. split; [reflexivity|].
      split; [reflexivity | intro H; now elim H].
    - destruct (sentiment_loop_spec polarity mood0 (r :: rs) 0 0%Z) as [H1 H2].
      destruct (MoodAnalyzer.sentiment_loop polarity mood0 (r :: rs) 0 0%Z)
        as [mood_score review_count] eqn:Eloop.
      simpl fst in H1. simpl snd in H2. unfold try_except.
      eexists. split; [reflexivity|].
      rewrite H2, Z.add_0_l.
      destruct (scored_texts (r :: rs)) as [|t ts] eqn:Et.
      + split; [reflexivity | intro H; now elim H].
      + split; [discriminate|]. intros _.
        replace (0 <? Z.of_nat (List.length (t :: ts)))%Z with true
          by (symmetry; apply Z.ltb_lt; simpl; lia).
        rewrite H1. now rewrite Qplus_0_l. }
  refine (conj _ (conj _ (conj Hpos (conj _ (conj _ (conj _ (conj _ _))))))).
  - intros p H. unfold MoodAnalyzer.sentiment_term.
    apply mem_string_In in H. now rewrite H.
  - intros p H. unfold MoodAnalyzer.sentiment_term.
    destruct H as [<-|[<-|[]]]; reflexivity.
  - intros p Hp. unfold MoodAnalyzer.sentiment_term. simpl.
    apply Qltb_true in Hp. rewrite Hp.
    apply Qltb_true in Hp. apply Q.max_r.
    apply Qlt_le_weak. apply (Qopp_lt_compat p 0) in Hp. exact Hp.
  - apply Hpos. discriminate.
  - intros p H. unfold MoodAnalyzer.sentiment_term.
    assert (H1 : ~ In mood ["happy"; "excited"; "energetic"]) by (simpl in *; tauto).
    assert (H2 : ~ In mood ["sad"; "thoughtful"]) by (simpl in *; tauto).
    assert (H3 : ~ In mood ["scared"]) by (simpl in *; tauto).
    apply mem_string_not_In in H1, H2, H3. now rewrite H1, H2, H3.
  - apply Hscore.
  - intros r text Hrs Hc Hp.
    destruct (Hscore "scared") as [s [Hs [Hnil Hcons]]].
    exists s. split; [exact Hs|].
    rewrite Hrs in Hnil, Hcons. unfold scored_texts in Hnil, Hcons.
    simpl in Hnil, Hcons. rewrite Hc in Hnil, Hcons.
    destruct text as [|c t]; simpl in Hnil, Hcons.
    + now apply Hnil.
    + rewrite Hcons by discriminate.
      rewrite (Hpos _ Hp). reflexivity.
Qed.

Lemma mapM_In {A B} (f : A -> outcome B) (l : list A) (l' : list B) :
  mapM f l = Returned l' ->
  forall y, In y l' -> exists x, In x l /\ f x = Returned y.
Proof.
  revert l'. induction l as [|x xs IH]; intros l' H y Hy; simpl in H.
  - injection H as <-. destruct Hy.
  - destruct (f x) as [b|e] eqn:Ef; simpl in H; [|discriminate].
    destruct (mapM f xs) as [bs|e] eqn:Em; simpl in H; [|discriminate].
    injection H as <-. destruct Hy as [<-|Hy].
    + exists x. split; [now left | exact Ef].
    + destruct (IH bs eq_refl y Hy) as [x' [Hx' Hf]].
      exists x'. split; [now right | exact Hf].
Qed.

Lemma _movie_to_schema_id (movie : Movie.t) (s : MovieSchema.t) :
  _movie_to_schema movie = Returned s -> MovieSchema.id s = Movie.id movie.
Proof.
  unfold _movie_to_schema. destruct (Movie.created_at movie); [|discriminate].
  intro H. injection H as <-. reflexivity.
Qed.

Lemma dict_get_In {V} (key : string) (d : list (string * V)) :
  dict_get key d <> None <-> In key (map fst d).
Proof.
  induction d as [|[k v] rest IH]; simpl.
  - split; [congruence | tauto].
  - destruct (String.eqb k key) eqn:E.
    + apply String.eqb_eq in E. split; [now left | congruence].
    + apply String.eqb_neq in E. rewrite IH. split; [now right | intros [H|H]; [congruence | exact H]].
Qed.

Lemma lower_ascii_idempotent (c : ascii) :
  lower_ascii (lower_ascii c) = lower_ascii c.
Proof.
  destruct c as [[] [] [] [] [] [] [] []]; reflexivity.
Qed.

Lemma lower_idempotent (s : string) : lower (lower s) = lower s.
Proof.
  induction s as [|c s IH]; simpl; [reflexivity|].
  now rewrite lower_ascii_idempotent, IH.
Qed.

(** The ten labels are the keys of the genre table and the endpoint's list. *)
Lemma mood_vocabulary :
  map fst MoodAnalyzer.mood_genre_mapping = Api.valid_moods.
Proof. reflexivity. Qed.

(** Every movie the mood scorer returns is a row of its genre query. *)
Lemma mood_output_from_candidates (polarity : string -> Q) (math_log : Q -> Q)
    (db : Database) (user_id : UUID) (mood : string) (limit : nat)
    (l : list MovieSchema.t) :
  MoodAnalyzer.get_mood_recommendations polarity math_log db user_id mood limit
  = Returned l ->
  forall s, In s l ->
    exists movie target_genres,
      dict_get (lower mood) MoodAnalyzer.mood_genre_mapping = Some target_genres
      /\ In movie (MoodAnalyzer.mood_candidates db target_genres
                     (map Rating.movie_id (ratings_of db user_id)))
      /\ _movie_to_schema movie = Returned s.
Proof.
  unfold MoodAnalyzer.get_mood_recommendations.
  destruct (dict_get (lower mood) MoodAnalyzer.mood_genre_mapping)
    as [target_genres|].
  2:{ simpl. intro H. injection H as <-. intros s []. }
  destruct (MoodAnalyzer.mood_candidates db target_genres
              (map Rating.movie_id (ratings_of db user_id)))
    as [|m ms] eqn:Ec.
  { simpl. intro H. injection H as <-. intros s []. }
  rewrite <- Ec.
  match goal with
  | |- context [mapM ?f (MoodAnalyzer.mood_candidates _ _ _)] =>
      destruct (mapM f (MoodAnalyzer.mood_candidates db target_genres
                          (map Rating.movie_id (ratings_of db user_id))))
        as [scored|e] eqn:Es
  end; simpl.
  2:{ intro H. injection H as <-. intros s []. }
  match goal with
  | |- context [mapM ?f ?xs] => destruct (mapM f xs) as [out|e] eqn:Eo
  end; simpl.
  2:{ intro H. injection H as <-. intros s []. }
  intro H. injection H as <-. intros s Hs.
  destruct (mapM_In _ _ _ Eo s Hs) as [[movie sc] [Hin Hschema]].
  apply firstn_In in Hin. apply sorted_desc_In in Hin.
  destruct (mapM_In _ _ _ Es _ Hin) as [movie' [Hin' Hf]].
  destruct (MoodAnalyzer._calculate_mood_score polarity math_log db movie' (lower mood))
    as [q|e] eqn:Eq; simpl in Hf; [|discriminate].
  injection Hf as <- <-.
  exists movie', target_genres. repeat split; assumption.
Qed.

Lemma unknown_mood_scorer (polarity : string -> Q) (math_log : Q -> Q)
    (db : Database) (user_id : UUID) (mood : string) (limit : nat) :
  ~ In (lower mood) Api.valid_moods ->
  MoodAnalyzer.get_mood_recommendations polarity math_log db user_id mood limit
  = Returned [].
Proof.
  intro H. rewrite <- mood_vocabulary, <- dict_get_In in H.
  unfold MoodAnalyzer.get_mood_recommendations.
  destruct (dict_get (lower mood) MoodAnalyzer.mood_genre_mapping).
  - exfalso. apply H. discriminate.
  - reflexivity.
Qed.

(** C6 as stated fails: for a string that is not a mood the scorer returns
    the empty list, it does not raise; and a string outside the ten labels
    that differs from one only by case is served. *)
Lemma unknown_mood_returns_empty_list :
  ~ In "bored" Api.valid_moods
  /\ MoodAnalyzer.get_mood_recommendations no_polarity flat_log sample_db bob
       "bored" 10 = Returned []
  /\ ~ In "HAPPY" Api.valid_moods
  /\ (exists s,
        MoodAnalyzer.get_mood_recommendations no_polarity flat_log sample_db bob
          "HAPPY" 10 = Returned [s]
        /\ MovieSchema.id s = 1%Z).
Proof.
  split; [simpl; intuition discriminate|].
  split; [reflexivity|].
  split; [simpl; intuition discriminate|].
  eexists. split; [vm_compute; reflexivity | reflexivity].
Qed.

(** C6, amended.  When the lower-cased mood is not one of the ten labels
    the scorer returns the empty list, without raising and with nothing
    computed, and the endpoint answers with its 400 "Invalid mood" error
    before it reaches the cache or the scorer. *)
Theorem unknown_mood_yields_nothing :
  forall (polarity : string -> Q) (math_log : Q -> Q)
         (cache_get : string -> UUID -> nat -> option (list MovieSchema.t))
         (db : Database) (user_id : UUID) (mood : string) (limit : nat),
    ~ In (lower mood) Api.valid_moods ->
    MoodAnalyzer.get_mood_recommendations polarity math_log db user_id mood limit
    = Returned []
    /\ Api.get_mood_based_recommendations polarity math_log cache_get db mood
         limit user_id = Raised Api.invalid_mood.
Proof.
  intros polarity math_log cache_get db user_id mood limit H.
  split; [now apply unknown_mood_scorer|].
  unfold Api.get_mood_based_recommendations.
  apply mem_string_not_In in H. rewrite H. reflexivity.
Qed.

Lemma unknown_mood_yields_nothing_at_bored :
  ~ In (lower "Bored") Api.valid_moods
  /\ MoodAnalyzer.get_mood_recommendations no_polarity flat_log sample_db bob
       "Bored" 10 = Returned []
  /\ Api.get_mood_based_recommendations no_polarity flat_log empty_cache
       sample_db "Bored" 10 bob = Raised Api.invalid_mood.
Proof.
  assert (H : ~ In (lower "Bored") Api.valid_moods)
    by (simpl; intuition discriminate).
  split; [exact H|].
  exact (unknown_mood_yields_nothing no_polarity flat_log empty_cache sample_db
           bob "Bored" 10 H).
Defined.

(** ** Group consensus scorer *)

Lemma valid_uuids_length (parse_uuid : string -> option UUID) (user_ids : list string) :
  (List.length (GroupRecommender.valid_uuids parse_uuid user_ids)
   <= List.length user_ids)%nat.
Proof.
  induction user_ids as [|u us IH]; simpl; [lia|].
  destruct (parse_uuid u); simpl; lia.
Qed.

Lemma get_group_recommendations_returns (parse_uuid : string -> option UUID)
    (db : Database) (user_ids : list string) (limit : nat) (min_satisfaction : Q) :
  exists l,
    GroupRecommender.get_group_recommendations parse_uuid db user_ids limit
      min_satisfaction = Returned l.
Proof.
  unfold GroupRecommender.get_group_recommendations, try_except.
  match goal with
  | |- exists l, match ?b with _ => _ end = _ => destruct b
  end; eexists; reflexivity.
Qed.



(** ** Dicts *)

Section AssocFacts.
Context {K V : Type} (eqb : K -> K -> bool).
Hypothesis eqb_eq : forall a b, eqb a b = true <-> a = b.

Lemma eqb_refl_true (a : K) : eqb a a = true.
Proof. now apply eqb_eq. Qed.

Lemma eqb_neq_false (a b : K) : a <> b -> eqb a b = false.
Proof.
  intro H. destruct (eqb a b) eqn:E; [|reflexivity].
  apply eqb_eq in E. contradiction.
Qed.

Lemma assoc_get_set_same (k : K) (v : V) (d : list (K * V)) :
  assoc_get eqb k (assoc_set eqb k v d) = Some v.
Proof.
  induction d as [|[k' v'] rest IH]; simpl.
  - now rewrite eqb_refl_true.
  - destruct (eqb k' k) eqn:E; simpl; rewrite E; [reflexivity | exact IH].
Qed.

Lemma assoc_get_set_other (k k' : K) (v : V) (d : list (K * V)) :
  k' <> k ->
  assoc_get eqb k' (assoc_set eqb k v d) = assoc_get eqb k' d.
Proof.
  intro Hne. induction d as [|[k0 v0] rest IH]; simpl.
  - rewrite eqb_neq_false; [reflexivity | congruence].
  - destruct (eqb k0 k) eqn:E; simpl.
    + apply eqb_eq in E. subst k0.
      rewrite eqb_neq_false; [reflexivity | congruence].
    + destruct (eqb k0 k'); [reflexivity | exact IH].
Qed.

Lemma assoc_set_keys (k k' : K) (v : V) (d : list (K * V)) :
  In k' (map fst (assoc_set eqb k v d)) <-> k' = k \/ In k' (map fst d).
Proof.
  induction d as [|[k0 v0] rest IH]; simpl.
  - intuition.
  - destruct (eqb k0 k) eqn:E; simpl.
    + apply eqb_eq in E. subst k0. intuition.
    + rewrite IH. intuition.
Qed.

Lemma assoc_set_NoDup (k : K) (v : V) (d : list (K * V)) :
  NoDup (map fst d) -> NoDup (map fst (assoc_set eqb k v d)).
Proof.
  induction d as [|[k0 v0] rest IH]; simpl; intro H.
  - constructor; [intros [] | constructor].
  - inversion H as [|? ? Hnin Hnd]; subst.
    destruct (eqb k0 k) eqn:E; simpl.
    + now constructor.
    + constructor; [|now apply IH].
      rewrite assoc_set_keys. intros [->|Hin]; [|contradiction].
      rewrite eqb_refl_true in E. discriminate.
Qed.

Lemma assoc_get_None (k : K) (d : list (K * V)) :
  assoc_get eqb k d = None <-> ~ In k (map fst d).
Proof.
  induction d as [|[k0 v0] rest IH]; simpl.
  - intuition.
  - destruct (eqb k0 k) eqn:E.
    + apply eqb_eq in E. subst. split; [discriminate | intro H; elim H; now left].
    + rewrite IH. split.
      * intros H [H'|H']; [|contradiction].
        subst. rewrite eqb_refl_true in E. discriminate.
      * intros H H'. apply H. now right.
Qed.

Lemma assoc_get_In (k : K) (v : V) (d : list (K * V)) :
  NoDup (map fst d) -> (In (k, v) d <-> assoc_get eqb k d = Some v).
Proof.
  induction d as [|[k0 v0] rest IH]; simpl; intro H.
  - split; [tauto | discriminate].
  - inversion H as [|? ? Hnin Hnd]; subst.
    destruct (eqb k0 k) eqn:E.
    + apply eqb_eq in E. subst k0. split.
      * intros [Heq|Hin]; [congruence|].
        elim Hnin. change k with (fst (k, v)). now apply in_map.
      * intro Heq. left. congruence.
    + rewrite <- (IH Hnd). split; [|tauto].
      intros [Heq|Hin]; [|exact Hin].
      injection Heq as -> ->. rewrite eqb_refl_true in E. discriminate.
Qed.
End AssocFacts.

(** ** Genre preferences of a group member *)

Lemma string_eqb_eq (a b : string) : String.eqb a b = true <-> a = b.
Proof. apply String.eqb_eq. Qed.

Lemma uuid_eqb_eq (a b : UUID) : uuid_eqb a b = true <-> a = b.
Proof. apply N.eqb_eq. Qed.

Lemma add_genre_count (r : Q) (d : list (string * (Q * Z))) (g' g : string) :
  count_in g (GroupRecommender.add_genre r d g')
  = (count_in g d + if String.eqb g g' then 1 else 0)%Z.
Proof.
  unfold count_in, GroupRecommender.add_genre.
  destruct (String.eqb g g') eqn:E.
  - apply String.eqb_eq in E. subst g'.
    destruct (assoc_get String.eqb g d) as [[t n]|];
      rewrite (assoc_get_set_same _ string_eqb_eq); simpl; lia.
  - apply String.eqb_neq in E.
    destruct (assoc_get String.eqb g' d) as [[t n]|];
      rewrite (assoc_get_set_other _ string_eqb_eq) by exact E; lia.
Qed.

Lemma add_genre_total (r : Q) (d : list (string * (Q * Z))) (g' g : string) :
  total_of g (GroupRecommender.add_genre r d g')
  = if String.eqb g g' then total_of g d + r else total_of g d.
Proof.
  unfold total_of, GroupRecommender.add_genre.
  destruct (String.eqb g g') eqn:E.
  - apply String.eqb_eq in E. subst g'.
    destruct (assoc_get String.eqb g d) as [[t n]|];
      rewrite (assoc_get_set_same _ string_eqb_eq); reflexivity.
  - apply String.eqb_neq in E.
    destruct (assoc_get String.eqb g' d) as [[t n]|];
      rewrite (assoc_get_set_other _ string_eqb_eq) by exact E; reflexivity.
Qed.

Lemma add_genre_NoDup (r : Q) (d : list (string * (Q * Z))) (g : string) :
  NoDup (map fst d) -> NoDup (map fst (GroupRecommender.add_genre r d g)).
Proof.
  intro H. unfold GroupRecommender.add_genre.
  destruct (assoc_get String.eqb g d) as [[t n]|];
    now apply (assoc_set_NoDup _ string_eqb_eq).
Qed.

Lemma add_genres_spec (r : Q) (gs : list string) (d : list (string * (Q * Z)))
    (g : string) :
  let same := filter (String.eqb g) gs in
  count_in g (fold_left (GroupRecommender.add_genre r) gs d)
  = (count_in g d + Z.of_nat (List.length same))%Z
  /\ total_of g (fold_left (GroupRecommender.add_genre r) gs d)
     == total_of g d + Qsum (map (fun _ => r) same)
  /\ (NoDup (map fst d) ->
      NoDup (map fst (fold_left (GroupRecommender.add_genre r) gs d))).
Proof.
  revert d. induction gs as [|g' gs IH]; intro d; simpl.
  - split; [lia|]. split; [ring | tauto].
  - destruct (IH (GroupRecommender.add_genre r d g')) as [Hc [Ht Hn]].
    rewrite Hc, Ht, add_genre_count, add_genre_total.
    destruct (String.eqb g g'); simpl.
    + split; [lia|]. split; [ring|].
      intro H. now apply Hn, add_genre_NoDup.
    + split; [lia|]. split; [ring|].
      intro H. now apply Hn, add_genre_NoDup.
Qed.

Lemma add_movie_spec (ur : list (Z * Q)) (d : list (string * (Q * Z)))
    (m : Movie.t) (g : string) :
  let rs :=
    match assoc_get Z.eqb (Movie.id m) ur with
    | Some r => map (fun _ => r) (filter (String.eqb g) (Movie.genres m))
    | None => []
    end in
  count_in g (GroupRecommender.add_movie ur d m)
  = (count_in g d + Z.of_nat (List.length rs))%Z
  /\ total_of g (GroupRecommender.add_movie ur d m) == total_of g d + Qsum rs
  /\ (NoDup (map fst d) -> NoDup (map fst (GroupRecommender.add_movie ur d m))).
Proof.
  unfold GroupRecommender.add_movie.
  destruct (assoc_get Z.eqb (Movie.id m) ur) as [r|]; simpl.
  - destruct (Movie.genres m) as [|g0 gs] eqn:Eg.
    + simpl. split; [lia|]. split; [ring | tauto].
    + destruct (add_genres_spec r (g0 :: gs) d g) as [Hc [Ht Hn]].
      rewrite length_map. split; [exact Hc|]. split; [exact Ht | exact Hn].
  - split; [lia|]. split; [ring | tauto].
Qed.

Lemma add_movies_spec (ur : list (Z * Q)) (ms : list Movie.t)
    (d : list (string * (Q * Z))) (g : string) :
  let rs :=
    flat_map (fun m =>
                match assoc_get Z.eqb (Movie.id m) ur with
                | Some r => map (fun _ => r) (filter (String.eqb g) (Movie.genres m))
                | None => []
                end) ms in
  count_in g (fold_left (GroupRecommender.add_movie ur) ms d)
  = (count_in g d + Z.of_nat (List.length rs))%Z
  /\ total_of g (fold_left (GroupRecommender.add_movie ur) ms d)
     == total_of g d + Qsum rs
  /\ (NoDup (map fst d) ->
      NoDup (map fst (fold_left (GroupRecommender.add_movie ur) ms d))).
Proof.
  revert d. induction ms as [|m ms IH]; intro d; simpl.
  - split; [lia|]. split; [ring | tauto].
  - destruct (IH (GroupRecommender.add_movie ur d m)) as [Hc [Ht Hn]].
    destruct (add_movie_spec ur d m g) as [Hc' [Ht' Hn']].
    rewrite Hc, Ht, Hc', Ht', length_app.
    split; [lia|]. split.
    + assert (Hs : forall a b, Qsum (a ++ b) == Qsum a + Qsum b).
      { intros a b. induction a as [|x a IHa]; simpl; [ring | rewrite IHa; ring]. }
      rewrite Hs. ring.
    + intro H. now apply Hn, Hn'.
Qed.

Lemma flat_map_filter_silent {A B} (f : A -> list B) (P : A -> bool) (l : list A) :
  (forall x, P x = false -> f x = []) ->
  flat_map f (filter P l) = flat_map f l.
Proof.
  intro H. induction l as [|x xs IH]; simpl; [reflexivity|].
  destruct (P x) eqn:E; simpl; rewrite IH; [reflexivity|].
  now rewrite (H x E).
Qed.

Lemma mem_Z_In (x : Z) (l : list Z) : mem_Z x l = true <-> In x l.
Proof.
  unfold mem_Z. rewrite existsb_exists. split.
  - intros [y [Hy E]]. apply Z.eqb_eq in E. now subst.
  - intro H. exists x. split; [exact H | apply Z.eqb_refl].
Qed.

Lemma genre_totals_spec (db : Database) (ur : list (Z * Q)) (g : string) :
  count_in g (GroupRecommender.genre_totals db ur)
  = Z.of_nat (List.length (genre_ratings db ur g))
  /\ total_of g (GroupRecommender.genre_totals db ur)
     == Qsum (genre_ratings db ur g)
  /\ NoDup (map fst (GroupRecommender.genre_totals db ur)).
Proof.
  unfold GroupRecommender.genre_totals, genre_ratings.
  match goal with
  | |- context [fold_left _ ?ms []] =>
      destruct (add_movies_spec ur ms [] g) as [Hc [Ht Hn]]
  end.
  rewrite flat_map_filter_silent in Hc, Ht.
  - rewrite Hc, Ht. unfold count_in, total_of. simpl.
    split; [lia|]. split; [ring|]. apply Hn. constructor.
  - intros m Hm.
    assert (Hnone : assoc_get Z.eqb (Movie.id m) ur = None).
    { apply (assoc_get_None _ Z.eqb_eq). intro Hin.
      apply mem_Z_In in Hin. congruence. }
    now rewrite Hnone.
  - intros m Hm.
    assert (Hnone : assoc_get Z.eqb (Movie.id m) ur = None).
    { apply (assoc_get_None _ Z.eqb_eq). intro Hin.
      apply mem_Z_In in Hin. congruence. }
    now rewrite Hnone.
Qed.

Lemma averages_keys (totals : list (string * (Q * Z))) (k : string) :
  In k (map fst (GroupRecommender.averages totals)) -> In k (map fst totals).
Proof.
  induction totals as [|[g [t n]] rest IH]; simpl; [tauto|].
  destruct (2 <=? n)%Z; simpl; intuition.
Qed.

Lemma averages_NoDup (totals : list (string * (Q * Z))) :
  NoDup (map fst totals) -> NoDup (map fst (GroupRecommender.averages totals)).
Proof.
  induction totals as [|[g [t n]] rest IH]; simpl; intro H; [constructor|].
  inversion H as [|? ? Hnin Hnd]; subst.
  destruct (2 <=? n)%Z; simpl; [|now apply IH].
  constructor; [|now apply IH].
  intro Hin. apply Hnin. now apply averages_keys.
Qed.

Lemma averages_get (totals : list (string * (Q * Z))) (g : string) :
  NoDup (map fst totals) ->
  assoc_get String.eqb g (GroupRecommender.averages totals)
  = match assoc_get String.eqb g totals with
    | Some tn => if (2 <=? snd tn)%Z then Some (fst tn / inject_Z (snd tn)) else None
    | None => None
    end.
Proof.
  induction totals as [|[g' [t n]] rest IH]; simpl; intro H; [reflexivity|].
  inversion H as [|? ? Hnin Hnd]; subst.
  destruct (String.eqb g' g) eqn:E.
  - apply String.eqb_eq in E. subst g'. simpl.
    destruct (2 <=? n)%Z; simpl.
    + now rewrite String.eqb_refl.
    + apply (assoc_get_None _ string_eqb_eq). intro Hin.
      apply Hnin. now apply averages_keys.
  - destruct (2 <=? n)%Z; simpl; [rewrite E|]; now apply IH.
Qed.

Lemma preferences_returned (db : Database)
    (all_user_ratings : list (UUID * list (Z * Q))) (u : UUID) :
  GroupRecommender._get_user_genre_preferences db u
    (GroupRecommender.ratings_for all_user_ratings u)
  = Returned (preferences_of db all_user_ratings u).
Proof.
  unfold preferences_of, GroupRecommender._get_user_genre_preferences.
  destruct (GroupRecommender.ratings_for all_user_ratings u); reflexivity.
Qed.

Lemma preferences_NoDup (db : Database)
    (all_user_ratings : list (UUID * list (Z * Q))) (u : UUID) :
  NoDup (map fst (preferences_of db all_user_ratings u)).
Proof.
  unfold preferences_of, GroupRecommender._get_user_genre_preferences.
  destruct (GroupRecommender.ratings_for all_user_ratings u) as [|x xs]; simpl.
  - constructor.
  - apply averages_NoDup. apply genre_totals_spec. exact EmptyString.
Qed.

(** A member's genre average is the mean of the ratings that member gave
    to the stored movies of the genre, and exists from two such ratings. *)
Lemma preferences_spec (db : Database)
    (all_user_ratings : list (UUID * list (Z * Q))) (u : UUID) (g : string) :
  let rs := genre_ratings db (GroupRecommender.ratings_for all_user_ratings u) g in
  match assoc_get String.eqb g (preferences_of db all_user_ratings u) with
  | Some a =>
      (2 <= List.length rs)%nat
      /\ a == Qsum rs / inject_Z (Z.of_nat (List.length rs))
  | None => (List.length rs < 2)%nat
  end.
Proof.
  unfold preferences_of, GroupRecommender._get_user_genre_preferences.
  destruct (GroupRecommender.ratings_for all_user_ratings u) as [|x xs] eqn:Er.
  - simpl. unfold genre_ratings.
    replace (flat_map _ (movies db)) with (@nil Q); [simpl; lia|].
    induction (movies db); simpl; [reflexivity | assumption].
  - cbv zeta. unfold try_except.
    destruct (genre_totals_spec db (x :: xs) g) as [Hc [Ht Hn]].
    rewrite (averages_get _ _ Hn).
    unfold count_in in Hc. unfold total_of in Ht.
    destruct (assoc_get String.eqb g (GroupRecommender.genre_totals db (x :: xs)))
      as [[t n]|]; simpl in *.
    + destruct (Z.leb_spec 2 n).
      * split; [lia|]. rewrite Ht, Hc. reflexivity.
      * lia.
    + lia.
Qed.

(** ** Genre support in a group *)

Lemma add_support_spec (support : list (string * Z)) (pref : string * Q) (g : string) :
  support_of g (GroupRecommender.add_support support pref)
  = (support_of g support
     + if String.eqb g (fst pref) && Qle_bool 3.5 (snd pref) then 1 else 0)%Z
  /\ (NoDup (map fst support) ->
      NoDup (map fst (GroupRecommender.add_support support pref))).
Proof.
  unfold support_of, GroupRecommender.add_support.
  destruct (Qle_bool 3.5 (snd pref)); [|rewrite andb_false_r; split; [lia | tauto]].
  rewrite andb_true_r. split.
  - destruct (String.eqb g (fst pref)) eqn:E.
    + apply String.eqb_eq in E. subst g.
      destruct (assoc_get String.eqb (fst pref) support);
        rewrite (assoc_get_set_same _ string_eqb_eq); lia.
    + apply String.eqb_neq in E.
      destruct (assoc_get String.eqb (fst pref) support);
        rewrite (assoc_get_set_other _ string_eqb_eq) by exact E; lia.
  - intro H. destruct (assoc_get String.eqb (fst pref) support);
      now apply (assoc_set_NoDup _ string_eqb_eq).
Qed.

Lemma add_supports_spec (prefs : list (string * Q)) (support : list (string * Z))
    (g : string) :
  NoDup (map fst prefs) ->
  support_of g (fold_left GroupRecommender.add_support prefs support)
  = (support_of g support + if likes_in prefs g then 1 else 0)%Z
  /\ (NoDup (map fst support) ->
      NoDup (map fst (fold_left GroupRecommender.add_support prefs support))).
Proof.
  revert support. induction prefs as [|[g' avg] rest IH]; intros support Hnd; simpl.
  - unfold likes_in. simpl. split; [lia | tauto].
  - inversion Hnd as [|? ? Hnin Hnd']; subst.
    destruct (IH (GroupRecommender.add_support support (g', avg)) Hnd') as [Hs Hn].
    destruct (add_support_spec support (g', avg) g) as [Hs' Hn'].
    rewrite Hs, Hs'. simpl fst. simpl snd. split; [|intro H; now apply Hn, Hn'].
    unfold likes_in. simpl. rewrite (String.eqb_sym g g').
    destruct (String.eqb g' g) eqn:E; simpl.
    + apply String.eqb_eq in E. subst g'.
      replace (assoc_get String.eqb g rest) with (@None Q);
        [destruct (Qle_bool 3.5 avg); lia|].
      symmetry. now apply (assoc_get_None _ string_eqb_eq).
    + lia.
Qed.

Lemma genre_support_spec (ugp : list (UUID * list (string * Q)))
    (support : list (string * Z)) (g : string) :
  (forall up, In up ugp -> NoDup (map fst (snd up))) ->
  support_of g
    (fold_left (fun support up =>
                  fold_left GroupRecommender.add_support (snd up) support)
       ugp support)
  = (support_of g support
     + Z.of_nat (List.length (filter (fun up => likes_in (snd up) g) ugp)))%Z
  /\ (NoDup (map fst support) ->
      NoDup (map fst
               (fold_left (fun support up =>
                             fold_left GroupRecommender.add_support (snd up) support)
                  ugp support))).
Proof.
  revert support. induction ugp as [|[u p] rest IH]; intros support Hnd; simpl.
  - split; [lia | tauto].
  - destruct (add_supports_spec p support g (Hnd (u, p) (or_introl eq_refl)))
      as [Hs Hn].
    destruct (IH (fold_left GroupRecommender.add_support p support)) as [Hs' Hn'].
    { intros up Hup. apply Hnd. now right. }
    rewrite Hs', Hs. split; [|intro H; now apply Hn', Hn].
    destruct (likes_in p g); simpl; lia.
Qed.

(** The preference dict the first loop builds: one entry per distinct
    member, each holding that member's preferences. *)
Lemma collect_preferences_spec (db : Database)
    (all_user_ratings : list (UUID * list (Z * Q))) (user_ids : list UUID)
    (acc : list (UUID * list (string * Q))) :
  NoDup (map fst acc) ->
  (forall up, In up acc -> snd up = preferences_of db all_user_ratings (fst up)) ->
  exists ugp,
    GroupRecommender.collect_preferences db all_user_ratings user_ids acc
    = Returned ugp
    /\ NoDup (map fst ugp)
    /\ (forall up, In up ugp -> snd up = preferences_of db all_user_ratings (fst up))
    /\ (forall u, In u (map fst ugp) <-> In u user_ids \/ In u (map fst acc)).
Proof.
  revert acc. induction user_ids as [|u us IH]; intros acc Hnd Hval; simpl.
  - exists acc. repeat split; try assumption; tauto.
  - rewrite preferences_returned. simpl.
    destruct (IH (assoc_set uuid_eqb u (preferences_of db all_user_ratings u) acc))
      as [ugp [Hr [Hn [Hv Hk]]]].
    + now apply (assoc_set_NoDup _ uuid_eqb_eq).
    + intros [u' p'] Hin.
      apply (assoc_get_In _ uuid_eqb_eq) in Hin;
        [|now apply (assoc_set_NoDup _ uuid_eqb_eq)].
      simpl. destruct (N.eq_dec u' u) as [->|Hne].
      * rewrite (assoc_get_set_same _ uuid_eqb_eq) in Hin. congruence.
      * rewrite (assoc_get_set_other _ uuid_eqb_eq) in Hin by exact Hne.
        apply (assoc_get_In _ uuid_eqb_eq) in Hin; [|exact Hnd].
        apply (Hval _ Hin).
    + exists ugp. repeat split; try assumption.
      * intro H. apply Hk in H. destruct H as [H|H]; [tauto|].
        apply (assoc_set_keys _ uuid_eqb_eq) in H. destruct H as [->|H]; tauto.
      * intro H. apply Hk. rewrite (assoc_set_keys _ uuid_eqb_eq).
        destruct H as [[->|H]|H]; tauto.
Qed.

Lemma min_support_positive (user_ids : list UUID) :
  (1 <= GroupRecommender.min_support user_ids)%Z.
Proof.
  unfold GroupRecommender.min_support.
  assert (0 <= Z.of_nat (List.length user_ids) / 2)%Z
    by (apply Z.div_pos; lia).
  lia.
Qed.

(** C5.  A genre is common exactly when the number of distinct members who
    like it reaches floor(n/2)+1, n being the number of ids in the group.  A
    member likes a genre when the mean of the ratings that member gave to
    the stored movies of the genre, which takes at least two such ratings,
    is 3.5 or more.  With three ids and exactly two members who like the
    genre the threshold 2 is met and the genre is common. *)
Theorem common_genre_support_threshold :
  forall (db : Database) (all_user_ratings : list (UUID * list (Z * Q)))
         (user_ids : list UUID),
    exists ugp members,
      GroupRecommender.collect_preferences db all_user_ratings user_ids []
      = Returned ugp
      /\ members = map fst ugp
      /\ NoDup members
      /\ (forall u, In u members <-> In u user_ids)
      /\ GroupRecommender.min_support user_ids
         = (Z.of_nat (List.length user_ids) / 2 + 1)%Z
      /\ (forall g,
            let supporters :=
              Z.of_nat (List.length (filter (likes db all_user_ratings g) members)) in
            (In g (GroupRecommender.common_genres_of ugp user_ids)
             <-> (GroupRecommender.min_support user_ids <= supporters)%Z)
            /\ (List.length user_ids = 3%nat -> supporters = 2%Z ->
                In g (GroupRecommender.common_genres_of ugp user_ids)))
      /\ (forall g u,
            likes db all_user_ratings g u = true <->
            let rs :=
              genre_ratings db (GroupRecommender.ratings_for all_user_ratings u) g in
            (2 <= List.length rs)%nat
            /\ 3.5 <= Qsum rs / inject_Z (Z.of_nat (List.length rs))).
Proof.
  intros db all_user_ratings user_ids.
  destruct (collect_preferences_spec db all_user_ratings user_ids [])
    as [ugp [Hr [Hn [Hv Hk]]]]; [constructor | intros up [] |].
  exists ugp, (map fst ugp).
  split; [exact Hr|]. split; [reflexivity|]. split; [exact Hn|].
  split; [intro u; rewrite Hk; simpl; tauto|].
  split; [reflexivity|].
  assert (Hiff : forall g,
    In g (GroupRecommender.common_genres_of ugp user_ids)
    <-> (GroupRecommender.min_support user_ids
         <= Z.of_nat (List.length
                        (filter (likes db all_user_ratings g) (map fst ugp))))%Z).
  { intro g.
    destruct (genre_support_spec ugp [] g) as [Hs Hnd].
    { intros up Hup. rewrite (Hv up Hup). apply preferences_NoDup. }
    specialize (Hnd (NoDup_nil _)).
    assert (Hlen : List.length (filter (fun up => likes_in (snd up) g) ugp)
                   = List.length (filter (likes db all_user_ratings g) (map fst ugp))).
    { clear - Hv. induction ugp as [|up rest IH]; simpl; [reflexivity|].
      unfold likes at 1. rewrite <- (Hv up (or_introl eq_refl)).
      destruct (likes_in (snd up) g); simpl; rewrite IH; try reflexivity;
        intros up' H'; apply Hv; now right. }
    rewrite Hlen in Hs. unfold support_of at 2 in Hs. simpl in Hs.
    fold (GroupRecommender.genre_support ugp) in Hs, Hnd.
    pose proof (min_support_positive user_ids) as Hpos.
    unfold GroupRecommender.common_genres_of.
    destruct ugp as [|up0 rest0] eqn:Eugp.
    { simpl in *. split; [tauto | lia]. }
    rewrite <- Eugp in *. rewrite <- Hs.
    rewrite in_map_iff. split.
    - intros [[g' n] [Hg Hin]]. simpl in Hg. subst g'.
      apply filter_In in Hin. destruct Hin as [Hin Hle]. simpl in Hle.
      apply (assoc_get_In _ string_eqb_eq _ _ _ Hnd) in Hin.
      unfold support_of. rewrite Hin. now apply Z.leb_le.
    - intro Hle. unfold support_of in Hle.
      destruct (assoc_get String.eqb g (GroupRecommender.genre_support ugp))
        as [n|] eqn:Eget; [|lia].
      exists (g, n). split; [reflexivity|].
      apply filter_In. split.
      + now apply (assoc_get_In _ string_eqb_eq _ _ _ Hnd).
      + simpl. now apply Z.leb_le. }
  split.
  - intros g supporters. split; [apply Hiff|].
    intros H3 H2. apply Hiff. fold supporters. rewrite H2.
    unfold GroupRecommender.min_support. rewrite H3. reflexivity.
  - intros g u. unfold likes, likes_in.
    pose proof (preferences_spec db all_user_ratings u g) as Hp.
    cbv zeta in *.
    destruct (assoc_get String.eqb g (preferences_of db all_user_ratings u))
      as [a|].
    + destruct Hp as [Hlen Ha]. rewrite Qle_bool_iff, Ha. tauto.
    + split; [discriminate | lia].
Qed.

(** The scenario of the specification: two of three members average 4.5 in
    Horror and the third 2.0; the support 2 meets the threshold 2. *)
Example horror_is_common_for_two_of_three :
  GroupRecommender.min_support [alice; bob; carol] = 2%Z
  /\ filter (likes horror_db horror_ratings "Horror") [alice; bob; carol]
     = [alice; bob]
  /\ (exists ugp,
        GroupRecommender.collect_preferences horror_db horror_ratings
          [alice; bob; carol] [] = Returned ugp
        /\ GroupRecommender.common_genres_of ugp [alice; bob; carol] = ["Horror"]).
Proof.
  split; [reflexivity|]. split; [reflexivity|].
  eexists. split; [vm_compute; reflexivity | reflexivity].
Qed.

(** ** Group satisfaction *)

Lemma fold_min_spec (xs : list Q) (x : Q) :
  fold_left Qmin xs x <= x
  /\ (forall y, In y xs -> fold_left Qmin xs x <= y)
  /\ (exists y, In y (x :: xs) /\ fold_left Qmin xs x == y).
Proof.
  revert x. induction xs as [|a xs IH]; intro x; simpl.
  - split; [apply Qle_refl|]. split; [tauto|].
    exists x. split; [now left | reflexivity].
  - destruct (IH (Qmin x a)) as [H1 [H2 [y [Hy Hy']]]].
    split; [eapply Qle_trans; [exact H1 | apply Q.le_min_l]|].
    split.
    + intros z [<-|Hz]; [|now apply H2].
      eapply Qle_trans; [exact H1 | apply Q.le_min_r].
    + destruct Hy as [<-|Hy].
      * destruct (Q.min_spec x a) as [[_ E]|[_ E]].
        -- exists x. split; [now left | now rewrite Hy', E].
        -- exists a. split; [right; now left | now rewrite Hy', E].
      * exists y. split; [right; now right | exact Hy'].
Qed.

Lemma clamp01_bounds (x : Q) :
  0 <= GroupRecommender.clamp01 x <= 1
  /\ (0 <= x <= 1 -> GroupRecommender.clamp01 x == x).
Proof.
  unfold GroupRecommender.clamp01. split; [split|].
  - apply Q.le_max_l.
  - apply Q.max_lub; [discriminate | apply Q.le_min_l].
  - intros [H0 H1]. rewrite Q.min_r by exact H1. now rewrite Q.max_r.
Qed.

Lemma mapM_map {A B C} (f : B -> outcome C) (g : A -> B) (l : list A) :
  mapM (fun x => f (g x)) l = mapM f (map g l).
Proof.
  induction l as [|x xs IH]; simpl; [reflexivity | now rewrite IH].
Qed.

Lemma StronglySorted_map {A B} (R : B -> B -> Prop) (f : A -> B) (l : list A) :
  StronglySorted (fun a b => R (f a) (f b)) l -> StronglySorted R (map f l).
Proof.
  induction 1 as [|a l Hs IH Hall]; simpl; constructor; [exact IH|].
  rewrite Forall_forall in *. intros b Hb.
  apply in_map_iff in Hb. destruct Hb as [x [<- Hx]]. now apply Hall.
Qed.

Lemma StronglySorted_weaken_In {A} (R R' : A -> A -> Prop) (l : list A) :
  (forall a b, In a l -> In b l -> R a b -> R' a b) ->
  StronglySorted R l -> StronglySorted R' l.
Proof.
  intros H Hs. induction Hs as [|a l Hs IH Hall]; constructor.
  - apply IH. intros x y Hx Hy. apply H; now right.
  - rewrite Forall_forall in *. intros b Hb.
    apply H; [now left | now right | now apply Hall].
Qed.

(** C4 as stated fails: the answer is cut at [limit].  With a limit of 2,
    three candidates reach the threshold 0.6 and the third, whose score is
    exactly 0.6, is not returned; this is so in exact arithmetic and in
    binary64 arithmetic. *)
Lemma group_answer_is_cut_at_limit :
  (exists a b,
     GroupRecommender.get_group_recommendations sample_parse unrated_db
       ["alice"; "bob"] 2 0.6 = Returned [a; b]
     /\ MovieSchema.id a = 1%Z /\ MovieSchema.id b = 2%Z)
  /\ In quiet_house (group_candidates unrated_db [alice; bob])
  /\ group_satisfaction unrated_db [alice; bob]
       (fst (GroupRecommender.load_ratings unrated_db [alice; bob] [] []))
       quiet_house == 0.6
  /\ Movie.id quiet_house = 3%Z
  /\ (exists a b,
        Rounded.get_group_recommendations binary64 (mean_in_order binary64)
          sample_parse unrated_db ["alice"; "bob"] 2 (binary64 0.6)
        = Returned [a; b]
        /\ MovieSchema.id a = 1%Z /\ MovieSchema.id b = 2%Z)
  /\ In quiet_house
       (Rounded.qualifying binary64 (mean_in_order binary64) unrated_db
          [alice; bob] (binary64 0.6)).
Proof.
  split; [do 2 eexists; split; [vm_compute; reflexivity | split; reflexivity]|].
  split; [vm_compute; tauto|].
  split; [vm_compute; reflexivity|]. split; [reflexivity|].
  split; [do 2 eexists; split; [vm_compute; reflexivity | split; reflexivity]|].
  vm_compute. tauto.
Qed.

(** *** The scorer with the float arithmetic written out *)

Lemma rounded_predict_user_satisfaction_returns (fl : Q -> Q) (db : Database)
    (movie : Movie.t) (u : UUID) (ur : list (Z * Q)) :
  exists s, Rounded._predict_user_satisfaction fl db movie u ur = Returned s.
Proof.
  unfold Rounded._predict_user_satisfaction, try_except.
  match goal with
  | |- exists s, match ?b with _ => _ end = _ => destruct b
  end; eexists; reflexivity.
Qed.

Lemma rounded_individual_satisfactions_returned (fl : Q -> Q) (db : Database)
    (movie : Movie.t) (user_ids : list UUID) (aur : list (UUID * list (Z * Q))) :
  mapM (fun user_id =>
          Rounded._predict_user_satisfaction fl db movie user_id
            (GroupRecommender.ratings_for aur user_id))
    user_ids
  = Returned (Rounded.individual_satisfactions fl db movie user_ids aur).
Proof.
  unfold Rounded.individual_satisfactions. apply mapM_returned.
  intros u _.
  destruct (rounded_predict_user_satisfaction_returns fl db movie u
              (GroupRecommender.ratings_for aur u)) as [s Hs].
  now rewrite Hs.
Qed.

(** The group score of a movie for a non-empty group, as computed. *)
Lemma rounded_group_satisfaction_spec (fl : Q -> Q) (np_mean : list Q -> Q)
    (db : Database) (user_ids : list UUID) (aur : list (UUID * list (Z * Q)))
    (movie : Movie.t) :
  user_ids <> [] ->
  let ind := Rounded.individual_satisfactions fl db movie user_ids aur in
  let score := Rounded.group_satisfaction fl np_mean db user_ids aur movie in
  Rounded._calculate_group_satisfaction fl np_mean db movie user_ids aur
  = Returned score
  /\ score
     = GroupRecommender.clamp01
         (fl (fl (fl 0.6 * np_mean ind)
              + fl (fl 0.4 * GroupRecommender.np_min ind)))
  /\ List.length ind = List.length user_ids
  /\ (forall s, In s ind -> GroupRecommender.np_min ind <= s)
  /\ (exists s, In s ind /\ GroupRecommender.np_min ind == s)
  /\ 0 <= score <= 1.
Proof.
  intros Hne ind score.
  assert (Hlen : List.length ind = List.length user_ids)
    by (unfold ind, Rounded.individual_satisfactions; apply length_map).
  assert (Hind : ind <> []).
  { intro E. rewrite E in Hlen. destruct user_ids; [now elim Hne | discriminate]. }
  assert (Hcalc :
    Rounded._calculate_group_satisfaction fl np_mean db movie user_ids aur
    = Returned (GroupRecommender.clamp01
                  (fl (fl (fl 0.6 * np_mean ind)
                       + fl (fl 0.4 * GroupRecommender.np_min ind))))).
  { unfold Rounded._calculate_group_satisfaction.
    rewrite rounded_individual_satisfactions_returned. fold ind.
    destruct ind as [|s ss]; [now elim Hind | reflexivity]. }
  unfold score, Rounded.group_satisfaction. rewrite Hcalc.
  split; [reflexivity|]. split; [reflexivity|]. split; [exact Hlen|].
  destruct ind as [|s0 ss]; [now elim Hind|].
  destruct (fold_min_spec ss s0) as [H1 [H2 H3]].
  split; [intros s [<-|Hs]; [exact H1 | now apply H2]|].
  split; [exact H3|].
  apply clamp01_bounds.
Qed.

Lemma rounded_score_candidates_spec (fl : Q -> Q) (np_mean : list Q -> Q)
    (db : Database) (user_ids : list UUID) (aur : list (UUID * list (Z * Q)))
    (thr : Q) (candidates : list Movie.t) :
  user_ids <> [] ->
  Rounded.score_candidates fl np_mean db user_ids aur thr candidates
  = Returned
      (map (fun m => (m, Rounded.group_satisfaction fl np_mean db user_ids aur m))
         (filter (fun m => Qle_bool thr
                             (Rounded.group_satisfaction fl np_mean db user_ids
                                aur m))
            candidates)).
Proof.
  intro Hne. induction candidates as [|m ms IH]; simpl; [reflexivity|].
  destruct (rounded_group_satisfaction_spec fl np_mean db user_ids aur m Hne)
    as [Hc _].
  rewrite Hc, IH. simpl.
  destruct (Qle_bool thr (Rounded.group_satisfaction fl np_mean db user_ids aur m));
    reflexivity.
Qed.

Lemma rounded_find_consensus_candidates_returns (fl : Q -> Q) (db : Database)
    (aur : list (UUID * list (Z * Q))) (user_ids : list UUID)
    (exclude_movies : list Z) (candidate_limit : nat) :
  exists candidates,
    Rounded._find_consensus_candidates fl db aur user_ids exclude_movies
      candidate_limit = Returned candidates.
Proof.
  unfold Rounded._find_consensus_candidates, try_except.
  match goal with
  | |- exists s, match ?b with _ => _ end = _ => destruct b
  end; eexists; reflexivity.
Qed.

(** Without rounding and with the exact mean the scorer is the one of
    [GroupRecommender]. *)
Lemma rounded_group_scorer_without_rounding
    (parse_uuid : string -> option UUID) (db : Database)
    (user_ids : list string) (limit : nat) (thr : Q) :
  Rounded.get_group_recommendations (fun x => x) GroupRecommender.np_mean
    parse_uuid db user_ids limit thr
  = GroupRecommender.get_group_recommendations parse_uuid db user_ids limit thr.
Proof. reflexivity. Qed.

(** Three members without ratings and a threshold of 0.7.  Each member's
    predicted satisfaction with Space Chase (vote average 7.0) is the float
    0.7, but their mean comes out as 0.6999999999999998, so the film is
    below the threshold and only the comedy is answered; for two members
    the mean is 0.7 and the film is answered.  In exact arithmetic the film
    would be answered to the three as well. *)
Example three_members_at_the_threshold :
  Rounded.group_satisfaction binary64 (mean_in_order binary64) unrated_db
    [alice; bob; carol] [] space_chase
  == 6305039478318693 # 9007199254740992
  /\ binary64 0.7 == 3152519739159347 # 4503599627370496
  /\ (exists a,
        Rounded.get_group_recommendations binary64 (mean_in_order binary64)
          trio_parse unrated_db ["alice"; "bob"; "carol"] 10 (binary64 0.7)
        = Returned [a]
        /\ MovieSchema.id a = 1%Z)
  /\ (exists a b,
        Rounded.get_group_recommendations binary64 (mean_in_order binary64)
          trio_parse unrated_db ["alice"; "bob"] 10 (binary64 0.7)
        = Returned [a; b]
        /\ MovieSchema.id a = 1%Z /\ MovieSchema.id b = 2%Z)
  /\ (exists a b,
        GroupRecommender.get_group_recommendations trio_parse unrated_db
          ["alice"; "bob"; "carol"] 10 0.7
        = Returned [a; b]
        /\ MovieSchema.id a = 1%Z /\ MovieSchema.id b = 2%Z).
Proof.
  split; [vm_compute; reflexivity|]. split; [vm_compute; reflexivity|].
  split; [eexists; split; [vm_compute; reflexivity | reflexivity]|].
  split; do 2 eexists; (split; [vm_compute; reflexivity | split; reflexivity]).
Qed.

(** C4, amended.  For a group with at least two valid ids the score of a
    candidate is 0.6 times the mean plus 0.4 times the minimum of the
    members' predicted satisfactions, computed in float arithmetic and
    clamped to [0,1].  The candidates whose computed score is at or above
    the threshold are ranked by descending score and the answer is the
    first [limit] movies of that ranking, so all of them when no more than
    [limit] qualify; the answer is empty when a returned movie cannot be
    converted.  This holds for every rounding of the float operations and
    every [mean], so for binary64 with numpy's and for exact arithmetic. *)
Theorem group_ranking_above_threshold :
  forall (fl : Q -> Q) (np_mean : list Q -> Q)
         (parse_uuid : string -> option UUID) (db : Database)
         (user_ids : list string) (limit : nat) (thr : Q),
    let uuids := GroupRecommender.valid_uuids parse_uuid user_ids in
    let aur := fst (GroupRecommender.load_ratings db uuids [] []) in
    let score := Rounded.group_satisfaction fl np_mean db uuids aur in
    let candidates := Rounded.group_candidates fl db uuids in
    let qualifying := Rounded.qualifying fl np_mean db uuids thr in
    (2 <= List.length uuids)%nat ->
    (forall m,
       let ind := Rounded.individual_satisfactions fl db m uuids aur in
       Rounded._calculate_group_satisfaction fl np_mean db m uuids aur
       = Returned (score m)
       /\ score m = GroupRecommender.clamp01
                      (fl (fl (fl 0.6 * np_mean ind)
                           + fl (fl 0.4 * GroupRecommender.np_min ind)))
       /\ List.length ind = List.length uuids
       /\ (forall s, In s ind -> GroupRecommender.np_min ind <= s)
       /\ (exists s, In s ind /\ GroupRecommender.np_min ind == s)
       /\ 0 <= score m <= 1)
    /\ exists ranked,
         Permutation ranked qualifying
         /\ (forall m, In m ranked <-> In m candidates /\ thr <= score m)
         /\ StronglySorted (fun a b => score b <= score a) ranked
         /\ Rounded.get_group_recommendations fl np_mean parse_uuid db user_ids
              limit thr
            = try_except (mapM _movie_to_schema (firstn limit ranked))
                (fun _ => Returned [])
         /\ ((List.length qualifying <= limit)%nat ->
             firstn limit ranked = ranked).
Proof.
  intros fl np_mean parse_uuid db user_ids limit thr uuids aur score candidates
    qualifying Hlen.
  assert (Hne : uuids <> []) by (destruct uuids; [simpl in Hlen; lia | discriminate]).
  split.
  { intros m ind.
    exact (rounded_group_satisfaction_spec fl np_mean db uuids aur m Hne). }
  set (scored := map (fun m => (m, score m)) qualifying).
  set (sorted := sorted_desc GroupRecommender.satisfaction_gtb scored).
  assert (Hperm : Permutation (map fst sorted) qualifying).
  { eapply perm_trans.
    - apply Permutation_map, Permutation_sym, sorted_desc_perm.
    - unfold scored. rewrite map_map. simpl. rewrite map_id. apply Permutation_refl. }
  assert (Hsnd : forall ms, In ms sorted -> snd ms = score (fst ms)).
  { intros ms Hin. apply sorted_desc_In in Hin. unfold scored in Hin.
    apply in_map_iff in Hin. destruct Hin as [m [<- _]]. reflexivity. }
  exists (map fst sorted).
  split; [exact Hperm|]. split.
  { intro m. split.
    - intro Hin. apply (Permutation_in _ Hperm) in Hin.
      unfold qualifying, Rounded.qualifying in Hin. apply filter_In in Hin.
      destruct Hin as [Hc Hq]. split; [exact Hc | now apply Qle_bool_iff].
    - intros [Hc Hq]. apply (Permutation_in _ (Permutation_sym Hperm)).
      unfold qualifying, Rounded.qualifying. apply filter_In.
      split; [exact Hc | now apply Qle_bool_iff]. }
  split.
  { apply StronglySorted_map.
    apply (StronglySorted_weaken_In (fun a b : Movie.t * Q => snd b <= snd a)).
    - intros a b Ha Hb Hab. now rewrite <- (Hsnd a Ha), <- (Hsnd b Hb).
    - exact (sorted_desc_by_key (@snd Movie.t Q) scored). }
  split.
  { unfold Rounded.get_group_recommendations.
    pose proof (valid_uuids_length parse_uuid user_ids) as Hle. fold uuids in Hle.
    replace (List.length user_ids <? 2)%nat with false
      by (symmetry; apply Nat.ltb_ge; lia).
    fold uuids.
    replace (List.length uuids <? 2)%nat with false
      by (symmetry; apply Nat.ltb_ge; lia).
    clear Hperm Hsnd. subst sorted scored qualifying score candidates.
    unfold Rounded.qualifying, Rounded.group_candidates. subst aur.
    destruct (GroupRecommender.load_ratings db uuids [] [])
      as [all_user_ratings all_rated_movies] eqn:El.
    simpl fst. simpl snd.
    destruct (rounded_find_consensus_candidates_returns fl db all_user_ratings
                uuids all_rated_movies 200) as [cands Hc].
    rewrite Hc. simpl bind.
    rewrite (rounded_score_candidates_spec fl np_mean db uuids all_user_ratings
               thr cands Hne).
    simpl bind. rewrite firstn_map, <- mapM_map. reflexivity. }
  intro Hq. apply firstn_all2.
  rewrite (Permutation_length Hperm). exact Hq.
Qed.

(** The two of them with the default threshold, in binary64 arithmetic. *)
Lemma group_ranking_above_threshold_for_two :
  (2 <= List.length (GroupRecommender.valid_uuids sample_parse ["alice"; "bob"]))%nat
  /\ exists ranked,
       Permutation ranked
         (Rounded.qualifying binary64 (mean_in_order binary64) unrated_db
            [alice; bob] (binary64 0.6))
       /\ List.length ranked = 3%nat
       /\ Rounded.get_group_recommendations binary64 (mean_in_order binary64)
            sample_parse unrated_db ["alice"; "bob"] 2 (binary64 0.6)
          = try_except (mapM _movie_to_schema (firstn 2 ranked))
              (fun _ => Returned []).
Proof.
  assert (H : (2 <= List.length
                      (GroupRecommender.valid_uuids sample_parse ["alice"; "bob"]))%nat)
    by (simpl; lia).
  split; [exact H|].
  destruct (group_ranking_above_threshold binary64 (mean_in_order binary64)
              sample_parse unrated_db ["alice"; "bob"] 2 (binary64 0.6) H)
    as [_ [ranked [Hp [_ [_ [Hr _]]]]]].
  exists ranked. split; [exact Hp|]. split; [|exact Hr].
  rewrite (Permutation_length Hp). vm_compute. reflexivity.
Defined.

(** ** Similarity matrices *)

Lemma dot_comm (x y : list Q) : Cosine.dot x y == Cosine.dot y x.
Proof.
  revert y. induction x as [|a x IH]; intros [|b y]; simpl; try reflexivity.
  rewrite IH. ring.
Qed.

Lemma nth_as_nth_error {A} (l : list A) (i : nat) (d : A) :
  nth i l d = match nth_error l i with Some x => x | None => d end.
Proof.
  revert i. induction l as [|x xs IH]; intros [|i]; simpl; try reflexivity.
  apply IH.
Qed.

Lemma zip_with_nth_error {A B C} (f : A -> B -> C) (l : list A) (l' : list B)
    (i : nat) :
  nth_error (Cosine.zip_with f l l') i
  = match nth_error l i, nth_error l' i with
    | Some x, Some y => Some (f x y)
    | _, _ => None
    end.
Proof.
  revert l' i. induction l as [|x xs IH]; intros [|y ys] [|i]; simpl;
    try reflexivity.
  - now destruct (nth_error xs i).
  - apply IH.
Qed.

(** An entry of a cosine matrix is the dot product of two normalised rows. *)
Lemma cosine_entry (np_sqrt : Q -> Q) (X : list (list Q)) (i j : nat) :
  let Xn := map (Cosine.normalize_row np_sqrt) X in
  match nth_error (Cosine.cosine_similarity np_sqrt X) i with
  | Some row => nth_error row j
  | None => None
  end
  = match nth_error Xn i, nth_error Xn j with
    | Some xi, Some xj => Some (Cosine.dot xi xj)
    | _, _ => None
    end.
Proof.
  intro Xn. unfold Cosine.cosine_similarity. fold Xn.
  rewrite nth_error_map. destruct (nth_error Xn i) as [xi|]; simpl; [|reflexivity].
  rewrite nth_error_map. now destruct (nth_error Xn j).
Qed.

Lemma entry_as_entry_opt (M : list (list Q)) (i j : nat) :
  Cosine.entry M i j = match entry_opt M i j with Some x => x | None => 0 end.
Proof.
  unfold Cosine.entry, entry_opt. rewrite !nth_as_nth_error.
  destruct (nth_error M i); [reflexivity | now destruct j].
Qed.

Lemma symmetric_entries (M : list (list Q)) :
  symmetric M -> forall i j, Cosine.entry M i j == Cosine.entry M j i.
Proof.
  intros H i j. rewrite !entry_as_entry_opt. specialize (H i j).
  destruct (entry_opt M i j), (entry_opt M j i); try contradiction;
    [exact H | reflexivity].
Qed.

Lemma cosine_similarity_symmetric (np_sqrt : Q -> Q) (X : list (list Q)) :
  symmetric (Cosine.cosine_similarity np_sqrt X).
Proof.
  intros i j. unfold entry_opt.
  rewrite (cosine_entry np_sqrt X i j), (cosine_entry np_sqrt X j i).
  cbv zeta.
  destruct (nth_error (map (Cosine.normalize_row np_sqrt) X) i);
    destruct (nth_error (map (Cosine.normalize_row np_sqrt) X) j);
    try exact I.
  apply dot_comm.
Qed.

Lemma blend_entry (a b : Q) (A B : list (list Q)) (i j : nat) :
  entry_opt (Cosine.blend a A b B) i j
  = match entry_opt A i j, entry_opt B i j with
    | Some x, Some y => Some (a * x + b * y)
    | _, _ => None
    end.
Proof.
  unfold entry_opt, Cosine.blend. rewrite zip_with_nth_error.
  destruct (nth_error A i) as [ra|]; [|reflexivity].
  destruct (nth_error B i) as [rb|].
  - apply zip_with_nth_error.
  - now destruct (nth_error ra j).
Qed.

Lemma blend_symmetric (a b : Q) (A B : list (list Q)) :
  symmetric A -> symmetric B -> symmetric (Cosine.blend a A b B).
Proof.
  intros HA HB i j. rewrite !blend_entry.
  specialize (HA i j). specialize (HB i j).
  destruct (entry_opt A i j), (entry_opt A j i); try contradiction;
    destruct (entry_opt B i j), (entry_opt B j i); try contradiction;
    try exact I.
  now rewrite HA, HB.
Qed.

(** C8.  Every similarity matrix the scorers build is symmetric: the
    cosine matrix of any feature matrix, the content matrix
    0.7 text cosine + 0.3 numeric cosine, and the user-user cosine matrix of
    the collaborative scorer.  Entries [i][j] and [j][i] exist together and
    are equal as rationals. *)
Theorem similarity_matrices_are_symmetric :
  forall (np_sqrt : Q -> Q)
         (tfidf_fit_transform : list string -> list (list Q))
         (scaler_fit_transform : list (list Q) -> list (list Q))
         (db : Database),
    (forall X, symmetric (Cosine.cosine_similarity np_sqrt X))
    /\ (forall model,
          ContentBased._compute_similarity_matrix np_sqrt tfidf_fit_transform
            scaler_fit_transform db = Some model ->
          symmetric (ContentBased.similarity_matrix model)
          /\ forall i j,
               Cosine.entry (ContentBased.similarity_matrix model) i j
               == Cosine.entry (ContentBased.similarity_matrix model) j i)
    /\ (forall self outcome similarity,
          Collaborative._compute_user_item_matrix np_sqrt db Collaborative.init
          = (self, outcome) ->
          Collaborative.user_similarity_matrix self = Some similarity ->
          symmetric similarity
          /\ forall i j,
               Cosine.entry similarity i j == Cosine.entry similarity j i).
Proof.
  intros np_sqrt tfidf_fit_transform scaler_fit_transform db.
  split; [apply cosine_similarity_symmetric|]. split.
  - intros model H. unfold ContentBased._compute_similarity_matrix in H.
    match type of H with
    | (if ?c then _ else _) = _ => destruct c; [discriminate|]
    end.
    injection H as <-. simpl.
    match goal with
    | |- symmetric ?M /\ _ => assert (Hs : symmetric M)
    end.
    { apply blend_symmetric; apply cosine_similarity_symmetric. }
    split; [exact Hs | now apply symmetric_entries].
  - intros self outcome similarity H Hsim.
    unfold Collaborative._compute_user_item_matrix in H.
    repeat match type of H with
    | (if ?c then _ else _) = _ =>
        destruct c; [injection H as <- _; discriminate|]
    end.
    injection H as <- _. simpl in Hsim. injection Hsim as <-.
    split; [apply cosine_similarity_symmetric|].
    apply symmetric_entries, cosine_similarity_symmetric.
Qed.

(** ** Content scorer *)

Lemma similar_movies_returned (db : Database) (model : option ContentBased.Model)
    (movie_id : Z) (limit : nat) (exclude_ids : list Z) :
  ContentBased._get_similar_movies_internal db model movie_id limit exclude_ids
  = Returned (neighbourhood db model movie_id limit exclude_ids).
Proof.
  unfold neighbourhood.
  unfold ContentBased._get_similar_movies_internal, try_except.
  match goal with
  | |- match ?b with _ => _ end = _ => destruct b
  end; reflexivity.
Qed.

Lemma movie_by_id_Some (db : Database) (movie_id : Z) (movie : Movie.t) :
  movie_by_id db movie_id = Some movie ->
  In movie (movies db) /\ Movie.id movie = movie_id.
Proof.
  unfold movie_by_id. intro H. apply find_some in H.
  destruct H as [Hin Heq]. split; [exact Hin | now apply Z.eqb_eq].
Qed.

Lemma enumerate_from_nth {A} (l : list A) (start idx : nat) (x : A) :
  In (idx, x) (ContentBased.enumerate_from start l) ->
  (start <= idx)%nat /\ nth_error l (idx - start) = Some x.
Proof.
  revert start. induction l as [|y ys IH]; intros start H; simpl in H; [tauto|].
  destruct H as [H|H].
  - injection H as <- <-. split; [lia|]. now rewrite Nat.sub_diag.
  - destruct (IH _ H) as [Hle Hn]. split; [lia|].
    replace (idx - start)%nat with (S (idx - S start)) by lia. exact Hn.
Qed.

(** What the neighbour loop keeps: stored movies outside the exclusion set,
    each with the matrix entry of the source row at the movie's index. *)
Lemma collect_similar_spec (db : Database) (m : ContentBased.Model) (limit : nat)
    (exclude_ids : list Z) (P : Movie.t * Q -> Prop)
    (sim_scores : list (nat * Q)) (acc out : list (Movie.t * Q)) :
  (forall idx score movie,
     In (idx, score) sim_scores ->
     ContentBased.key_of_index idx (ContentBased.movie_indices m)
     = Returned (Movie.id movie) ->
     In movie (movies db) -> ~ In (Movie.id movie) exclude_ids ->
     P (movie, score)) ->
  (forall x, In x acc -> P x) ->
  ContentBased.collect_similar db m limit exclude_ids sim_scores acc = Returned out ->
  forall x, In x out -> P x.
Proof.
  revert acc. induction sim_scores as [|[idx score] rest IH]; intros acc HP Hacc H;
    simpl in H.
  - injection H as <-. exact Hacc.
  - destruct (limit <=? List.length acc)%nat.
    { injection H as <-. exact Hacc. }
    destruct (ContentBased.key_of_index idx (ContentBased.movie_indices m))
      as [similar_movie_id|e] eqn:Ek; simpl in H; [|discriminate].
    assert (HP' : forall idx0 score0 movie,
               In (idx0, score0) rest ->
               ContentBased.key_of_index idx0 (ContentBased.movie_indices m)
               = Returned (Movie.id movie) ->
               In movie (movies db) -> ~ In (Movie.id movie) exclude_ids ->
               P (movie, score0)).
    { intros idx0 score0 movie Hin. apply HP. now right. }
    destruct (mem_Z similar_movie_id exclude_ids) eqn:Ex.
    { exact (IH acc HP' Hacc H). }
    destruct (movie_by_id db similar_movie_id) as [movie|] eqn:Em.
    + refine (IH _ HP' _ H).
      intros x Hx. apply in_app_or in Hx. destruct Hx as [Hx|[<-|[]]].
      * now apply Hacc.
      * apply movie_by_id_Some in Em. destruct Em as [Hin Hid].
        apply (HP idx); [now left | now rewrite Hid | exact Hin |].
        rewrite Hid. intro Hc. apply mem_Z_In in Hc. congruence.
    + exact (IH acc HP' Hacc H).
Qed.

Lemma neighbourhood_spec (db : Database) (m : ContentBased.Model)
    (movie_id : Z) (limit : nat) (exclude_ids : list Z) (movie : Movie.t) (s : Q) :
  In (movie, s) (neighbourhood db (Some m) movie_id limit exclude_ids) ->
  In movie (movies db)
  /\ ~ In (Movie.id movie) exclude_ids
  /\ exists i j,
       ContentBased.index_of movie_id (ContentBased.movie_indices m) = Some i
       /\ ContentBased.key_of_index j (ContentBased.movie_indices m)
          = Returned (Movie.id movie)
       /\ i <> j
       /\ entry_opt (ContentBased.similarity_matrix m) i j = Some s.
Proof.
  unfold neighbourhood, ContentBased._get_similar_movies_internal.
  destruct (ContentBased.index_of movie_id (ContentBased.movie_indices m))
    as [i|] eqn:Ei; [|intros []].
  destruct (nth_error (ContentBased.similarity_matrix m) i) as [row|] eqn:Er;
    [|intros []].
  cbv zeta.
  match goal with
  | |- context [ContentBased.collect_similar db m limit exclude_ids ?ss []] =>
      destruct (ContentBased.collect_similar db m limit exclude_ids ss [])
        as [out|e] eqn:Ec
  end; [|intros []].
  simpl. intro Hin.
  refine (collect_similar_spec db m limit exclude_ids
            (fun x => In (fst x) (movies db)
                      /\ ~ In (Movie.id (fst x)) exclude_ids
                      /\ exists i0 j,
                           Some i = Some i0
                           /\ ContentBased.key_of_index j (ContentBased.movie_indices m)
                              = Returned (Movie.id (fst x))
                           /\ i0 <> j
                           /\ entry_opt (ContentBased.similarity_matrix m) i0 j
                              = Some (snd x))
            _ [] out _ _ Ec (movie, s) Hin).
  - intros idx score mv Hs Hk Hmv Hex. simpl.
    apply sorted_desc_In in Hs. apply filter_In in Hs.
    destruct Hs as [Hs Hne]. simpl in Hne.
    apply enumerate_from_nth in Hs. destruct Hs as [_ Hs].
    rewrite Nat.sub_0_r in Hs.
    split; [exact Hmv|]. split; [exact Hex|].
    exists i, idx. split; [reflexivity|]. split; [exact Hk|]. split.
    + intro Heq. subst idx. rewrite Nat.eqb_refl in Hne. discriminate.
    + unfold entry_opt. now rewrite Er.
  - intros x [].
Qed.

Lemma add_candidate_get (mv : Movie.t) (t : Q)
    (d : list (Z * ContentBased.Candidate)) (k : Z) :
  assoc_get Z.eqb k (ContentBased.add_candidate mv t d)
  = if (Movie.id mv =? k)%Z then
      Some (match assoc_get Z.eqb k d with
            | Some c =>
                {| ContentBased.movie := ContentBased.movie c;
                   ContentBased.score := ContentBased.score c + t;
                   ContentBased.count := (ContentBased.count c + 1)%Z |}
            | None =>
                {| ContentBased.movie := mv; ContentBased.score := 0 + t;
                   ContentBased.count := (0 + 1)%Z |}
            end)
    else assoc_get Z.eqb k d.
Proof.
  induction d as [|[k0 c0] rest IH]; simpl.
  - destruct (Movie.id mv =? k)%Z; reflexivity.
  - destruct (k0 =? Movie.id mv)%Z eqn:E0; simpl.
    + apply Z.eqb_eq in E0. subst k0.
      destruct (Movie.id mv =? k)%Z; reflexivity.
    + destruct (k0 =? k)%Z eqn:Ek.
      * apply Z.eqb_eq in Ek. subst k0.
        rewrite Z.eqb_sym in E0. now rewrite E0.
      * exact IH.
Qed.

Lemma add_candidate_keys (mv : Movie.t) (t : Q)
    (d : list (Z * ContentBased.Candidate)) (k : Z) :
  In k (map fst (ContentBased.add_candidate mv t d))
  <-> k = Movie.id mv \/ In k (map fst d).
Proof.
  induction d as [|[k0 c0] rest IH]; simpl.
  - intuition.
  - destruct (k0 =? Movie.id mv)%Z eqn:E0; simpl.
    + apply Z.eqb_eq in E0. subst k0. intuition.
    + rewrite IH. intuition.
Qed.

Lemma add_candidate_NoDup (mv : Movie.t) (t : Q)
    (d : list (Z * ContentBased.Candidate)) :
  NoDup (map fst d) -> NoDup (map fst (ContentBased.add_candidate mv t d)).
Proof.
  induction d as [|[k0 c0] rest IH]; simpl; intro H.
  - constructor; [intros [] | constructor].
  - inversion H as [|? ? Hnin Hnd]; subst.
    destruct (k0 =? Movie.id mv)%Z eqn:E0; simpl.
    + now constructor.
    + constructor; [|now apply IH].
      rewrite add_candidate_keys. intros [->|Hin]; [|contradiction].
      rewrite Z.eqb_refl in E0. discriminate.
Qed.

Lemma add_candidate_movies (P : Movie.t -> Prop) (mv : Movie.t) (t : Q)
    (d : list (Z * ContentBased.Candidate)) :
  P mv ->
  (forall kc, In kc d -> P (ContentBased.movie (snd kc))
                         /\ Movie.id (ContentBased.movie (snd kc)) = fst kc) ->
  forall kc, In kc (ContentBased.add_candidate mv t d) ->
             P (ContentBased.movie (snd kc))
             /\ Movie.id (ContentBased.movie (snd kc)) = fst kc.
Proof.
  intros Hmv. induction d as [|[k0 c0] rest IH]; simpl; intros Hd kc Hin.
  - destruct Hin as [<-|[]]. simpl. split; [exact Hmv | reflexivity].
  - destruct (k0 =? Movie.id mv)%Z eqn:E0.
    + destruct Hin as [<-|Hin]; [|apply Hd; now right].
      simpl. apply (Hd (k0, c0)). now left.
    + destruct Hin as [<-|Hin]; [apply Hd; now left|].
      apply IH; [|exact Hin]. intros kc' H'. apply Hd. now right.
Qed.

(** The candidate dict after the loops have visited a list of terms. *)
Lemma add_terms_spec (terms : list (Movie.t * Q))
    (d : list (Z * ContentBased.Candidate)) (k : Z) :
  let d' := fold_left (fun d mt => ContentBased.add_candidate (fst mt) (snd mt) d)
              terms d in
  count_of_candidate k d'
  = (count_of_candidate k d + Z.of_nat (List.length (terms_for k terms)))%Z
  /\ score_in k d' == score_in k d + Qsum (terms_for k terms)
  /\ (In k (map fst d') <-> In k (map fst d) \/ terms_for k terms <> [])
  /\ (NoDup (map fst d) -> NoDup (map fst d')).
Proof.
  revert d. induction terms as [|[mv t] rest IH]; intro d; simpl.
  - split; [lia|]. split; [ring|]. split; [|tauto].
    split; [tauto | intros [H|H]; [exact H | now elim H]].
  - destruct (IH (ContentBased.add_candidate mv t d)) as [Hc [Hs [Hk Hn]]].
    cbv zeta in *. rewrite Hc, Hs, Hk. clear Hc Hs Hk.
    unfold count_of_candidate, score_in, terms_for.
    rewrite add_candidate_get, add_candidate_keys.
    cbn [filter map fst snd List.length Qsum].
    destruct (Movie.id mv =? k)%Z eqn:E.
    + apply Z.eqb_eq in E.
      cbn [filter map fst snd List.length Qsum].
      split; [destruct (assoc_get Z.eqb k d); cbn [ContentBased.count]; lia|].
      split; [destruct (assoc_get Z.eqb k d); cbn [ContentBased.score]; ring|].
      split; [|intro H; now apply Hn, add_candidate_NoDup].
      split; [intros _; right; discriminate | intros _; left; now left].
    + apply Z.eqb_neq in E.
      split; [lia|]. split; [ring|].
      split; [|intro H; now apply Hn, add_candidate_NoDup].
      split; [intros [[->|H]|H]; [now elim E | now left | now right]
             | intros [H|H]; [left; now right | now right]].
Qed.

Lemma add_terms_movies (P : Movie.t -> Prop) (terms : list (Movie.t * Q))
    (d : list (Z * ContentBased.Candidate)) :
  (forall mt, In mt terms -> P (fst mt)) ->
  (forall kc, In kc d -> P (ContentBased.movie (snd kc))
                         /\ Movie.id (ContentBased.movie (snd kc)) = fst kc) ->
  forall kc,
    In kc (fold_left (fun d mt => ContentBased.add_candidate (fst mt) (snd mt) d)
             terms d) ->
    P (ContentBased.movie (snd kc))
    /\ Movie.id (ContentBased.movie (snd kc)) = fst kc.
Proof.
  revert d. induction terms as [|[mv t] rest IH]; intros d Ht Hd; simpl.
  - exact Hd.
  - apply IH.
    + intros mt H. apply Ht. now right.
    + apply add_candidate_movies; [|exact Hd].
      apply (Ht (mv, t)). now left.
Qed.

Lemma accumulate_spec (db : Database) (model : option ContentBased.Model)
    (rated : list Z) (user_ratings : list Rating.t)
    (d : list (Z * ContentBased.Candidate)) :
  ContentBased.accumulate db model rated user_ratings d
  = Returned
      (fold_left (fun d mt => ContentBased.add_candidate (fst mt) (snd mt) d)
         (weighted_terms db model rated user_ratings) d).
Proof.
  revert d. induction user_ratings as [|r rest IH]; intro d; simpl.
  - reflexivity.
  - rewrite similar_movies_returned. simpl.
    rewrite IH. unfold weighted_terms at 2. simpl. rewrite fold_left_app.
    f_equal. f_equal. unfold ContentBased.add_neighbourhood.
    generalize (neighbourhood db model (Rating.movie_id r) 20 rated) as l.
    intro l. revert d. induction l as [|ms l IHl]; intro d; simpl.
    + reflexivity.
    + apply IHl.
Qed.

(** C3.  In the content scorer every source rating of 4.0 or more adds, to
    each movie of the source's neighbourhood, the similarity of source and
    movie times rating/5.  A candidate holds the sum of its terms and their
    number, and the candidates are ranked by descending sum divided by
    number, the average, which the answer follows for its first [limit]
    movies. *)
Theorem content_ranking_by_average_score :
  forall (db : Database) (model : option ContentBased.Model) (user_id : UUID)
         (limit : nat) (exclude_watched : bool),
    let user_ratings := ContentBased.liked_ratings db user_id in
    let rated :=
      if exclude_watched then map Rating.movie_id user_ratings else [] in
    let terms := weighted_terms db model rated user_ratings in
    (forall r, In r user_ratings <->
               In r (ratings db) /\ Rating.user_id r = user_id
               /\ 4 <= Rating.rating r)
    /\ (forall m r movie s,
          model = Some m -> In r user_ratings ->
          In (movie, s) (neighbourhood db model (Rating.movie_id r) 20 rated) ->
          exists i j,
            ContentBased.index_of (Rating.movie_id r) (ContentBased.movie_indices m)
            = Some i
            /\ ContentBased.key_of_index j (ContentBased.movie_indices m)
               = Returned (Movie.id movie)
            /\ entry_opt (ContentBased.similarity_matrix m) i j = Some s)
    /\ exists candidates,
         ContentBased.accumulate db model rated user_ratings [] = Returned candidates
         /\ NoDup (map fst candidates)
         /\ (forall k, In k (map fst candidates) <-> terms_for k terms <> [])
         /\ (forall k c, In (k, c) candidates ->
               let n := Z.of_nat (List.length (terms_for k terms)) in
               Movie.id (ContentBased.movie c) = k
               /\ ContentBased.score c == Qsum (terms_for k terms)
               /\ ContentBased.count c = n
               /\ ContentBased.average c == Qsum (terms_for k terms) / inject_Z n)
         /\ let ranked :=
              sorted_desc ContentBased.average_gtb (map snd candidates) in
            Permutation ranked (map snd candidates)
            /\ StronglySorted
                 (fun a b => ContentBased.average b <= ContentBased.average a)
                 ranked
            /\ (user_ratings <> [] ->
                ContentBased.get_recommendations db model user_id limit
                  exclude_watched
                = try_except
                    (mapM (fun c => _movie_to_schema (ContentBased.movie c))
                       (firstn limit ranked))
                    (fun _ => _get_popular_movies db limit)).
Proof.
  intros db model user_id limit exclude_watched user_ratings rated terms.
  split.
  { intro r. unfold user_ratings, ContentBased.liked_ratings.
    rewrite filter_In, andb_true_iff, Qle_bool_iff.
    unfold uuid_eqb. rewrite N.eqb_eq. tauto. }
  split.
  { intros m r movie s -> _ Hin.
    apply neighbourhood_spec in Hin.
    destruct Hin as [_ [_ [i [j [Hi [Hj [_ He]]]]]]].
    exists i, j. repeat split; assumption. }
  eexists. split; [apply accumulate_spec|].
  fold terms.
  set (candidates :=
         fold_left (fun d mt => ContentBased.add_candidate (fst mt) (snd mt) d)
           terms []).
  assert (Hnd : NoDup (map fst candidates)).
  { destruct (add_terms_spec terms [] 0%Z) as [_ [_ [_ Hn]]]. apply Hn. constructor. }
  split; [exact Hnd|]. split.
  { intro k. destruct (add_terms_spec terms [] k) as [_ [_ [Hk _]]].
    cbv zeta in Hk. fold candidates in Hk. rewrite Hk. simpl. tauto. }
  split.
  { intros k c Hin n.
    destruct (add_terms_spec terms [] k) as [Hc [Hs _]].
    cbv zeta in Hc, Hs. fold candidates in Hc, Hs.
    unfold count_of_candidate in Hc. unfold score_in in Hs.
    pose proof (proj1 (assoc_get_In Z.eqb Z.eqb_eq k c candidates Hnd) Hin) as Hg.
    rewrite Hg in Hc, Hs. simpl in Hc, Hs.
    assert (Hid : Movie.id (ContentBased.movie c) = k).
    { apply (add_terms_movies (fun _ => True) terms [] (fun _ _ => I)
               (fun kc H => match H with end) (k, c) Hin). }
    rewrite Qplus_0_l in Hs.
    split; [exact Hid|]. split; [exact Hs|]. split; [exact Hc|].
    unfold ContentBased.average. rewrite Hs, Hc. reflexivity. }
  cbv zeta. split; [apply Permutation_sym, sorted_desc_perm|].
  split; [apply (sorted_desc_by_key ContentBased.average)|].
  intro Hne. unfold ContentBased.get_recommendations.
  fold user_ratings. destruct user_ratings as [|r rs] eqn:Eur; [now elim Hne|].
  fold rated. rewrite accumulate_spec. reflexivity.
Qed.

(** The average, not the sum, decides: with exclusion off, Film X gathers
    0.5 from each of the two sources (sum 1.0, average 0.5) and is ranked
    after Film B and Film A, which gather 0.6 from one source each. *)
Example average_ranks_below_larger_sum :
  exists b a x,
    ContentBased.get_recommendations ranking_db (Some ranking_model) alice 10 false
    = Returned [b; a; x]
    /\ map MovieSchema.id [b; a; x] = [22; 21; 23]%Z.
Proof.
  do 3 eexists. split; [vm_compute; reflexivity | reflexivity].
Qed.

(** ** Exclusion of rated movies *)

Lemma mapM_total {A B} (f : A -> outcome B) (l : list A) :
  (forall x, In x l -> exists y, f x = Returned y) ->
  exists l', mapM f l = Returned l'.
Proof.
  induction l as [|x xs IH]; intro H; simpl.
  - eexists. reflexivity.
  - destruct (H x (or_introl eq_refl)) as [y Hy]. rewrite Hy. simpl.
    destruct IH as [ys Hys]; [intros z Hz; apply H; now right|].
    rewrite Hys. simpl. eexists. reflexivity.
Qed.

Lemma weighted_terms_movies (db : Database) (model : option ContentBased.Model)
    (rated : list Z) (user_ratings : list Rating.t) (mt : Movie.t * Q) :
  In mt (weighted_terms db model rated user_ratings) ->
  In (fst mt) (movies db) /\ ~ In (Movie.id (fst mt)) rated.
Proof.
  unfold weighted_terms. rewrite in_flat_map.
  intros [r [_ Hin]]. apply in_map_iff in Hin.
  destruct Hin as [[movie s] [<- Hin]]. simpl.
  destruct model as [m|].
  - apply neighbourhood_spec in Hin. tauto.
  - destruct Hin.
Qed.

(** The mood scorer leaves out every movie the user has rated. *)
Lemma mood_excludes_rated (polarity : string -> Q) (math_log : Q -> Q)
    (db : Database) (user_id : UUID) (mood : string) (limit : nat)
    (l : list MovieSchema.t) (s : MovieSchema.t) :
  MoodAnalyzer.get_mood_recommendations polarity math_log db user_id mood limit
  = Returned l ->
  In s l ->
  ~ In (MovieSchema.id s) (map Rating.movie_id (ratings_of db user_id)).
Proof.
  intros Hl Hs.
  destruct (mood_output_from_candidates _ _ _ _ _ _ _ Hl s Hs)
    as [movie [tg [_ [Hin Hschema]]]].
  rewrite (_movie_to_schema_id _ _ Hschema).
  unfold MoodAnalyzer.mood_candidates in Hin. apply filter_In in Hin.
  destruct Hin as [_ Hcond]. apply andb_true_iff in Hcond.
  destruct Hcond as [_ Hex].
  destruct (map Rating.movie_id (ratings_of db user_id)) as [|x xs]; [tauto|].
  apply negb_true_iff in Hex. intro Hc. apply mem_Z_In in Hc. congruence.
Qed.

Lemma mem_nat_In (x : nat) (l : list nat) : Collaborative.mem_nat x l = true <-> In x l.
Proof.
  unfold Collaborative.mem_nat. rewrite existsb_exists. split.
  - intros [y [Hy E]]. apply Nat.eqb_eq in E. now subst.
  - intro H. exists x. split; [exact H | apply Nat.eqb_refl].
Qed.

Lemma add_recommendation_keys (self : Collaborative.State) (rated : list nat)
    (sim : Q) (recs : list (Z * Q)) (ir : nat * Q) (k : Z) :
  In k (map fst (Collaborative.add_recommendation self rated sim recs ir)) ->
  In k (map fst recs)
  \/ (~ In (fst ir) rated
      /\ assoc_get Nat.eqb (fst ir) (Collaborative.reverse_movie_map self) = Some k).
Proof.
  destruct ir as [movie_idx rating]. unfold Collaborative.add_recommendation.
  destruct (Qle_bool 4 rating && negb (Collaborative.mem_nat movie_idx rated))
    eqn:Ec; [|now left].
  apply andb_true_iff in Ec. destruct Ec as [_ Ec]. apply negb_true_iff in Ec.
  destruct (assoc_get Nat.eqb movie_idx (Collaborative.reverse_movie_map self))
    as [movie_id|] eqn:Er; [|now left].
  destruct (movie_id =? 0)%Z; [now left|].
  rewrite (assoc_set_keys _ Z.eqb_eq). intros [->|H]; [right | now left].
  simpl. split; [|exact Er].
  intro Hin. apply mem_nat_In in Hin. congruence.
Qed.

Lemma add_similar_users_keys (self : Collaborative.State) (M : list (list Q))
    (rated : list nat) (similar_users : list (nat * Q)) (recs out : list (Z * Q)) :
  Collaborative.add_similar_users self M rated similar_users recs = Returned out ->
  forall k, In k (map fst out) ->
    In k (map fst recs)
    \/ exists j, ~ In j rated
                 /\ assoc_get Nat.eqb j (Collaborative.reverse_movie_map self) = Some k.
Proof.
  revert recs. induction similar_users as [|[su sim] rest IH]; intros recs H k Hk;
    simpl in H.
  - injection H as <-. now left.
  - destruct (nth_error M su) as [row|]; [|discriminate].
    destruct (IH _ H k Hk) as [Hin|Hex]; [|now right].
    clear - Hin. revert recs Hin.
    induction (ContentBased.enumerate row) as [|ir l IHl]; intros recs Hin; simpl in Hin.
    + now left.
    + destruct (IHl _ Hin) as [H|H]; [|now right].
      apply add_recommendation_keys in H. destruct H as [H|[H1 H2]]; [now left|].
      right. now exists (fst ir).
Qed.

Lemma to_schemas_ids (db : Database) (recs : list (Z * Q)) (l : list MovieSchema.t) :
  Collaborative.to_schemas db recs = Returned l ->
  forall s, In s l -> In (MovieSchema.id s) (map fst recs).
Proof.
  revert l. induction recs as [|[movie_id sc] rest IH]; intros l H s Hs; simpl in H.
  - injection H as <-. destruct Hs.
  - destruct (movie_by_id db movie_id) as [movie|] eqn:Em.
    + destruct (_movie_to_schema movie) as [ms|] eqn:Es; simpl in H; [|discriminate].
      destruct (Collaborative.to_schemas db rest) as [tl|]; simpl in H; [|discriminate].
      injection H as <-. destruct Hs as [<-|Hs].
      * left. simpl. rewrite (_movie_to_schema_id _ _ Es).
        apply movie_by_id_Some in Em. symmetry. apply Em.
      * right. now apply (IH tl).
    + right. now apply (IH l).
Qed.

Lemma find_similar_users_returns (np_argsort : list Q -> list nat)
    (self : Collaborative.State) (user_idx limit : nat) :
  exists similar,
    Collaborative._find_similar_users np_argsort self user_idx limit
    = Returned similar.
Proof.
  unfold Collaborative._find_similar_users, try_except.
  match goal with
  | |- exists s, match ?b with _ => _ end = _ => destruct b
  end; eexists; reflexivity.
Qed.

(** The similar-user path of the collaborative scorer scores no movie
    whose column the user's row of the rating matrix marks as rated. *)
Lemma collaborative_excludes_rated (np_sqrt : Q -> Q)
    (np_argsort : list Q -> list nat) (pickle : option Collaborative.Pickle)
    (db : Database) (self : Collaborative.State) (user_id : UUID) (limit : nat)
    (exclude_watched : bool) (M : list (list Q)) (user_idx : nat)
    (user_ratings : list Q) :
  Collaborative.user_movie_matrix self = Some M ->
  assoc_get uuid_eqb user_id (Collaborative.user_index_map self) = Some user_idx ->
  nth_error M user_idx = Some user_ratings ->
  (forall j j' k,
     assoc_get Nat.eqb j (Collaborative.reverse_movie_map self) = Some k ->
     assoc_get Nat.eqb j' (Collaborative.reverse_movie_map self) = Some k ->
     j = j') ->
  exists similar,
    Collaborative._find_similar_users np_argsort self user_idx 50 = Returned similar
    /\ forall recs,
         Collaborative.add_similar_users self M
           (Collaborative.rated_columns user_ratings) (firstn 50 similar) []
         = Returned recs ->
         let ranked := firstn limit (sorted_desc Collaborative.score_gtb recs) in
         Collaborative.get_recommendations np_sqrt np_argsort pickle db self
           user_id limit exclude_watched
         = try_except (Collaborative.to_schemas db ranked)
             (fun _ => _get_popular_movies db limit)
         /\ forall l s j rating,
              Collaborative.to_schemas db ranked = Returned l -> In s l ->
              nth_error user_ratings j = Some rating -> 0 < rating ->
              assoc_get Nat.eqb j (Collaborative.reverse_movie_map self)
              <> Some (MovieSchema.id s).
Proof.
  intros HM Hu Hrow Hinj.
  destruct (find_similar_users_returns np_argsort self user_idx 50)
    as [similar Hsim].
  exists similar. split; [exact Hsim|].
  intros recs Hrecs ranked. split.
  - unfold Collaborative.get_recommendations.
    rewrite HM. cbn [bind]. rewrite Hu, HM, Hrow, Hsim. cbn [bind].
    rewrite Hrecs. reflexivity.
  - intros l s j rating Hl Hs Hj Hpos Hget.
    apply (to_schemas_ids _ _ _ Hl) in Hs.
    assert (Hk : In (MovieSchema.id s) (map fst recs)).
    { apply in_map_iff in Hs. destruct Hs as [x [Hx Hin]].
      apply firstn_In in Hin. apply sorted_desc_In in Hin.
      rewrite <- Hx. now apply in_map. }
    destruct (add_similar_users_keys _ _ _ _ _ _ Hrecs _ Hk) as [[]|[j' [Hn Hg]]].
    assert (j = j') by (eapply Hinj; eassumption). subst j'.
    apply Hn. unfold Collaborative.rated_columns.
    apply in_map_iff. exists (j, rating). split; [reflexivity|].
    apply filter_In. split; [|now apply Qltb_true].
    clear - Hj. unfold ContentBased.enumerate.
    assert (H : forall start, In ((start + j)%nat, rating)
                                (ContentBased.enumerate_from start user_ratings)).
    { revert j Hj. induction user_ratings as [|x xs IH]; intros [|j] Hj start;
        simpl in *; try discriminate.
      - injection Hj as ->. left. f_equal. lia.
      - right. replace (start + S j)%nat with (S start + j)%nat by lia.
        now apply IH. }
    apply (H 0%nat).
Qed.

(** C2 as stated fails: with no rating of 4.0 or more the content scorer
    answers with the popular movies, and the comedy Alice rated 2.0 leads
    that list; the collaborative scorer does the same for a user outside
    its index, and the mood scorer's [get_recommendations] for a user
    without a recent rating. *)
Lemma popular_fallback_returns_rated_movie :
  In 1%Z (map Rating.movie_id (ratings_of sample_db alice))
  /\ (exists a b c,
        ContentBased.get_recommendations sample_db None alice 10 true
        = Returned [a; b; c]
        /\ MovieSchema.id a = 1%Z)
  /\ (exists a b c,
        Collaborative.get_recommendations flat_sqrt sample_argsort None sample_db
          Collaborative.init alice 10 true
        = Returned [a; b; c]
        /\ MovieSchema.id a = 1%Z)
  /\ (exists a b c,
        MoodAnalyzer.get_recommendations no_polarity flat_log (fun _ => false)
          sample_db alice 10 true
        = Returned [a; b; c]
        /\ MovieSchema.id a = 1%Z).
Proof.
  split; [now left|].
  split; [|split]; do 3 eexists; (split; [vm_compute; reflexivity | reflexivity]).
Qed.

(** The exclusion set of the content scorer holds only the ratings of 4.0
    or more: Film X, which Alice rated 2.0, is returned to her. *)
Example content_scorer_returns_low_rated_movie :
  In 23%Z (map Rating.movie_id (ratings_of mixed_db alice))
  /\ (exists b x,
        ContentBased.get_recommendations mixed_db (Some ranking_model) alice 10 true
        = Returned [b; x]
        /\ MovieSchema.id x = 23%Z)
  /\ (exists b,
        ContentBased.get_similar_movies mixed_db (Some ranking_model) 21
          (Some alice) 10 = Returned [b]
        /\ MovieSchema.id b = 22%Z).
Proof.
  split; [right; now left|].
  split.
  - do 2 eexists. split; [vm_compute; reflexivity | reflexivity].
  - eexists. split; [vm_compute; reflexivity | reflexivity].
Qed.

(** The similar-user path on a trained state: Bob's 4.0 for Film B reaches
    Alice, his 5.0 for Film A, which she rated, does not. *)
Example collaborative_path_skips_rated_column :
  exists b,
    Collaborative.get_recommendations flat_sqrt sample_argsort None ranking_db
      sample_state alice 10 true = Returned [b]
    /\ MovieSchema.id b = 22%Z.
Proof.
  eexists. split; [vm_compute; reflexivity | reflexivity].
Qed.

(** C2, amended.  [get_mood_recommendations] never returns a movie the
    user has rated, and the similar-user path of the collaborative scorer
    never returns a movie whose column the user's matrix row marks as
    rated.  Where a scorer answers with [_get_popular_movies], which takes
    no user, nothing is excluded: the content scorer does so for a user
    without a rating of 4.0 or more, the collaborative scorer for a user
    outside its index, and [get_recommendations] of the mood scorer when it
    infers no mood (it excludes what the user rated when it infers one).
    What the similarity path of the content scorer excludes is not part of
    this statement. *)
Theorem scorers_exclude_rated_movies :
  forall (db : Database),
    (forall (polarity : string -> Q) (math_log : Q -> Q) (user_id : UUID)
            (mood : string) (limit : nat) (l : list MovieSchema.t) (s : MovieSchema.t),
        MoodAnalyzer.get_mood_recommendations polarity math_log db user_id mood limit
        = Returned l ->
        In s l ->
        ~ In (MovieSchema.id s) (map Rating.movie_id (ratings_of db user_id)))
    /\ (forall (polarity : string -> Q) (math_log : Q -> Q)
               (is_recent : Rating.t -> bool) (user_id : UUID) (limit : nat)
               (exclude_watched : bool),
          let answer :=
            MoodAnalyzer.get_recommendations polarity math_log is_recent db
              user_id limit exclude_watched in
          answer = _get_popular_movies db limit
          \/ forall l s,
               answer = Returned l -> In s l ->
               ~ In (MovieSchema.id s)
                   (map Rating.movie_id (ratings_of db user_id)))
    /\ (forall (model : option ContentBased.Model) (user_id : UUID) (limit : nat)
               (exclude_watched : bool),
          ContentBased.liked_ratings db user_id = [] ->
          ContentBased.get_recommendations db model user_id limit exclude_watched
          = _get_popular_movies db limit)
    /\ (forall (np_sqrt : Q -> Q) (np_argsort : list Q -> list nat)
               (pickle : option Collaborative.Pickle) (self : Collaborative.State)
               (user_id : UUID) (limit : nat) (exclude_watched : bool)
               (M : list (list Q)),
          Collaborative.user_movie_matrix self = Some M ->
          assoc_get uuid_eqb user_id (Collaborative.user_index_map self) = None ->
          Collaborative.get_recommendations np_sqrt np_argsort pickle db self
            user_id limit exclude_watched
          = _get_popular_movies db limit)
    /\ (forall (np_sqrt : Q -> Q) (np_argsort : list Q -> list nat)
               (pickle : option Collaborative.Pickle) (self : Collaborative.State)
               (user_id : UUID) (limit : nat) (exclude_watched : bool)
               (M : list (list Q)) (user_idx : nat) (user_ratings : list Q),
          Collaborative.user_movie_matrix self = Some M ->
          assoc_get uuid_eqb user_id (Collaborative.user_index_map self)
          = Some user_idx ->
          nth_error M user_idx = Some user_ratings ->
          (forall j j' k,
             assoc_get Nat.eqb j (Collaborative.reverse_movie_map self) = Some k ->
             assoc_get Nat.eqb j' (Collaborative.reverse_movie_map self) = Some k ->
             j = j') ->
          exists similar,
            Collaborative._find_similar_users np_argsort self user_idx 50
            = Returned similar
            /\ forall recs,
                 Collaborative.add_similar_users self M
                   (Collaborative.rated_columns user_ratings) (firstn 50 similar) []
                 = Returned recs ->
                 let ranked :=
                   firstn limit (sorted_desc Collaborative.score_gtb recs) in
                 Collaborative.get_recommendations np_sqrt np_argsort pickle db
                   self user_id limit exclude_watched
                 = try_except (Collaborative.to_schemas db ranked)
                     (fun _ => _get_popular_movies db limit)
                 /\ forall l s j rating,
                      Collaborative.to_schemas db ranked = Returned l -> In s l ->
                      nth_error user_ratings j = Some rating -> 0 < rating ->
                      assoc_get Nat.eqb j (Collaborative.reverse_movie_map self)
                      <> Some (MovieSchema.id s)).
Proof.
  intro db. split; [|split; [|split; [|split]]].
  - intros. eapply mood_excludes_rated; eassumption.
  - intros polarity math_log is_recent user_id limit exclude_watched answer.
    unfold answer, MoodAnalyzer.get_recommendations,
      MoodAnalyzer._analyze_user_recent_mood, try_except.
    match goal with
    | |- context [match ?b with Returned a => Returned a | Raised e => _ end] =>
        destruct b as [[[|c mood]|]|e]
    end; cbn [bind]; try (now left).
    right. intros l s Hl Hs. eapply mood_excludes_rated; eassumption.
  - intros model user_id limit exclude_watched Hnone.
    unfold ContentBased.get_recommendations. rewrite Hnone. cbv zeta.
    now destruct (_get_popular_movies db limit).
  - intros np_sqrt np_argsort pickle self user_id limit exclude_watched M HM Hu.
    unfold Collaborative.get_recommendations. rewrite HM. cbn [bind].
    rewrite Hu. now destruct (_get_popular_movies db limit).
  - intros. eapply collaborative_excludes_rated; eassumption.
Qed.

(** Both training routines reach their cosine matrix on a store that is
    large enough; the collaborative one then fails on the unbound
    [matrix_path], with the matrices already assigned. *)
Example training_builds_square_matrices :
  (exists model,
     ContentBased._compute_similarity_matrix flat_sqrt sample_tfidf sample_scaler
       dense_db = Some model
     /\ List.length (ContentBased.similarity_matrix model) = 10%nat
     /\ map fst (ContentBased.movie_indices model) = map Z.of_nat ten)
  /\ (exists self similarity,
        Collaborative._compute_user_item_matrix flat_sqrt dense_db Collaborative.init
        = (self, Raised (NameError "matrix_path"))
        /\ Collaborative.user_similarity_matrix self = Some similarity
        /\ List.length similarity = 10%nat
        /\ Cosine.entry similarity 2 7 == Cosine.entry similarity 7 2).
Proof.
  split.
  - eexists. split; [vm_compute; reflexivity|]. split; reflexivity.
  - do 2 eexists. split; [vm_compute; reflexivity|].
    split; [reflexivity|]. split; reflexivity.
Qed.

(** The blend for a user with one rating: the weights are those of a new
    user, and with the two scorers on their popularity fallback the order
    is that of popularity. *)
Example hybrid_blend_for_new_user :
  Hybrid.personal_weights sample_db alice = Hybrid.Build_Weights 0.6 0.1 0.3
  /\ (exists a b c,
        Hybrid.get_personal_recommendations flat_sqrt sample_argsort (Returned [])
          (Returned []) None None sample_db alice 10 = Returned [a; b; c]
        /\ map MovieSchema.id [a; b; c] = [1; 2; 3]%Z).
Proof.
  split; [reflexivity|].
  do 3 eexists. split; [vm_compute; reflexivity | reflexivity].
Qed.

(** C2 on the worked examples: the comedy Alice rated (id 32) is not
    among her "happy" films, and Film A (id 21), which she rated 5, is not
    returned by the similar-user path of the collaborative scorer. *)
Lemma scorers_exclude_rated_movies_for_alice :
  (exists a b,
     MoodAnalyzer.get_mood_recommendations no_polarity flat_log mood_db alice
       "happy" 10 = Returned [a; b]
     /\ In 32%Z (map Rating.movie_id (ratings_of mood_db alice))
     /\ forall s, In s [a; b] -> 32%Z <> MovieSchema.id s)
  /\ (exists l,
        Collaborative.get_recommendations flat_sqrt sample_argsort None ranking_db
          sample_state alice 10 true = Returned l
        /\ forall s, In s l -> 21%Z <> MovieSchema.id s).
Proof.
  pose proof (scorers_exclude_rated_movies mood_db) as [Hmood _].
  pose proof (scorers_exclude_rated_movies ranking_db) as [_ [_ [_ [_ Hcollab]]]].
  split.
  - do 2 eexists. split; [vm_compute; reflexivity|]. split; [now left|].
    intros s Hs Heq.
    refine (Hmood no_polarity flat_log alice "happy" 10%nat _ s _ Hs _).
    + vm_compute. reflexivity.
    + rewrite <- Heq. now left.
  - destruct (Hcollab flat_sqrt sample_argsort None sample_state alice 10%nat true
                [ [5; 0; 4]; [5; 4; 0] ] 0%nat [5; 0; 4] eq_refl eq_refl eq_refl)
      as [similar [Hsim Hrecs]].
    { intros j j' k Hj Hj'.
      destruct j as [|[|[|j]]]; destruct j' as [|[|[|j']]]; simpl in *; congruence. }
    vm_compute in Hsim. injection Hsim as <-.
    destruct (Hrecs [(22%Z, 0 + 0.5 * (4 / 5))]) as [Hres Hex].
    { vm_compute. reflexivity. }
    eexists. split; [vm_compute; reflexivity|].
    intros s Hs Heq.
    refine (Hex _ s 0%nat 5 _ Hs eq_refl _ _).
    + vm_compute. reflexivity.
    + reflexivity.
    + simpl. now rewrite Heq.
Defined.

(** * Further properties of the scorers *)

(** ** The popularity fallback *)

Lemma popularity_gtb_false (a b : Movie.t) :
  popularity_gtb b a = false <->
  popularity_ge (Movie.popularity a) (Movie.popularity b).
Proof.
  unfold popularity_gtb, popularity_ge.
  destruct (Movie.popularity a) as [x|], (Movie.popularity b) as [y|];
    try (split; [tauto | reflexivity]).
  - apply Qltb_false.
  - split; [discriminate | tauto].
Qed.

Lemma sorted_by_popularity (l : list Movie.t) :
  StronglySorted
    (fun a b => popularity_ge (Movie.popularity a) (Movie.popularity b))
    (sorted_desc popularity_gtb l).
Proof.
  apply (StronglySorted_weaken_In (fun a b => popularity_gtb b a = false)).
  { intros a b _ _ H. now apply popularity_gtb_false. }
  apply sorted_desc_sorted.
  - intros a b. unfold popularity_gtb.
    destruct (Movie.popularity a) as [x|], (Movie.popularity b) as [y|];
      try congruence.
    intro H. apply Qltb_true in H. apply Qltb_false. now apply Qlt_le_weak.
  - intros a b c. rewrite !popularity_gtb_false. unfold popularity_ge.
    destruct (Movie.popularity a) as [x|], (Movie.popularity b) as [y|],
      (Movie.popularity c) as [z|]; try tauto.
    intros H1 H2. eapply Qle_trans; eassumption.
Qed.

Lemma StronglySorted_firstn {A} (R : A -> A -> Prop) (n : nat) (l : list A) :
  StronglySorted R l -> StronglySorted R (firstn n l).
Proof.
  intro H. revert n. induction H as [|a l Hs IH Hall]; intros [|n]; simpl;
    try constructor.
  - apply IH.
  - rewrite Forall_forall in *. intros b Hb. apply Hall.
    now apply firstn_In in Hb.
Qed.

Lemma mapM_project {A B C} (f : A -> outcome B) (g : B -> C) (h : A -> C)
    (l : list A) (l' : list B) :
  (forall x y, f x = Returned y -> g y = h x) ->
  mapM f l = Returned l' -> map g l' = map h l.
Proof.
  intro H. revert l'. induction l as [|x xs IH]; intros l' Hm; simpl in Hm.
  - now injection Hm as <-.
  - destruct (f x) as [y|] eqn:Ef; simpl in Hm; [|discriminate].
    destruct (mapM f xs) as [ys|]; simpl in Hm; [|discriminate].
    injection Hm as <-. simpl. f_equal; [now apply H | now apply IH].
Qed.

Lemma _movie_to_schema_total (m : Movie.t) :
  Movie.created_at m <> None -> exists s, _movie_to_schema m = Returned s.
Proof.
  unfold _movie_to_schema. destruct (Movie.created_at m); [|congruence].
  intros _. eexists. reflexivity.
Qed.

Lemma filter_keeps_distinct {K V} (key : V -> K) (keep : V -> bool) :
  forall rows, NoDup (map key rows) -> NoDup (map key (filter keep rows)).
Proof.
  intros rows. induction rows as [|x xs IH]; simpl; intro H; [constructor|].
  inversion H as [|? ? Hnin Hnd]; subst.
  destruct (keep x); simpl; [|now apply IH].
  constructor; [|now apply IH].
  intro Hin. apply Hnin. apply in_map_iff in Hin.
  destruct Hin as [y [Hy Hin]]. apply filter_In in Hin.
  rewrite <- Hy. apply in_map. tauto.
Qed.

Lemma firstn_keeps_distinct {K V} (key : V -> K) (n : nat) :
  forall rows, NoDup (map key rows) -> NoDup (map key (firstn n rows)).
Proof.
  intros rows. revert n.
  induction rows as [|x xs IH]; intros [|n] H; simpl; try constructor.
  - inversion H as [|? ? Hnin Hnd]; subst.
    intro Hin. apply Hnin. apply in_map_iff in Hin.
    destruct Hin as [y [Hy Hin]]. apply firstn_In in Hin.
    rewrite <- Hy. now apply in_map.
  - inversion H; subst. now apply IH.
Qed.

Lemma StronglySorted_app_cross {A} (R : A -> A -> Prop) (l l' : list A) :
  StronglySorted R (l ++ l') -> forall a b, In a l -> In b l' -> R a b.
Proof.
  induction l as [|x xs IH]; simpl; intros H a b Ha Hb; [destruct Ha|].
  inversion H as [|? ? Hs Hall]; subst.
  destruct Ha as [<-|Ha]; [|now apply IH].
  rewrite Forall_forall in Hall. apply Hall, in_or_app. now right.
Qed.

(** X1.  The popularity fallback never raises.  Its answer is the first
    [limit] rows of the stored movies that are active and have at least
    100 votes, ordered by descending popularity (NULL first), each
    converted to its schema: so at most [limit] movies, in that order, and
    no eligible movie that is left out is more popular than one that is
    returned; movies with distinct ids give an answer with distinct ids.
    When every stored movie has a creation time these are exactly
    min(limit, number of eligible movies) movies; otherwise the answer may
    be empty instead. *)
Theorem popular_movies_are_eligible_and_ranked :
  forall (db : Database) (limit : nat),
    let eligible :=
      filter (fun m => Movie.is_active m && vote_count_ge m 100) (movies db) in
    exists l ranked,
      _get_popular_movies db limit = Returned l
      /\ Permutation ranked eligible
      /\ StronglySorted
           (fun a b => popularity_ge (Movie.popularity a) (Movie.popularity b))
           ranked
      /\ (l = [] \/ mapM _movie_to_schema (firstn limit ranked) = Returned l)
      /\ ((forall m, In m (movies db) -> Movie.created_at m <> None) ->
          mapM _movie_to_schema (firstn limit ranked) = Returned l
          /\ map MovieSchema.id l = map Movie.id (firstn limit ranked)
          /\ List.length l = Nat.min limit (List.length eligible))
      /\ (List.length l <= limit)%nat
      /\ (forall s, In s l ->
            exists m c,
              In m (movies db) /\ Movie.id m = MovieSchema.id s
              /\ Movie.is_active m = true
              /\ Movie.vote_count m = Some c /\ (100 <= c)%Z)
      /\ StronglySorted popularity_ge (map MovieSchema.popularity l)
      /\ (forall m s,
            In m eligible -> In s l ->
            ~ In (Movie.id m) (map MovieSchema.id l) ->
            popularity_ge (MovieSchema.popularity s) (Movie.popularity m))
      /\ (NoDup (map Movie.id (movies db)) -> NoDup (map MovieSchema.id l)).
Proof.
  intros db limit eligible.
  set (ranked := sorted_desc popularity_gtb eligible).
  set (rows := firstn limit ranked).
  assert (Hperm : Permutation ranked eligible)
    by (apply Permutation_sym, sorted_desc_perm).
  assert (Hsorted : StronglySorted
            (fun a b => popularity_ge (Movie.popularity a) (Movie.popularity b))
            ranked) by apply sorted_by_popularity.
  assert (Hrows : forall m, In m rows ->
            In m (movies db) /\ Movie.is_active m = true
            /\ vote_count_ge m 100 = true).
  { intros m Hm. apply firstn_In in Hm. apply sorted_desc_In in Hm.
    apply filter_In in Hm. destruct Hm as [Hin Hc].
    apply andb_true_iff in Hc. tauto. }
  assert (Hlen : List.length rows = Nat.min limit (List.length eligible)).
  { unfold rows. rewrite length_firstn. now rewrite (Permutation_length Hperm). }
  assert (Hfield : forall x y, _movie_to_schema x = Returned y ->
            MovieSchema.popularity y = Movie.popularity x).
  { intros x y Hxy. unfold _movie_to_schema in Hxy.
    destruct (Movie.created_at x); [|discriminate]. now injection Hxy as <-. }
  assert (Hfull : forall l, mapM _movie_to_schema rows = Returned l ->
            map MovieSchema.id l = map Movie.id rows
            /\ List.length l = Nat.min limit (List.length eligible)
            /\ (List.length l <= limit)%nat
            /\ (forall s, In s l ->
                  exists m c,
                    In m (movies db) /\ Movie.id m = MovieSchema.id s
                    /\ Movie.is_active m = true
                    /\ Movie.vote_count m = Some c /\ (100 <= c)%Z)
            /\ StronglySorted popularity_ge (map MovieSchema.popularity l)
            /\ (forall m s,
                  In m eligible -> In s l ->
                  ~ In (Movie.id m) (map MovieSchema.id l) ->
                  popularity_ge (MovieSchema.popularity s) (Movie.popularity m))
            /\ (NoDup (map Movie.id (movies db)) -> NoDup (map MovieSchema.id l))).
  { intros l Em.
    assert (Hids : map MovieSchema.id l = map Movie.id rows).
    { apply (mapM_project _movie_to_schema); [|exact Em].
      intros x y Hxy. now apply _movie_to_schema_id. }
    assert (Hll : List.length l = List.length rows)
      by (rewrite <- (length_map MovieSchema.id), Hids; apply length_map).
    split; [exact Hids|]. split; [now rewrite Hll|].
    split; [rewrite Hll, Hlen; apply Nat.le_min_l|].
    split.
    { intros s Hs. destruct (mapM_In _ _ _ Em s Hs) as [m [Hm Hschema]].
      destruct (Hrows m Hm) as [Hin [Hact Hv]].
      unfold vote_count_ge in Hv.
      destruct (Movie.vote_count m) as [c|] eqn:Ec; [|discriminate].
      exists m, c. split; [exact Hin|].
      split; [symmetry; now apply _movie_to_schema_id|].
      split; [exact Hact|]. split; [exact Ec | now apply Z.leb_le]. }
    split.
    { rewrite (mapM_project _movie_to_schema MovieSchema.popularity
                 Movie.popularity rows l Hfield Em).
      apply StronglySorted_map. unfold rows. now apply StronglySorted_firstn. }
    split.
    { intros m s Hm Hs Hnot.
      destruct (mapM_In _ _ _ Em s Hs) as [a [Ha Hschema]].
      rewrite (Hfield a s Hschema).
      assert (Hmr : In m ranked)
        by (apply (Permutation_in _ (Permutation_sym Hperm)); exact Hm).
      rewrite <- (firstn_skipn limit ranked) in Hmr, Hsorted.
      apply in_app_or in Hmr. destruct Hmr as [Hmr|Hmr].
      - exfalso. apply Hnot. rewrite Hids. now apply in_map.
      - exact (StronglySorted_app_cross _ _ _ Hsorted a m Ha Hmr). }
    intro Hnd. rewrite Hids. unfold rows.
    apply firstn_keeps_distinct.
    apply (Permutation_NoDup (l := map Movie.id eligible)).
    - apply Permutation_map, Permutation_sym, Hperm.
    - unfold eligible. now apply filter_keeps_distinct. }
  unfold _get_popular_movies. fold eligible. fold ranked. fold rows.
  destruct (mapM _movie_to_schema rows) as [l|e] eqn:Em; simpl.
  - exists l, ranked. destruct (Hfull l eq_refl) as [H1 [H2 [H3 [H4 [H5 [H6 H7]]]]]].
    split; [reflexivity|]. split; [exact Hperm|]. split; [exact Hsorted|].
    split; [now right|].
    split; [intros _; split; [exact Em | split; [exact H1 | exact H2]]|].
    split; [exact H3|]. split; [exact H4|]. split; [exact H5|].
    split; [exact H6 | exact H7].
  - exists [], ranked.
    split; [reflexivity|]. split; [exact Hperm|]. split; [exact Hsorted|].
    split; [now left|].
    split.
    { intro Hts. exfalso.
      destruct (mapM_total _movie_to_schema rows) as [l Hl].
      + intros m Hm. apply _movie_to_schema_total, Hts, (Hrows m Hm).
      + congruence. }
    split; [simpl; lia|]. split; [intros s []|]. split; [constructor|].
    split; [intros m s _ []|]. intros _. constructor.
Qed.

(** ** Similar movies *)

Lemma collect_similar_length (db : Database) (m : ContentBased.Model) (limit : nat)
    (exclude_ids : list Z) (sim_scores : list (nat * Q))
    (acc out : list (Movie.t * Q)) :
  ContentBased.collect_similar db m limit exclude_ids sim_scores acc = Returned out ->
  (List.length out <= Nat.max limit (List.length acc))%nat.
Proof.
  revert acc. induction sim_scores as [|[idx score] rest IH]; intros acc H;
    simpl in H.
  - injection H as <-. lia.
  - destruct (Nat.leb_spec limit (List.length acc)).
    { injection H as <-. lia. }
    destruct (ContentBased.key_of_index idx (ContentBased.movie_indices m))
      as [k|]; simpl in H; [|discriminate].
    destruct (mem_Z k exclude_ids); [apply IH in H; lia|].
    destruct (movie_by_id db k); [|apply IH in H; lia].
    apply IH in H. rewrite length_app in H. simpl in H. lia.
Qed.

Lemma StronglySorted_app_inv {A} (R : A -> A -> Prop) (l l' : list A) :
  StronglySorted R (l ++ l') -> StronglySorted R l /\ StronglySorted R l'.
Proof.
  induction l as [|x xs IH]; simpl; intro H.
  - split; [constructor | exact H].
  - inversion H as [|? ? Hs Hall]; subst. destruct (IH Hs) as [H1 H2].
    split; [|exact H2]. constructor; [exact H1|].
    rewrite Forall_forall in *. intros y Hy. apply Hall. apply in_or_app. now left.
Qed.

Lemma StronglySorted_drop_middle {A} (R : A -> A -> Prop) (l l' : list A) (x : A) :
  StronglySorted R (l ++ x :: l') -> StronglySorted R (l ++ l').
Proof.
  induction l as [|y ys IH]; simpl; intro H.
  - now inversion H.
  - inversion H as [|? ? Hs Hall]; subst. constructor; [now apply IH|].
    rewrite Forall_forall in *. intros z Hz. apply Hall.
    apply in_app_or in Hz. apply in_or_app. destruct Hz; [now left | right; now right].
Qed.

Lemma collect_similar_sorted (db : Database) (m : ContentBased.Model) (limit : nat)
    (exclude_ids : list Z) (sim_scores : list (nat * Q))
    (acc out : list (Movie.t * Q)) :
  StronglySorted (fun a b => b <= a) (map snd acc ++ map snd sim_scores) ->
  ContentBased.collect_similar db m limit exclude_ids sim_scores acc = Returned out ->
  StronglySorted (fun a b => b <= a) (map snd out).
Proof.
  revert acc. induction sim_scores as [|[idx score] rest IH]; intros acc Hs H;
    simpl in H.
  - injection H as <-. now apply StronglySorted_app_inv in Hs.
  - destruct (limit <=? List.length acc)%nat.
    { injection H as <-. now apply StronglySorted_app_inv in Hs. }
    destruct (ContentBased.key_of_index idx (ContentBased.movie_indices m))
      as [k|]; simpl in H; [|discriminate].
    simpl in Hs.
    destruct (mem_Z k exclude_ids).
    { apply (IH acc); [now apply StronglySorted_drop_middle in Hs | exact H]. }
    destruct (movie_by_id db k) as [movie|].
    + apply (IH _) in H; [exact H|].
      rewrite map_app. simpl. now rewrite <- app_assoc.
    + apply (IH acc); [now apply StronglySorted_drop_middle in Hs | exact H].
Qed.

Lemma index_of_In (movie_id : Z) (d : list (Z * nat)) (i : nat) :
  ContentBased.index_of movie_id d = Some i -> In (movie_id, i) d.
Proof.
  induction d as [|[k v] rest IH]; simpl; [discriminate|].
  destruct (Z.eqb_spec k movie_id) as [->|Hne].
  - intro H. injection H as <-. now left.
  - intro H. right. now apply IH.
Qed.

Lemma key_of_index_In (idx : nat) (d : list (Z * nat)) (k : Z) :
  ContentBased.key_of_index idx d = Returned k -> In (k, idx) d.
Proof.
  induction d as [|[k0 v] rest IH]; simpl; [discriminate|].
  destruct (Nat.eqb_spec v idx) as [->|Hne].
  - intro H. injection H as <-. now left.
  - intro H. right. now apply IH.
Qed.

Lemma NoDup_keys_functional {K V} (d : list (K * V)) (k : K) (v v' : V) :
  NoDup (map fst d) -> In (k, v) d -> In (k, v') d -> v = v'.
Proof.
  induction d as [|[k0 v0] rest IH]; simpl; intros Hnd H1 H2; [tauto|].
  inversion Hnd as [|? ? Hnin Hnd']; subst.
  destruct H1 as [H1|H1], H2 as [H2|H2].
  - congruence.
  - injection H1 as -> ->. elim Hnin. change k with (fst (k, v')). now apply in_map.
  - injection H2 as -> ->. elim Hnin. change k with (fst (k, v)). now apply in_map.
  - now apply IH.
Qed.

Lemma neighbourhood_cases (db : Database) (m : ContentBased.Model)
    (movie_id : Z) (limit : nat) (exclude_ids : list Z) :
  neighbourhood db (Some m) movie_id limit exclude_ids = []
  \/ exists i row out,
       ContentBased.index_of movie_id (ContentBased.movie_indices m) = Some i
       /\ nth_error (ContentBased.similarity_matrix m) i = Some row
       /\ ContentBased.collect_similar db m limit exclude_ids
            (sorted_desc ContentBased.sim_gtb
               (filter (fun s => negb (fst s =? i)%nat) (ContentBased.enumerate row)))
            [] = Returned out
       /\ neighbourhood db (Some m) movie_id limit exclude_ids = out.
Proof.
  unfold neighbourhood, ContentBased._get_similar_movies_internal.
  destruct (ContentBased.index_of movie_id (ContentBased.movie_indices m))
    as [i|] eqn:Ei; [|now left].
  destruct (nth_error (ContentBased.similarity_matrix m) i) as [row|] eqn:Er;
    [|now left].
  cbv zeta.
  destruct (ContentBased.collect_similar db m limit exclude_ids _ [])
    as [out|] eqn:Ec; [|now left].
  right. exists i, row, out.
  split; [reflexivity|]. split; [exact Er|]. split; [exact Ec|reflexivity].
Qed.

Lemma neighbourhood_length (db : Database) (model : option ContentBased.Model)
    (movie_id : Z) (limit : nat) (exclude_ids : list Z) :
  (List.length (neighbourhood db model movie_id limit exclude_ids) <= limit)%nat.
Proof.
  destruct model as [m|]; [|simpl; lia].
  destruct (neighbourhood_cases db m movie_id limit exclude_ids)
    as [->|[i [row [out [_ [_ [Hc ->]]]]]]]; [simpl; lia|].
  apply collect_similar_length in Hc. simpl in Hc. lia.
Qed.

Lemma neighbourhood_sorted (db : Database) (model : option ContentBased.Model)
    (movie_id : Z) (limit : nat) (exclude_ids : list Z) :
  StronglySorted (fun a b => b <= a)
    (map snd (neighbourhood db model movie_id limit exclude_ids)).
Proof.
  destruct model as [m|]; [|constructor].
  destruct (neighbourhood_cases db m movie_id limit exclude_ids)
    as [->|[i [row [out [_ [_ [Hc ->]]]]]]]; [constructor|].
  apply collect_similar_sorted in Hc; [exact Hc|].
  simpl. apply StronglySorted_map. apply (sorted_desc_by_key (@snd nat Q)).
Qed.

Lemma neighbourhood_members (db : Database) (model : option ContentBased.Model)
    (movie_id : Z) (limit : nat) (exclude_ids : list Z) (movie : Movie.t) (s : Q) :
  In (movie, s) (neighbourhood db model movie_id limit exclude_ids) ->
  In movie (movies db) /\ ~ In (Movie.id movie) exclude_ids.
Proof.
  destruct model as [m|]; [|intros []].
  intro H. apply neighbourhood_spec in H. tauto.
Qed.

Lemma neighbourhood_not_self (db : Database) (m : ContentBased.Model)
    (movie_id : Z) (limit : nat) (exclude_ids : list Z) (movie : Movie.t) (s : Q) :
  NoDup (map fst (ContentBased.movie_indices m)) ->
  In (movie, s) (neighbourhood db (Some m) movie_id limit exclude_ids) ->
  Movie.id movie <> movie_id.
Proof.
  intros Hnd H Heq. apply neighbourhood_spec in H.
  destruct H as [_ [_ [i [j [Hi [Hj [Hne _]]]]]]].
  apply index_of_In in Hi. apply key_of_index_In in Hj. rewrite Heq in Hj.
  apply Hne. symmetry. eapply NoDup_keys_functional; eassumption.
Qed.

(** X2.  The neighbourhood of a movie holds at most [limit] entries in
    descending similarity; each is a stored movie outside the exclusion set
    whose score is the matrix entry of the query row at the movie's index.
    The query movie itself is never part of it when the index has one entry
    per movie id, and the neighbourhood is empty when no matrix is loaded
    or the movie is not indexed. *)
Theorem similar_movies_are_ranked_neighbours :
  forall (db : Database) (model : option ContentBased.Model) (movie_id : Z)
         (limit : nat) (exclude_ids : list Z),
    let similar := neighbourhood db model movie_id limit exclude_ids in
    ContentBased._get_similar_movies_internal db model movie_id limit exclude_ids
    = Returned similar
    /\ (List.length similar <= limit)%nat
    /\ StronglySorted (fun a b => b <= a) (map snd similar)
    /\ (forall movie s, In (movie, s) similar ->
          In movie (movies db) /\ ~ In (Movie.id movie) exclude_ids)
    /\ (forall m movie s, model = Some m -> In (movie, s) similar ->
          exists i j,
            ContentBased.index_of movie_id (ContentBased.movie_indices m) = Some i
            /\ In (Movie.id movie, j) (ContentBased.movie_indices m)
            /\ i <> j
            /\ entry_opt (ContentBased.similarity_matrix m) i j = Some s)
    /\ (forall m movie s, model = Some m ->
          NoDup (map fst (ContentBased.movie_indices m)) ->
          In (movie, s) similar -> Movie.id movie <> movie_id)
    /\ (model = None -> similar = [])
    /\ (forall m, model = Some m ->
          ContentBased.index_of movie_id (ContentBased.movie_indices m) = None ->
          similar = []).
Proof.
  intros db model movie_id limit exclude_ids similar.
  split; [apply similar_movies_returned|].
  split; [apply neighbourhood_length|].
  split; [apply neighbourhood_sorted|].
  split; [intros movie s; apply neighbourhood_members|].
  split.
  { intros m movie s -> Hin. apply neighbourhood_spec in Hin.
    destruct Hin as [_ [_ [i [j [Hi [Hj [Hne He]]]]]]].
    exists i, j. repeat split; try assumption. now apply key_of_index_In. }
  split; [intros m movie s -> Hnd Hin; now apply (neighbourhood_not_self db m movie_id limit exclude_ids movie s)|].
  split; [intros ->; reflexivity|].
  intros m -> Hn. unfold similar, neighbourhood,
    ContentBased._get_similar_movies_internal. now rewrite Hn.
Qed.

(** X3.  [get_similar_movies] never raises.  Its answer has at most [limit]
    movies and follows the neighbourhood in descending similarity, or is
    empty when a neighbour cannot be converted; it contains no movie the
    given user has rated, whatever the rating, and not the query movie. *)
Theorem similar_movies_exclude_all_rated :
  forall (db : Database) (model : option ContentBased.Model) (movie_id : Z)
         (user_id : option UUID) (limit : nat),
    let exclude_ids :=
      match user_id with
      | Some u => map Rating.movie_id (ratings_of db u)
      | None => []
      end in
    exists l,
      ContentBased.get_similar_movies db model movie_id user_id limit = Returned l
      /\ (List.length l <= limit)%nat
      /\ (l = []
          \/ map MovieSchema.id l
             = map (fun ms => Movie.id (fst ms))
                 (neighbourhood db model movie_id limit exclude_ids))
      /\ (forall u r s, user_id = Some u -> In s l ->
            In r (ratings db) -> Rating.user_id r = u ->
            Rating.movie_id r <> MovieSchema.id s)
      /\ (forall m s, model = Some m ->
            NoDup (map fst (ContentBased.movie_indices m)) ->
            In s l -> MovieSchema.id s <> movie_id).
Proof.
  intros db model movie_id user_id limit exclude_ids.
  pose proof (neighbourhood_length db model movie_id limit exclude_ids) as Hlen.
  unfold ContentBased.get_similar_movies. fold exclude_ids.
  rewrite similar_movies_returned. cbn [bind].
  destruct (mapM (fun ms => _movie_to_schema (fst ms))
              (neighbourhood db model movie_id limit exclude_ids))
    as [l|e] eqn:Em; simpl.
  - exists l. split; [reflexivity|].
    assert (Hids : map MovieSchema.id l
                   = map (fun ms => Movie.id (fst ms))
                       (neighbourhood db model movie_id limit exclude_ids)).
    { apply (mapM_project _ _ _ _ _ (fun x y H => _movie_to_schema_id _ _ H) Em). }
    split.
    { rewrite <- (length_map MovieSchema.id), Hids, length_map. exact Hlen. }
    split; [now right|].
    assert (Hfrom : forall s, In s l ->
              exists ms, In ms (neighbourhood db model movie_id limit exclude_ids)
                         /\ MovieSchema.id s = Movie.id (fst ms)).
    { intros s Hs. destruct (mapM_In _ _ _ Em s Hs) as [ms [Hin Hsch]].
      exists ms. split; [exact Hin | now apply _movie_to_schema_id]. }
    split.
    + intros u r s Hu Hs Hr Hru Heq.
      destruct (Hfrom s Hs) as [[movie sc] [Hin Hid]].
      destruct (neighbourhood_members _ _ _ _ _ _ _ Hin) as [_ Hnot]. apply Hnot.
      unfold exclude_ids. rewrite Hu. simpl in Hid. rewrite <- Hid, <- Heq.
      apply in_map. unfold ratings_of. apply filter_In.
      split; [exact Hr | now apply N.eqb_eq].
    + intros m s Hm Hnd Hs Heq.
      destruct (Hfrom s Hs) as [[movie sc] [Hin Hid]].
      subst model.
      apply (neighbourhood_not_self _ _ _ _ _ _ _ Hnd Hin). simpl in Hid. congruence.
  - exists []. split; [reflexivity|]. split; [simpl; lia|].
    split; [now left|]. split; [intros u r s _ [] | intros m s _ _ []].
Qed.

(** ** Index dicts *)

Lemma enumerate_from_snd {A} (s : nat) (l : list A) :
  map snd (ContentBased.enumerate_from s l) = l.
Proof.
  revert s. induction l as [|x xs IH]; intro s; simpl; [reflexivity|].
  now rewrite IH.
Qed.

Lemma enumerate_from_fst {A} (s : nat) (l : list A) :
  map fst (ContentBased.enumerate_from s l) = seq s (List.length l).
Proof.
  revert s. induction l as [|x xs IH]; intro s; simpl; [reflexivity|].
  now rewrite IH.
Qed.

Lemma enumerate_from_In {A} (l : list A) (s i : nat) (x : A) :
  In (i, x) (ContentBased.enumerate_from s l)
  <-> (s <= i)%nat /\ nth_error l (i - s) = Some x.
Proof.
  split; [apply enumerate_from_nth|].
  revert s. induction l as [|y ys IH]; intros s [Hle Hn]; simpl.
  - now destruct (i - s)%nat.
  - destruct (i - s)%nat as [|k] eqn:Ek; simpl in Hn.
    + left. injection Hn as <-. f_equal. lia.
    + right. apply IH. split; [lia|].
      replace (i - S s)%nat with k by lia. exact Hn.
Qed.

Section FreshKeys.
Context {A K V : Type} (eqb : K -> K -> bool).
Hypothesis eqb_eq : forall a b, eqb a b = true <-> a = b.

Lemma assoc_set_fresh (k : K) (v : V) (d : list (K * V)) :
  ~ In k (map fst d) -> assoc_set eqb k v d = d ++ [(k, v)].
Proof.
  induction d as [|[k0 v0] rest IH]; simpl; intro H; [reflexivity|].
  destruct (eqb k0 k) eqn:E.
  - apply eqb_eq in E. elim H. now left.
  - f_equal. apply IH. tauto.
Qed.

(** A comprehension [{f(a): g(a) for a in l}] over distinct keys lists
    its entries in the order of [l]. *)
Lemma fold_assoc_set_fresh (f : A -> K) (g : A -> V) (l : list A)
    (d : list (K * V)) :
  NoDup (map f l) ->
  (forall a, In a l -> ~ In (f a) (map fst d)) ->
  fold_left (fun d a => assoc_set eqb (f a) (g a) d) l d
  = d ++ map (fun a => (f a, g a)) l.
Proof.
  revert d. induction l as [|a l IH]; intros d Hnd Hfresh; simpl.
  - now rewrite app_nil_r.
  - inversion Hnd as [|? ? Hnin Hnd']; subst.
    rewrite assoc_set_fresh by (apply Hfresh; now left).
    rewrite IH; [now rewrite <- app_assoc | exact Hnd'|].
    intros a' Ha'. rewrite map_app, in_app_iff. simpl.
    intros [H|[H|[]]].
    + apply (Hfresh a'); [now right | exact H].
    + apply Hnin. rewrite H. now apply in_map.
Qed.
End FreshKeys.

Lemma index_map_spec {K} (eqb : K -> K -> bool) (keys : list K) :
  (forall a b, eqb a b = true <-> a = b) ->
  NoDup keys ->
  Collaborative.index_map eqb keys
  = map (fun ik => (snd ik, fst ik)) (ContentBased.enumerate keys).
Proof.
  intros Heq Hnd. unfold Collaborative.index_map.
  rewrite (fold_assoc_set_fresh eqb Heq (@snd nat K) (@fst nat K)); simpl.
  - reflexivity.
  - unfold ContentBased.enumerate. now rewrite enumerate_from_snd.
  - intros a _ [].
Qed.

Lemma reverse_map_spec {K} (keys : list K) :
  Collaborative.reverse_map
    (map (fun ik => (snd ik, fst ik)) (ContentBased.enumerate keys))
  = ContentBased.enumerate keys.
Proof.
  unfold Collaborative.reverse_map.
  rewrite (fold_assoc_set_fresh Nat.eqb Nat.eqb_eq (@snd K nat) (@fst K nat)); simpl.
  - rewrite map_map. simpl. rewrite <- (map_id (ContentBased.enumerate keys)) at 2.
    apply map_ext. now intros [i k].
  - rewrite map_map. simpl. unfold ContentBased.enumerate.
    rewrite enumerate_from_fst. apply seq_NoDup.
  - intros a _ [].
Qed.

(** Lookup in an index dict over distinct keys: the position of the key. *)
Lemma index_lookup {K} (eqb : K -> K -> bool) (keys : list K) (k : K) (i : nat) :
  (forall a b, eqb a b = true <-> a = b) ->
  NoDup keys ->
  assoc_get eqb k (map (fun ik => (snd ik, fst ik)) (ContentBased.enumerate keys))
  = Some i
  <-> nth_error keys i = Some k.
Proof.
  intros Heq Hnd.
  rewrite <- (assoc_get_In eqb Heq).
  - rewrite in_map_iff. unfold ContentBased.enumerate. split.
    + intros [[i' k'] [E H]]. simpl in E. injection E as -> ->.
      apply enumerate_from_In in H. destruct H as [_ H].
      now rewrite Nat.sub_0_r in H.
    + intro H. exists (i, k). split; [reflexivity|].
      apply enumerate_from_In. split; [lia|]. now rewrite Nat.sub_0_r.
  - rewrite map_map. simpl. unfold ContentBased.enumerate.
    now rewrite enumerate_from_snd.
Qed.

Lemma reverse_lookup {K} (keys : list K) (k : K) (i : nat) :
  assoc_get Nat.eqb i (ContentBased.enumerate keys) = Some k
  <-> nth_error keys i = Some k.
Proof.
  rewrite <- (assoc_get_In Nat.eqb Nat.eqb_eq).
  - unfold ContentBased.enumerate. rewrite enumerate_from_In.
    rewrite Nat.sub_0_r. split; [tauto | intro H; split; [lia | exact H]].
  - unfold ContentBased.enumerate. rewrite enumerate_from_fst. apply seq_NoDup.
Qed.

Lemma index_of_assoc_get (movie_id : Z) (d : list (Z * nat)) :
  ContentBased.index_of movie_id d = assoc_get Z.eqb movie_id d.
Proof.
  induction d as [|[k v] rest IH]; simpl; [reflexivity|]. now rewrite IH.
Qed.

Lemma key_of_index_spec (idx : nat) (d : list (Z * nat)) (k : Z) :
  NoDup (map snd d) ->
  (ContentBased.key_of_index idx d = Returned k <-> In (k, idx) d).
Proof.
  induction d as [|[k0 v0] rest IH]; simpl; intro H.
  - split; [discriminate | tauto].
  - inversion H as [|? ? Hnin Hnd]; subst.
    destruct (v0 =? idx)%nat eqn:E.
    + apply Nat.eqb_eq in E. subst v0. split.
      * intro Hk. left. congruence.
      * intros [Hk|Hin]; [congruence|].
        elim Hnin. change idx with (snd (k, idx)). now apply in_map.
    + rewrite (IH Hnd). split; [tauto|].
      intros [Hk|Hin]; [|exact Hin].
      injection Hk as -> ->. rewrite Nat.eqb_refl in E. discriminate.
Qed.

(** ** Training the content matrix *)

Lemma cosine_similarity_shape (np_sqrt : Q -> Q) (X : list (list Q)) :
  List.length (Cosine.cosine_similarity np_sqrt X) = List.length X
  /\ forall row, In row (Cosine.cosine_similarity np_sqrt X) ->
       List.length row = List.length X.
Proof.
  unfold Cosine.cosine_similarity. split.
  - now rewrite !length_map.
  - intros row H. apply in_map_iff in H. destruct H as [xi [<- _]].
    now rewrite !length_map.
Qed.

Lemma zip_with_length {A B C} (f : A -> B -> C) (l : list A) (l' : list B) :
  List.length (Cosine.zip_with f l l') = Nat.min (List.length l) (List.length l').
Proof.
  revert l'. induction l as [|x xs IH]; intros [|y ys]; simpl; try reflexivity.
  now rewrite IH.
Qed.

Lemma zip_with_In {A B C} (f : A -> B -> C) (l : list A) (l' : list B) (z : C) :
  In z (Cosine.zip_with f l l') -> exists x y, In x l /\ In y l' /\ z = f x y.
Proof.
  revert l'. induction l as [|x xs IH]; intros [|y ys]; simpl; try tauto.
  intros [<-|H].
  - exists x, y. tauto.
  - destruct (IH _ H) as [x' [y' [Hx [Hy ->]]]]. exists x', y'. tauto.
Qed.

Lemma blend_shape (a b : Q) (A B : list (list Q)) (n : nat) :
  List.length A = n -> List.length B = n ->
  (forall row, In row A -> List.length row = n) ->
  (forall row, In row B -> List.length row = n) ->
  List.length (Cosine.blend a A b B) = n
  /\ forall row, In row (Cosine.blend a A b B) -> List.length row = n.
Proof.
  intros HA HB HrA HrB. unfold Cosine.blend. split.
  - rewrite zip_with_length, HA, HB. apply Nat.min_id.
  - intros row H. apply zip_with_In in H. destruct H as [x [y [Hx [Hy ->]]]].
    rewrite zip_with_length, (HrA x Hx), (HrB y Hy). apply Nat.min_id.
Qed.

(** X4.  Training the content matrix does nothing with fewer than ten
    eligible movies.  Otherwise, with distinct movie ids and transformers
    that return one row per movie, the matrix is n x n for the n eligible
    movies, [movie_indices] maps the id of the k-th eligible movie to k and
    nothing else, the reverse lookup of the neighbour loop maps k back to
    that id, and every indexed movie has a row. *)
Theorem training_indexes_movies_by_position :
  forall (np_sqrt : Q -> Q) (tfidf_fit_transform : list string -> list (list Q))
         (scaler_fit_transform : list (list Q) -> list (list Q)) (db : Database),
    let trained := training_movies db in
    let n := List.length trained in
    let result :=
      ContentBased._compute_similarity_matrix np_sqrt tfidf_fit_transform
        scaler_fit_transform db in
    NoDup (map Movie.id trained) ->
    (forall texts, List.length (tfidf_fit_transform texts) = List.length texts) ->
    (forall rows, List.length (scaler_fit_transform rows) = List.length rows) ->
    ((n < 10)%nat -> result = None)
    /\ ((10 <= n)%nat ->
        exists model,
          result = Some model
          /\ List.length (ContentBased.similarity_matrix model) = n
          /\ (forall row, In row (ContentBased.similarity_matrix model) ->
                List.length row = n)
          /\ (forall movie_id k,
                ContentBased.index_of movie_id (ContentBased.movie_indices model)
                = Some k
                <-> nth_error (map Movie.id trained) k = Some movie_id)
          /\ (forall movie_id k,
                ContentBased.key_of_index k (ContentBased.movie_indices model)
                = Returned movie_id
                <-> nth_error (map Movie.id trained) k = Some movie_id)
          /\ (forall movie_id k,
                ContentBased.index_of movie_id (ContentBased.movie_indices model)
                = Some k ->
                exists row,
                  nth_error (ContentBased.similarity_matrix model) k = Some row)).
Proof.
  intros np_sqrt tfidf scaler db trained n result Hnd Htfidf Hscaler.
  unfold result, ContentBased._compute_similarity_matrix.
  fold (training_movies db). fold trained. fold n.
  split.
  - intro Hn. apply Nat.ltb_lt in Hn. now rewrite Hn.
  - intro Hn. apply Nat.ltb_ge in Hn. rewrite Hn.
    eexists. split; [reflexivity|]. cbn [ContentBased.similarity_matrix
                                          ContentBased.movie_indices].
    assert (Hidx : ContentBased.index_dict (map Movie.id trained)
                   = map (fun ik => (snd ik, fst ik))
                       (ContentBased.enumerate (map Movie.id trained))).
    { apply (index_map_spec Z.eqb (map Movie.id trained) Z.eqb_eq Hnd). }
    rewrite Hidx.
    destruct (cosine_similarity_shape np_sqrt (tfidf (map ContentBased.combined_text trained)))
      as [Ht Htr].
    destruct (cosine_similarity_shape np_sqrt
                (scaler (map ContentBased.numerical_features trained)))
      as [Hs Hsr].
    rewrite Htfidf, length_map in Ht, Htr.
    rewrite Hscaler, length_map in Hs, Hsr.
    destruct (blend_shape 0.7 0.3 _ _ _ Ht Hs Htr Hsr) as [Hlen Hrows].
    split; [exact Hlen|]. split; [exact Hrows|].
    assert (Hlookup : forall movie_id k,
              ContentBased.index_of movie_id
                (map (fun ik => (snd ik, fst ik))
                   (ContentBased.enumerate (map Movie.id trained))) = Some k
              <-> nth_error (map Movie.id trained) k = Some movie_id).
    { intros movie_id k. rewrite index_of_assoc_get.
      apply (index_lookup Z.eqb _ movie_id k Z.eqb_eq Hnd). }
    split; [exact Hlookup|]. split.
    + intros movie_id k. rewrite key_of_index_spec.
      * rewrite in_map_iff. unfold ContentBased.enumerate. split.
        -- intros [[i' k'] [E H]]. simpl in E. injection E as -> ->.
           apply enumerate_from_In in H. destruct H as [_ H].
           now rewrite Nat.sub_0_r in H.
        -- intro H. exists (k, movie_id). split; [reflexivity|].
           apply enumerate_from_In. split; [lia|]. now rewrite Nat.sub_0_r.
      * rewrite map_map. simpl. unfold ContentBased.enumerate.
        rewrite enumerate_from_fst. apply seq_NoDup.
    + intros movie_id k Hk. apply Hlookup in Hk.
      assert (Hlt : (k < n)%nat).
      { unfold n. rewrite <- (length_map Movie.id). apply nth_error_Some. congruence. }
      match goal with
      | |- exists row, nth_error ?M k = Some row =>
          destruct (nth_error M k) as [row|] eqn:Er; [now exists row|]
      end.
      apply nth_error_None in Er. rewrite Hlen in Er. unfold n in Hlt. lia.
Qed.

Lemma training_indexes_movies_by_position_on_ten_films :
  NoDup (map Movie.id (training_movies dense_db))
  /\ (forall texts, List.length (sample_tfidf texts) = List.length texts)
  /\ (forall rows, List.length (sample_scaler rows) = List.length rows)
  /\ exists model,
       ContentBased._compute_similarity_matrix flat_sqrt sample_tfidf
         sample_scaler dense_db = Some model
       /\ List.length (ContentBased.similarity_matrix model) = 10%nat
       /\ ContentBased.index_of 4 (ContentBased.movie_indices model) = Some 4%nat.
Proof.
  assert (Hnd : NoDup (map Movie.id (training_movies dense_db))).
  { vm_compute. repeat (constructor; [simpl; intuition discriminate|]). constructor. }
  assert (Ht : forall texts, List.length (sample_tfidf texts) = List.length texts)
    by (intro texts; apply length_map).
  assert (Hs : forall rows, List.length (sample_scaler rows) = List.length rows)
    by reflexivity.
  split; [exact Hnd|]. split; [exact Ht|]. split; [exact Hs|].
  destruct (training_indexes_movies_by_position flat_sqrt sample_tfidf
              sample_scaler dense_db Hnd Ht Hs) as [_ H].
  destruct H as [model [Hm [Hlen [_ [Hidx _]]]]].
  { apply Nat.leb_le. vm_compute. reflexivity. }
  exists model. split; [exact Hm|]. split; [exact Hlen|].
  apply Hidx. reflexivity.
Defined.

(** ** Training the collaborative matrices *)

Section UniqueFacts.
Context {A : Type} (eqb : A -> A -> bool).
Hypothesis eqb_eq : forall a b, eqb a b = true <-> a = b.

Lemma unique_In (l : list A) (x : A) :
  In x (Collaborative.unique eqb l) <-> In x l.
Proof.
  induction l as [|y ys IH]; simpl; [tauto|].
  rewrite filter_In, IH. split.
  - tauto.
  - intros [->|H]; [now left|].
    destruct (eqb y x) eqn:E.
    + left. now apply eqb_eq.
    + right. split; [exact H | reflexivity].
Qed.

Lemma unique_NoDup (l : list A) : NoDup (Collaborative.unique eqb l).
Proof.
  induction l as [|y ys IH]; simpl; constructor.
  - rewrite filter_In. intros [_ H].
    rewrite (proj2 (eqb_eq y y) eq_refl) in H. discriminate.
  - now apply NoDup_filter.
Qed.
End UniqueFacts.

Lemma update_nth_length {A} (n : nat) (f : A -> A) (l : list A) :
  List.length (Collaborative.update_nth n f l) = List.length l.
Proof.
  revert n. induction l as [|x xs IH]; intros [|n]; simpl; try reflexivity.
  now rewrite IH.
Qed.

Lemma update_nth_nth_error {A} (n m : nat) (f : A -> A) (l : list A) :
  nth_error (Collaborative.update_nth n f l) m
  = if (n =? m)%nat then option_map f (nth_error l m) else nth_error l m.
Proof.
  revert n m. induction l as [|x xs IH]; intros [|n] [|m]; simpl;
    try reflexivity.
  - now destruct (n =? m)%nat.
  - apply IH.
Qed.

Lemma set_entry_entry (i j i' j' : nat) (v : Q) (M : list (list Q)) :
  entry_opt (Collaborative.set_entry i j v M) i' j'
  = match entry_opt M i' j' with
    | Some x => Some (if (i =? i')%nat && (j =? j')%nat then v else x)
    | None => None
    end.
Proof.
  unfold entry_opt, Collaborative.set_entry.
  rewrite update_nth_nth_error.
  destruct (i =? i')%nat; simpl; [|now destruct (nth_error M i') as [row|];
                                      [destruct (nth_error row j')|]].
  destruct (nth_error M i') as [row|]; simpl; [|reflexivity].
  rewrite update_nth_nth_error.
  destruct (j =? j')%nat; simpl; now destruct (nth_error row j').
Qed.

Lemma set_entry_shape (i j : nat) (v : Q) (M : list (list Q)) (n k : nat) :
  List.length M = n -> (forall row, In row M -> List.length row = k) ->
  List.length (Collaborative.set_entry i j v M) = n
  /\ forall row, In row (Collaborative.set_entry i j v M) -> List.length row = k.
Proof.
  intros Hn Hrows. unfold Collaborative.set_entry. split.
  - now rewrite update_nth_length.
  - intros row Hin. apply In_nth_error in Hin. destruct Hin as [p Hp].
    rewrite update_nth_nth_error in Hp.
    destruct (i =? p)%nat.
    + destruct (nth_error M p) as [row0|] eqn:E; simpl in Hp; [|discriminate].
      injection Hp as <-. rewrite update_nth_length.
      apply Hrows. eapply nth_error_In; eassumption.
    + apply Hrows. eapply nth_error_In; eassumption.
Qed.

Lemma zeros_entry (n k i j : nat) :
  (i < n)%nat -> (j < k)%nat ->
  entry_opt (Collaborative.zeros n k) i j = Some 0.
Proof.
  intros Hi Hj. unfold entry_opt, Collaborative.zeros.
  rewrite (nth_error_repeat _ Hi). now apply nth_error_repeat.
Qed.

Lemma zeros_shape (n k : nat) :
  List.length (Collaborative.zeros n k) = n
  /\ forall row, In row (Collaborative.zeros n k) -> List.length row = k.
Proof.
  unfold Collaborative.zeros. split; [apply repeat_length|].
  intros row H. apply repeat_spec in H. subst. apply repeat_length.
Qed.

Lemma fill_matrix_shape (users : list (UUID * nat)) (items : list (Z * nat))
    (rows : list Rating.t) (M : list (list Q)) (n k : nat) :
  List.length M = n -> (forall row, In row M -> List.length row = k) ->
  List.length (Collaborative.fill_matrix users items rows M) = n
  /\ forall row, In row (Collaborative.fill_matrix users items rows M) ->
       List.length row = k.
Proof.
  unfold Collaborative.fill_matrix. revert M.
  induction rows as [|r rows IH]; intros M Hn Hrows; simpl; [tauto|].
  destruct (assoc_get uuid_eqb (Rating.user_id r) users) as [ui|];
    [|now apply IH].
  destruct (assoc_get Z.eqb (Rating.movie_id r) items) as [mj|];
    [|now apply IH].
  destruct (set_entry_shape ui mj (Rating.rating r) M n k Hn Hrows) as [H1 H2].
  now apply IH.
Qed.

(** The filling loop leaves at [(i, j)] the rating of the last row of the
    user indexed [i] for the movie indexed [j]. *)
Lemma fill_matrix_entry (users : list (UUID * nat)) (items : list (Z * nat))
    (rows : list Rating.t) (M : list (list Q)) (u : UUID) (m : Z) (i j : nat) :
  assoc_get uuid_eqb u users = Some i ->
  assoc_get Z.eqb m items = Some j ->
  (forall u', assoc_get uuid_eqb u' users = Some i -> u' = u) ->
  (forall m', assoc_get Z.eqb m' items = Some j -> m' = m) ->
  entry_opt (Collaborative.fill_matrix users items rows M) i j
  = match entry_opt M i j with
    | Some x =>
        Some (fold_left
                (fun acc r =>
                   if uuid_eqb (Rating.user_id r) u && (Rating.movie_id r =? m)%Z
                   then Rating.rating r else acc)
                rows x)
    | None => None
    end.
Proof.
  intros Hu Hm Hiu Him. unfold Collaborative.fill_matrix. revert M.
  induction rows as [|r rows IH]; intro M; simpl.
  - now destruct (entry_opt M i j).
  - assert (Hcond : forall ui mj,
              assoc_get uuid_eqb (Rating.user_id r) users = Some ui ->
              assoc_get Z.eqb (Rating.movie_id r) items = Some mj ->
              ((ui =? i)%nat && (mj =? j)%nat
               = uuid_eqb (Rating.user_id r) u && (Rating.movie_id r =? m)%Z)).
    { intros ui mj Hui Hmj.
      destruct (uuid_eqb (Rating.user_id r) u) eqn:Eu.
      - apply uuid_eqb_eq in Eu. rewrite Eu, Hu in Hui. injection Hui as <-.
        rewrite Nat.eqb_refl. simpl.
        destruct (Rating.movie_id r =? m)%Z eqn:Em.
        + apply Z.eqb_eq in Em. rewrite Em, Hm in Hmj. injection Hmj as <-.
          apply Nat.eqb_refl.
        + apply Nat.eqb_neq. intros ->. apply Him in Hmj.
          rewrite Hmj, Z.eqb_refl in Em. discriminate.
      - rewrite andb_false_l. apply andb_false_iff. left.
        apply Nat.eqb_neq. intros ->. apply Hiu in Hui.
        rewrite Hui in Eu. rewrite (proj2 (uuid_eqb_eq u u) eq_refl) in Eu.
        discriminate. }
    destruct (assoc_get uuid_eqb (Rating.user_id r) users) as [ui|] eqn:Eui.
    + destruct (assoc_get Z.eqb (Rating.movie_id r) items) as [mj|] eqn:Emj.
      * rewrite IH, set_entry_entry.
        destruct (entry_opt M i j) as [x|]; [|reflexivity].
        now rewrite (Hcond ui mj eq_refl eq_refl).
      * rewrite IH. destruct (entry_opt M i j) as [x|]; [|reflexivity].
        destruct (Rating.movie_id r =? m)%Z eqn:Em.
        -- apply Z.eqb_eq in Em. rewrite Em, Hm in Emj. discriminate.
        -- now rewrite andb_false_r.
    + rewrite IH. destruct (entry_opt M i j) as [x|]; [|reflexivity].
      destruct (uuid_eqb (Rating.user_id r) u) eqn:Eu.
      * apply uuid_eqb_eq in Eu. rewrite Eu, Hu in Eui. discriminate.
      * reflexivity.
Qed.

Lemma compute_user_item_matrix_eq (np_sqrt : Q -> Q) (db : Database)
    (self : Collaborative.State) :
  Collaborative._compute_user_item_matrix np_sqrt db self
  = if (List.length (ratings db) <? 100)%nat then (self, Returned tt)
    else if (List.length (filtered_ratings db) <? 50)%nat then (self, Returned tt)
    else
      let unique_users :=
        Collaborative.unique uuid_eqb (map Rating.user_id (filtered_ratings db)) in
      let unique_movies :=
        Collaborative.unique Z.eqb (map Rating.movie_id (filtered_ratings db)) in
      let uim := Collaborative.index_map uuid_eqb unique_users in
      let mim := Collaborative.index_map Z.eqb unique_movies in
      let M :=
        Collaborative.fill_matrix uim mim (filtered_ratings db)
          (Collaborative.zeros (List.length unique_users)
             (List.length unique_movies)) in
      ({| Collaborative.user_movie_matrix := Some M;
          Collaborative.user_similarity_matrix :=
            Some (Cosine.cosine_similarity np_sqrt M);
          Collaborative.user_index_map := uim;
          Collaborative.movie_index_map := mim;
          Collaborative.reverse_user_map := Collaborative.reverse_map uim;
          Collaborative.reverse_movie_map := Collaborative.reverse_map mim |},
       Raised (NameError "matrix_path")).
Proof. reflexivity. Qed.

Lemma index_map_length {K} (eqb : K -> K -> bool) (keys : list K) :
  (forall a b, eqb a b = true <-> a = b) ->
  NoDup keys ->
  List.length (Collaborative.index_map eqb keys) = List.length keys.
Proof.
  intros Heq Hnd. rewrite (index_map_spec eqb keys Heq Hnd), length_map.
  unfold ContentBased.enumerate.
  rewrite <- (length_map fst), enumerate_from_fst. apply length_seq.
Qed.

(** X5.  [train_model] of the collaborative scorer answers [True] exactly
    when it trained nothing: with fewer than 100 ratings, or fewer than 50
    ratings left after the activity filter, the recommender is unchanged.
    With enough data the matrices and index dicts are assigned, the save
    raises [NameError] and the answer is [False]; the rating matrix then
    has one row per indexed user and one column per indexed movie. *)
Theorem collaborative_training_succeeds_only_when_idle :
  forall (np_sqrt : Q -> Q) (db : Database) (self : Collaborative.State),
    let enough :=
      ((100 <=? List.length (ratings db))%nat
       && (50 <=? List.length (filtered_ratings db))%nat)%bool in
    let after := fst (Collaborative.train_model np_sqrt db self) in
    snd (Collaborative.train_model np_sqrt db self) = negb enough
    /\ (enough = false ->
        after = self
        /\ Collaborative._compute_user_item_matrix np_sqrt db self
           = (self, Returned tt))
    /\ (enough = true ->
        Collaborative._compute_user_item_matrix np_sqrt db self
        = (after, Raised (NameError "matrix_path"))
        /\ exists M,
             Collaborative.user_movie_matrix after = Some M
             /\ Collaborative.user_similarity_matrix after
                = Some (Cosine.cosine_similarity np_sqrt M)
             /\ List.length M = List.length (Collaborative.user_index_map after)
             /\ (forall row, In row M ->
                   List.length row
                   = List.length (Collaborative.movie_index_map after))).
Proof.
  intros np_sqrt db self enough after. unfold after, enough.
  unfold Collaborative.train_model. rewrite compute_user_item_matrix_eq.
  rewrite !Nat.leb_antisym.
  destruct (List.length (ratings db) <? 100)%nat; simpl.
  { split; [reflexivity|]. split; [tauto | discriminate]. }
  destruct (List.length (filtered_ratings db) <? 50)%nat; simpl.
  { split; [reflexivity|]. split; [tauto | discriminate]. }
  split; [reflexivity|]. split; [discriminate|]. intros _.
  split; [reflexivity|]. eexists. split; [reflexivity|]. split; [reflexivity|].
  rewrite (index_map_length uuid_eqb _ uuid_eqb_eq (unique_NoDup uuid_eqb uuid_eqb_eq _)).
  rewrite (index_map_length Z.eqb _ Z.eqb_eq (unique_NoDup Z.eqb Z.eqb_eq _)).
  apply fill_matrix_shape; apply zeros_shape.
Qed.

Lemma count_of_ratings (db : Database) (u : UUID) :
  Collaborative.count_of uuid_eqb u (map Rating.user_id (ratings db))
  = List.length (ratings_of db u).
Proof.
  unfold Collaborative.count_of, ratings_of.
  induction (ratings db) as [|r rs IH]; simpl; [reflexivity|].
  unfold uuid_eqb in *. rewrite (N.eqb_sym u).
  destruct (Rating.user_id r =? u)%N; simpl; now rewrite IH.
Qed.

(** X6.  Once the store has enough ratings the collaborative matrices are
    built from the filtered ratings: the indexed users and movies are
    exactly those of the filtered ratings, each indexed user has at least
    five stored ratings, the reverse dicts invert the index dicts, and the
    matrix entry of an indexed user and an indexed movie is that user's
    last filtered rating of the movie, 0 when there is none. *)
Theorem trained_matrix_holds_filtered_ratings :
  forall (np_sqrt : Q -> Q) (db : Database) (self : Collaborative.State),
    (100 <= List.length (ratings db))%nat ->
    (50 <= List.length (filtered_ratings db))%nat ->
    let after := fst (Collaborative._compute_user_item_matrix np_sqrt db self) in
    let user_index u :=
      assoc_get uuid_eqb u (Collaborative.user_index_map after) in
    let movie_index m :=
      assoc_get Z.eqb m (Collaborative.movie_index_map after) in
    exists M,
      Collaborative.user_movie_matrix after = Some M
      /\ (forall u, user_index u <> None
            <-> exists r, In r (filtered_ratings db) /\ Rating.user_id r = u)
      /\ (forall m, movie_index m <> None
            <-> exists r, In r (filtered_ratings db) /\ Rating.movie_id r = m)
      /\ (forall u, user_index u <> None ->
            (5 <= List.length (ratings_of db u))%nat)
      /\ (forall u i, user_index u = Some i
            <-> assoc_get Nat.eqb i (Collaborative.reverse_user_map after) = Some u)
      /\ (forall m j, movie_index m = Some j
            <-> assoc_get Nat.eqb j (Collaborative.reverse_movie_map after) = Some m)
      /\ (forall u m i j, user_index u = Some i -> movie_index m = Some j ->
            entry_opt M i j = Some (last_rating (filtered_ratings db) u m)).
Proof.
  intros np_sqrt db self H100 H50 after user_index movie_index.
  unfold user_index, movie_index, after. clear user_index movie_index after.
  rewrite compute_user_item_matrix_eq.
  apply Nat.ltb_ge in H100, H50. rewrite H100, H50. cbv zeta.
  cbn [fst Collaborative.user_movie_matrix Collaborative.user_index_map
       Collaborative.movie_index_map Collaborative.reverse_user_map
       Collaborative.reverse_movie_map].
  set (users := Collaborative.unique uuid_eqb
                  (map Rating.user_id (filtered_ratings db))).
  set (items := Collaborative.unique Z.eqb
                  (map Rating.movie_id (filtered_ratings db))).
  assert (Hndu : NoDup users) by apply (unique_NoDup uuid_eqb uuid_eqb_eq).
  assert (Hndm : NoDup items) by apply (unique_NoDup Z.eqb Z.eqb_eq).
  rewrite (index_map_spec uuid_eqb users uuid_eqb_eq Hndu).
  rewrite (index_map_spec Z.eqb items Z.eqb_eq Hndm).
  rewrite !reverse_map_spec.
  pose proof (fun u i => index_lookup uuid_eqb users u i uuid_eqb_eq Hndu) as Hlu.
  pose proof (fun m j => index_lookup Z.eqb items m j Z.eqb_eq Hndm) as Hlm.
  assert (Hmemu : forall u,
            assoc_get uuid_eqb u
              (map (fun ik => (snd ik, fst ik)) (ContentBased.enumerate users))
            <> None
            <-> exists r, In r (filtered_ratings db) /\ Rating.user_id r = u).
  { intro u. split.
    - intro Hne.
      destruct (assoc_get uuid_eqb u _) as [i|] eqn:E; [|congruence].
      apply Hlu in E. apply nth_error_In in E.
      apply (proj1 (unique_In uuid_eqb uuid_eqb_eq _ _)) in E.
      apply in_map_iff in E. destruct E as [r [Hr Hin]]. now exists r.
    - intros [r [Hin Hr]].
      assert (Hu : In u users).
      { apply (proj2 (unique_In uuid_eqb uuid_eqb_eq _ _)). rewrite <- Hr.
        now apply in_map. }
      apply In_nth_error in Hu. destruct Hu as [i Hi].
      apply Hlu in Hi. congruence. }
  eexists. split; [reflexivity|].
  split; [exact Hmemu|]. split.
  { intro m. split.
    - intro Hne.
      destruct (assoc_get Z.eqb m _) as [j|] eqn:E; [|congruence].
      apply Hlm in E. apply nth_error_In in E.
      apply (proj1 (unique_In Z.eqb Z.eqb_eq _ _)) in E.
      apply in_map_iff in E. destruct E as [r [Hr Hin]]. now exists r.
    - intros [r [Hin Hr]].
      assert (Hm : In m items).
      { apply (proj2 (unique_In Z.eqb Z.eqb_eq _ _)). rewrite <- Hr.
        now apply in_map. }
      apply In_nth_error in Hm. destruct Hm as [j Hj].
      apply Hlm in Hj. congruence. }
  split.
  { intros u Hu. apply Hmemu in Hu. destruct Hu as [r [Hin <-]].
    apply filter_In in Hin. destruct Hin as [_ Hc].
    apply andb_true_iff in Hc. destruct Hc as [Hc _].
    apply Nat.leb_le in Hc. now rewrite count_of_ratings in Hc. }
  split; [intros u i; now rewrite Hlu, reverse_lookup|].
  split; [intros m j; now rewrite Hlm, reverse_lookup|].
  intros u m i j Hu Hm.
  rewrite (fill_matrix_entry _ _ _ _ u m i j Hu Hm).
  - rewrite zeros_entry; [reflexivity | |].
    + apply Hlu in Hu. apply nth_error_Some. congruence.
    + apply Hlm in Hm. apply nth_error_Some. congruence.
  - intros u' Hu'. apply Hlu in Hu, Hu'. congruence.
  - intros m' Hm'. apply Hlm in Hm, Hm'. congruence.
Qed.

Lemma trained_matrix_holds_filtered_ratings_on_dense_store :
  (100 <= List.length (ratings dense_db))%nat
  /\ (50 <= List.length (filtered_ratings dense_db))%nat
  /\ exists M,
       Collaborative.user_movie_matrix
         (fst (Collaborative._compute_user_item_matrix flat_sqrt dense_db
                 Collaborative.init)) = Some M
       /\ entry_opt M 2 7 = Some (last_rating (filtered_ratings dense_db) 2%N 7%Z).
Proof.
  assert (H100 : (100 <= List.length (ratings dense_db))%nat)
    by (apply Nat.leb_le; vm_compute; reflexivity).
  assert (H50 : (50 <= List.length (filtered_ratings dense_db))%nat)
    by (apply Nat.leb_le; vm_compute; reflexivity).
  split; [exact H100|]. split; [exact H50|].
  destruct (trained_matrix_holds_filtered_ratings flat_sqrt dense_db
              Collaborative.init H100 H50) as [M [HM [_ [_ [_ [_ [_ He]]]]]]].
  exists M. split; [exact HM|].
  apply He; vm_compute; reflexivity.
Defined.

(** ** The collaborative scorer on a fresh recommender *)

Lemma popular_movies_returned (db : Database) (limit : nat) :
  exists l, _get_popular_movies db limit = Returned l.
Proof.
  unfold _get_popular_movies.
  match goal with
  | |- exists l, try_except ?body _ = _ => destruct body as [l|e]
  end; simpl; eexists; reflexivity.
Qed.

Lemma compute_user_item_matrix_outcome (np_sqrt : Q -> Q) (db : Database)
    (self : Collaborative.State) :
  Collaborative._compute_user_item_matrix np_sqrt db self = (self, Returned tt)
  \/ (exists self',
        Collaborative._compute_user_item_matrix np_sqrt db self
        = (self', Raised (NameError "matrix_path")))
     /\ forall other, exists self',
          Collaborative._compute_user_item_matrix np_sqrt db other
          = (self', Raised (NameError "matrix_path")).
Proof.
  rewrite compute_user_item_matrix_eq.
  destruct (List.length (ratings db) <? 100)%nat eqn:E1; [now left|].
  destruct (List.length (filtered_ratings db) <? 50)%nat eqn:E2; [now left|].
  right. split; [eexists; reflexivity|].
  intro other. rewrite compute_user_item_matrix_eq, E1, E2.
  eexists; reflexivity.
Qed.

(** X7.  Without a pickle file a fresh collaborative recommender always
    answers with the popularity fallback, whoever asks: either the store
    is too small to train on and no user is indexed, or training raises on
    the unbound [matrix_path], twice, and the handler takes over. *)
Theorem fresh_collaborative_scorer_serves_popular_movies :
  forall (np_sqrt : Q -> Q) (np_argsort : list Q -> list nat) (db : Database)
         (user_id : UUID) (limit : nat) (exclude_watched : bool),
    Collaborative.get_recommendations np_sqrt np_argsort None db
      Collaborative.init user_id limit exclude_watched
    = _get_popular_movies db limit.
Proof.
  intros np_sqrt np_argsort db user_id limit exclude_watched.
  destruct (popular_movies_returned db limit) as [l Hl].
  unfold Collaborative.get_recommendations, Collaborative._load_or_compute_matrix.
  cbn [Collaborative.user_movie_matrix Collaborative.init].
  destruct (compute_user_item_matrix_outcome np_sqrt db Collaborative.init)
    as [H|[[self' H] Hagain]]; rewrite H.
  - cbn [bind Collaborative.user_index_map Collaborative.init assoc_get].
    rewrite Hl. reflexivity.
  - destruct (Hagain self') as [self'' H']. rewrite H'.
    cbn [bind try_except]. reflexivity.
Qed.

(** X8.  A fresh recommender that loads the pickle has no user similarity
    matrix (the file does not hold it), so it finds no similar user: a user
    of the index whose row exists gets the empty list, and every other
    user gets the popularity fallback. *)
Theorem pickled_collaborative_scorer_recommends_nothing :
  forall (np_sqrt : Q -> Q) (np_argsort : list Q -> list nat)
         (data : Collaborative.Pickle) (db : Database) (user_id : UUID)
         (limit : nat) (exclude_watched : bool),
    Collaborative.get_recommendations np_sqrt np_argsort (Some data) db
      Collaborative.init user_id limit exclude_watched
    = match assoc_get uuid_eqb user_id (Collaborative.p_user_index_map data) with
      | Some user_idx =>
          match nth_error (Collaborative.p_user_movie_matrix data) user_idx with
          | Some _ => Returned []
          | None => _get_popular_movies db limit
          end
      | None => _get_popular_movies db limit
      end.
Proof.
  intros np_sqrt np_argsort data db user_id limit exclude_watched.
  destruct (popular_movies_returned db limit) as [l Hl].
  unfold Collaborative.get_recommendations, Collaborative._load_or_compute_matrix.
  cbn [Collaborative.user_movie_matrix Collaborative.init bind
       Collaborative.user_index_map].
  destruct (assoc_get uuid_eqb user_id (Collaborative.p_user_index_map data))
    as [user_idx|]; [|now rewrite Hl].
  destruct (nth_error (Collaborative.p_user_movie_matrix data) user_idx)
    as [row|]; [|reflexivity].
  unfold Collaborative._find_similar_users.
  cbn [Collaborative.user_similarity_matrix Collaborative.init try_except bind].
  rewrite firstn_nil.
  cbn [Collaborative.add_similar_users bind sorted_desc fold_right].
  rewrite firstn_nil. reflexivity.
Qed.

(** ** Similar users *)

Lemma with_similarity_spec (sims : list Q) (indices : list nat)
    (l : list (nat * Q)) :
  Collaborative.with_similarity sims indices = Returned l ->
  (List.length l <= List.length indices)%nat
  /\ map fst l = filter (fun idx => match nth_error sims idx with
                                    | Some sim => Qltb 0.1 sim
                                    | None => false
                                    end) indices
  /\ forall idx sim, In (idx, sim) l ->
       nth_error sims idx = Some sim /\ 0.1 < sim.
Proof.
  revert l. induction indices as [|idx rest IH]; intros l H; simpl in H.
  - injection H as <-. simpl. split; [lia|]. split; [reflexivity | intros ? ? []].
  - destruct (nth_error sims idx) as [sim|] eqn:E; [|discriminate].
    destruct (Collaborative.with_similarity sims rest) as [tl|]; [|discriminate].
    simpl in H. injection H as <-.
    destruct (IH tl eq_refl) as [Hlen [Hmap Hin]].
    simpl. rewrite E.
    destruct (Qltb 0.1 sim) eqn:Es.
    + simpl. split; [lia|]. split; [now rewrite Hmap|].
      intros i s [Heq|Hi]; [|now apply Hin].
      injection Heq as <- <-. split; [exact E | now apply Qltb_true].
    + split; [lia|]. split; [exact Hmap | exact Hin].
Qed.

(** X9.  [_find_similar_users] never raises.  It answers at most [limit]
    users, each with its entry of the asking user's similarity row, which
    is above 0.1; the candidates are the indices [np.argsort] ranks highest
    after the first, in that order.  Without a similarity matrix, or with
    a row index out of range, the answer is empty. *)
Theorem similar_users_are_above_the_threshold :
  forall (np_argsort : list Q -> list nat) (self : Collaborative.State)
         (user_idx limit : nat),
    exists similar_users,
      Collaborative._find_similar_users np_argsort self user_idx limit
      = Returned similar_users
      /\ (List.length similar_users <= limit)%nat
      /\ (forall idx sim, In (idx, sim) similar_users ->
            0.1 < sim
            /\ exists similarity row,
                 Collaborative.user_similarity_matrix self = Some similarity
                 /\ nth_error similarity user_idx = Some row
                 /\ nth_error row idx = Some sim
                 /\ In idx (firstn limit (skipn 1 (rev (np_argsort row)))))
      /\ (Collaborative.user_similarity_matrix self = None -> similar_users = [])
      /\ (forall similarity,
            Collaborative.user_similarity_matrix self = Some similarity ->
            nth_error similarity user_idx = None -> similar_users = []).
Proof.
  intros np_argsort self user_idx limit.
  unfold Collaborative._find_similar_users.
  destruct (Collaborative.user_similarity_matrix self) as [similarity|];
    [|exists []; simpl; repeat split; try lia; try tauto; intros ? ? []].
  destruct (nth_error similarity user_idx) as [row|] eqn:Er;
    [|exists []; simpl; repeat split; try lia; try tauto;
      try discriminate; intros ? ? []].
  destruct (Collaborative.with_similarity row
              (firstn limit (skipn 1 (rev (np_argsort row))))) as [l|e] eqn:Ew.
  - exists l. simpl. split; [reflexivity|].
    destruct (with_similarity_spec _ _ _ Ew) as [Hlen [Hmap Hin]].
    split.
    { eapply Nat.le_trans; [exact Hlen|]. rewrite length_firstn. apply Nat.le_min_l. }
    split.
    { intros idx sim H. destruct (Hin idx sim H) as [Hn Hs].
      split; [exact Hs|]. exists similarity, row.
      split; [reflexivity|]. split; [exact Er|]. split; [exact Hn|].
      assert (Hi : In idx (map fst l))
        by (change idx with (fst (idx, sim)); now apply in_map).
      rewrite Hmap in Hi. now apply filter_In in Hi. }
    split; [discriminate|].
    intros s Hs Hn. injection Hs as <-. congruence.
  - exists []. simpl. split; [reflexivity|]. split; [lia|].
    split; [intros ? ? []|]. split; [discriminate | reflexivity].
Qed.

(** ** Where collaborative recommendations come from *)

Lemma add_recommendation_origin (self : Collaborative.State) (rated : list nat)
    (sim : Q) (recs : list (Z * Q)) (ir : nat * Q) (k : Z) :
  In k (map fst (Collaborative.add_recommendation self rated sim recs ir)) ->
  In k (map fst recs)
  \/ (4 <= snd ir /\ ~ In (fst ir) rated /\ k <> 0%Z
      /\ assoc_get Nat.eqb (fst ir) (Collaborative.reverse_movie_map self) = Some k).
Proof.
  destruct ir as [movie_idx rating]. unfold Collaborative.add_recommendation.
  destruct (Qle_bool 4 rating && negb (Collaborative.mem_nat movie_idx rated))
    eqn:Ec; [|now left].
  apply andb_true_iff in Ec. destruct Ec as [Hr Ec]. apply negb_true_iff in Ec.
  destruct (assoc_get Nat.eqb movie_idx (Collaborative.reverse_movie_map self))
    as [movie_id|] eqn:Er; [|now left].
  destruct (movie_id =? 0)%Z eqn:E0; [now left|].
  rewrite (assoc_set_keys _ Z.eqb_eq). intros [->|H]; [right | now left].
  simpl. split; [now apply Qle_bool_iff|]. split.
  - intro Hin. apply mem_nat_In in Hin. congruence.
  - split; [now apply Z.eqb_neq | exact Er].
Qed.

Lemma add_similar_users_origin (self : Collaborative.State) (M : list (list Q))
    (rated : list nat) (similar_users : list (nat * Q)) (recs out : list (Z * Q)) :
  Collaborative.add_similar_users self M rated similar_users recs = Returned out ->
  forall k, In k (map fst out) ->
    In k (map fst recs)
    \/ exists su sim row j rating,
         In (su, sim) similar_users
         /\ nth_error M su = Some row /\ nth_error row j = Some rating
         /\ 4 <= rating /\ ~ In j rated /\ k <> 0%Z
         /\ assoc_get Nat.eqb j (Collaborative.reverse_movie_map self) = Some k.
Proof.
  revert recs. induction similar_users as [|[su sim] rest IH]; intros recs H k Hk;
    simpl in H.
  - injection H as <-. now left.
  - destruct (nth_error M su) as [row|] eqn:Erow; [|discriminate].
    destruct (IH _ H k Hk) as [Hin|Hex].
    + assert (Hloop : forall l recs0,
                (forall ir, In ir l -> In ir (ContentBased.enumerate row)) ->
                In k (map fst
                        (fold_left
                           (Collaborative.add_recommendation self rated sim)
                           l recs0)) ->
                In k (map fst recs0)
                \/ exists j rating,
                     nth_error row j = Some rating
                     /\ 4 <= rating /\ ~ In j rated /\ k <> 0%Z
                     /\ assoc_get Nat.eqb j (Collaborative.reverse_movie_map self)
                        = Some k).
      { clear. induction l as [|ir l IHl]; intros recs0 Hsub Hin; simpl in Hin.
        - now left.
        - destruct (IHl _ (fun x Hx => Hsub x (or_intror Hx)) Hin) as [H|H];
            [|now right].
          apply add_recommendation_origin in H.
          destruct H as [H|[H1 [H2 [H3 H4]]]]; [now left|].
          right. exists (fst ir), (snd ir). repeat split; try assumption.
          specialize (Hsub ir (or_introl eq_refl)). destruct ir as [j rating].
          apply enumerate_from_In in Hsub. simpl.
          destruct Hsub as [_ Hn]. now rewrite Nat.sub_0_r in Hn. }
      destruct (Hloop _ _ (fun x Hx => Hx) Hin) as [Hl|[j [rating Hj]]];
        [now left|].
      right. exists su, sim, row, j, rating.
      split; [now left|]. split; [exact Erow|]. exact Hj.
    + right. destruct Hex as [su' [sim' [row' [j [rating [Hin Hrest]]]]]].
      exists su', sim', row', j, rating. split; [now right | exact Hrest].
Qed.

Lemma to_schemas_length (db : Database) (recs : list (Z * Q))
    (l : list MovieSchema.t) :
  Collaborative.to_schemas db recs = Returned l ->
  (List.length l <= List.length recs)%nat.
Proof.
  revert l. induction recs as [|[movie_id sc] rest IH]; intros l H; simpl in H.
  - injection H as <-. simpl. lia.
  - destruct (movie_by_id db movie_id) as [movie|].
    + destruct (_movie_to_schema movie) as [ms|]; simpl in H; [|discriminate].
      destruct (Collaborative.to_schemas db rest) as [tl|]; simpl in H; [|discriminate].
      injection H as <-. simpl. specialize (IH tl eq_refl). lia.
    + specialize (IH l H). simpl. lia.
Qed.

Lemma to_schemas_stored (db : Database) (recs : list (Z * Q))
    (l : list MovieSchema.t) :
  Collaborative.to_schemas db recs = Returned l ->
  forall s, In s l ->
    exists movie, In movie (movies db) /\ Movie.id movie = MovieSchema.id s.
Proof.
  revert l. induction recs as [|[movie_id sc] rest IH]; intros l H s Hs; simpl in H.
  - injection H as <-. destruct Hs.
  - destruct (movie_by_id db movie_id) as [movie|] eqn:Em.
    + destruct (_movie_to_schema movie) as [ms|] eqn:Es; simpl in H; [|discriminate].
      destruct (Collaborative.to_schemas db rest) as [tl|]; simpl in H; [|discriminate].
      injection H as <-. destruct Hs as [<-|Hs].
      * exists movie. split; [now apply movie_by_id_Some in Em|].
        symmetry. now apply _movie_to_schema_id.
      * now apply (IH tl).
    + now apply (IH l).
Qed.

Lemma rated_columns_In (user_ratings : list Q) (j : nat) (r : Q) :
  nth_error user_ratings j = Some r -> 0 < r ->
  In j (Collaborative.rated_columns user_ratings).
Proof.
  intros Hj Hr. unfold Collaborative.rated_columns.
  apply in_map_iff. exists (j, r). split; [reflexivity|].
  apply filter_In. split; [|now apply Qltb_true].
  unfold ContentBased.enumerate. apply enumerate_from_In.
  split; [lia|]. now rewrite Nat.sub_0_r.
Qed.

(** X10.  For a user of the index whose matrix row exists the
    collaborative scorer never raises.  Unless a failure sends it to the
    popularity fallback, it answers at most [limit] stored movies, and each
    of them was rated at least 4.0 by a user whose similarity to the asking
    user is above 0.1, in a column the asking user's row leaves unrated. *)
Theorem collaborative_recommendations_come_from_similar_users :
  forall (np_sqrt : Q -> Q) (np_argsort : list Q -> list nat)
         (pickle : option Collaborative.Pickle) (db : Database)
         (self : Collaborative.State) (user_id : UUID) (limit : nat)
         (exclude_watched : bool) (M : list (list Q)) (user_idx : nat)
         (user_ratings : list Q),
    Collaborative.user_movie_matrix self = Some M ->
    assoc_get uuid_eqb user_id (Collaborative.user_index_map self) = Some user_idx ->
    nth_error M user_idx = Some user_ratings ->
    exists l,
      Collaborative.get_recommendations np_sqrt np_argsort pickle db self
        user_id limit exclude_watched = Returned l
      /\ (_get_popular_movies db limit = Returned l
          \/ ((List.length l <= limit)%nat
              /\ forall s, In s l ->
                   (exists movie,
                      In movie (movies db) /\ Movie.id movie = MovieSchema.id s)
                   /\ MovieSchema.id s <> 0%Z
                   /\ exists similarity sims su sim row j rating,
                        Collaborative.user_similarity_matrix self = Some similarity
                        /\ nth_error similarity user_idx = Some sims
                        /\ nth_error sims su = Some sim /\ 0.1 < sim
                        /\ nth_error M su = Some row
                        /\ nth_error row j = Some rating /\ 4 <= rating
                        /\ (forall r, nth_error user_ratings j = Some r -> r <= 0)
                        /\ assoc_get Nat.eqb j (Collaborative.reverse_movie_map self)
                           = Some (MovieSchema.id s))).
Proof.
  intros np_sqrt np_argsort pickle db self user_id limit exclude_watched M
    user_idx user_ratings HM Hu Hrow.
  destruct (popular_movies_returned db limit) as [pop Hpop].
  unfold Collaborative.get_recommendations.
  rewrite HM. cbn [bind]. rewrite Hu, HM, Hrow.
  unfold Collaborative._find_similar_users.
  destruct (Collaborative.user_similarity_matrix self) as [similarity|] eqn:Es.
  2:{ cbn [try_except bind]. rewrite firstn_nil.
      cbn [Collaborative.add_similar_users bind sorted_desc fold_right].
      rewrite firstn_nil. cbn [Collaborative.to_schemas try_except].
      exists []. split; [reflexivity|]. right. split; [simpl; lia | intros s []]. }
  destruct (nth_error similarity user_idx) as [sims|] eqn:Esims.
  2:{ cbn [try_except bind]. rewrite firstn_nil.
      cbn [Collaborative.add_similar_users bind sorted_desc fold_right].
      rewrite firstn_nil. cbn [Collaborative.to_schemas try_except].
      exists []. split; [reflexivity|]. right. split; [simpl; lia | intros s []]. }
  destruct (Collaborative.with_similarity sims
              (firstn 50 (skipn 1 (rev (np_argsort sims))))) as [similar|e] eqn:Ew.
  2:{ cbn [try_except bind]. rewrite firstn_nil.
      cbn [Collaborative.add_similar_users bind sorted_desc fold_right].
      rewrite firstn_nil. cbn [Collaborative.to_schemas try_except].
      exists []. split; [reflexivity|]. right. split; [simpl; lia | intros s []]. }
  cbn [try_except bind].
  destruct (with_similarity_spec _ _ _ Ew) as [_ [_ Hsim]].
  destruct (Collaborative.add_similar_users self M
              (Collaborative.rated_columns user_ratings) (firstn 50 similar) [])
    as [recs|e] eqn:Erecs; cbn [bind try_except].
  2:{ exists pop. rewrite Hpop. split; [reflexivity | now left]. }
  destruct (Collaborative.to_schemas db
              (firstn limit (sorted_desc Collaborative.score_gtb recs)))
    as [l|e] eqn:El; cbn [try_except].
  2:{ exists pop. rewrite Hpop. split; [reflexivity | now left]. }
  exists l. split; [reflexivity|]. right. split.
  { eapply Nat.le_trans; [apply (to_schemas_length _ _ _ El)|].
    rewrite length_firstn. apply Nat.le_min_l. }
  intros s Hs. split; [apply (to_schemas_stored _ _ _ El s Hs)|].
  assert (Hk : In (MovieSchema.id s) (map fst recs)).
  { apply (to_schemas_ids _ _ _ El) in Hs.
    apply in_map_iff in Hs. destruct Hs as [x [Hx Hin]].
    apply firstn_In in Hin. apply sorted_desc_In in Hin.
    rewrite <- Hx. now apply in_map. }
  destruct (add_similar_users_origin _ _ _ _ _ _ Erecs _ Hk)
    as [[]|[su [sim [row [j [rating [Hin [Hr [Hj [H4 [Hn [H0 Hrev]]]]]]]]]]]].
  split; [exact H0|].
  apply firstn_In in Hin. destruct (Hsim su sim Hin) as [Hsu Hgt].
  exists similarity, sims, su, sim, row, j, rating.
  split; [reflexivity|]. split; [exact Esims|]. split; [exact Hsu|].
  split; [exact Hgt|]. split; [exact Hr|]. split; [exact Hj|].
  split; [exact H4|]. split; [|exact Hrev].
  intros r Hr'. destruct (Qlt_le_dec 0 r) as [Hpos|Hle]; [|exact Hle].
  elim Hn. eapply rated_columns_In; eassumption.
Qed.

Lemma collaborative_recommendations_come_from_similar_users_for_alice :
  Collaborative.user_movie_matrix sample_state = Some [ [5; 0; 4]; [5; 4; 0] ]
  /\ assoc_get uuid_eqb alice (Collaborative.user_index_map sample_state)
     = Some 0%nat
  /\ nth_error [ [5; 0; 4]; [5; 4; 0] ] 0 = Some [5; 0; 4]
  /\ exists l,
       Collaborative.get_recommendations flat_sqrt sample_argsort None ranking_db
         sample_state alice 10 true = Returned l.
Proof.
  split; [reflexivity|]. split; [reflexivity|]. split; [reflexivity|].
  destruct (collaborative_recommendations_come_from_similar_users flat_sqrt
              sample_argsort None ranking_db sample_state alice 10 true
              [ [5; 0; 4]; [5; 4; 0] ] 0%nat [5; 0; 4] eq_refl eq_refl eq_refl)
    as [l [Hl _]].
  exists l. exact Hl.
Defined.

(** ** Review sentiment and the mood ranking *)

Lemma sentiment_term_bounds (mood : string) (p : Q) :
  0 <= MoodAnalyzer.sentiment_term mood p
  /\ (-1 <= p -> p <= 1 -> MoodAnalyzer.sentiment_term mood p <= 1).
Proof.
  unfold MoodAnalyzer.sentiment_term.
  destruct (mem_string mood ["happy"; "excited"; "energetic"]).
  { split; [apply Q.le_max_l|]. intros _ H. apply Q.max_lub; [discriminate | exact H]. }
  destruct (mem_string mood ["sad"; "thoughtful"]).
  { split; [apply Qabs_nonneg|]. intros H1 H2. apply Qabs_Qle_condition.
    split; assumption. }
  destruct (mem_string mood ["scared"]).
  { destruct (Qltb p 0).
    - split; [apply Q.le_max_l|]. intros H _. apply Q.max_lub; [discriminate|].
      apply Qopp_le_compat in H. exact H.
    - split; [apply Qle_refl | discriminate]. }
  split.
  - apply Qmult_le_0_compat; [apply Qabs_nonneg | discriminate].
  - intros H1 H2.
    assert (Ha : Qabs p <= 1) by (apply Qabs_Qle_condition; split; assumption).
    apply Qle_trans with (1 * 0.5); [|discriminate].
    apply Qmult_le_compat_r; [exact Ha | discriminate].
Qed.

Lemma Qsum_bounds (l : list Q) :
  (forall x, In x l -> 0 <= x) -> 0 <= Qsum l.
Proof.
  induction l as [|x xs IH]; intro H; simpl; [apply Qle_refl|].
  rewrite <- (Qplus_0_l 0). apply Qplus_le_compat.
  - apply H. now left.
  - apply IH. intros y Hy. apply H. now right.
Qed.

Lemma Qsum_upper (l : list Q) :
  (forall x, In x l -> x <= 1) -> Qsum l <= inject_Z (Z.of_nat (List.length l)).
Proof.
  induction l as [|x xs IH]; intro H; [apply Qle_refl|].
  cbn [Qsum List.length]. rewrite Nat2Z.inj_succ, <- Z.add_1_l, inject_Z_plus.
  apply Qplus_le_compat.
  - apply H. now left.
  - apply IH. intros y Hy. apply H. now right.
Qed.

Lemma review_sentiment_score_formula (polarity : string -> Q) (db : Database)
    (movie_id : Z) (mood : string) :
  let texts := scored_texts (MoodAnalyzer.sampled_reviews db movie_id) in
  let terms := map (fun t => MoodAnalyzer.sentiment_term mood (polarity t)) texts in
  exists s,
    MoodAnalyzer._get_review_sentiment_score polarity db movie_id mood = Returned s
    /\ (texts = [] -> s = 0)
    /\ (texts <> [] -> s == Qsum terms / inject_Z (Z.of_nat (List.length texts))).
Proof.
  intros texts terms.
  unfold MoodAnalyzer._get_review_sentiment_score.
  subst terms texts.
  destruct (MoodAnalyzer.sampled_reviews db movie_id) as [|r rs] eqn:Ers.
  - simpl. exists 0. split; [reflexivity|].
    split; [reflexivity | intro H; now elim H].
  - destruct (sentiment_loop_spec polarity mood (r :: rs) 0 0%Z) as [H1 H2].
    destruct (MoodAnalyzer.sentiment_loop polarity mood (r :: rs) 0 0%Z)
      as [mood_score review_count] eqn:Eloop.
    simpl fst in H1. simpl snd in H2. unfold try_except.
    eexists. split; [reflexivity|].
    rewrite H2, Z.add_0_l.
    destruct (scored_texts (r :: rs)) as [|t ts] eqn:Et.
    + split; [reflexivity | intro H; now elim H].
    + split; [discriminate|]. intros _.
      replace (0 <? Z.of_nat (List.length (t :: ts)))%Z with true
        by (symmetry; apply Z.ltb_lt; simpl; lia).
      rewrite H1. now rewrite Qplus_0_l.
Qed.

Lemma scored_texts_nil (rs : list Review.t) :
  (forall r, In r rs -> nonempty (Review.content r) = false) ->
  scored_texts rs = [].
Proof.
  induction rs as [|r rs IH]; intro H; [reflexivity|].
  unfold scored_texts. simpl.
  pose proof (H r (or_introl eq_refl)) as Hr.
  destruct (Review.content r) as [[|c t]|]; simpl in Hr; try discriminate;
    simpl; apply IH; intros r' Hr'; apply H; now right.
Qed.

(** X11.  The review sentiment score never raises and is never negative,
    whatever the polarities are; it is 0 for a movie without an approved
    review that has a text; and when the polarity of every text lies in
    [-1, 1], as TextBlob's does, the score is at most 1. *)
Theorem review_sentiment_score_is_a_fraction :
  forall (polarity : string -> Q) (db : Database) (movie_id : Z) (mood : string),
    exists s,
      MoodAnalyzer._get_review_sentiment_score polarity db movie_id mood
      = Returned s
      /\ 0 <= s
      /\ ((forall r, In r (reviews db) -> Review.movie_id r = movie_id ->
             Review.is_approved r = true -> nonempty (Review.content r) = false) ->
          s = 0)
      /\ ((forall text, -1 <= polarity text /\ polarity text <= 1) -> s <= 1).
Proof.
  intros polarity db movie_id mood.
  destruct (review_sentiment_score_formula polarity db movie_id mood)
    as [s [Hs [Hnil Hcons]]].
  exists s. split; [exact Hs|].
  set (texts := scored_texts (MoodAnalyzer.sampled_reviews db movie_id)) in *.
  assert (Hcases : texts = [] \/ texts <> [])
    by (destruct texts; [now left | right; discriminate]).
  split; [|split].
  - destruct Hcases as [H|H]; [rewrite (Hnil H); apply Qle_refl|].
    rewrite (Hcons H). apply Qle_shift_div_l.
    + change 0 with (inject_Z 0). rewrite <- Zlt_Qlt.
      destruct texts; [congruence | simpl; lia].
    + rewrite Qmult_0_l. apply Qsum_bounds. intros x Hx.
      apply in_map_iff in Hx. destruct Hx as [t [<- _]].
      apply sentiment_term_bounds.
  - intro Hnone. apply Hnil. unfold texts.
    assert (Hrs : forall r, In r (MoodAnalyzer.sampled_reviews db movie_id) ->
                    nonempty (Review.content r) = false).
    { intros r Hr. unfold MoodAnalyzer.sampled_reviews in Hr.
      apply firstn_In in Hr. apply filter_In in Hr. destruct Hr as [Hin Hc].
      apply andb_true_iff in Hc. destruct Hc as [Hid Happ].
      apply Hnone; [exact Hin | now apply Z.eqb_eq | exact Happ]. }
    now apply scored_texts_nil.
  - intro Hpol.
    destruct Hcases as [H|H]; [rewrite (Hnil H); discriminate|].
    rewrite (Hcons H). apply Qle_shift_div_r.
    + change 0 with (inject_Z 0). rewrite <- Zlt_Qlt.
      destruct texts; [congruence | simpl; lia].
    + rewrite Qmult_1_l.
      rewrite <- (length_map (fun t => MoodAnalyzer.sentiment_term mood (polarity t))).
      apply Qsum_upper. intros x Hx.
      apply in_map_iff in Hx. destruct Hx as [t [<- _]].
      apply sentiment_term_bounds; apply Hpol.
Qed.

(** Two approved reviews with a text, of polarity 0.8 and -0.6: for
    "happy" only the first counts and the score is 0.4, for "sad" both
    count with their absolute value and the score is 0.7. *)
Lemma review_sentiment_score_is_a_fraction_on_two_reviews :
  (exists s,
     MoodAnalyzer._get_review_sentiment_score word_polarity reviewed_db 1 "happy"
     = Returned s
     /\ s == 0.4 /\ 0 <= s /\ s <= 1)
  /\ (exists s,
        MoodAnalyzer._get_review_sentiment_score word_polarity reviewed_db 1 "sad"
        = Returned s
        /\ s == 0.7 /\ 0 <= s /\ s <= 1).
Proof.
  assert (Hpol : forall text, -1 <= word_polarity text /\ word_polarity text <= 1).
  { intro text. unfold word_polarity.
    destruct (contains "great" text); [split; discriminate|].
    destruct (contains "awful" text); split; discriminate. }
  split.
  - destruct (review_sentiment_score_is_a_fraction word_polarity reviewed_db 1
                "happy") as [s [Hs [H0 [_ H1]]]].
    exists s. split; [exact Hs|]. split; [|split; [exact H0 | exact (H1 Hpol)]].
    vm_compute in Hs. injection Hs as <-. reflexivity.
  - destruct (review_sentiment_score_is_a_fraction word_polarity reviewed_db 1
                "sad") as [s [Hs [H0 [_ H1]]]].
    exists s. split; [exact Hs|]. split; [|split; [exact H0 | exact (H1 Hpol)]].
    vm_compute in Hs. injection Hs as <-. reflexivity.
Defined.

Lemma calculate_mood_score_returns (polarity : string -> Q) (math_log : Q -> Q)
    (db : Database) (movie : Movie.t) (mood : string) :
  MoodAnalyzer._calculate_mood_score polarity math_log db movie mood
  = Returned (mood_score_of polarity math_log db mood movie).
Proof.
  unfold mood_score_of.
  destruct (MoodAnalyzer._calculate_mood_score polarity math_log db movie mood)
    as [s|e] eqn:E; [reflexivity|].
  unfold MoodAnalyzer._calculate_mood_score, try_except in E.
  match type of E with
  | match ?b with _ => _ end = _ => destruct b; discriminate
  end.
Qed.

Lemma mood_key_gtb_true (y x : Movie.t * Q) :
  MoodAnalyzer.mood_key_gtb y x = true
  <-> snd x < snd y
      \/ (snd x == snd y
          /\ or_default (Movie.popularity (fst x)) 0
             < or_default (Movie.popularity (fst y)) 0).
Proof.
  unfold MoodAnalyzer.mood_key_gtb.
  rewrite orb_true_iff, andb_true_iff, Qltb_true, Qltb_true, Qeq_bool_iff.
  reflexivity.
Qed.

Lemma mood_key_gtb_false (y x : Movie.t * Q) :
  MoodAnalyzer.mood_key_gtb y x = false <-> mood_rank_ge x y.
Proof.
  unfold mood_rank_ge. split.
  - intro H.
    destruct (Q_dec (snd x) (snd y)) as [[Hlt|Hgt]|Heq].
    + exfalso. assert (Ht : MoodAnalyzer.mood_key_gtb y x = true)
        by (apply mood_key_gtb_true; now left). congruence.
    + now left.
    + right. split; [now symmetry|].
      destruct (Qlt_le_dec (or_default (Movie.popularity (fst x)) 0)
                  (or_default (Movie.popularity (fst y)) 0)) as [Hp|Hp];
        [|exact Hp].
      exfalso. assert (Ht : MoodAnalyzer.mood_key_gtb y x = true)
        by (apply mood_key_gtb_true; right; now split). congruence.
  - intro H. destruct (MoodAnalyzer.mood_key_gtb y x) eqn:E; [|reflexivity].
    apply mood_key_gtb_true in E. exfalso.
    destruct H as [H|[H1 H2]], E as [E|[E1 E2]].
    + apply (Qlt_irrefl (snd x)). eapply Qlt_trans; eassumption.
    + rewrite E1 in H. now apply (Qlt_irrefl (snd y)).
    + rewrite H1 in E. now apply (Qlt_irrefl (snd x)).
    + apply (Qlt_irrefl (or_default (Movie.popularity (fst x)) 0)).
      eapply Qlt_le_trans; eassumption.
Qed.

Lemma mood_ranking_sorted (l : list (Movie.t * Q)) :
  StronglySorted mood_rank_ge (sorted_desc MoodAnalyzer.mood_key_gtb l).
Proof.
  apply (StronglySorted_weaken_In
           (fun a b => MoodAnalyzer.mood_key_gtb b a = false)).
  { intros a b _ _ H. now apply mood_key_gtb_false. }
  apply sorted_desc_sorted.
  - intros a b H. apply mood_key_gtb_false. apply mood_key_gtb_true in H.
    unfold mood_rank_ge. destruct H as [H|[H1 H2]].
    + now left.
    + right. split; [exact H1 | now apply Qlt_le_weak].
  - intros a b c. rewrite !mood_key_gtb_false. unfold mood_rank_ge.
    intros [H1|[H1 H1']] [H2|[H2 H2']].
    + left. eapply Qlt_trans; eassumption.
    + left. now rewrite H2.
    + left. now rewrite <- H1.
    + right. split; [now rewrite H2, H1 | eapply Qle_trans; eassumption].
Qed.

(** What [get_mood_recommendations] computes for a known mood: the
    scored rows of the genre query, sorted on the key (score, popularity)
    and cut at [limit]. *)
Lemma mood_recommendations_eq :
  forall (polarity : string -> Q) (math_log : Q -> Q) (db : Database)
         (user_id : UUID) (mood : string) (limit : nat)
         (target_genres : list string),
    dict_get (lower mood) MoodAnalyzer.mood_genre_mapping = Some target_genres ->
    let rated := map Rating.movie_id (ratings_of db user_id) in
    let candidates := MoodAnalyzer.mood_candidates db target_genres rated in
    let scored :=
      map (fun m => (m, mood_score_of polarity math_log db (lower mood) m))
        candidates in
    let ranked := firstn limit (sorted_desc MoodAnalyzer.mood_key_gtb scored) in
    MoodAnalyzer.get_mood_recommendations polarity math_log db user_id mood limit
    = try_except (mapM _movie_to_schema (map fst ranked)) (fun _ => Returned [])
    /\ List.length ranked = Nat.min limit (List.length candidates)
    /\ StronglySorted mood_rank_ge ranked
    /\ (forall m s, In (m, s) ranked ->
          s = mood_score_of polarity math_log db (lower mood) m
          /\ In m (movies db)
          /\ Movie.is_active m = true
          /\ vote_count_ge m 20 = true
          /\ (exists g, In g (Movie.genres m) /\ In g target_genres)
          /\ ~ In (Movie.id m) rated).
Proof.
  intros polarity math_log db user_id mood limit target_genres Hmood
    rated candidates scored ranked.
  split; [|split; [|split]].
  - unfold MoodAnalyzer.get_mood_recommendations. rewrite Hmood.
    fold rated. fold candidates.
    assert (Hscored :
              mapM (fun movie =>
                      mood_score <-
                        MoodAnalyzer._calculate_mood_score polarity math_log db
                          movie (lower mood) ;;
                      Returned (movie, mood_score)) candidates
              = Returned scored).
    { unfold scored. apply mapM_returned. intros m _.
      now rewrite calculate_mood_score_returns. }
    destruct candidates as [|m ms] eqn:Ec.
    + unfold ranked, scored. simpl. now rewrite firstn_nil.
    + rewrite Hscored. cbn [bind]. fold ranked. now rewrite mapM_map.
  - unfold ranked. rewrite length_firstn.
    rewrite <- (Permutation_length (sorted_desc_perm _ scored)).
    unfold scored. now rewrite length_map.
  - unfold ranked. apply StronglySorted_firstn, mood_ranking_sorted.
  - intros m s Hin. unfold ranked in Hin. apply firstn_In in Hin.
    apply sorted_desc_In in Hin. unfold scored in Hin.
    apply in_map_iff in Hin. destruct Hin as [m' [E Hm]].
    injection E as -> <-. split; [reflexivity|].
    unfold candidates, MoodAnalyzer.mood_candidates in Hm.
    apply filter_In in Hm. destruct Hm as [Hin Hc].
    apply andb_true_iff in Hc. destruct Hc as [Hc Hex].
    apply andb_true_iff in Hc. destruct Hc as [Hc Hv].
    apply andb_true_iff in Hc. destruct Hc as [Hg Ha].
    split; [exact Hin|]. split; [exact Ha|]. split; [exact Hv|]. split.
    + apply existsb_exists in Hg. destruct Hg as [g [Hg1 Hg2]].
      exists g. split; [exact Hg1 | now apply mem_string_In].
    + destruct rated as [|x xs]; [tauto|].
      apply negb_true_iff in Hex. intro Hr. apply mem_Z_In in Hr. congruence.
Qed.

Lemma mood_candidates_spec (db : Database) (target_genres : list string)
    (rated : list Z) (m : Movie.t) :
  In m (MoodAnalyzer.mood_candidates db target_genres rated)
  <-> In m (movies db)
      /\ Movie.is_active m = true
      /\ vote_count_ge m 20 = true
      /\ (exists g, In g (Movie.genres m) /\ In g target_genres)
      /\ ~ In (Movie.id m) rated.
Proof.
  unfold MoodAnalyzer.mood_candidates. rewrite filter_In.
  rewrite !andb_true_iff, existsb_exists.
  assert (Hr : match rated with
               | [] => true
               | _ :: _ => negb (mem_Z (Movie.id m) rated)
               end = true <-> ~ In (Movie.id m) rated).
  { destruct rated as [|x xs]; [simpl; tauto|].
    rewrite negb_true_iff, <- mem_Z_In.
    destruct (mem_Z (Movie.id m) (x :: xs)); split; congruence. }
  rewrite Hr. split.
  - intros [Hin [[[[g [Hg1 Hg2]] Ha] Hv] Hn]].
    split; [exact Hin|]. split; [exact Ha|]. split; [exact Hv|].
    split; [exists g; split; [exact Hg1 | now apply mem_string_In] | exact Hn].
  - intros [Hin [Ha [Hv [[g [Hg1 Hg2]] Hn]]]].
    split; [exact Hin|]. split; [|exact Hn]. split; [|exact Hv].
    split; [|exact Ha]. exists g. split; [exact Hg1 | now apply mem_string_In].
Qed.

(** The ranking behind the answer, as a list of movies in descending
    score. *)
Lemma mood_ranking_exists (polarity : string -> Q) (math_log : Q -> Q)
    (db : Database) (user_id : UUID) (mood : string) (limit : nat)
    (target_genres : list string) :
  dict_get (lower mood) MoodAnalyzer.mood_genre_mapping = Some target_genres ->
  let candidates :=
    MoodAnalyzer.mood_candidates db target_genres
      (map Rating.movie_id (ratings_of db user_id)) in
  let score := mood_score_of polarity math_log db (lower mood) in
  exists ranked,
    Permutation ranked candidates
    /\ StronglySorted (fun a b => score b <= score a) ranked
    /\ MoodAnalyzer.get_mood_recommendations polarity math_log db user_id mood
         limit
       = try_except (mapM _movie_to_schema (firstn limit ranked))
           (fun _ => Returned []).
Proof.
  intros Hmood candidates score.
  pose proof (mood_recommendations_eq polarity math_log db user_id mood limit
                target_genres Hmood) as H.
  cbv zeta in H. destruct H as [Heq _]. fold candidates in Heq. fold score in Heq.
  set (scored := map (fun m => (m, score m)) candidates) in *.
  set (sorted := sorted_desc MoodAnalyzer.mood_key_gtb scored) in *.
  exists (map fst sorted). split; [|split].
  - eapply perm_trans.
    + apply Permutation_map, Permutation_sym, sorted_desc_perm.
    + unfold scored. rewrite map_map. simpl. rewrite map_id. apply Permutation_refl.
  - apply StronglySorted_map.
    apply (StronglySorted_weaken_In mood_rank_ge); [|apply mood_ranking_sorted].
    intros a b Ha Hb Hab.
    assert (Hsnd : forall x, In x sorted -> snd x = score (fst x)).
    { intros x Hx. apply sorted_desc_In in Hx. unfold scored in Hx.
      apply in_map_iff in Hx. destruct Hx as [m [<- _]]. reflexivity. }
    rewrite <- (Hsnd a Ha), <- (Hsnd b Hb).
    destruct Hab as [Hlt|[Heq' _]]; [now apply Qlt_le_weak|].
    rewrite Heq'. apply Qle_refl.
  - rewrite Heq. now rewrite firstn_map.
Qed.

(** X12.  For a known mood the mood scorer never raises.  Its candidates
    are exactly the stored movies that are active, have at least 20 votes,
    carry one of the mood's genres and were not rated by the user; it
    answers with the first [limit] of these in an order of descending mood
    score, so with min(limit, number of candidates) movies when they can
    all be converted to their schema, and with the empty list otherwise.
    The order among movies of equal score is not stated. *)
Theorem mood_recommendations_are_ranked_candidates :
  forall (polarity : string -> Q) (math_log : Q -> Q) (db : Database)
         (user_id : UUID) (mood : string) (limit : nat)
         (target_genres : list string),
    dict_get (lower mood) MoodAnalyzer.mood_genre_mapping = Some target_genres ->
    let rated := map Rating.movie_id (ratings_of db user_id) in
    let candidates := MoodAnalyzer.mood_candidates db target_genres rated in
    let score := mood_score_of polarity math_log db (lower mood) in
    let answer :=
      MoodAnalyzer.get_mood_recommendations polarity math_log db user_id mood
        limit in
    exists ranked,
      Permutation ranked candidates
      /\ StronglySorted (fun a b => score b <= score a) ranked
      /\ answer = try_except (mapM _movie_to_schema (firstn limit ranked))
                    (fun _ => Returned [])
      /\ (forall m, In m candidates <->
                    In m (movies db)
                    /\ Movie.is_active m = true
                    /\ vote_count_ge m 20 = true
                    /\ (exists g, In g (Movie.genres m) /\ In g target_genres)
                    /\ ~ In (Movie.id m) rated)
      /\ (forall l, answer = Returned l ->
            l = [] \/ map MovieSchema.id l = map Movie.id (firstn limit ranked))
      /\ ((forall m, In m candidates -> Movie.created_at m <> None) ->
          exists l,
            answer = Returned l
            /\ map MovieSchema.id l = map Movie.id (firstn limit ranked)
            /\ List.length l = Nat.min limit (List.length candidates)).
Proof.
  intros polarity math_log db user_id mood limit target_genres Hmood
    rated candidates score answer.
  destruct (mood_ranking_exists polarity math_log db user_id mood limit
              target_genres Hmood) as [ranked [Hperm [Hsorted Heq]]].
  fold rated in Hperm. fold candidates in Hperm. fold score in Hsorted.
  fold answer in Heq.
  exists ranked. split; [exact Hperm|]. split; [exact Hsorted|].
  split; [exact Heq|]. split; [intro m; apply mood_candidates_spec|].
  assert (Hids : forall l, mapM _movie_to_schema (firstn limit ranked) = Returned l ->
            map MovieSchema.id l = map Movie.id (firstn limit ranked)).
  { intros l Hl. apply (mapM_project _movie_to_schema); [|exact Hl].
    intros x y Hxy. now apply _movie_to_schema_id. }
  split.
  - intros l Hl. rewrite Heq in Hl.
    destruct (mapM _movie_to_schema (firstn limit ranked)) as [l'|e] eqn:Em;
      simpl in Hl; injection Hl as <-; [right; now apply Hids | now left].
  - intro Hts.
    destruct (mapM_total _movie_to_schema (firstn limit ranked)) as [l Hl].
    { intros m Hm. apply _movie_to_schema_total, Hts.
      apply (Permutation_in _ Hperm). now apply firstn_In in Hm. }
    exists l. split; [rewrite Heq, Hl; reflexivity|].
    split; [now apply Hids|].
    rewrite <- (length_map MovieSchema.id), (Hids l Hl), length_map, length_firstn.
    now rewrite (Permutation_length Hperm).
Qed.

(** Bob asks for two "Happy" films: of the three candidates the one with
    two genres and two keywords comes first, the one with two genres and
    one keyword second, and the more popular film with one genre is cut. *)
Lemma mood_recommendations_are_ranked_candidates_when_happy :
  dict_get (lower "Happy") MoodAnalyzer.mood_genre_mapping
  = Some ["Comedy"; "Family"; "Animation"; "Musical"; "Romance"]
  /\ exists l,
       MoodAnalyzer.get_mood_recommendations no_polarity flat_log mood_db bob
         "Happy" 2 = Returned l
       /\ map MovieSchema.id l = [31; 33]%Z
       /\ List.length l
          = Nat.min 2
              (List.length
                 (MoodAnalyzer.mood_candidates mood_db
                    ["Comedy"; "Family"; "Animation"; "Musical"; "Romance"] [])).
Proof.
  assert (H : dict_get (lower "Happy") MoodAnalyzer.mood_genre_mapping
              = Some ["Comedy"; "Family"; "Animation"; "Musical"; "Romance"])
    by reflexivity.
  split; [exact H|].
  destruct (mood_recommendations_are_ranked_candidates no_polarity flat_log
              mood_db bob "Happy" 2 _ H) as [ranked [_ [_ [_ [_ [_ Hconv]]]]]].
  destruct Hconv as [l [Hl [_ Hlen]]].
  { intros m Hm. vm_compute in Hm.
    destruct Hm as [<-|[<-|[<-|[]]]]; discriminate. }
  exists l. split; [exact Hl|]. split; [|exact Hlen].
  vm_compute in Hl. injection Hl as <-. reflexivity.
Defined.




(** ** Candidates of a group *)

Lemma unique_movies_spec (seen : list Z) (rows : list Movie.t) :
  (forall m, In m (GroupRecommender.unique_movies seen rows) ->
     In m rows /\ ~ In (Movie.id m) seen)
  /\ NoDup (map Movie.id (GroupRecommender.unique_movies seen rows))
  /\ (List.length (GroupRecommender.unique_movies seen rows)
      <= List.length rows)%nat.
Proof.
  revert seen. induction rows as [|m rest IH]; intro seen; simpl.
  - split; [intros ? [] | split; [constructor | lia]].
  - destruct (mem_Z (Movie.id m) seen) eqn:E.
    + destruct (IH seen) as [H1 [H2 H3]].
      split; [|split; [exact H2 | lia]].
      intros x Hx. destruct (H1 x Hx). tauto.
    + destruct (IH (Movie.id m :: seen)) as [H1 [H2 H3]].
      split; [|split; [|simpl; lia]].
      * intros x [<-|Hx].
        -- split; [now left|]. intro Hin. apply mem_Z_In in Hin. congruence.
        -- destruct (H1 x Hx) as [Ha Hb]. split; [now right|].
           intro Hin. apply Hb. now right.
      * simpl. constructor; [|exact H2].
        intro Hin. apply in_map_iff in Hin. destruct Hin as [x [Hid Hx]].
        destruct (H1 x Hx) as [_ Hb]. apply Hb. left. now symmetry.
Qed.

Lemma joined_rows_In (common_genres : list string) (table : list Movie.t)
    (m : Movie.t) :
  In m (GroupRecommender.joined_rows common_genres table)
  <-> In m table /\ exists g, In g (Movie.genres m) /\ In g common_genres.
Proof.
  unfold GroupRecommender.joined_rows. rewrite in_flat_map. split.
  - intros [x [Hx Hin]]. apply in_map_iff in Hin. destruct Hin as [g [-> Hg]].
    apply filter_In in Hg. destruct Hg as [Hg1 Hg2].
    split; [exact Hx|]. exists g. split; [exact Hg1 | now apply mem_string_In].
  - intros [Hin [g [Hg1 Hg2]]]. exists m. split; [exact Hin|].
    apply in_map_iff. exists g. split; [reflexivity|].
    apply filter_In. split; [exact Hg1 | now apply mem_string_In].
Qed.

Lemma vote_count_ge_weaken (m : Movie.t) (a b : Z) :
  (b <= a)%Z -> vote_count_ge m a = true -> vote_count_ge m b = true.
Proof.
  unfold vote_count_ge. destruct (Movie.vote_count m) as [c|]; [|discriminate].
  intros Hab H. apply Z.leb_le in H. apply Z.leb_le. lia.
Qed.

Lemma not_excluded_spec (exclude_movies : list Z) (m : Movie.t) :
  GroupRecommender.not_excluded exclude_movies m = true
  <-> ~ In (Movie.id m) exclude_movies.
Proof.
  unfold GroupRecommender.not_excluded.
  destruct exclude_movies as [|x xs]; [simpl; tauto|].
  rewrite negb_true_iff. rewrite <- (mem_Z_In (Movie.id m) (x :: xs)).
  destruct (mem_Z (Movie.id m) (x :: xs)); split; congruence.
Qed.

Lemma collect_preferences_returns (db : Database)
    (all_user_ratings : list (UUID * list (Z * Q))) (user_ids : list UUID) :
  exists ugp,
    GroupRecommender.collect_preferences db all_user_ratings user_ids []
    = Returned ugp.
Proof.
  destruct (collect_preferences_spec db all_user_ratings user_ids [])
    as [ugp [H _]]; [constructor | intros ? [] |].
  now exists ugp.
Qed.

(** What every candidate of a group satisfies, and what the genre query
    adds. *)
Lemma consensus_candidates_spec (db : Database)
    (all_user_ratings : list (UUID * list (Z * Q))) (user_ids : list UUID)
    (exclude_movies : list Z) (candidate_limit : nat) :
  exists ugp candidates,
    GroupRecommender.collect_preferences db all_user_ratings user_ids []
    = Returned ugp
    /\ GroupRecommender._find_consensus_candidates db all_user_ratings user_ids
         exclude_movies candidate_limit = Returned candidates
    /\ (List.length candidates <= candidate_limit)%nat
    /\ (forall m, In m candidates ->
          In m (movies db) /\ Movie.is_active m = true
          /\ vote_count_ge m 50 = true
          /\ ~ In (Movie.id m) exclude_movies)
    /\ (GroupRecommender.common_genres_of ugp user_ids <> [] ->
        NoDup (map Movie.id candidates)
        /\ forall m, In m candidates ->
             exists g, In g (Movie.genres m)
                       /\ In g (GroupRecommender.common_genres_of ugp user_ids))
    /\ (GroupRecommender.common_genres_of ugp user_ids = [] ->
        forall m, In m candidates -> vote_count_ge m 100 = true).
Proof.
  destruct (collect_preferences_returns db all_user_ratings user_ids)
    as [ugp Hugp].
  exists ugp. unfold GroupRecommender._find_consensus_candidates.
  rewrite Hugp. cbn [bind].
  destruct (GroupRecommender.common_genres_of ugp user_ids) as [|g gs] eqn:Ecg;
    cbn [try_except]; eexists; (split; [reflexivity|]); (split; [reflexivity|]).
  - split; [rewrite length_firstn; apply Nat.le_min_l|].
    split; [|split; [congruence|]].
    + intros m Hm. apply firstn_In in Hm. apply sorted_desc_In in Hm.
      apply filter_In in Hm. destruct Hm as [Hin Hc].
      apply andb_true_iff in Hc. destruct Hc as [Hc Hex].
      apply andb_true_iff in Hc. destruct Hc as [Ha Hv].
      split; [exact Hin|]. split; [exact Ha|].
      split; [now apply (vote_count_ge_weaken m 100 50)|].
      now apply not_excluded_spec.
    + intros _ m Hm. apply firstn_In in Hm. apply sorted_desc_In in Hm.
      apply filter_In in Hm. destruct Hm as [_ Hc].
      apply andb_true_iff in Hc. destruct Hc as [Hc _].
      apply andb_true_iff in Hc. tauto.
  - match goal with
    | |- context [GroupRecommender.unique_movies [] ?rows] =>
        destruct (unique_movies_spec [] rows) as [H1 [H2 H3]];
        assert (Hrows : forall m, In m rows ->
                  In m (movies db) /\ Movie.is_active m = true
                  /\ vote_count_ge m 50 = true
                  /\ ~ In (Movie.id m) exclude_movies
                  /\ exists g0, In g0 (Movie.genres m) /\ In g0 (g :: gs))
    end.
    { intros m Hm. apply firstn_In in Hm. apply sorted_desc_In in Hm.
      apply filter_In in Hm. destruct Hm as [Hin Hc].
      apply joined_rows_In in Hin. destruct Hin as [Hin Hg].
      apply andb_true_iff in Hc. destruct Hc as [Hc Hex].
      apply andb_true_iff in Hc. destruct Hc as [Ha Hv].
      split; [exact Hin|]. split; [exact Ha|]. split; [exact Hv|].
      split; [now apply not_excluded_spec | exact Hg]. }
    split.
    { eapply Nat.le_trans; [exact H3|]. rewrite length_firstn. apply Nat.le_min_l. }
    split; [|split; [|discriminate]].
    + intros m Hm. destruct (H1 m Hm) as [Hin _].
      destruct (Hrows m Hin) as [Ha [Hb [Hc [Hd _]]]]. tauto.
    + intros _. split; [exact H2|].
      intros m Hm. destruct (H1 m Hm) as [Hin _].
      destruct (Hrows m Hin) as [_ [_ [_ [_ Hg]]]]. exact Hg.
Qed.

Lemma user_rating_dict_keys (rs : list Rating.t) (k : Z) :
  In k (map fst (GroupRecommender.user_rating_dict rs))
  <-> In k (map Rating.movie_id rs).
Proof.
  unfold GroupRecommender.user_rating_dict.
  assert (H : forall d,
            In k (map fst
                    (fold_left
                       (fun d r => assoc_set Z.eqb (Rating.movie_id r)
                                     (Rating.rating r) d) rs d))
            <-> In k (map Rating.movie_id rs) \/ In k (map fst d)).
  { induction rs as [|r rs IH]; intro d; simpl; [tauto|].
    rewrite IH, (assoc_set_keys _ Z.eqb_eq). intuition. }
  rewrite H. simpl. tauto.
Qed.

Lemma load_ratings_rated (db : Database) (uuid_user_ids : list UUID)
    (aur : list (UUID * list (Z * Q))) (arm : list Z) (k : Z) :
  In k (snd (GroupRecommender.load_ratings db uuid_user_ids aur arm))
  <-> In k arm
      \/ exists u, In u uuid_user_ids
                   /\ In k (map Rating.movie_id (ratings_of db u)).
Proof.
  revert aur arm. induction uuid_user_ids as [|u us IH]; intros aur arm; simpl.
  - split; [tauto | intros [H|[u [[] _]]]; exact H].
  - rewrite IH, in_app_iff, user_rating_dict_keys. split.
    + intros [[H|H]|[u' [Hu' H]]].
      * now left.
      * right. exists u. tauto.
      * right. exists u'. tauto.
    + intros [H|[u' [[->|Hu'] H]]].
      * tauto.
      * tauto.
      * right. exists u'. tauto.
Qed.

Lemma score_candidates_subset (db : Database) (user_ids : list UUID)
    (aur : list (UUID * list (Z * Q))) (thr : Q) (candidates : list Movie.t)
    (scored : list (Movie.t * Q)) :
  GroupRecommender.score_candidates db user_ids aur thr candidates
  = Returned scored ->
  forall ms, In ms scored -> In (fst ms) candidates.
Proof.
  revert scored. induction candidates as [|m rest IH]; intros scored H ms Hms;
    simpl in H.
  - injection H as <-. destruct Hms.
  - destruct (GroupRecommender._calculate_group_satisfaction db m user_ids aur)
      as [sc|]; simpl in H; [|discriminate].
    destruct (GroupRecommender.score_candidates db user_ids aur thr rest)
      as [tl|]; simpl in H; [|discriminate].
    injection H as <-.
    destruct (Qle_bool thr sc).
    + destruct Hms as [<-|Hms]; [now left | right; now apply (IH tl)].
    + right. now apply (IH tl).
Qed.

Lemma mapM_length {A B} (f : A -> outcome B) (l : list A) (l' : list B) :
  mapM f l = Returned l' -> List.length l' = List.length l.
Proof.
  revert l'. induction l as [|x xs IH]; intros l' H; simpl in H.
  - now injection H as <-.
  - destruct (f x); simpl in H; [|discriminate].
    destruct (mapM f xs) as [ys|]; simpl in H; [|discriminate].
    injection H as <-. simpl. now rewrite (IH ys).
Qed.

Lemma group_output_spec (parse_uuid : string -> option UUID) (db : Database)
    (user_ids : list string) (limit : nat) (min_satisfaction : Q)
    (l : list MovieSchema.t) :
  GroupRecommender.get_group_recommendations parse_uuid db user_ids limit
    min_satisfaction = Returned l ->
  (List.length l <= limit)%nat
  /\ forall s, In s l ->
       exists m, In m (movies db) /\ Movie.id m = MovieSchema.id s
                 /\ Movie.is_active m = true /\ vote_count_ge m 50 = true
                 /\ ~ In (Movie.id m)
                        (snd (GroupRecommender.load_ratings db
                                (GroupRecommender.valid_uuids parse_uuid user_ids)
                                [] [])).
Proof.
  assert (Hnil : forall l0 : list MovieSchema.t,
            Returned [] = Returned l0 ->
            (List.length l0 <= limit)%nat
            /\ forall s, In s l0 ->
                 exists m, In m (movies db) /\ Movie.id m = MovieSchema.id s
                           /\ Movie.is_active m = true
                           /\ vote_count_ge m 50 = true
                           /\ ~ In (Movie.id m)
                                  (snd (GroupRecommender.load_ratings db
                                          (GroupRecommender.valid_uuids
                                             parse_uuid user_ids) [] []))).
  { intros l0 H. injection H as <-. split; [simpl; lia | intros s []]. }
  unfold GroupRecommender.get_group_recommendations.
  destruct (List.length user_ids <? 2)%nat; [apply Hnil|].
  set (uuids := GroupRecommender.valid_uuids parse_uuid user_ids) in *.
  destruct (List.length uuids <? 2)%nat; [apply Hnil|].
  destruct (GroupRecommender.load_ratings db uuids [] []) as [aur arm].
  simpl snd in *.
  destruct (consensus_candidates_spec db aur uuids arm 200)
    as [ugp [candidates [_ [Hc [_ [Hcand _]]]]]].
  rewrite Hc. cbn [bind].
  destruct (GroupRecommender.score_candidates db uuids aur min_satisfaction
              candidates) as [scored|e] eqn:Es; cbn [bind try_except];
    [|apply Hnil].
  match goal with
  | |- context [mapM ?f ?xs] => destruct (mapM f xs) as [l'|e] eqn:El
  end; [|apply Hnil].
  intro H. injection H as <-. split.
  { rewrite (mapM_length _ _ _ El), length_firstn. apply Nat.le_min_l. }
  intros s Hs. destruct (mapM_In _ _ _ El s Hs) as [[m sc] [Hin Hschema]].
  simpl in Hschema. apply firstn_In in Hin. apply sorted_desc_In in Hin.
  apply (score_candidates_subset _ _ _ _ _ _ Es) in Hin. simpl in Hin.
  destruct (Hcand m Hin) as [Hm [Ha [Hv Hex]]].
  exists m. split; [exact Hm|].
  split; [symmetry; now apply _movie_to_schema_id|]. tauto.
Qed.

(** X13.  The group scorer never raises, answers at most [limit] movies,
    and every movie it answers is stored, active, has at least 50 votes and
    has not been rated by any member of the group whose id parses. *)
Theorem group_recommendations_skip_what_members_rated :
  forall (parse_uuid : string -> option UUID) (db : Database)
         (user_ids : list string) (limit : nat) (min_satisfaction : Q),
    exists l,
      GroupRecommender.get_group_recommendations parse_uuid db user_ids limit
        min_satisfaction = Returned l
      /\ (List.length l <= limit)%nat
      /\ forall s, In s l ->
           (exists m, In m (movies db) /\ Movie.id m = MovieSchema.id s
                      /\ Movie.is_active m = true /\ vote_count_ge m 50 = true)
           /\ forall r, In r (ratings db) ->
                In (Rating.user_id r)
                  (GroupRecommender.valid_uuids parse_uuid user_ids) ->
                Rating.movie_id r <> MovieSchema.id s.
Proof.
  intros parse_uuid db user_ids limit thr.
  destruct (get_group_recommendations_returns parse_uuid db user_ids limit thr)
    as [l Hl].
  exists l. split; [exact Hl|].
  destruct (group_output_spec _ _ _ _ _ _ Hl) as [Hlen Hout].
  split; [exact Hlen|].
  intros s Hs. destruct (Hout s Hs) as [m [Hm [Hid [Ha [Hv Hex]]]]].
  split; [exists m; tauto|].
  intros r Hr Hu Heq. apply Hex. apply load_ratings_rated. right.
  exists (Rating.user_id r). split; [exact Hu|].
  rewrite Hid, <- Heq. apply in_map. unfold ratings_of. apply filter_In.
  split; [exact Hr | now apply uuid_eqb_eq].
Qed.

Lemma unique_movies_sorted (R : Movie.t -> Movie.t -> Prop) (seen : list Z)
    (rows : list Movie.t) :
  StronglySorted R rows ->
  StronglySorted R (GroupRecommender.unique_movies seen rows).
Proof.
  intro H. revert seen. induction H as [|m rest Hs IH Hall]; intro seen; simpl.
  - constructor.
  - destruct (mem_Z (Movie.id m) seen); [apply IH|].
    constructor; [apply IH|].
    rewrite Forall_forall in *. intros x Hx. apply Hall.
    now apply (unique_movies_spec (Movie.id m :: seen) rest).
Qed.

Lemma consensus_candidates_sorted (db : Database)
    (all_user_ratings : list (UUID * list (Z * Q))) (user_ids : list UUID)
    (exclude_movies : list Z) (candidate_limit : nat)
    (candidates : list Movie.t) :
  GroupRecommender._find_consensus_candidates db all_user_ratings user_ids
    exclude_movies candidate_limit = Returned candidates ->
  StronglySorted
    (fun a b => popularity_ge (Movie.popularity a) (Movie.popularity b))
    candidates.
Proof.
  unfold GroupRecommender._find_consensus_candidates.
  destruct (collect_preferences_returns db all_user_ratings user_ids)
    as [ugp Hugp].
  rewrite Hugp. cbn [bind].
  destruct (GroupRecommender.common_genres_of ugp user_ids) as [|g gs];
    cbn [try_except]; intro H; injection H as <-.
  - apply StronglySorted_firstn, sorted_by_popularity.
  - apply unique_movies_sorted, StronglySorted_firstn, sorted_by_popularity.
Qed.

(** X14.  The candidate pool of a group never raises.  It holds at most
    [candidate_limit] movies in descending popularity, each stored, active,
    with at least 50 votes and outside the exclusion set.  When the group
    has a common genre, every candidate carries one and no movie id occurs
    twice; when it has none, the pool is the popular movies with at least
    100 votes. *)
Theorem consensus_candidates_are_eligible :
  forall (db : Database) (all_user_ratings : list (UUID * list (Z * Q)))
         (user_ids : list UUID) (exclude_movies : list Z)
         (candidate_limit : nat),
    exists ugp candidates,
      GroupRecommender.collect_preferences db all_user_ratings user_ids []
      = Returned ugp
      /\ GroupRecommender._find_consensus_candidates db all_user_ratings
           user_ids exclude_movies candidate_limit = Returned candidates
      /\ (List.length candidates <= candidate_limit)%nat
      /\ StronglySorted
           (fun a b => popularity_ge (Movie.popularity a) (Movie.popularity b))
           candidates
      /\ (forall m, In m candidates ->
            In m (movies db) /\ Movie.is_active m = true
            /\ vote_count_ge m 50 = true
            /\ ~ In (Movie.id m) exclude_movies)
      /\ (GroupRecommender.common_genres_of ugp user_ids <> [] ->
          NoDup (map Movie.id candidates)
          /\ forall m, In m candidates ->
               exists g, In g (Movie.genres m)
                         /\ In g (GroupRecommender.common_genres_of ugp user_ids))
      /\ (GroupRecommender.common_genres_of ugp user_ids = [] ->
          forall m, In m candidates -> vote_count_ge m 100 = true).
Proof.
  intros db aur user_ids exclude_movies candidate_limit.
  destruct (consensus_candidates_spec db aur user_ids exclude_movies
              candidate_limit)
    as [ugp [candidates [H1 [H2 [H3 [H4 [H5 H6]]]]]]].
  exists ugp, candidates.
  split; [exact H1|]. split; [exact H2|]. split; [exact H3|].
  split; [now apply (consensus_candidates_sorted _ _ _ _ _ _ H2)|].
  split; [exact H4|]. split; [exact H5 | exact H6].
Qed.

(** ** Predicted satisfaction of a member *)

Lemma fold_genre_satisfaction_none (prefs : list (string * Q))
    (genres : list string) (acc : Q * Z) :
  (forall g, In g genres -> assoc_get String.eqb g prefs = None) ->
  fold_left (GroupRecommender.add_genre_satisfaction prefs) genres acc = acc.
Proof.
  revert acc. induction genres as [|g gs IH]; intros acc H; simpl; [reflexivity|].
  unfold GroupRecommender.add_genre_satisfaction at 2.
  rewrite (H g (or_introl eq_refl)). apply IH. intros g' Hg'. apply H. now right.
Qed.

(** X15.  The predicted satisfaction of a member never raises.  For a
    member without ratings it is the movie's vote average over 10 (0.5
    when the average is missing or zero) and is not clamped.  For a member
    with ratings it lies in [0, 1]: it is 0.5 when no genre has two rated
    movies, and at most 0.1 when the member has preferences but none for a
    genre of the movie. *)
Theorem predicted_satisfaction_by_history :
  forall (db : Database) (movie : Movie.t) (user_id : UUID)
         (user_ratings : list (Z * Q)),
    exists s,
      GroupRecommender._predict_user_satisfaction db movie user_id user_ratings
      = Returned s
      /\ (user_ratings = [] -> s = or_default (Movie.vote_average movie) 5 / 10)
      /\ (user_ratings <> [] -> 0 <= s /\ s <= 1)
      /\ (user_ratings <> [] ->
          GroupRecommender.averages (GroupRecommender.genre_totals db user_ratings)
          = [] ->
          s = 0.5)
      /\ (user_ratings <> [] ->
          GroupRecommender.averages (GroupRecommender.genre_totals db user_ratings)
          <> [] ->
          (forall g, In g (Movie.genres movie) ->
             assoc_get String.eqb g
               (GroupRecommender.averages
                  (GroupRecommender.genre_totals db user_ratings)) = None) ->
          s <= 0.1).
Proof.
  intros db movie user_id user_ratings.
  unfold GroupRecommender._predict_user_satisfaction.
  destruct user_ratings as [|x xs] eqn:Eur.
  { cbn [try_except]. eexists. split; [reflexivity|].
    split; [reflexivity|].
    split; [intro H; now elim H|]. split; intro H; now elim H. }
  rewrite <- Eur.
  assert (Hprefs : GroupRecommender._get_user_genre_preferences db user_id
                     user_ratings
                   = Returned (GroupRecommender.averages
                                 (GroupRecommender.genre_totals db user_ratings))).
  { unfold GroupRecommender._get_user_genre_preferences. now rewrite Eur. }
  rewrite Hprefs. cbn [bind].
  set (prefs := GroupRecommender.averages
                  (GroupRecommender.genre_totals db user_ratings)).
  destruct prefs as [|p ps] eqn:Ep.
  { cbn [try_except]. exists 0.5. split; [reflexivity|].
    split; [rewrite Eur; discriminate|].
    split; [intros _; split; discriminate|].
    split; [reflexivity | intros _ H; now elim H]. }
  rewrite <- Ep.
  destruct (fold_left (GroupRecommender.add_genre_satisfaction prefs)
              (Movie.genres movie) (0, 0%Z)) as [gs gc] eqn:Ef.
  cbn [try_except]. eexists. split; [reflexivity|].
  split; [rewrite Eur; discriminate|].
  split; [intros _; apply clamp01_bounds|].
  split; [intros _ H; rewrite Ep in H; discriminate|].
  intros _ _ Hnone.
  rewrite (fold_genre_satisfaction_none prefs _ _ Hnone) in Ef.
  injection Ef as <- <-. simpl (0 <? 0)%Z. cbv iota.
  unfold GroupRecommender.clamp01.
  apply Q.max_lub; [discriminate|].
  eapply Qle_trans; [apply Q.le_min_r|].
  destruct (truthy (Movie.vote_average movie)
            && Qle_bool 7 (or_default (Movie.vote_average movie) 0));
    destruct (truthy (Movie.vote_average movie)
              && Qltb (or_default (Movie.vote_average movie) 0) 5);
    discriminate.
Qed.

(** ** Trending movies for a user *)

Lemma first_by_id_spec (seen : list Z) (l : list MovieSchema.t) :
  (forall s, In s (Hybrid.first_by_id seen l) ->
     In s l /\ ~ In (MovieSchema.id s) seen)
  /\ NoDup (map MovieSchema.id (Hybrid.first_by_id seen l))
  /\ (forall s, In s l -> ~ In (MovieSchema.id s) seen ->
        In (MovieSchema.id s) (map MovieSchema.id (Hybrid.first_by_id seen l))).
Proof.
  revert seen. induction l as [|m rest IH]; intro seen; simpl.
  - split; [intros ? [] | split; [constructor | intros ? []]].
  - destruct (mem_Z (MovieSchema.id m) seen) eqn:E.
    + destruct (IH seen) as [H1 [H2 H3]].
      split; [|split; [exact H2|]].
      * intros s Hs. destruct (H1 s Hs). tauto.
      * intros s [<-|Hs] Hn; [|now apply H3].
        elim Hn. now apply mem_Z_In.
    + destruct (IH (MovieSchema.id m :: seen)) as [H1 [H2 H3]].
      assert (Hm : ~ In (MovieSchema.id m) seen).
      { intro Hin. apply mem_Z_In in Hin. congruence. }
      split; [|split].
      * intros s [<-|Hs]; [tauto|].
        destruct (H1 s Hs) as [Ha Hb]. split; [now right|].
        intro Hin. apply Hb. now right.
      * simpl. constructor; [|exact H2].
        intro Hin. apply in_map_iff in Hin. destruct Hin as [x [Hid Hx]].
        destruct (H1 x Hx) as [_ Hb]. apply Hb. left. now symmetry.
      * intros s Hs Hn. simpl.
        destruct (Z.eq_dec (MovieSchema.id m) (MovieSchema.id s)) as [Heq|Hne];
          [now left|].
        right. destruct Hs as [<-|Hs]; [congruence|].
        apply H3; [exact Hs|]. intros [H|H]; [congruence | contradiction].
Qed.

(** X16.  [_get_trending_for_user] never raises.  It answers at most
    [limit] movies with distinct ids, each taken from today's trending
    list or the popular list and none rated by the user; when there are
    no more than [limit] such movies every one of their ids is answered;
    and when the TMDB client fails for either list the answer is empty. *)
Theorem trending_for_user_is_unrated_and_distinct :
  forall (trending_day popular_page : outcome (list MovieSchema.t))
         (db : Database) (user_id : UUID) (limit : nat),
    exists l,
      Hybrid._get_trending_for_user trending_day popular_page db user_id limit
      = Returned l
      /\ (List.length l <= limit)%nat
      /\ NoDup (map MovieSchema.id l)
      /\ (forall s, In s l ->
            (exists trending popular,
               trending_day = Returned trending
               /\ popular_page = Returned popular
               /\ (In s trending \/ In s popular))
            /\ forall r, In r (ratings db) -> Rating.user_id r = user_id ->
                 Rating.movie_id r <> MovieSchema.id s)
      /\ (forall trending popular,
            trending_day = Returned trending ->
            popular_page = Returned popular ->
            (List.length trending + List.length popular <= limit)%nat ->
            forall s, In s (trending ++ popular) ->
              (forall r, In r (ratings db) -> Rating.user_id r = user_id ->
                 Rating.movie_id r <> MovieSchema.id s) ->
              In (MovieSchema.id s) (map MovieSchema.id l))
      /\ ((forall trending, trending_day <> Returned trending) -> l = [])
      /\ ((forall popular, popular_page <> Returned popular) -> l = []).
Proof.
  intros trending_day popular_page db user_id limit.
  unfold Hybrid._get_trending_for_user.
  destruct trending_day as [trending|e].
  2:{ exists []. cbn. split; [reflexivity|]. split; [lia|].
      split; [constructor|]. split; [intros s []|].
      split; [discriminate|]. split; reflexivity. }
  destruct popular_page as [popular|e].
  2:{ exists []. cbn. split; [reflexivity|]. split; [lia|].
      split; [constructor|]. split; [intros s []|].
      split; [discriminate|]. split; reflexivity. }
  cbn [bind try_except].
  set (rated := map Rating.movie_id (ratings_of db user_id)).
  destruct (first_by_id_spec [] (trending ++ popular)) as [H1 [H2 H3]].
  assert (Hrated : forall k,
            In k rated <-> exists r, In r (ratings db)
                                     /\ Rating.user_id r = user_id
                                     /\ Rating.movie_id r = k).
  { intro k. unfold rated, ratings_of. rewrite in_map_iff. split.
    - intros [r [Hk Hr]]. apply filter_In in Hr. destruct Hr as [Hr Hu].
      exists r. split; [exact Hr|]. split; [now apply uuid_eqb_eq | exact Hk].
    - intros [r [Hr [Hu Hk]]]. exists r. split; [exact Hk|].
      apply filter_In. split; [exact Hr | now apply uuid_eqb_eq]. }
  eexists. split; [reflexivity|].
  split; [rewrite length_firstn; apply Nat.le_min_l|].
  split; [now apply firstn_keeps_distinct, filter_keeps_distinct|].
  split.
  { intros s Hs. apply firstn_In in Hs. apply filter_In in Hs.
    destruct Hs as [Hs Hc]. destruct (H1 s Hs) as [Hin _].
    split.
    - exists trending, popular. split; [reflexivity|]. split; [reflexivity|].
      now apply in_app_iff.
    - intros r Hr Hu Heq. apply negb_true_iff in Hc.
      assert (Hm : mem_Z (MovieSchema.id s) rated = true).
      { apply mem_Z_In, Hrated. exists r. tauto. }
      congruence. }
  split.
  { intros t p Ht Hp Hlen s Hs Hun.
    injection Ht as <-. injection Hp as <-.
    rewrite firstn_all2.
    - specialize (H3 s Hs (fun F => F)).
      apply in_map_iff in H3. destruct H3 as [s' [Hid Hs']].
      rewrite <- Hid. apply in_map. apply filter_In. split; [exact Hs'|].
      apply negb_true_iff. destruct (mem_Z (MovieSchema.id s') rated) eqn:E;
        [|reflexivity].
      apply mem_Z_In, Hrated in E. destruct E as [r [Hr [Hu Hk]]].
      elim (Hun r Hr Hu). congruence.
    - eapply Nat.le_trans; [apply filter_length_le|].
      eapply Nat.le_trans; [|exact Hlen].
      rewrite <- length_app.
      rewrite <- (length_map MovieSchema.id), <- (length_map MovieSchema.id (trending ++ popular)).
      apply NoDup_incl_length; [exact H2|].
      intros k Hk. apply in_map_iff in Hk. destruct Hk as [x [<- Hx]].
      apply in_map. now apply H1. }
  split; intro H; exfalso; eapply H; reflexivity.
Qed.

(** ** The hybrid blend *)

Lemma content_recommendations_returned (db : Database)
    (model : option ContentBased.Model) (user_id : UUID) (limit : nat)
    (exclude_watched : bool) :
  exists l,
    ContentBased.get_recommendations db model user_id limit exclude_watched
    = Returned l.
Proof.
  destruct (popular_movies_returned db limit) as [pop Hpop].
  unfold ContentBased.get_recommendations, try_except.
  match goal with
  | |- exists l, match ?b with _ => _ end = _ => destruct b as [l|e]
  end; [now exists l | now exists pop].
Qed.

Lemma collaborative_recommendations_returned (np_sqrt : Q -> Q)
    (np_argsort : list Q -> list nat) (pickle : option Collaborative.Pickle)
    (db : Database) (self : Collaborative.State) (user_id : UUID) (limit : nat)
    (exclude_watched : bool) :
  exists l,
    Collaborative.get_recommendations np_sqrt np_argsort pickle db self user_id
      limit exclude_watched = Returned l.
Proof.
  destruct (popular_movies_returned db limit) as [pop Hpop].
  unfold Collaborative.get_recommendations, try_except.
  match goal with
  | |- exists l, match ?b with _ => _ end = _ => destruct b as [l|e]
  end; [now exists l | now exists pop].
Qed.

Lemma trending_for_user_returned
    (trending_day popular_page : outcome (list MovieSchema.t))
    (db : Database) (user_id : UUID) (limit : nat) :
  exists l,
    Hybrid._get_trending_for_user trending_day popular_page db user_id limit
    = Returned l.
Proof.
  unfold Hybrid._get_trending_for_user, try_except.
  match goal with
  | |- exists l, match ?b with _ => _ end = _ => destruct b as [l|e]
  end; eexists; reflexivity.
Qed.

Lemma add_positional_scores_keys (weight : Q) (recs : list MovieSchema.t)
    (movie_scores : list (Z * Q)) :
  (forall k, In k (map fst (Hybrid.add_positional_scores weight recs movie_scores))
             <-> In k (map MovieSchema.id recs) \/ In k (map fst movie_scores))
  /\ (NoDup (map fst movie_scores) ->
      NoDup (map fst (Hybrid.add_positional_scores weight recs movie_scores))).
Proof.
  unfold Hybrid.add_positional_scores.
  generalize (List.length recs). intro n.
  unfold ContentBased.enumerate. generalize 0%nat. revert movie_scores.
  induction recs as [|m rest IH]; intros d i; simpl.
  - split; [intro k; tauto | tauto].
  - match goal with
    | |- context [fold_left ?f _ (assoc_set Z.eqb ?k ?v d)] =>
        destruct (IH (assoc_set Z.eqb k v d) (S i)) as [H1 H2]
    end.
    split.
    + intro k. rewrite H1, (assoc_set_keys _ Z.eqb_eq). intuition.
    + intro Hnd. apply H2. now apply (assoc_set_NoDup _ Z.eqb_eq).
Qed.

Lemma all_movies_spec (l : list MovieSchema.t) (d : list (Z * MovieSchema.t)) :
  (forall k v, assoc_get Z.eqb k d = Some v -> MovieSchema.id v = k) ->
  let all_movies :=
    fold_left (fun d movie => assoc_set Z.eqb (MovieSchema.id movie) movie d)
      l d in
  (forall k v, assoc_get Z.eqb k all_movies = Some v ->
     MovieSchema.id v = k /\ (In v l \/ assoc_get Z.eqb k d = Some v))
  /\ (forall k, In k (map MovieSchema.id l) ->
        assoc_get Z.eqb k all_movies <> None).
Proof.
  revert d. induction l as [|m rest IH]; intros d Hd; simpl.
  - split; [intros k v H; split; [now apply Hd | now right] | intros k []].
  - destruct (IH (assoc_set Z.eqb (MovieSchema.id m) m d)) as [H1 H2].
    { intros k v H. destruct (Z.eq_dec k (MovieSchema.id m)) as [->|Hne].
      - rewrite (assoc_get_set_same _ Z.eqb_eq) in H. congruence.
      - rewrite (assoc_get_set_other _ Z.eqb_eq) in H by exact Hne.
        now apply Hd. }
    split.
    + intros k v H. destruct (H1 k v H) as [Hid [Hin|Hget]].
      * split; [exact Hid | left; now right].
      * split; [exact Hid|].
        destruct (Z.eq_dec k (MovieSchema.id m)) as [->|Hne].
        -- rewrite (assoc_get_set_same _ Z.eqb_eq) in Hget.
           left. left. congruence.
        -- rewrite (assoc_get_set_other _ Z.eqb_eq) in Hget by exact Hne.
           now right.
    + intros k [<-|Hk]; [|now apply H2].
      destruct (in_dec Z.eq_dec (MovieSchema.id m) (map MovieSchema.id rest))
        as [Hin|Hnin]; [now apply H2|].
      clear - Hnin.
      assert (Hkeep : forall l d k,
                ~ In k (map MovieSchema.id l) ->
                assoc_get Z.eqb k
                  (fold_left
                     (fun d movie => assoc_set Z.eqb (MovieSchema.id movie) movie d)
                     l d)
                = assoc_get Z.eqb k d).
      { induction l as [|x xs IHl]; intros d0 k Hk; simpl; [reflexivity|].
        rewrite IHl by (intro H; apply Hk; now right).
        apply (assoc_get_set_other _ Z.eqb_eq). intro H. apply Hk. now left. }
      rewrite Hkeep by exact Hnin.
      rewrite (assoc_get_set_same _ Z.eqb_eq). discriminate.
Qed.

Lemma pick_movies_ids (all_movies : list (Z * MovieSchema.t))
    (sorted_movies : list (Z * Q)) :
  (forall k v, assoc_get Z.eqb k all_movies = Some v -> MovieSchema.id v = k) ->
  map MovieSchema.id (Hybrid.pick_movies all_movies sorted_movies)
  = filter (fun k => match assoc_get Z.eqb k all_movies with
                     | Some _ => true
                     | None => false
                     end)
      (map fst sorted_movies).
Proof.
  intro Hid. induction sorted_movies as [|[k sc] rest IH]; simpl; [reflexivity|].
  destruct (assoc_get Z.eqb k all_movies) as [v|] eqn:E; simpl.
  - rewrite IH. f_equal. now apply Hid.
  - exact IH.
Qed.

Lemma pick_movies_In (all_movies : list (Z * MovieSchema.t))
    (sorted_movies : list (Z * Q)) (s : MovieSchema.t) :
  In s (Hybrid.pick_movies all_movies sorted_movies) ->
  exists k, assoc_get Z.eqb k all_movies = Some s.
Proof.
  induction sorted_movies as [|[k sc] rest IH]; simpl; [tauto|].
  destruct (assoc_get Z.eqb k all_movies) as [v|] eqn:E.
  - intros [<-|H]; [now exists k | now apply IH].
  - exact IH.
Qed.

(** X17.  [get_personal_recommendations] never raises.  It answers at
    most [limit] movies with distinct ids, each an entry of the content,
    collaborative or trending list it fetched (with limits [2 * limit],
    [2 * limit] and [limit]); and when the three lists together hold no
    more than [limit] entries, every id they contain is answered. *)
Theorem personal_recommendations_merge_the_three_lists :
  forall (np_sqrt : Q -> Q) (np_argsort : list Q -> list nat)
         (trending_day popular_page : outcome (list MovieSchema.t))
         (content_model : option ContentBased.Model)
         (pickle : option Collaborative.Pickle)
         (db : Database) (user_id : UUID) (limit : nat),
    exists l content_recs collaborative_recs popular_recs,
      Hybrid.get_personal_recommendations np_sqrt np_argsort trending_day
        popular_page content_model pickle db user_id limit = Returned l
      /\ ContentBased.get_recommendations db content_model user_id (limit * 2) true
         = Returned content_recs
      /\ Collaborative.get_recommendations np_sqrt np_argsort pickle db
           Collaborative.init user_id (limit * 2) true
         = Returned collaborative_recs
      /\ Hybrid._get_trending_for_user trending_day popular_page db user_id limit
         = Returned popular_recs
      /\ (List.length l <= limit)%nat
      /\ NoDup (map MovieSchema.id l)
      /\ (forall s, In s l ->
            In s content_recs \/ In s collaborative_recs \/ In s popular_recs)
      /\ ((List.length content_recs + List.length collaborative_recs
           + List.length popular_recs <= limit)%nat ->
          forall s,
            In s content_recs \/ In s collaborative_recs \/ In s popular_recs ->
            In (MovieSchema.id s) (map MovieSchema.id l)).
Proof.
  intros np_sqrt np_argsort trending_day popular_page content_model pickle db
    user_id limit.
  destruct (content_recommendations_returned db content_model user_id
              (limit * 2) true) as [c Hc].
  destruct (collaborative_recommendations_returned np_sqrt np_argsort pickle db
              Collaborative.init user_id (limit * 2) true) as [co Hco].
  destruct (trending_for_user_returned trending_day popular_page db user_id limit)
    as [p Hp].
  unfold Hybrid.get_personal_recommendations.
  rewrite Hc, Hco, Hp. cbn [bind try_except].
  set (w := Hybrid.activity_weights (Hybrid.user_ratings_count db user_id)).
  set (scores :=
         Hybrid.add_positional_scores (Hybrid.popularity_weight w) p
           (Hybrid.add_positional_scores (Hybrid.collaborative_weight w) co
              (Hybrid.add_positional_scores (Hybrid.content_weight w) c []))).
  set (all_movies :=
         fold_left (fun d movie => assoc_set Z.eqb (MovieSchema.id movie) movie d)
           (c ++ co ++ p) []).
  destruct (all_movies_spec (c ++ co ++ p) []) as [Hval Hkeys];
    [intros k v H; discriminate|].
  fold all_movies in Hval, Hkeys.
  assert (Hid : forall k v, assoc_get Z.eqb k all_movies = Some v ->
                  MovieSchema.id v = k)
    by (intros k v H; now apply Hval).
  destruct (add_positional_scores_keys (Hybrid.content_weight w) c [])
    as [K1 N1].
  destruct (add_positional_scores_keys (Hybrid.collaborative_weight w) co
              (Hybrid.add_positional_scores (Hybrid.content_weight w) c []))
    as [K2 N2].
  destruct (add_positional_scores_keys (Hybrid.popularity_weight w) p
              (Hybrid.add_positional_scores (Hybrid.collaborative_weight w) co
                 (Hybrid.add_positional_scores (Hybrid.content_weight w) c [])))
    as [K3 N3].
  fold scores in K3, N3.
  assert (Hnd : NoDup (map fst scores)) by (apply N3, N2, N1; constructor).
  assert (Hkeys' : forall k, In k (map fst scores)
                     <-> In k (map MovieSchema.id (c ++ co ++ p))).
  { intro k. rewrite K3, K2, K1, !map_app, !in_app_iff. simpl. tauto. }
  assert (Hnds : NoDup (map fst (firstn limit
                                   (sorted_desc Collaborative.score_gtb scores)))).
  { apply firstn_keeps_distinct.
    eapply Permutation_NoDup; [|exact Hnd].
    apply Permutation_map, sorted_desc_perm. }
  exists (Hybrid.pick_movies all_movies
            (firstn limit (sorted_desc Collaborative.score_gtb scores))),
    c, co, p.
  split; [reflexivity|]. split; [reflexivity|]. split; [reflexivity|].
  split; [reflexivity|].
  split.
  { rewrite <- (length_map MovieSchema.id), (pick_movies_ids _ _ Hid).
    eapply Nat.le_trans; [apply filter_length_le|].
    rewrite length_map, length_firstn. apply Nat.le_min_l. }
  split; [rewrite (pick_movies_ids _ _ Hid); now apply NoDup_filter|].
  split.
  { intros s Hs. apply pick_movies_In in Hs. destruct Hs as [k Hk].
    destruct (Hval k s Hk) as [_ [Hin|Hget]]; [|discriminate].
    rewrite !in_app_iff in Hin. exact Hin. }
  intros Hlen s Hs.
  assert (Hin : In s (c ++ co ++ p)) by (rewrite !in_app_iff; exact Hs).
  rewrite (pick_movies_ids _ _ Hid). apply filter_In. split.
  - rewrite firstn_all2.
    + apply in_map_iff.
      assert (Hk : In (MovieSchema.id s) (map fst scores))
        by (apply Hkeys'; now apply in_map).
      apply in_map_iff in Hk. destruct Hk as [x [Hx Hxin]].
      exists x. split; [exact Hx | now apply sorted_desc_In].
    + rewrite <- (Permutation_length (sorted_desc_perm _ scores)).
      rewrite <- (length_map fst).
      eapply Nat.le_trans; [|exact Hlen].
      rewrite <- !length_app, <- app_assoc.
      rewrite <- (length_map MovieSchema.id (c ++ co ++ p)).
      apply NoDup_incl_length; [exact Hnd|].
      intros k Hk. now apply Hkeys'.
  - pose proof (Hkeys (MovieSchema.id s) (in_map _ _ _ Hin)) as Hne.
    destruct (assoc_get Z.eqb (MovieSchema.id s) all_movies); [reflexivity|].
    now elim Hne.
Qed.

Lemma add_positional_scores_value (weight : Q) (recs : list MovieSchema.t)
    (movie_scores : list (Z * Q)) (k : Z) :
  score_of k (Hybrid.add_positional_scores weight recs movie_scores)
  == score_of k movie_scores + positional_score weight recs k.
Proof.
  unfold Hybrid.add_positional_scores, positional_score.
  generalize (List.length recs). intro n.
  unfold ContentBased.enumerate. generalize 0%nat. revert movie_scores.
  induction recs as [|m rest IH]; intros d i; simpl.
  - ring.
  - rewrite IH. unfold score_of at 1.
    destruct (Z.eq_dec k (MovieSchema.id m)) as [->|Hne].
    + rewrite (assoc_get_set_same _ Z.eqb_eq), Z.eqb_refl. simpl.
      unfold score_of. ring.
    + rewrite (assoc_get_set_other _ Z.eqb_eq) by exact Hne.
      replace (MovieSchema.id m =? k)%Z with false
        by (symmetry; apply Z.eqb_neq; congruence).
      unfold score_of. reflexivity.
Qed.

(** X18.  The hybrid blend ranks by the sum of positional scores: a movie
    at position i of a list of length n earns [weight * (1 - i / n)] from
    that list, with the weights of the user's activity level; the scores of
    a movie over the three lists add up, and the answer is the first
    [limit] movie ids in descending total score. *)
Theorem personal_ranking_by_blended_score :
  forall (np_sqrt : Q -> Q) (np_argsort : list Q -> list nat)
         (trending_day popular_page : outcome (list MovieSchema.t))
         (content_model : option ContentBased.Model)
         (pickle : option Collaborative.Pickle)
         (db : Database) (user_id : UUID) (limit : nat),
    let w := Hybrid.personal_weights db user_id in
    exists l content_recs collaborative_recs popular_recs scores,
      Hybrid.get_personal_recommendations np_sqrt np_argsort trending_day
        popular_page content_model pickle db user_id limit = Returned l
      /\ ContentBased.get_recommendations db content_model user_id (limit * 2) true
         = Returned content_recs
      /\ Collaborative.get_recommendations np_sqrt np_argsort pickle db
           Collaborative.init user_id (limit * 2) true
         = Returned collaborative_recs
      /\ Hybrid._get_trending_for_user trending_day popular_page db user_id limit
         = Returned popular_recs
      /\ NoDup (map fst scores)
      /\ (forall k, In k (map fst scores)
            <-> In k (map MovieSchema.id
                        (content_recs ++ collaborative_recs ++ popular_recs)))
      /\ (forall k total, In (k, total) scores ->
            total == positional_score (Hybrid.content_weight w) content_recs k
                     + positional_score (Hybrid.collaborative_weight w)
                         collaborative_recs k
                     + positional_score (Hybrid.popularity_weight w)
                         popular_recs k)
      /\ StronglySorted (fun a b => snd b <= snd a)
           (sorted_desc Collaborative.score_gtb scores)
      /\ map MovieSchema.id l
         = map fst (firstn limit (sorted_desc Collaborative.score_gtb scores)).
Proof.
  intros np_sqrt np_argsort trending_day popular_page content_model pickle db
    user_id limit w.
  destruct (content_recommendations_returned db content_model user_id
              (limit * 2) true) as [c Hc].
  destruct (collaborative_recommendations_returned np_sqrt np_argsort pickle db
              Collaborative.init user_id (limit * 2) true) as [co Hco].
  destruct (trending_for_user_returned trending_day popular_page db user_id limit)
    as [p Hp].
  unfold Hybrid.get_personal_recommendations.
  rewrite Hc, Hco, Hp. cbn [bind try_except].
  fold (Hybrid.personal_weights db user_id). fold w.
  set (s1 := Hybrid.add_positional_scores (Hybrid.content_weight w) c []).
  set (s2 := Hybrid.add_positional_scores (Hybrid.collaborative_weight w) co s1).
  set (scores := Hybrid.add_positional_scores (Hybrid.popularity_weight w) p s2).
  set (all_movies :=
         fold_left (fun d movie => assoc_set Z.eqb (MovieSchema.id movie) movie d)
           (c ++ co ++ p) []).
  destruct (all_movies_spec (c ++ co ++ p) []) as [Hval Hkeys];
    [intros k v H; discriminate|].
  fold all_movies in Hval, Hkeys.
  assert (Hid : forall k v, assoc_get Z.eqb k all_movies = Some v ->
                  MovieSchema.id v = k)
    by (intros k v H; now apply Hval).
  destruct (add_positional_scores_keys (Hybrid.content_weight w) c [])
    as [K1 N1].
  destruct (add_positional_scores_keys (Hybrid.collaborative_weight w) co s1)
    as [K2 N2].
  destruct (add_positional_scores_keys (Hybrid.popularity_weight w) p s2)
    as [K3 N3].
  fold s1 in K1, N1. fold s2 in K2, N2. fold scores in K3, N3.
  assert (Hnd : NoDup (map fst scores)) by (apply N3, N2, N1; constructor).
  assert (Hkeys' : forall k, In k (map fst scores)
                     <-> In k (map MovieSchema.id (c ++ co ++ p))).
  { intro k. rewrite K3, K2, K1, !map_app, !in_app_iff. simpl. tauto. }
  exists (Hybrid.pick_movies all_movies
            (firstn limit (sorted_desc Collaborative.score_gtb scores))),
    c, co, p, scores.
  split; [reflexivity|]. split; [reflexivity|]. split; [reflexivity|].
  split; [reflexivity|]. split; [exact Hnd|]. split; [exact Hkeys'|].
  split.
  { intros k total Hin.
    apply (assoc_get_In _ Z.eqb_eq _ _ _ Hnd) in Hin.
    assert (Hs : score_of k scores = total) by (unfold score_of; now rewrite Hin).
    rewrite <- Hs. unfold scores, s2, s1.
    rewrite !add_positional_scores_value. unfold score_of at 1. simpl. ring. }
  split; [apply (sorted_desc_by_key (@snd Z Q))|].
  rewrite (pick_movies_ids _ _ Hid).
  apply forallb_filter_id. apply forallb_forall. intros k Hk.
  assert (Hin : In k (map MovieSchema.id (c ++ co ++ p))).
  { apply Hkeys'. apply in_map_iff in Hk. destruct Hk as [x [<- Hx]].
    apply firstn_In in Hx. apply sorted_desc_In in Hx. now apply in_map. }
  pose proof (Hkeys k Hin) as Hne.
  destruct (assoc_get Z.eqb k all_movies); [reflexivity | now elim Hne].
Qed.

(** ** Keyword detection in texts *)

Lemma lower_app (a b : string) : lower (a ++ b) = (lower a ++ lower b)%string.
Proof.
  induction a as [|c a IH]; simpl; [reflexivity | now rewrite IH].
Qed.

Lemma prefix_app (k s s' : string) :
  String.prefix k s = true -> String.prefix k (s ++ s') = true.
Proof.
  revert s. induction k as [|c k IH]; intros s H;
    [destruct (s ++ s')%string; reflexivity|].
  destruct s as [|d s]; simpl in *; [discriminate|].
  destruct (Ascii.ascii_dec c d); [now apply IH | discriminate].
Qed.

Lemma contains_app_r (k s s' : string) :
  contains k s = true -> contains k (s ++ s') = true.
Proof.
  induction s as [|d s IH]; simpl; intro H.
  - rewrite orb_false_r in H. destruct k; [|discriminate].
    destruct s'; reflexivity.
  - apply orb_true_iff in H. apply orb_true_iff. destruct H as [H|H].
    + left. now apply (prefix_app k (String d s) s').
    + right. now apply IH.
Qed.

Lemma contains_app_l (k s s' : string) :
  contains k s = true -> contains k (s' ++ s) = true.
Proof.
  intro H. induction s' as [|d s' IH]; simpl; [exact H|].
  apply orb_true_iff. now right.
Qed.

Lemma any_keyword_app (keywords : list string) (before text after : string) :
  any_keyword keywords text = true ->
  any_keyword keywords (before ++ text ++ after) = true.
Proof.
  unfold any_keyword. rewrite !existsb_exists.
  intros [k [Hk Hc]]. exists k. split; [exact Hk|].
  now apply contains_app_l, contains_app_r.
Qed.

Lemma tagged_In {V} (P : string * V -> bool) (d : list (string * V)) (t : string) :
  NoDup (map fst d) ->
  (In t (map fst (filter P d))
   <-> exists v, In (t, v) d /\ P (t, v) = true).
Proof.
  intros _. rewrite in_map_iff. split.
  - intros [[t' v] [Ht Hin]]. simpl in Ht. subst t'.
    apply filter_In in Hin. now exists v.
  - intros [v [Hin HP]]. exists (t, v). split; [reflexivity|].
    now apply filter_In.
Qed.

Lemma themes_NoDup : NoDup (map fst ContentBased.themes).
Proof.
  simpl. repeat (constructor; [simpl; intuition discriminate|]). constructor.
Qed.

Lemma emotions_NoDup : NoDup (map fst MoodAnalyzer.emotion_keywords).
Proof.
  simpl. repeat (constructor; [simpl; intuition discriminate|]). constructor.
Qed.

(** X19.  The themes two descriptions share do not depend on the order of
    the two texts or on letter case; they are distinct names among the six
    themes; a theme is shared exactly when each text has it on its own;
    text added before or after a description never removes a theme; and
    an empty description shares nothing. *)
Theorem shared_themes_are_symmetric_and_monotone :
  forall (text1 text2 : string),
    let shared := ContentBased._extract_theme_similarities text1 text2 in
    ContentBased._extract_theme_similarities text2 text1 = shared
    /\ ContentBased._extract_theme_similarities (lower text1) (lower text2)
       = shared
    /\ NoDup shared
    /\ (forall theme, In theme shared ->
          In theme ["action"; "romance"; "adventure"; "mystery"; "family";
                    "friendship"])
    /\ (forall theme,
          In theme shared
          <-> In theme (ContentBased._extract_theme_similarities text1 text1)
              /\ In theme (ContentBased._extract_theme_similarities text2 text2))
    /\ (forall before after theme, In theme shared ->
          In theme
            (ContentBased._extract_theme_similarities
               (before ++ text1 ++ after) text2))
    /\ ContentBased._extract_theme_similarities EmptyString text2 = [].
Proof.
  intros text1 text2 shared. unfold shared.
  unfold ContentBased._extract_theme_similarities. cbv zeta.
  split; [|split; [|split; [|split; [|split; [|split]]]]].
  - f_equal. apply filter_ext. intros tk. apply andb_comm.
  - now rewrite !lower_idempotent.
  - apply filter_keeps_distinct, themes_NoDup.
  - intros theme H. apply in_map_iff in H. destruct H as [tk [<- Hin]].
    apply filter_In in Hin. destruct Hin as [Hin _].
    change (In (fst tk) (map fst ContentBased.themes)). now apply in_map.
  - intro theme. rewrite !(tagged_In _ _ _ themes_NoDup). simpl snd. split.
    + intros [v [Hin HP]]. apply andb_true_iff in HP. destruct HP as [H1 H2].
      split; exists v; (split; [exact Hin|]); apply andb_true_iff; tauto.
    + intros [[v [Hin HP]] [v' [Hin' HP']]].
      assert (v' = v) by (eapply NoDup_keys_functional;
                          [apply themes_NoDup | eassumption | eassumption]).
      subst v'. exists v. split; [exact Hin|].
      apply andb_true_iff in HP, HP'. apply andb_true_iff. tauto.
  - intros before after theme. rewrite !(tagged_In _ _ _ themes_NoDup). simpl snd.
    intros [v [Hin HP]]. exists v. split; [exact Hin|].
    apply andb_true_iff in HP. destruct HP as [H1 H2].
    apply andb_true_iff. split; [|exact H2].
    rewrite !lower_app. now apply any_keyword_app.
  - reflexivity.
Qed.

(** X20.  Emotion tagging never raises and ignores letter case.  The tags
    are distinct names among the eight emotions; text added before or
    after never removes a tag; and since the three keyword lists share the
    word, a text that contains "amazing" is tagged happy, excited and
    surprised at once. *)
Theorem emotion_tags_ignore_case_and_grow_with_text :
  forall (text : string),
    exists tags,
      MoodAnalyzer._extract_emotion_tags text = Returned tags
      /\ MoodAnalyzer._extract_emotion_tags (lower text) = Returned tags
      /\ NoDup tags
      /\ (forall tag, In tag tags ->
            In tag ["happy"; "sad"; "excited"; "angry"; "scared"; "surprised";
                    "confused"; "bored"])
      /\ (forall before after,
            exists more,
              MoodAnalyzer._extract_emotion_tags (before ++ text ++ after)
              = Returned more
              /\ forall tag, In tag tags -> In tag more)
      /\ (contains "amazing" (lower text) = true ->
          In "happy" tags /\ In "excited" tags /\ In "surprised" tags).
Proof.
  intro text. unfold MoodAnalyzer._extract_emotion_tags. cbv zeta.
  cbn [try_except]. eexists. split; [reflexivity|].
  split; [now rewrite lower_idempotent|].
  split; [apply filter_keeps_distinct, emotions_NoDup|].
  split.
  { intros tag H. apply in_map_iff in H. destruct H as [tk [<- Hin]].
    apply filter_In in Hin. destruct Hin as [Hin _].
    change (In (fst tk) (map fst MoodAnalyzer.emotion_keywords)).
    now apply in_map. }
  split.
  { intros before after. eexists. split; [reflexivity|].
    intro tag. rewrite !(tagged_In _ _ _ emotions_NoDup). simpl snd.
    intros [v [Hin HP]]. exists v. split; [exact Hin|].
    rewrite !lower_app. now apply any_keyword_app. }
  intro Ha.
  assert (Hany : forall keywords, In "amazing" keywords ->
                   any_keyword keywords (lower text) = true).
  { intros keywords Hk. unfold any_keyword. apply existsb_exists.
    exists "amazing". split; [exact Hk | exact Ha]. }
  split; [|split]; apply (tagged_In _ _ _ emotions_NoDup); eexists;
    (split; [simpl; eauto 10|]); apply Hany; simpl; tauto.
Qed.

(** ** The mood inferred from recent ratings *)

Lemma max_item_spec (best : string * Q) (items : list (string * Q)) :
  In (MoodAnalyzer.max_item best items) (best :: items)
  /\ forall x, In x (best :: items) ->
       snd x <= snd (MoodAnalyzer.max_item best items).
Proof.
  revert best. induction items as [|y rest IH]; intro best; simpl.
  - split; [now left|]. intros x [<-|[]]. apply Qle_refl.
  - destruct (IH (if Qltb (snd best) (snd y) then y else best)) as [Hin Hmax].
    split.
    + destruct Hin as [Hin|Hin]; [|tauto].
      destruct (Qltb (snd best) (snd y)); [right; left | left]; exact Hin.
    + intros x Hx.
      assert (Hb : snd best <= snd (if Qltb (snd best) (snd y) then y else best)
                   /\ snd y <= snd (if Qltb (snd best) (snd y) then y else best)).
      { destruct (Qltb (snd best) (snd y)) eqn:E.
        - apply Qltb_true in E. split; [now apply Qlt_le_weak | apply Qle_refl].
        - apply Qltb_false in E. split; [apply Qle_refl | exact E]. }
      destruct Hx as [<-|[<-|Hx]].
      * eapply Qle_trans; [apply Hb|]. apply Hmax. now left.
      * eapply Qle_trans; [apply Hb|]. apply Hmax. now left.
      * apply Hmax. now right.
Qed.

Lemma score_moods_In (genre_weights : list (string * Q)) (total_ratings : Z)
    (mood : string) (s : Q) :
  In (mood, s) (MoodAnalyzer.score_moods genre_weights total_ratings)
  <-> exists target_genres,
        In (mood, target_genres) MoodAnalyzer.mood_genre_mapping
        /\ 0 < MoodAnalyzer.target_weight genre_weights target_genres
        /\ s = MoodAnalyzer.target_weight genre_weights target_genres
               / inject_Z total_ratings.
Proof.
  unfold MoodAnalyzer.score_moods. rewrite in_flat_map. split.
  - intros [[m tg] [Hin H]]. simpl in H.
    destruct (Qltb 0 (MoodAnalyzer.target_weight genre_weights tg)) eqn:E;
      [|destruct H].
    destruct H as [H|[]]. injection H as -> <-.
    exists tg. split; [exact Hin|]. split; [now apply Qltb_true | reflexivity].
  - intros [tg [Hin [Hpos ->]]]. exists (mood, tg). split; [exact Hin|].
    simpl. apply Qltb_true in Hpos. rewrite Hpos. now left.
Qed.

Lemma target_weight_zero (genre_weights : list (string * Q))
    (target_genres : list string) :
  (forall g, In g target_genres ->
     assoc_get String.eqb g genre_weights = None) ->
  MoodAnalyzer.target_weight genre_weights target_genres == 0.
Proof.
  unfold MoodAnalyzer.target_weight. generalize 0 at 2 3. 
  induction target_genres as [|g gs IH]; intros acc H; simpl; [reflexivity|].
  rewrite IH by (intros g' Hg'; apply H; now right).
  rewrite (H g (or_introl eq_refl)). ring.
Qed.

Lemma add_genre_weight_keys (weight : Q) (genres : list string)
    (d : list (string * Q)) (g : string) :
  In g (map fst (fold_left (MoodAnalyzer.add_genre_weight weight) genres d))
  <-> In g genres \/ In g (map fst d).
Proof.
  revert d. induction genres as [|x xs IH]; intro d; simpl; [tauto|].
  rewrite IH. unfold MoodAnalyzer.add_genre_weight.
  destruct (assoc_get String.eqb x d); rewrite (assoc_set_keys _ string_eqb_eq);
    intuition.
Qed.

Lemma weigh_genres_keys (rows : list (Rating.t * Movie.t)) (g : string) :
  In g (map fst (fst (MoodAnalyzer.weigh_genres rows))) ->
  exists rm, In rm rows /\ In g (Movie.genres (snd rm)).
Proof.
  unfold MoodAnalyzer.weigh_genres.
  match goal with
  | |- context [fold_left ?f rows _] => set (step := f)
  end.
  assert (H : forall acc,
            In g (map fst (fst (fold_left step rows acc))) ->
            In g (map fst (fst acc))
            \/ exists rm, In rm rows /\ In g (Movie.genres (snd rm))).
  { induction rows as [|rm rest IH]; intros acc Hin; simpl in Hin; [now left|].
    apply IH in Hin. destruct Hin as [Hin|[rm' [H1 H2]]].
    - unfold step in Hin.
      destruct (Movie.genres (snd rm)) as [|x xs] eqn:Eg; [now left|].
      simpl fst in Hin.
      apply (add_genre_weight_keys _ (x :: xs) (fst acc) g) in Hin.
      destruct Hin as [Hin|Hin]; [|now left].
      right. exists rm. split; [now left | now rewrite Eg].
    - right. exists rm'. split; [now right | exact H2]. }
  intro Hin. apply H in Hin. destruct Hin as [[]|Hin]. exact Hin.
Qed.

Lemma known_mood_is_lower_case (mood : string) :
  In mood Api.valid_moods -> lower mood = mood /\ nonempty (Some mood) = true.
Proof.
  unfold Api.valid_moods. intro H.
  repeat (destruct H as [<-|H]; [split; reflexivity|]). destruct H.
Qed.

Lemma target_weight_positive (genre_weights : list (string * Q))
    (target_genres : list string) :
  0 < MoodAnalyzer.target_weight genre_weights target_genres ->
  exists g, In g target_genres /\ In g (map fst genre_weights).
Proof.
  intro Hpos.
  destruct (existsb (fun g => match assoc_get String.eqb g genre_weights with
                              | Some _ => true
                              | None => false
                              end) target_genres) eqn:E.
  - apply existsb_exists in E. destruct E as [g [Hg Hs]].
    exists g. split; [exact Hg|].
    destruct (assoc_get String.eqb g genre_weights) eqn:Eg; [|discriminate].
    destruct (in_dec string_dec g (map fst genre_weights)) as [Hin|Hnin];
      [exact Hin|].
    apply (assoc_get_None _ string_eqb_eq) in Hnin. congruence.
  - exfalso. rewrite target_weight_zero in Hpos; [now apply (Qlt_irrefl 0)|].
    intros g Hg.
    destruct (assoc_get String.eqb g genre_weights) eqn:Eg; [|reflexivity].
    assert (Ht : existsb (fun g => match assoc_get String.eqb g genre_weights with
                                   | Some _ => true
                                   | None => false
                                   end) target_genres = true).
    { apply existsb_exists. exists g. split; [exact Hg | now rewrite Eg]. }
    congruence.
Qed.

Lemma weigh_genres_total (rows : list (Rating.t * Movie.t)) :
  (fst (MoodAnalyzer.weigh_genres rows) <> [] ->
   (1 <= snd (MoodAnalyzer.weigh_genres rows))%Z)
  /\ ((forall rm, In rm rows -> Movie.genres (snd rm) = []) ->
      fst (MoodAnalyzer.weigh_genres rows) = []).
Proof.
  unfold MoodAnalyzer.weigh_genres.
  match goal with
  | |- context [fold_left ?f rows _] => set (step := f)
  end.
  assert (H : forall acc,
            (0 <= snd acc)%Z -> (fst acc <> [] -> (1 <= snd acc)%Z) ->
            (0 <= snd (fold_left step rows acc))%Z
            /\ (fst (fold_left step rows acc) <> [] ->
                (1 <= snd (fold_left step rows acc))%Z)).
  { induction rows as [|rm rest IH]; intros acc H0 H1; simpl; [tauto|].
    apply IH; unfold step; destruct (Movie.genres (snd rm)); simpl;
      try assumption; try lia; intros _; lia. }
  assert (H' : forall acc,
            (forall rm, In rm rows -> Movie.genres (snd rm) = []) ->
            fold_left step rows acc = acc).
  { clear H. induction rows as [|rm rest IH]; intros acc Hg; simpl; [reflexivity|].
    rewrite IH by (intros rm' Hrm'; apply Hg; now right).
    unfold step. now rewrite (Hg rm (or_introl eq_refl)). }
  split.
  - apply H; simpl; [lia | congruence].
  - intro Hg. now rewrite H'.
Qed.

(** X21.  Mood inference never raises.  It answers no mood when the user
    has no recent rating of a stored movie, or when none of those movies
    has a genre.  A mood it answers is one of the ten labels, has a genre
    carried by a recently rated movie, and no label has a larger summed
    genre weight.  [get_recommendations] then serves that mood's
    recommendations, and the popularity fallback when no mood is inferred. *)
Theorem recent_mood_is_the_heaviest_known_mood :
  forall (polarity : string -> Q) (math_log : Q -> Q)
         (is_recent : Rating.t -> bool) (db : Database) (user_id : UUID)
         (limit : nat) (exclude_watched : bool),
    let rows := MoodAnalyzer.recent_ratings is_recent db user_id in
    let genre_weights := fst (MoodAnalyzer.weigh_genres rows) in
    exists answer,
      MoodAnalyzer._analyze_user_recent_mood is_recent db user_id
      = Returned answer
      /\ ((forall rm, In rm rows -> Movie.genres (snd rm) = []) -> answer = None)
      /\ (answer = None ->
          MoodAnalyzer.get_recommendations polarity math_log is_recent db
            user_id limit exclude_watched
          = _get_popular_movies db limit)
      /\ (forall mood, answer = Some mood ->
            In mood Api.valid_moods
            /\ MoodAnalyzer.get_recommendations polarity math_log is_recent db
                 user_id limit exclude_watched
               = MoodAnalyzer.get_mood_recommendations polarity math_log db
                   user_id mood limit
            /\ exists target_genres,
                 In (mood, target_genres) MoodAnalyzer.mood_genre_mapping
                 /\ 0 < MoodAnalyzer.target_weight genre_weights target_genres
                 /\ (forall other other_genres,
                       In (other, other_genres) MoodAnalyzer.mood_genre_mapping ->
                       MoodAnalyzer.target_weight genre_weights other_genres
                       <= MoodAnalyzer.target_weight genre_weights target_genres)
                 /\ (exists g rm,
                       In g target_genres /\ In rm rows
                       /\ In g (Movie.genres (snd rm)))).
Proof.
  intros polarity math_log is_recent db user_id limit exclude_watched rows
    genre_weights.
  unfold MoodAnalyzer.get_recommendations.
  unfold MoodAnalyzer._analyze_user_recent_mood. fold rows.
  unfold genre_weights. clear genre_weights. clearbody rows.
  pose proof (weigh_genres_total rows) as [Htotal Hempty].
  pose proof (weigh_genres_keys rows) as Hkeys.
  assert (Hnone : exists answer : option string,
            Returned (@None string) = Returned answer
            /\ ((forall rm, In rm rows -> Movie.genres (snd rm) = []) ->
                answer = None)
            /\ (answer = None ->
                (recent_mood <- Returned (@None string) ;;
                 match recent_mood with
                 | Some (String c s) =>
                     MoodAnalyzer.get_mood_recommendations polarity math_log
                       db user_id (String c s) limit
                 | _ => _get_popular_movies db limit
                 end) = _get_popular_movies db limit)
            /\ (forall mood, answer = Some mood ->
                  In mood Api.valid_moods
                  /\ (recent_mood <- Returned (@None string) ;;
                      match recent_mood with
                      | Some (String c s) =>
                          MoodAnalyzer.get_mood_recommendations polarity
                            math_log db user_id (String c s) limit
                      | _ => _get_popular_movies db limit
                      end)
                     = MoodAnalyzer.get_mood_recommendations polarity math_log
                         db user_id mood limit
                  /\ exists target_genres,
                       In (mood, target_genres) MoodAnalyzer.mood_genre_mapping
                       /\ 0 < MoodAnalyzer.target_weight
                                (fst (MoodAnalyzer.weigh_genres rows))
                                target_genres
                       /\ (forall other other_genres,
                             In (other, other_genres)
                               MoodAnalyzer.mood_genre_mapping ->
                             MoodAnalyzer.target_weight
                               (fst (MoodAnalyzer.weigh_genres rows))
                               other_genres
                             <= MoodAnalyzer.target_weight
                                  (fst (MoodAnalyzer.weigh_genres rows))
                                  target_genres)
                       /\ (exists g rm,
                             In g target_genres /\ In rm rows
                             /\ In g (Movie.genres (snd rm))))).
  { exists None. split; [reflexivity|].
    split; [reflexivity|]. split; [reflexivity | discriminate]. }
  destruct rows as [|row0 rows0]; [exact Hnone|].
  destruct (MoodAnalyzer.weigh_genres (row0 :: rows0)) as [gw total].
  simpl fst in *. simpl snd in *.
  destruct gw as [|gw0 gws]; [exact Hnone|].
  destruct (MoodAnalyzer.score_moods (gw0 :: gws) total) as [|item items] eqn:Es;
    [exact Hnone|].
  clear Hnone. cbn [try_except bind].
  destruct (max_item_spec item items) as [Hin Hmax].
  rewrite <- Es in Hin, Hmax.
  destruct (MoodAnalyzer.max_item item items) as [mood s].
  simpl fst.
  apply score_moods_In in Hin. destruct Hin as [tg [Hmap [Hpos Hs]]].
  assert (Hvalid : In mood Api.valid_moods).
  { rewrite <- mood_vocabulary. change mood with (fst (mood, tg)).
    now apply in_map. }
  destruct (known_mood_is_lower_case mood Hvalid) as [_ Hne].
  exists (Some mood). split; [reflexivity|].
  split; [intro Hg; specialize (Hempty Hg); discriminate|].
  split; [discriminate|].
  intros mood' Hm. injection Hm as <-.
  split; [exact Hvalid|].
  split; [destruct mood; [discriminate | reflexivity]|].
  exists tg. split; [exact Hmap|]. split; [exact Hpos|].
  assert (Htot : 0 < inject_Z total).
  { change 0 with (inject_Z 0). rewrite <- Zlt_Qlt.
    assert (1 <= total)%Z by (apply Htotal; discriminate). lia. }
  split.
  - intros other og Ho.
    destruct (Qlt_le_dec 0 (MoodAnalyzer.target_weight (gw0 :: gws) og))
      as [Hp|Hn].
    + assert (Hino : In (other,
                         MoodAnalyzer.target_weight (gw0 :: gws) og
                         / inject_Z total)
                       (MoodAnalyzer.score_moods (gw0 :: gws) total)).
      { apply score_moods_In. exists og. tauto. }
      apply Hmax in Hino. simpl in Hino. rewrite Hs in Hino.
      apply (Qmult_le_compat_r _ _ (inject_Z total)) in Hino;
        [|now apply Qlt_le_weak].
      assert (Hnz : ~ inject_Z total == 0)
        by (intro Hz; rewrite Hz in Htot; now apply (Qlt_irrefl 0)).
      unfold Qdiv in Hino.
      rewrite <- !Qmult_assoc, (Qmult_comm (/ inject_Z total)) in Hino.
      rewrite Qmult_inv_r, !Qmult_1_r in Hino by exact Hnz. exact Hino.
    + eapply Qle_trans; [exact Hn | now apply Qlt_le_weak].
  - destruct (target_weight_positive (gw0 :: gws) tg Hpos) as [g [Hg Hk]].
    apply Hkeys in Hk. destruct Hk as [rm [Hrm Hgen]].
    exists g, rm. tauto.
Qed.

(** ** Trending for you *)

(** X22.  [get_personalized_trending] is never personalised: the module
    does not import [Movie], so the genre preferences are always the empty
    dict, and the answer is the first [limit] of this week's trending
    movies, whoever asks and whatever the store holds; it is empty when
    the TMDB client fails. *)
Theorem trending_for_you_ignores_the_user :
  forall (trending_week : outcome (list MovieSchema.t)) (db db' : Database)
         (user_id user_id' : UUID) (limit : nat),
    Hybrid._get_user_genre_preferences db user_id = Returned []
    /\ Hybrid.get_personalized_trending trending_week db user_id limit
       = Hybrid.get_personalized_trending trending_week db' user_id' limit
    /\ (forall trending, trending_week = Returned trending ->
          Hybrid.get_personalized_trending trending_week db user_id limit
          = Returned (firstn limit trending))
    /\ ((forall trending, trending_week <> Returned trending) ->
        Hybrid.get_personalized_trending trending_week db user_id limit
        = Returned []).
Proof.
  intros trending_week db db' user_id user_id' limit.
  split; [reflexivity|].
  unfold Hybrid.get_personalized_trending, Hybrid._get_user_genre_preferences.
  cbn [try_except bind].
  split; [reflexivity|].
  split.
  - intros trending ->. reflexivity.
  - intro H. destruct trending_week as [t|e]; [|reflexivity].
    now elim (H t).
Qed.

(** ** Explanations *)





(** X24.  The mood explanation never raises and is absent only for a
    movie that is not stored.  For a stored movie it always names one of
    the ten moods, one whose mood score no other mood exceeds, with that
    score rounded to two digits and the movie's genres that belong to the
    mood; so a movie on which every score is zero is still explained.
    Which of several moods of equal score is named is not stated. *)
Theorem mood_explanation_names_a_best_scoring_mood :
  forall (polarity : string -> Q) (math_log : Q -> Q) (py_round : Q -> Z -> Q)
         (db : Database) (user_id : UUID) (movie_id : Z),
    let score mood movie := mood_score_of polarity math_log db mood movie in
    exists answer,
      MoodAnalyzer.get_explanation polarity math_log py_round db user_id movie_id
      = Returned answer
      /\ (movie_by_id db movie_id = None -> answer = None)
      /\ (forall movie, movie_by_id db movie_id = Some movie ->
            exists best_mood target_genres,
              In best_mood Api.valid_moods
              /\ dict_get best_mood MoodAnalyzer.mood_genre_mapping
                 = Some target_genres
              /\ (forall mood, In mood Api.valid_moods ->
                    score mood movie <= score best_mood movie)
              /\ answer
                 = Some (Explanation.mk "mood_based"
                           ("Perfect for when you're feeling " ++ best_mood)%string
                           (Explanation.MoodBased best_mood
                              (py_round (score best_mood movie) 2%Z)
                              (filter (fun g => mem_string g target_genres)
                                 (Movie.genres movie))))).
Proof.
  intros polarity math_log py_round db user_id movie_id score.
  unfold MoodAnalyzer.get_explanation.
  destruct (movie_by_id db movie_id) as [movie|].
  2:{ exists None. split; [reflexivity|]. split; [reflexivity | discriminate]. }
  assert (Hscores :
            mapM (fun mood =>
                    s <- MoodAnalyzer._calculate_mood_score polarity math_log db
                           movie mood ;;
                    Returned (mood, s))
              (map fst MoodAnalyzer.mood_genre_mapping)
            = Returned (map (fun mood => (mood, score mood movie))
                          (map fst MoodAnalyzer.mood_genre_mapping))).
  { apply mapM_returned. intros mood _.
    now rewrite calculate_mood_score_returns. }
  rewrite Hscores. cbn [bind].
  set (scores := map (fun mood => (mood, score mood movie))
                   (map fst MoodAnalyzer.mood_genre_mapping)).
  assert (Hin_scores : forall mood s,
            In (mood, s) scores <-> In mood Api.valid_moods /\ s = score mood movie).
  { intros mood s. unfold scores. rewrite in_map_iff, mood_vocabulary. split.
    - intros [m [E Hm]]. injection E as -> <-. tauto.
    - intros [Hm ->]. now exists mood. }
  destruct scores as [|item items] eqn:Es; [discriminate|].
  destruct (max_item_spec item items) as [Hin Hmax].
  rewrite <- Es in Hin_scores.
  destruct (MoodAnalyzer.max_item item items) as [best s] eqn:Eb.
  rewrite <- Es in Hin, Hmax.
  apply Hin_scores in Hin. destruct Hin as [Hvalid ->].
  destruct (known_mood_is_lower_case best Hvalid) as [_ Hne].
  assert (Htg : exists tg, dict_get best MoodAnalyzer.mood_genre_mapping = Some tg).
  { destruct (dict_get best MoodAnalyzer.mood_genre_mapping) as [tg|] eqn:E;
      [now exists tg|].
    exfalso. rewrite <- mood_vocabulary in Hvalid.
    apply dict_get_In in Hvalid. congruence. }
  destruct Htg as [tg Htg].
  eexists. split; [|split; [discriminate|]].
  2:{ intros movie' Hm. injection Hm as <-.
      exists best, tg. split; [exact Hvalid|]. split; [exact Htg|].
      split.
      { intros mood Hmood.
        apply (Hmax (mood, score mood movie)). apply Hin_scores. tauto. }
      reflexivity. }
  cbn [fst snd]. destruct best as [|c b]; [discriminate|].
  cbn [try_except]. unfold MoodAnalyzer.dict_get_or_nil. rewrite Htg.
  reflexivity.
Qed.

Lemma scan_similar_fold (movie_id : Z) (rated_movie : Movie.t)
    (similar_movies : list (Movie.t * Q)) (acc : Q * option Movie.t) :
  fold_left (ContentBased.scan_similar movie_id rated_movie) similar_movies acc
  = fold_left
      (fun acc p => if Qltb (fst acc) (snd p) then (snd p, Some (fst p)) else acc)
      (map (fun ms => (rated_movie, snd ms))
         (filter (fun ms => (Movie.id (fst ms) =? movie_id)%Z) similar_movies))
      acc.
Proof.
  revert acc. induction similar_movies as [|ms rest IH]; intro acc; simpl;
    [reflexivity|].
  rewrite IH. unfold ContentBased.scan_similar.
  destruct (Movie.id (fst ms) =? movie_id)%Z; reflexivity.
Qed.

Lemma scan_top_rated_fold (db : Database) (model : option ContentBased.Model)
    (movie_id : Z) (top_rated : list (Rating.t * Movie.t))
    (acc : Q * option Movie.t) :
  ContentBased.scan_top_rated db model movie_id top_rated acc
  = Returned
      (fold_left
         (fun acc p => if Qltb (fst acc) (snd p) then (snd p, Some (fst p)) else acc)
         (explaining_similarities db model movie_id top_rated) acc).
Proof.
  revert acc. induction top_rated as [|rating rest IH]; intro acc; simpl;
    [reflexivity|].
  rewrite similar_movies_returned. cbn [bind].
  rewrite IH, scan_similar_fold. unfold explaining_similarities. simpl.
  now rewrite fold_left_app.
Qed.

Lemma best_similarity_spec (pairs : list (Movie.t * Q)) (acc : Q * option Movie.t) :
  let best :=
    fold_left
      (fun acc p => if Qltb (fst acc) (snd p) then (snd p, Some (fst p)) else acc)
      pairs acc in
  fst acc <= fst best
  /\ (forall p, In p pairs -> snd p <= fst best)
  /\ (best = acc
      \/ exists p, In p pairs /\ best = (snd p, Some (fst p))
                   /\ fst acc < snd p).
Proof.
  revert acc. induction pairs as [|p rest IH]; intro acc; simpl.
  - split; [apply Qle_refl|]. split; [intros ? [] | now left].
  - destruct (IH (if Qltb (fst acc) (snd p) then (snd p, Some (fst p)) else acc))
      as [H1 [H2 H3]].
    destruct (Qltb (fst acc) (snd p)) eqn:E.
    + apply Qltb_true in E. simpl fst in H1.
      split; [eapply Qle_trans; [apply Qlt_le_weak, E | exact H1]|].
      split.
      * intros q [<-|Hq]; [exact H1 | now apply H2].
      * right. destruct H3 as [H3|[q [Hq [Hb Hlt]]]].
        -- exists p. split; [now left|]. split; [exact H3 | exact E].
        -- exists q. split; [now right|]. split; [exact Hb|].
           simpl in Hlt. eapply Qlt_trans; eassumption.
    + apply Qltb_false in E.
      split; [exact H1|]. split.
      * intros q [<-|Hq]; [eapply Qle_trans; eassumption | now apply H2].
      * destruct H3 as [H3|[q [Hq [Hb Hlt]]]]; [now left|].
        right. exists q. split; [now right|]. split; [exact Hb | exact Hlt].
Qed.

Lemma top_rated_spec (db : Database) (user_id : UUID) :
  (List.length (ContentBased.top_rated db user_id) <= 3)%nat
  /\ forall rm, In rm (ContentBased.top_rated db user_id) ->
       In (fst rm) (ratings db)
       /\ Rating.user_id (fst rm) = user_id
       /\ 4 <= Rating.rating (fst rm)
       /\ movie_by_id db (Rating.movie_id (fst rm)) = Some (snd rm).
Proof.
  unfold ContentBased.top_rated. split.
  - rewrite length_firstn. apply Nat.le_min_l.
  - intros rm H. apply firstn_In in H. apply sorted_desc_In in H.
    apply in_flat_map in H. destruct H as [r [Hr Hin]].
    destruct (movie_by_id db (Rating.movie_id r)) as [movie|] eqn:Em;
      [|destruct Hin].
    destruct Hin as [<-|[]]. simpl.
    unfold ContentBased.liked_ratings in Hr. apply filter_In in Hr.
    destruct Hr as [Hr Hc]. apply andb_true_iff in Hc. destruct Hc as [Hu H4].
    split; [exact Hr|]. split; [now apply uuid_eqb_eq|].
    split; [now apply Qle_bool_iff | exact Em].
Qed.

(** X25.  The content explanation never raises.  It looks at the user's
    three highest ratings of at least 4.0 and is absent when there is none,
    when the movie is not stored, and when the movie has no positive
    similarity in the neighbourhood of any of the three rated movies.
    Otherwise it cites the rated movie with the largest such similarity,
    rounded to three digits, while the rating it quotes is that of the
    last of the three ratings, whichever movie is cited. *)
Theorem content_explanation_cites_the_most_similar_liked_movie :
  forall (py_round : Q -> Z -> Q) (str_float : Q -> string)
         (list_of_set : list string -> list string) (db : Database)
         (model : option ContentBased.Model) (user_id : UUID) (movie_id : Z),
    let top := ContentBased.top_rated db user_id in
    let pairs := explaining_similarities db model movie_id top in
    exists answer,
      ContentBased.get_explanation py_round str_float list_of_set db model
        user_id movie_id
      = Returned answer
      /\ (List.length top <= 3)%nat
      /\ (forall rm, In rm top ->
            In (fst rm) (ratings db)
            /\ Rating.user_id (fst rm) = user_id
            /\ 4 <= Rating.rating (fst rm)
            /\ movie_by_id db (Rating.movie_id (fst rm)) = Some (snd rm))
      /\ (top = [] -> answer = None)
      /\ (movie_by_id db movie_id = None -> answer = None)
      /\ ((forall p, In p pairs -> snd p <= 0) -> answer = None)
      /\ (top <> [] -> movie_by_id db movie_id <> None ->
          (exists p, In p pairs /\ 0 < snd p) -> answer <> None)
      /\ (forall e, answer = Some e ->
            exists recommended_movie most_similar_movie similarity first others,
              movie_by_id db movie_id = Some recommended_movie
              /\ top = first :: others
              /\ In (most_similar_movie, similarity) pairs
              /\ 0 < similarity
              /\ (forall p, In p pairs -> snd p <= similarity)
              /\ e = Explanation.mk "content_based"
                       ("Similar to '" ++ Movie.title most_similar_movie
                        ++ "' which you rated "
                        ++ str_float (Rating.rating (fst (last others first)))
                        ++ "/5")%string
                       (Explanation.ContentBased (py_round similarity 3%Z)
                          (list_of_set
                             (filter
                                (fun g =>
                                   mem_string g
                                     (Movie.genres most_similar_movie))
                                (nodup string_dec
                                   (Movie.genres recommended_movie))))
                          (ContentBased._extract_theme_similarities
                             (ContentBased.or_empty
                                (Movie.overview most_similar_movie))
                             (ContentBased.or_empty
                                (Movie.overview recommended_movie))))).
Proof.
  intros py_round str_float list_of_set db model user_id movie_id top pairs.
  destruct (top_rated_spec db user_id) as [Hlen Htop]. fold top in Hlen, Htop.
  unfold ContentBased.get_explanation. fold top.
  unfold pairs. clear pairs. clearbody top.
  destruct top as [|first others].
  { exists None. split; [reflexivity|]. split; [exact Hlen|].
    split; [exact Htop|]. do 3 (split; [reflexivity|]).
    split; [intro H; now elim H | discriminate]. }
  destruct (movie_by_id db movie_id) as [recommended_movie|].
  2:{ exists None. cbn [try_except]. split; [reflexivity|]. split; [exact Hlen|].
      split; [exact Htop|]. split; [discriminate|].
      do 2 (split; [reflexivity|]).
      split; [intros _ H; now elim H | discriminate]. }
  rewrite scan_top_rated_fold. cbn [bind].
  set (pairs := explaining_similarities db model movie_id (first :: others)).
  destruct (best_similarity_spec pairs (0, None)) as [H0 [Hmax Hbest]].
  cbv zeta in H0, Hmax, Hbest.
  destruct (fold_left _ pairs (0, None)) as [max_similarity most] eqn:Ef.
  simpl fst in H0, Hmax.
  destruct most as [most_similar_movie|]; cbn [try_except].
  - eexists. split; [reflexivity|]. split; [exact Hlen|]. split; [exact Htop|].
    split; [discriminate|]. split; [discriminate|].
    destruct Hbest as [Hb|[p [Hp [Hb Hlt]]]]; [discriminate|].
    injection Hb as -> ->. simpl in Hlt.
    split.
    { intro Hall. exfalso. apply (Qlt_irrefl 0).
      eapply Qlt_le_trans; [exact Hlt | now apply Hall]. }
    split; [discriminate|].
    intros e He. injection He as <-.
    exists recommended_movie, (fst p), (snd p), first, others.
    split; [reflexivity|]. split; [reflexivity|].
    split; [now destruct p|]. split; [exact Hlt|]. split; [exact Hmax|].
    reflexivity.
  - exists None. split; [reflexivity|]. split; [exact Hlen|]. split; [exact Htop|].
    split; [discriminate|]. split; [discriminate|].
    split; [reflexivity|]. split; [|discriminate].
    intros _ _ [p [Hp Hpos]]. exfalso.
    destruct Hbest as [Hb|[q [_ [Hb _]]]]; [|discriminate].
    injection Hb as ->. apply (Qlt_irrefl 0).
    eapply Qlt_le_trans; [exact Hpos | now apply Hmax].
Qed.

Lemma content_explanation_returned (py_round : Q -> Z -> Q)
    (str_float : Q -> string) (list_of_set : list string -> list string)
    (db : Database) (model : option ContentBased.Model) (user_id : UUID)
    (movie_id : Z) :
  ContentBased.get_explanation py_round str_float list_of_set db model user_id
    movie_id
  = Returned
      (answer_of
         (ContentBased.get_explanation py_round str_float list_of_set db model
            user_id movie_id)).
Proof.
  unfold ContentBased.get_explanation, try_except.
  match goal with
  | |- match ?b with _ => _ end = _ => destruct b
  end; reflexivity.
Qed.

Lemma collaborative_explanation_returned (np_argsort : list Q -> list nat)
    (py_round : Q -> Z -> Q) (format_1f : Q -> string)
    (self : Collaborative.State) (user_id : UUID) (movie_id : Z) :
  Collaborative.get_explanation np_argsort py_round format_1f self user_id
    movie_id
  = Returned
      (answer_of
         (Collaborative.get_explanation np_argsort py_round format_1f self
            user_id movie_id)).
Proof.
  unfold Collaborative.get_explanation, try_except.
  match goal with
  | |- match ?b with _ => _ end = _ => destruct b
  end; reflexivity.
Qed.

Lemma trending_explanation_returned
    (trending_day trending_week : outcome (list MovieSchema.t)) (movie_id : Z) :
  Hybrid._check_trending_explanation trending_day trending_week movie_id
  = Returned
      (answer_of
         (Hybrid._check_trending_explanation trending_day trending_week
            movie_id)).
Proof.
  unfold Hybrid._check_trending_explanation, try_except.
  match goal with
  | |- match ?b with _ => _ end = _ => destruct b
  end; reflexivity.
Qed.

Lemma explain_recommendation_eq (np_argsort : list Q -> list nat)
    (trending_day trending_week : outcome (list MovieSchema.t))
    (content_model : option ContentBased.Model) (py_round : Q -> Z -> Q)
    (str_float : Q -> string) (list_of_set : list string -> list string)
    (format_1f : Q -> string) (db : Database)
    (self : Collaborative.State) (user_id : UUID) (movie_id : Z) :
  let explanations :=
    Hybrid.append_if
      (Hybrid.append_if
         (Hybrid.append_if []
            (answer_of
               (ContentBased.get_explanation py_round str_float list_of_set db
                  content_model user_id movie_id)))
         (answer_of
            (Collaborative.get_explanation np_argsort py_round format_1f self
               user_id movie_id)))
      (answer_of
         (Hybrid._check_trending_explanation trending_day trending_week
            movie_id)) in
  Hybrid.explain_recommendation np_argsort trending_day content_model
    trending_week py_round str_float list_of_set format_1f db self user_id
    movie_id
  = Returned
      match explanations with
      | [] => None
      | primary_explanation :: others =>
          Some
            {| Hybrid.primary_reason := Explanation.reason primary_explanation;
               Hybrid.explanation_type := Explanation.type primary_explanation;
               Hybrid.confidence_score :=
                 inject_Z (Z.of_nat (List.length explanations)) * 0.3;
               Hybrid.additional_factors :=
                 if (1 <? List.length explanations)%nat
                 then map Explanation.reason others else [];
               Hybrid.recommendation_strength :=
                 Hybrid._calculate_recommendation_strength explanations |}
      end.
Proof.
  intro explanations. unfold Hybrid.explain_recommendation.
  rewrite content_explanation_returned. cbn [bind].
  rewrite collaborative_explanation_returned. cbn [bind].
  rewrite trending_explanation_returned. cbn [bind].
  fold explanations. now destruct explanations.
Qed.

(** X26.  [explain_recommendation] never raises.  It collects the
    content, collaborative and trending explanations that exist, in that
    order, and answers nothing exactly when there is none.  Otherwise the
    first one gives the primary reason and type, the reasons of the others
    are the additional factors, the confidence is 0.3 per explanation, and
    the strength is medium, high or very_high for one, two or three
    explanations, never low. *)
Theorem combined_explanation_by_number_of_reasons :
  forall (np_argsort : list Q -> list nat)
         (trending_day trending_week : outcome (list MovieSchema.t))
         (content_model : option ContentBased.Model) (py_round : Q -> Z -> Q)
         (str_float : Q -> string) (list_of_set : list string -> list string)
         (format_1f : Q -> string) (db : Database)
         (self : Collaborative.State) (user_id : UUID) (movie_id : Z),
    let content :=
      answer_of (ContentBased.get_explanation py_round str_float list_of_set
                   db content_model user_id movie_id) in
    let collaborative :=
      answer_of (Collaborative.get_explanation np_argsort py_round format_1f
                   self user_id movie_id) in
    let trending :=
      answer_of (Hybrid._check_trending_explanation trending_day trending_week
                   movie_id) in
    let explanations :=
      Hybrid.append_if (Hybrid.append_if (Hybrid.append_if [] content)
                          collaborative) trending in
    let n := List.length explanations in
    exists answer,
      Hybrid.explain_recommendation np_argsort trending_day content_model
        trending_week py_round str_float list_of_set format_1f db self user_id
        movie_id
      = Returned answer
      /\ (n <= 3)%nat
      /\ (answer = None
          <-> content = None /\ collaborative = None /\ trending = None)
      /\ (forall c, answer = Some c ->
            exists primary others,
              explanations = primary :: others
              /\ (primary = match content, collaborative, trending with
                            | Some e, _, _ => e
                            | None, Some e, _ => e
                            | None, None, Some e => e
                            | None, None, None => primary
                            end)
              /\ Hybrid.primary_reason c = Explanation.reason primary
              /\ Hybrid.explanation_type c = Explanation.type primary
              /\ Hybrid.additional_factors c = map Explanation.reason others
              /\ Hybrid.confidence_score c == inject_Z (Z.of_nat n) * 0.3
              /\ Hybrid.recommendation_strength c
                 = nth (n - 1) ["medium"; "high"; "very_high"] "low"
              /\ Hybrid.recommendation_strength c <> "low").
Proof.
  intros np_argsort trending_day trending_week content_model py_round str_float
    list_of_set format_1f db self user_id movie_id content collaborative trending
    explanations n.
  rewrite explain_recommendation_eq.
  fold content collaborative trending.
  subst n explanations. clearbody content collaborative trending.
  destruct content as [e1|], collaborative as [e2|], trending as [e3|];
    cbn [Hybrid.append_if app List.length];
    (eexists; split; [reflexivity|]; split; [lia|]; split;
     [split; [try discriminate; tauto
             | intros [? [? ?]]; try discriminate; reflexivity]
     |intros c Hc;
      first
        [ discriminate
        | injection Hc as <-;
          do 2 eexists; split; [reflexivity|]; split; [reflexivity|];
          cbn [Hybrid.primary_reason Hybrid.explanation_type
               Hybrid.additional_factors Hybrid.confidence_score
               Hybrid.recommendation_strength];
          split; [reflexivity|]; split; [reflexivity|]; split; [reflexivity|];
          split; [reflexivity|]; split; [reflexivity | discriminate] ]]).
Qed.

Lemma existsb_id_In (movie_id : Z) (l : list MovieSchema.t) :
  existsb (fun movie => (MovieSchema.id movie =? movie_id)%Z) l = true
  <-> exists s, In s l /\ MovieSchema.id s = movie_id.
Proof.
  rewrite existsb_exists. split; intros [s [Hs He]]; exists s;
    (split; [exact Hs|]); now apply Z.eqb_eq.
Qed.

(** X27.  The trending check never raises.  With both TMDB lists at hand,
    a movie of today's list is explained as trending today (also when it
    is in the week's list), a movie of the week's list only as trending
    this week, and any other movie not at all; when either call fails
    there is no trending explanation, even for a movie that is in the list
    that was fetched. *)
Theorem trending_explanation_prefers_today :
  forall (trending_day trending_week : outcome (list MovieSchema.t))
         (movie_id : Z),
    exists answer,
      Hybrid._check_trending_explanation trending_day trending_week movie_id
      = Returned answer
      /\ ((forall today, trending_day <> Returned today) -> answer = None)
      /\ ((forall week, trending_week <> Returned week) -> answer = None)
      /\ (forall today week,
            trending_day = Returned today -> trending_week = Returned week ->
            ((exists s, In s today /\ MovieSchema.id s = movie_id) ->
             answer = Some (Explanation.mk "trending"
                              "This movie is trending today"
                              (Explanation.Trending "today")))
            /\ (~ (exists s, In s today /\ MovieSchema.id s = movie_id) ->
                (exists s, In s week /\ MovieSchema.id s = movie_id) ->
                answer = Some (Explanation.mk "trending"
                                 "This movie is trending this week"
                                 (Explanation.Trending "week")))
            /\ (~ (exists s, In s today /\ MovieSchema.id s = movie_id) ->
                ~ (exists s, In s week /\ MovieSchema.id s = movie_id) ->
                answer = None)).
Proof.
  intros trending_day trending_week movie_id.
  unfold Hybrid._check_trending_explanation.
  destruct trending_day as [today|e].
  2:{ exists None. cbn. split; [reflexivity|]. split; [reflexivity|].
      split; [reflexivity | discriminate]. }
  destruct trending_week as [week|e].
  2:{ exists None. cbn. split; [reflexivity|]. split; [intro H; now elim (H today)|].
      split; [reflexivity | discriminate]. }
  cbn [bind].
  pose proof (existsb_id_In movie_id today) as Ht.
  pose proof (existsb_id_In movie_id week) as Hw.
  destruct (existsb _ today); [|destruct (existsb _ week)]; cbn [try_except];
    eexists; (split; [reflexivity|]);
    (split; [intro H; now elim (H today)|]);
    (split; [intro H; now elim (H week)|]);
    intros t w Et Ew; injection Et as <-; injection Ew as <-.
  - split; [reflexivity|].
    split; intro Hn; elim Hn; now apply Ht.
  - split; [intro H; apply Ht in H; discriminate|].
    split; [reflexivity|]. intros _ Hn. elim Hn. now apply Hw.
  - split; [intro H; apply Ht in H; discriminate|].
    split; [intros _ H; apply Hw in H; discriminate | reflexivity].
Qed.

(** X28.  A class can be instantiated exactly when it defines the three
    abstract methods of [RecommendationEngine].  The four scorers do;
    [HybridRecommender] has [explain_recommendation] but no
    [get_explanation], so building it raises [TypeError].  The three
    endpoints that build it inside their [try] therefore never reach the
    aggregator: the explanation endpoint answers 500 to every request, and
    the personal and trending endpoints answer a non-empty cached list or
    500. *)
Theorem aggregator_endpoints_never_reach_the_aggregator :
  forall (np_sqrt : Q -> Q) (np_argsort : list Q -> list nat)
         (trending_day popular_page trending_week : outcome (list MovieSchema.t))
         (content_model : option ContentBased.Model)
         (pickle : option Collaborative.Pickle)
         (personal_cache trending_cache :
            UUID -> nat -> option (list MovieSchema.t))
         (py_round : Q -> Z -> Q) (str_float : Q -> string)
         (list_of_set : list string -> list string) (format_1f : Q -> string)
         (db : Database) (movie_id : Z) (limit : nat) (refresh : bool)
         (current_user : UUID),
    let personal :=
      Api.get_personal_recommendations np_sqrt np_argsort trending_day
        popular_page content_model pickle personal_cache db limit refresh
        current_user in
    let trending :=
      Api.get_personalized_trending trending_week trending_cache db limit
        current_user in
    (forall methods,
       RecommendationEngine.instantiate methods = Returned tt
       <-> (forall name, In name RecommendationEngine.abstract_methods ->
                         In name methods))
    /\ (forall methods,
          In methods [ RecommendationEngine.ContentBasedRecommender;
                       RecommendationEngine.CollaborativeRecommender;
                       RecommendationEngine.MoodAnalyzer;
                       RecommendationEngine.GroupRecommender ] ->
          RecommendationEngine.instantiate methods = Returned tt)
    /\ ~ In "get_explanation" RecommendationEngine.HybridRecommender
    /\ RecommendationEngine.instantiate RecommendationEngine.HybridRecommender
       = Raised TypeError
    /\ Api.get_recommendation_explanation np_argsort trending_day trending_week
         content_model py_round str_float list_of_set format_1f db movie_id
         current_user
       = Raised (HTTPException 500 "Failed to get recommendation explanation")
    /\ (forall l, personal = Returned l ->
          refresh = false /\ personal_cache current_user limit = Some l
          /\ l <> [])
    /\ (forall e, personal = Raised e -> e = Api.personal_failed)
    /\ (refresh = true -> personal = Raised Api.personal_failed)
    /\ (forall l, trending = Returned l ->
          trending_cache current_user limit = Some l /\ l <> [])
    /\ (forall e, trending = Raised e -> e = Api.trending_failed)
    /\ (trending_cache current_user limit = None ->
        trending = Raised Api.trending_failed).
Proof.
  intros np_sqrt np_argsort trending_day popular_page trending_week content_model
    pickle personal_cache trending_cache py_round str_float list_of_set
    format_1f db movie_id limit refresh current_user personal trending.
  assert (Hnew : RecommendationEngine.instantiate
                   RecommendationEngine.HybridRecommender = Raised TypeError)
    by reflexivity.
  split.
  { intro methods. unfold RecommendationEngine.instantiate.
    destruct (forallb (fun name => mem_string name methods)
                RecommendationEngine.abstract_methods) eqn:E.
    - split; [intros _|reflexivity].
      rewrite forallb_forall in E. intros name Hn.
      apply mem_string_In. now apply E.
    - split; [discriminate|]. intro H. exfalso.
      assert (Hall : forallb (fun name => mem_string name methods)
                       RecommendationEngine.abstract_methods = true).
      { apply forallb_forall. intros name Hn. apply mem_string_In. now apply H. }
      congruence. }
  split.
  { intros methods [<-|[<-|[<-|[<-|[]]]]]; reflexivity. }
  split.
  { intro H. apply mem_string_In in H. discriminate. }
  split; [exact Hnew|].
  split.
  { unfold Api.get_recommendation_explanation. rewrite Hnew. reflexivity. }
  unfold personal, trending, Api.get_personal_recommendations,
    Api.get_personalized_trending.
  rewrite Hnew. cbn [bind].
  split.
  { destruct refresh; cbn [try_except]; [discriminate|].
    destruct (personal_cache current_user limit) as [[|r rs]|];
      cbn [try_except]; try discriminate.
    intros l Hl. injection Hl as <-.
    split; [reflexivity|]. split; [reflexivity | discriminate]. }
  split.
  { destruct refresh; cbn [try_except].
    - intros e He. now injection He as <-.
    - destruct (personal_cache current_user limit) as [[|r rs]|];
        cbn [try_except]; try discriminate;
        intros e He; now injection He as <-. }
  split.
  { intros ->. reflexivity. }
  split.
  { destruct (trending_cache current_user limit) as [[|r rs]|];
      cbn [try_except]; try discriminate.
    intros l Hl. injection Hl as <-. split; [reflexivity | discriminate]. }
  split.
  { destruct (trending_cache current_user limit) as [[|r rs]|];
      cbn [try_except]; try discriminate;
      intros e He; now injection He as <-. }
  intros ->. reflexivity.
Qed.

(** ** The group endpoint *)

Lemma valid_uuids_In (parse_uuid : string -> option UUID)
    (user_ids : list string) (s : string) (u : UUID) :
  In s user_ids -> parse_uuid s = Some u ->
  In u (GroupRecommender.valid_uuids parse_uuid user_ids).
Proof.
  intros Hin Hp. induction user_ids as [|x xs IH]; simpl; [destruct Hin|].
  destruct Hin as [->|Hin].
  - rewrite Hp. now left.
  - destruct (parse_uuid x); [right|]; now apply IH.
Qed.

(** X29.  The group endpoint adds the caller to the ids when they are
    not named, and rejects with 400 exactly when this gives more than ten
    ids; with a cache lookup that answers, it never answers 500.  An
    answer is either a non-empty cached
    list or the group scorer's answer for the completed ids, which then
    holds at most [limit] movies and, the caller's id being one that
    parses, none the caller has rated.  A caller who names nobody gets
    the empty list on a cache miss. *)
Theorem group_endpoint_counts_the_caller_in :
  forall (parse_uuid : string -> option UUID) (uuid_str : UUID -> string)
         (cache_get : list string -> nat -> option (list MovieSchema.t))
         (db : Database) (user_ids : list string) (limit : nat)
         (current_user : UUID),
    parse_uuid (uuid_str current_user) = Some current_user ->
    let members := group_members uuid_str user_ids current_user in
    let response :=
      Api.get_group_recommendations parse_uuid uuid_str cache_get db user_ids
        limit current_user in
    In (uuid_str current_user) members
    /\ (In (uuid_str current_user) user_ids -> members = user_ids)
    /\ ((10 < List.length members)%nat <-> response = Raised Api.group_too_large)
    /\ (forall e, response = Raised e -> e = Api.group_too_large)
    /\ (forall l, response = Returned l ->
          (cache_get members limit = Some l /\ l <> [])
          \/ (GroupRecommender.get_group_recommendations parse_uuid db members
                limit 0.6 = Returned l
              /\ (List.length l <= limit)%nat
              /\ forall s r, In s l -> In r (ratings db) ->
                   Rating.user_id r = current_user ->
                   Rating.movie_id r <> MovieSchema.id s))
    /\ (user_ids = [] -> cache_get members limit = None ->
        response = Returned []).
Proof.
  intros parse_uuid uuid_str cache_get db user_ids limit current_user Hparse
    members response.
  assert (Hmem : In (uuid_str current_user) members).
  { unfold members, group_members.
    destruct (mem_string (uuid_str current_user) user_ids) eqn:E.
    - now apply mem_string_In.
    - apply in_app_iff. right. now left. }
  split; [exact Hmem|].
  split.
  { intro H. apply mem_string_In in H. unfold members, group_members.
    now rewrite H. }
  assert (Hresp : response
                  = try_except
                      (if (10 <? List.length members)%nat
                       then Raised Api.group_too_large
                       else
                         match cache_get members limit with
                         | Some (r :: rs) => Returned (r :: rs)
                         | _ =>
                             GroupRecommender.get_group_recommendations
                               parse_uuid db members limit 0.6
                         end)
                      (fun e =>
                         match e with
                         | HTTPException _ _ => Raised e
                         | _ => Raised (HTTPException 500
                                  "Failed to generate group recommendations")
                         end)).
  { unfold response, Api.get_group_recommendations, members, group_members.
    now destruct (mem_string (uuid_str current_user) user_ids). }
  rewrite Hresp. clear Hresp response.
  destruct (get_group_recommendations_returns parse_uuid db members limit 0.6)
    as [l Hl].
  pose proof (group_output_spec _ _ _ _ _ _ Hl) as [Hlen Hout].
  assert (Hcaller : forall s r, In s l -> In r (ratings db) ->
            Rating.user_id r = current_user ->
            Rating.movie_id r <> MovieSchema.id s).
  { intros s r Hs Hr Hu Heq.
    destruct (Hout s Hs) as [m [_ [Hid [_ [_ Hex]]]]].
    apply Hex. apply load_ratings_rated. right. exists current_user.
    split; [now apply (valid_uuids_In parse_uuid members (uuid_str current_user))|].
    rewrite Hid, <- Heq. apply in_map. unfold ratings_of. apply filter_In.
    split; [exact Hr | now apply uuid_eqb_eq]. }
  destruct (10 <? List.length members)%nat eqn:E10; cbn [try_except].
  { apply Nat.ltb_lt in E10.
    split; [tauto|]. split; [intros e He; now injection He as <-|].
    split; [discriminate|]. intros Hu _. exfalso.
    unfold members, group_members in E10. rewrite Hu in E10. simpl in E10. lia. }
  apply Nat.ltb_ge in E10.
  destruct (cache_get members limit) as [[|r rs]|] eqn:Ec; rewrite ?Hl;
    cbn [try_except].
  - split; [split; [lia | discriminate]|]. split; [discriminate|].
    split; [|discriminate].
    intros l' Hl'. injection Hl' as <-. right. tauto.
  - split; [split; [lia | discriminate]|]. split; [discriminate|].
    split; [|discriminate].
    intros l' Hl'. injection Hl' as <-. left. split; [reflexivity | discriminate].
  - split; [split; [lia | discriminate]|]. split; [discriminate|].
    split.
    + intros l' Hl'. injection Hl' as <-. right. tauto.
    + intros Hu _. f_equal.
      unfold members, group_members in Hl. rewrite Hu in Hl. simpl in Hl.
      unfold GroupRecommender.get_group_recommendations in Hl. simpl in Hl.
      now injection Hl as <-.
Qed.

Lemma group_endpoint_counts_the_caller_in_for_alice :
  sample_parse (sample_str alice) = Some alice
  /\ In (sample_str alice) (group_members sample_str ["bob"] alice)
  /\ (forall e,
        Api.get_group_recommendations sample_parse sample_str
          (fun _ _ => None) unrated_db ["bob"] 5 alice = Raised e ->
        e = Api.group_too_large).
Proof.
  assert (H : sample_parse (sample_str alice) = Some alice) by reflexivity.
  split; [exact H|].
  destruct (group_endpoint_counts_the_caller_in sample_parse sample_str
              (fun _ _ => None) unrated_db ["bob"] 5 alice H)
    as [H1 [_ [_ [H4 _]]]].
  split; [exact H1 | exact H4].
Defined.

(** ** Content recommendations *)

Lemma popular_movies_length (db : Database) (limit : nat)
    (l : list MovieSchema.t) :
  _get_popular_movies db limit = Returned l -> (List.length l <= limit)%nat.
Proof.
  unfold _get_popular_movies.
  match goal with
  | |- try_except (mapM ?f ?rows) _ = _ -> _ =>
      destruct (mapM f rows) as [l'|e] eqn:Em
  end; simpl; intro H; injection H as <-; [|simpl; lia].
  rewrite (mapM_length _ _ _ Em), length_firstn. apply Nat.le_min_l.
Qed.

Lemma weighted_terms_origin (db : Database) (model : option ContentBased.Model)
    (rated : list Z) (user_ratings : list Rating.t) (mt : Movie.t * Q) :
  In mt (weighted_terms db model rated user_ratings) ->
  exists r sim,
    In r user_ratings
    /\ In (fst mt, sim) (neighbourhood db model (Rating.movie_id r) 20 rated).
Proof.
  unfold weighted_terms. rewrite in_flat_map.
  intros [r [Hr Hin]]. apply in_map_iff in Hin.
  destruct Hin as [[movie s] [<- Hin]]. simpl. now exists r, s.
Qed.

(** X30.  The content scorer never raises and answers at most [limit]
    movies.  Without a rating of 4.0 or more it answers the popularity
    fallback.  Otherwise, unless a failure sends it to the fallback, the
    movies it answers have distinct ids and each is a stored movie from
    the neighbourhood (20 nearest, rated movies excluded on request) of a
    movie the user rated 4.0 or more. *)
Theorem content_recommendations_are_distinct_neighbours :
  forall (db : Database) (model : option ContentBased.Model) (user_id : UUID)
         (limit : nat) (exclude_watched : bool),
    let user_ratings := ContentBased.liked_ratings db user_id in
    let rated :=
      if exclude_watched then map Rating.movie_id user_ratings else [] in
    exists l,
      ContentBased.get_recommendations db model user_id limit exclude_watched
      = Returned l
      /\ (List.length l <= limit)%nat
      /\ (user_ratings = [] -> _get_popular_movies db limit = Returned l)
      /\ (_get_popular_movies db limit = Returned l
          \/ (NoDup (map MovieSchema.id l)
              /\ forall s, In s l ->
                   exists r movie sim,
                     In r user_ratings
                     /\ In (movie, sim)
                          (neighbourhood db model (Rating.movie_id r) 20 rated)
                     /\ In movie (movies db)
                     /\ Movie.id movie = MovieSchema.id s)).
Proof.
  intros db model user_id limit exclude_watched user_ratings rated.
  destruct (popular_movies_returned db limit) as [pop Hpop].
  pose proof (popular_movies_length db limit pop Hpop) as Hpoplen.
  unfold ContentBased.get_recommendations. fold user_ratings.
  subst rated. clearbody user_ratings.
  destruct user_ratings as [|r rs].
  { exists pop. rewrite Hpop. cbn [try_except].
    split; [reflexivity|]. split; [exact Hpoplen|].
    split; [reflexivity | now left]. }
  set (user_ratings := r :: rs).
  set (rated := if exclude_watched then map Rating.movie_id user_ratings else []).
  assert (Eur : user_ratings = r :: rs) by reflexivity.
  rewrite accumulate_spec. cbn [bind].
  set (terms := weighted_terms db model rated user_ratings).
  set (candidates :=
         fold_left (fun d mt => ContentBased.add_candidate (fst mt) (snd mt) d)
           terms []).
  set (ranked := sorted_desc ContentBased.average_gtb (map snd candidates)).
  destruct (mapM (fun c => _movie_to_schema (ContentBased.movie c))
              (firstn limit ranked)) as [l|e] eqn:El; cbn [try_except].
  2:{ exists pop. rewrite Hpop. split; [reflexivity|]. split; [exact Hpoplen|].
      split; [rewrite Eur; discriminate | now left]. }
  exists l. split; [reflexivity|].
  split; [rewrite (mapM_length _ _ _ El), length_firstn; apply Nat.le_min_l|].
  split; [rewrite Eur; discriminate|].
  right.
  assert (Hcand : forall kc, In kc candidates ->
            ((exists r0 sim,
                In r0 user_ratings
                /\ In (ContentBased.movie (snd kc), sim)
                     (neighbourhood db model (Rating.movie_id r0) 20 rated))
             /\ In (ContentBased.movie (snd kc)) (movies db))
            /\ Movie.id (ContentBased.movie (snd kc)) = fst kc).
  { apply (add_terms_movies
             (fun mv => (exists r0 sim,
                           In r0 user_ratings
                           /\ In (mv, sim)
                                (neighbourhood db model (Rating.movie_id r0) 20
                                   rated))
                        /\ In mv (movies db))).
    - intros mt Hmt. split; [now apply weighted_terms_origin in Hmt|].
      now apply weighted_terms_movies in Hmt.
    - intros kc []. }
  assert (Hids : map MovieSchema.id l
                 = map (fun c => Movie.id (ContentBased.movie c))
                     (firstn limit ranked)).
  { apply (mapM_project (fun c => _movie_to_schema (ContentBased.movie c))
             MovieSchema.id (fun c => Movie.id (ContentBased.movie c))
             (firstn limit ranked) l); [|exact El].
    intros c s Hs. now apply _movie_to_schema_id. }
  split.
  - rewrite Hids. apply firstn_keeps_distinct.
    apply (Permutation_NoDup
             (l := map (fun c => Movie.id (ContentBased.movie c))
                     (map snd candidates))).
    + apply Permutation_map. apply sorted_desc_perm.
    + rewrite map_map.
      replace (map (fun kc => Movie.id (ContentBased.movie (snd kc))) candidates)
        with (map fst candidates).
      * destruct (add_terms_spec terms [] 0%Z) as [_ [_ [_ Hn]]].
        apply Hn. constructor.
      * apply map_ext_in. intros kc Hkc. symmetry. now apply Hcand.
  - intros s Hs. destruct (mapM_In _ _ _ El s Hs) as [c [Hc Hschema]].
    apply firstn_In in Hc. apply sorted_desc_In in Hc.
    apply in_map_iff in Hc. destruct Hc as [kc [<- Hkc]].
    destruct (Hcand kc Hkc) as [[[r0 [sim [Hr0 Hn]]] Hin] _].
    exists r0, (ContentBased.movie (snd kc)), sim.
    split; [exact Hr0|]. split; [exact Hn|]. split; [exact Hin|].
    symmetry. now apply _movie_to_schema_id.
Qed.
